(** * crypt32 [encode.c]: DER encoding and decoding of a limited set of types

    A shallow embedding of [dlls/crypt32/encode.c] and the properties of it
    that the specification states.

    Conventions of the embedding.
    - A [DWORD] or an [int] is a [Z]; wrap-around is written out with
      [DWORD_wrap] and [INT_wrap] where the C arithmetic can overflow.
    - A [BYTE] is a [Byte.byte]; memory reachable from a pointer is a
      [list byte], a pointer into it is a [Cursor] (memory and offset), and
      a pointer that may be NULL is an [option].
    - A function that returns [BOOL] and reports through [SetLastError]
      returns a [Ret]: [TRUE], or [FALSE e] with [e] the code passed to
      [SetLastError] ([None] where this file does not set one).
    - [Exec] is the monad of C executions: [Undefined] is an execution that
      leaves the defined behaviour of C (access outside the memory a pointer
      addresses, a conversion the standard leaves undefined). *)

From Stdlib Require Import ZArith Strings.Byte Strings.Ascii.
From stdpp Require Import base tactics option numbers list strings pretty
  sorting gmap.

Local Open Scope Z_scope.

(** ** Executions *)

Inductive Exec (A : Type) : Type :=
  | Done (a : A)
  | Undefined.
Arguments Done {A} a.
Arguments Undefined {A}.

Global Instance Exec_ret : MRet Exec := @Done.
Global Instance Exec_bind : MBind Exec := λ A B f m,
  match m with
  | Done a => f a
  | Undefined => Undefined
  end.

(** [p != NULL] *)
Definition is_Some_b {A} (o : option A) : bool :=
  match o with Some _ => true | None => false end.

(** An optional value that must be present for the execution to go on. *)
Definition defined {A} (o : option A) : Exec A :=
  match o with
  | Some a => Done a
  | None => Undefined
  end.

(** ** Machine integers *)

Definition DWORD_wrap (z : Z) : Z := z mod 2 ^ 32.
Definition WORD_wrap (z : Z) : Z := z mod 2 ^ 16.
Definition INT_wrap (z : Z) : Z := (z + 2 ^ 31) mod 2 ^ 32 - 2 ^ 31.
Definition INT_MAX : Z := 2 ^ 31 - 1.
Definition INT_MIN : Z := - 2 ^ 31.

Definition sizeof_int : Z := 4.
Definition sizeof_DWORD : Z := 4.
Definition sizeof_FILETIME : Z := 8.
Definition sizeof_CRYPT_DER_BLOB : Z := 8.

(** ** Bytes and memory *)

Definition BYTE_val (b : byte) : Z := Z.of_N (Byte.to_N b).

(** The conversion [(BYTE)z]: the low eight bits. *)
Definition BYTE_of (z : Z) : byte :=
  default x00 (Byte.of_N (Z.to_N (z mod 256))).

Global Instance byte_eq_dec : EqDecision byte.
Proof.
  intros a b. destruct (decide (Byte.to_N a = Byte.to_N b)) as [E|E].
  - left. apply (f_equal Byte.of_N) in E.
    rewrite !Byte.of_to_N in E. congruence.
  - right. congruence.
Defined.

(** A pointer into a block of memory. *)
Record Cursor := mkCursor { c_mem : list byte; c_pos : nat }.

(** [p + n] *)
Definition advance (p : Cursor) (n : Z) : Cursor :=
  mkCursor (c_mem p) (c_pos p + Z.to_nat n).

(** [p[i]] *)
Definition peek (p : Cursor) (i : Z) : Exec byte :=
  if decide (0 ≤ i) then defined (c_mem p !! (c_pos p + Z.to_nat i)%nat)
  else Undefined.

(** [memcpy(p, bs, length bs)]: the pointer itself does not move. *)
Definition poke (p : Cursor) (bs : list byte) : Exec Cursor :=
  if decide (c_pos p + length bs ≤ length (c_mem p))%nat
  then Done (mkCursor
               (take (c_pos p) (c_mem p) ++ bs ++
                drop (c_pos p + length bs) (c_mem p))
               (c_pos p))
  else Undefined.

(** [memcpy(p, bs, length bs); p += length bs], or [*p++ = b] for one byte. *)
Definition emit (p : Cursor) (bs : list byte) : Exec Cursor :=
  p' ← poke p bs; mret (advance p' (Z.of_nat (length bs))).

(** The pointer [p] handed to a callee that returned the memory [q]. *)
Definition rebase (p q : Cursor) : Cursor := mkCursor (c_mem q) (c_pos p).

(** ** Error codes and return values *)

Inductive LastError : Set :=
  | NOERROR
  | ERROR_FILE_NOT_FOUND
  | ERROR_INVALID_PARAMETER
  | ERROR_MORE_DATA
  | HRESULT_FROM_WIN32_ERROR_INVALID_PARAMETER
  | STATUS_ACCESS_VIOLATION
  | CRYPT_E_BAD_ENCODE
  | CRYPT_E_ASN1_ERROR
  | CRYPT_E_ASN1_INTERNAL
  | CRYPT_E_ASN1_EOD
  | CRYPT_E_ASN1_CORRUPT
  | CRYPT_E_ASN1_LARGE
  | CRYPT_E_ASN1_BADTAG
  | OSS_UNIMPLEMENTED.

Inductive Ret : Set :=
  | TRUE
  | FALSE (e : option LastError).

Definition is_TRUE (r : Ret) : bool :=
  match r with TRUE => true | FALSE _ => false end.

(** ** ASN.1 tags ([snmp.h] and the top of [encode.c]) *)

Definition ASN_UNIVERSAL : Z := 0x00.
Definition ASN_PRIMITIVE : Z := 0x00.
Definition ASN_CONSTRUCTOR : Z := 0x20.
Definition ASN_INTEGER : Z := Z.lor (Z.lor ASN_UNIVERSAL ASN_PRIMITIVE) 0x02.
Definition ASN_OBJECTIDENTIFIER : Z :=
  Z.lor (Z.lor ASN_UNIVERSAL ASN_PRIMITIVE) 0x06.
Definition ASN_SEQUENCE : Z := Z.lor (Z.lor ASN_UNIVERSAL ASN_PRIMITIVE) 0x10.
Definition ASN_SEQUENCEOF : Z := Z.lor (Z.lor ASN_UNIVERSAL ASN_PRIMITIVE) 0x10.
Definition ASN_BITSTRING : Z := Z.lor (Z.lor ASN_UNIVERSAL ASN_PRIMITIVE) 0x03.
Definition ASN_OCTETSTRING : Z := Z.lor (Z.lor ASN_UNIVERSAL ASN_PRIMITIVE) 0x04.
Definition ASN_ENUMERATED : Z := Z.lor (Z.lor ASN_UNIVERSAL ASN_PRIMITIVE) 0x0a.
Definition ASN_SETOF : Z := Z.lor (Z.lor ASN_UNIVERSAL ASN_PRIMITIVE) 0x11.
Definition ASN_NUMERICSTRING : Z :=
  Z.lor (Z.lor ASN_UNIVERSAL ASN_PRIMITIVE) 0x12.
Definition ASN_PRINTABLESTRING : Z :=
  Z.lor (Z.lor ASN_UNIVERSAL ASN_PRIMITIVE) 0x13.
Definition ASN_IA5STRING : Z := Z.lor (Z.lor ASN_UNIVERSAL ASN_PRIMITIVE) 0x16.
Definition ASN_UTCTIME : Z := Z.lor (Z.lor ASN_UNIVERSAL ASN_PRIMITIVE) 0x17.
Definition ASN_GENERALTIME : Z := Z.lor (Z.lor ASN_UNIVERSAL ASN_PRIMITIVE) 0x18.

(** ** Flags and allocation ([wincrypt.h]) *)

Definition CRYPT_ENCODE_ALLOC_FLAG : Z := 0x8000.
Definition CRYPT_DECODE_NOCOPY_FLAG : Z := 0x1.
Definition CRYPT_DECODE_ALLOC_FLAG : Z := 0x8000.

Definition has_flag (dwFlags flag : Z) : bool :=
  negb (Z.land dwFlags flag =? 0).

(** An allocator answers a request with NULL or with a fresh block, given
    here by the byte it holds at each offset: whatever the allocator left
    there. *)
Definition Allocator : Type := Z → option (nat → byte).

(** The [size] bytes of a fresh block. *)
Definition fresh (contents : nat → byte) (size : Z) : list byte :=
  contents <$> seq 0 (Z.to_nat size).

(** [CRYPT_ENCODE_PARA] and [CRYPT_DECODE_PARA]: only [pfnAlloc] is read. *)
Record CRYPT_CODEC_PARA := { pfnAlloc : option Allocator }.

(** What an encoder or decoder leaves behind.
    - [r_ret]: the return value;
    - [r_buf]: the memory at the caller's output pointer ([None] for NULL);
    - [r_alloc]: the block the call allocated and stored through the output
      pointer (the ALLOC flag), if it did;
    - [r_cb]: the caller's size cell. *)
Record Result := mkResult {
  r_ret : Ret;
  r_buf : option (list byte);
  r_alloc : option (list byte);
  r_cb : Z
}.

(** ** The C library: [isspace], [isdigit], [sscanf] *)

Definition isspace (c : ascii) : bool :=
  let n := Z.of_N (N_of_ascii c) in (n =? 32) || ((9 <=? n) && (n <=? 13)).

Definition isdigit_char (c : ascii) : bool :=
  let n := Z.of_N (N_of_ascii c) in (48 <=? n) && (n <=? 57).

Definition digit_val (c : ascii) : Z := Z.of_N (N_of_ascii c) - 48.

Fixpoint skip_spaces (s : string) : string :=
  match s with
  | String c s' => if isspace c then skip_spaces s' else s
  | EmptyString => s
  end.

(** The decimal digits at the head of [s], accumulated onto [acc]. *)
Fixpoint scan_digits (s : string) (acc : Z) : Z * string :=
  match s with
  | String c s' =>
      if isdigit_char c then scan_digits s' (acc * 10 + digit_val c)
      else (acc, s)
  | EmptyString => (acc, s)
  end.

Definition starts_with_digit (s : string) : bool :=
  match s with
  | String c _ => isdigit_char c
  | EmptyString => false
  end.

(** One [%d] directive followed by [%n]. *)
Inductive Scan : Type :=
  | NoMatch
  | Match (val : Z) (pos : Z) (rest : string).

(** [sscanf(s, "%d%n", &val, &pos)]: white space is skipped, then an
    optional sign and at least one digit are read.  [Match val pos rest]
    stands for the return value 1; [val] is the mathematical value of the
    digits, which the callers below must find representable in an [int]. *)
Definition sscanf_d_n (s : string) : Scan :=
  let s1 := skip_spaces s in
  let '(neg, s2) :=
    match s1 with
    | String "-" s' => (true, s')
    | String "+" s' => (false, s')
    | _ => (false, s1)
    end in
  if starts_with_digit s2 then
    let '(v, rest) := scan_digits s2 0 in
    Match (if neg : bool then - v else v)
          (Z.of_nat (String.length s) - Z.of_nat (String.length rest)) rest
  else NoMatch.

Definition representable_int (v : Z) : bool :=
  (INT_MIN <=? v) && (v <=? INT_MAX).

(** [sscanf(s, "%d.%d.%n", &val1, &val2, &firstPos) == 2]: [Some (val1,
    val2, firstPos)] when it is, where [firstPos] keeps the value it had
    when the second dot is missing and [%n] is not reached. *)
Definition sscanf_d_dot_d_dot_n (s : string) (firstPos : Z)
  : Exec (option (Z * Z * Z)) :=
  match sscanf_d_n s with
  | NoMatch => Done None
  | Match val1 _ rest1 =>
      if negb (representable_int val1) then Undefined else
      match rest1 with
      | String "." rest2 =>
          match sscanf_d_n rest2 with
          | NoMatch => Done None
          | Match val2 _ rest3 =>
              if negb (representable_int val2) then Undefined else
              match rest3 with
              | String "." rest4 =>
                  Done (Some (val1, val2,
                    Z.of_nat (String.length s) - Z.of_nat (String.length rest4)))
              | _ => Done (Some (val1, val2, firstPos))
              end
          end
      | _ => Done None
      end
  end.

(** [s + n] for a C string. *)
Fixpoint string_drop (n : nat) (s : string) : string :=
  match n, s with
  | S n', String _ s' => string_drop n' s'
  | _, _ => s
  end.

(** ** Encoding *)

(** [SYSTEMTIME]: eight [WORD] fields. *)
Record SYSTEMTIME := mkSystemTime {
  wYear : Z;
  wMonth : Z;
  wDayOfWeek : Z;
  wDay : Z;
  wHour : Z;
  wMinute : Z;
  wSecond : Z;
  wMilliseconds : Z
}.

(** [CRYPT_BIT_BLOB] *)
Record CRYPT_BIT_BLOB := mkBitBlob {
  bit_cbData : Z;
  bit_pbData : list byte;
  cUnusedBits : Z
}.

(** The conversion [%02d] of [printf]. *)
Definition fmt_02d (n : Z) : string :=
  let s := pretty n in
  if (String.length s <? 2)%nat then String "0" s else s.

Definition string_bytes (s : string) : list byte :=
  (λ c, BYTE_of (Z.of_N (N_of_ascii c))) <$> String.list_ascii_of_string s.

Section Encode.

(** [LocalAlloc(0, n)] and [HeapAlloc(GetProcessHeap(), 0, n)]; the latter
    takes the number of blocks the running call has obtained before, so that
    two blocks of one size need not hold the same bytes. *)
Variable LocalAlloc : Allocator.
Variable HeapAlloc : nat → Allocator.

(** [FileTimeToSystemTime]: [None] when it fails (and sets the last error
    itself).  A [FILETIME] is the 64-bit count it holds. *)
Variable FileTimeToSystemTime : Z → option SYSTEMTIME.

(** Checks [*pcbEncoded], sets it to the required size, and allocates under
    [CRYPT_ENCODE_ALLOC_FLAG].  Returns the allocated block, if any, and the
    new value of [*pcbEncoded]. *)
Definition CRYPT_EncodeEnsureSpace (dwFlags : Z)
    (pEncodePara : option CRYPT_CODEC_PARA) (pcbEncoded bytesNeeded : Z)
  : Ret * option (list byte) * Z :=
  if has_flag dwFlags CRYPT_ENCODE_ALLOC_FLAG then
    let block :=
      match pEncodePara with
      | Some {| pfnAlloc := Some alloc |} => alloc bytesNeeded
      | _ => LocalAlloc bytesNeeded
      end in
    match block with
    | None => (FALSE None, None, pcbEncoded)
    | Some b => (TRUE, Some (fresh b bytesNeeded), bytesNeeded)
    end
  else if bytesNeeded >? pcbEncoded then
    (FALSE (Some ERROR_MORE_DATA), None, bytesNeeded)
  else (TRUE, None, pcbEncoded).

(** [for (temp = len, significantBytes = sizeof(temp);
         !(temp & 0xff000000); temp <<= 8, significantBytes--);]
    A non-zero [DWORD] leaves the loop within three rounds. *)
Fixpoint EncodeLen_significant (fuel : nat) (temp significantBytes : Z) : Z :=
  match fuel with
  | O => significantBytes
  | S fuel' =>
      if Z.land temp 0xff000000 =? 0
      then EncodeLen_significant fuel' (DWORD_wrap (Z.shiftl temp 8))
             (significantBytes - 1)
      else significantBytes
  end.

(** [for (i = 0; i < n; i++) { p[n - i - 1] = (BYTE)(len & 0xff); len >>= 8; }] *)
Fixpoint EncodeLen_octets (n : nat) (len : Z) : list byte :=
  match n with
  | O => []
  | S n' => EncodeLen_octets n' (Z.shiftr len 8) ++ [BYTE_of (Z.land len 0xff)]
  end.

Definition CRYPT_EncodeLen (len : Z) (pbEncoded : option Cursor)
    (pcbEncoded : Z) : Exec (Ret * option Cursor * Z) :=
  let significantBytes :=
    if len <=? 0x7f then 0 else EncodeLen_significant 4 len sizeof_DWORD in
  let bytesNeeded := if len <=? 0x7f then 1 else significantBytes + 1 in
  match pbEncoded with
  | None => Done (TRUE, None, bytesNeeded)
  | Some p =>
      if pcbEncoded <? bytesNeeded
      then Done (FALSE (Some ERROR_MORE_DATA), Some p, pcbEncoded)
      else
        p' ← (if len <=? 0x7f then poke p [BYTE_of len]
              else poke p (BYTE_of (Z.lor significantBytes 0x80)
                           :: EncodeLen_octets (Z.to_nat significantBytes) len));
        Done (TRUE, Some p', bytesNeeded)
  end.

(** The number of length octets [CRYPT_EncodeLen(len, NULL, &lenBytes)]
    leaves in [lenBytes]. *)
Definition lenBytes_of (len : Z) : Exec Z :=
  '(_, _, lenBytes) ← CRYPT_EncodeLen len None 0; mret lenBytes.

(** The size of one arc after the first two. *)
Definition Oid_numBytes (val : Z) : Z :=
  if val >=? 0x10000000 then 5
  else if val >=? 0x200000 then 4
  else if val >=? 0x4000 then 3
  else if val >=? 0x80 then 2
  else 1.

(** The first loop of [CRYPT_AsnEncodeOid]: [None] when an arc does not
    scan.  Each round consumes at least one character of [ptr]. *)
Fixpoint Oid_measure (fuel : nat) (ptr : string) (bytesNeeded : Z)
  : Exec (option Z) :=
  match ptr with
  | EmptyString => Done (Some bytesNeeded)
  | _ =>
      match fuel with
      | O => Undefined
      | S fuel' =>
          match sscanf_d_n ptr with
          | Match val1 pos _ =>
              if negb (representable_int val1) then Undefined else
              let ptr := string_drop (Z.to_nat pos) ptr in
              let ptr :=
                match ptr with String "." ptr' => ptr' | _ => ptr end in
              Oid_measure fuel' ptr
                (DWORD_wrap (bytesNeeded + Oid_numBytes val1))
          | NoMatch => Done None
          end
      end
  end.

(** [for (i = numBytes; i > 0; i--) { outBytes[i - 1] = val & 0x7f; val >>= 7; }] *)
Fixpoint Oid_outBytes (i : nat) (val : Z) : list Z :=
  match i with
  | O => []
  | S i' => Oid_outBytes i' (Z.shiftr val 7) ++ [Z.land val 0x7f]
  end.

(** The bytes one arc contributes: all but the last have the high bit set. *)
Definition Oid_arc (val : Z) : list byte :=
  let outBytes := Oid_outBytes (Z.to_nat (Oid_numBytes val)) val in
  match reverse outBytes with
  | [] => []
  | last :: front =>
      ((λ b, BYTE_of (Z.lor b 0x80)) <$> reverse front) ++ [BYTE_of last]
  end.

(** The second loop of [CRYPT_AsnEncodeOid], writing through [pbEncoded]. *)
Fixpoint Oid_write (fuel : nat) (ptr : string) (pbEncoded : Cursor)
  : Exec Cursor :=
  match ptr with
  | EmptyString => Done pbEncoded
  | _ =>
      match fuel with
      | O => Undefined
      | S fuel' =>
          match sscanf_d_n ptr with
          | Match val pos _ =>
              if negb (representable_int val) then Undefined else
              pbEncoded ← emit pbEncoded (Oid_arc val);
              let ptr := string_drop (Z.to_nat pos) ptr in
              let ptr :=
                match ptr with String "." ptr' => ptr' | _ => ptr end in
              Oid_write fuel' ptr pbEncoded
          | NoMatch => Undefined
          end
      end
  end.

Definition CRYPT_AsnEncodeOid (pszObjId : option string)
    (pbEncoded : option Cursor) (pcbEncoded : Z)
  : Exec (Ret * option Cursor * Z) :=
  let firstPos := 0 in
  (* the sizing pass: [Some (bytesNeeded, lenBytes, firstByte, firstPos)] *)
  sized ←
    match pszObjId with
    | Some s =>
        scanned ← sscanf_d_dot_d_dot_n s firstPos;
        match scanned with
        | None => Done None
        | Some (val1, val2, firstPos) =>
            let firstByte := BYTE_of (val1 * 40 + val2) in
            let ptr := string_drop (Z.to_nat firstPos) s in
            measured ← Oid_measure (String.length ptr) ptr 1;
            match measured with
            | None => Done None
            | Some bytesNeeded =>
                lenBytes ← lenBytes_of bytesNeeded;
                Done (Some (bytesNeeded, lenBytes, firstByte, firstPos))
            end
        end
    | None => Done (Some (0, 1, x00, firstPos))
    end;
  match sized with
  | None => Done (FALSE (Some CRYPT_E_ASN1_ERROR), pbEncoded, pcbEncoded)
  | Some (bytesNeeded, lenBytes, firstByte, firstPos) =>
      let bytesNeeded := DWORD_wrap (bytesNeeded + (1 + lenBytes)) in
      match pbEncoded with
      | None => Done (TRUE, None, bytesNeeded)
      | Some p0 =>
          first ← peek p0 0;
          if BYTE_val first <? bytesNeeded
          then Done (FALSE (Some ERROR_MORE_DATA), Some p0, bytesNeeded)
          else
            p ← emit p0 [BYTE_of ASN_OBJECTIDENTIFIER];
            '(_, q, lenBytes) ←
              CRYPT_EncodeLen (DWORD_wrap (bytesNeeded - 1 - lenBytes))
                (Some p) lenBytes;
            let p := advance (from_option (rebase p) p q) lenBytes in
            p ← match pszObjId with
                | Some s =>
                    p ← emit p [firstByte];
                    let ptr := string_drop (Z.to_nat firstPos) s in
                    Oid_write (String.length ptr) ptr p
                | None => Done p
                end;
            Done (TRUE, Some (rebase p0 p), bytesNeeded)
      end
  end.

(** *** Names: attribute values, attributes, and the SET OF them *)

Definition CERT_RDN_ANY_TYPE : Z := 0.
Definition CERT_RDN_NUMERIC_STRING : Z := 3.
Definition CERT_RDN_PRINTABLE_STRING : Z := 4.
Definition CERT_RDN_IA5_STRING : Z := 7.

(** [CRYPT_DATA_BLOB], [CERT_RDN_VALUE_BLOB], [CRYPT_DER_BLOB]: a count and
    the memory [pbData] points to. *)
Record CRYPT_DATA_BLOB := mkBlob { cbData : Z; pbData : list byte }.

Record CERT_NAME_VALUE := mkNameValue {
  nv_dwValueType : Z;
  nv_Value : CRYPT_DATA_BLOB
}.

Record CERT_RDN_ATTR := mkRdnAttr {
  pszObjId : option string;
  dwValueType : Z;
  Value : CRYPT_DATA_BLOB
}.

Record CERT_RDN := mkRdn {
  cRDNAttr : Z;
  rgRDNAttr : option (list CERT_RDN_ATTR)
}.

(** [(CERT_NAME_VALUE * )&attr->dwValueType] *)
Definition attr_name_value (attr : CERT_RDN_ATTR) : CERT_NAME_VALUE :=
  mkNameValue (dwValueType attr) (Value attr).

(** The [n] bytes a [memcpy] reads from [mem]. *)
Definition read_bytes (mem : list byte) (n : Z) : Exec (list byte) :=
  if decide (0 ≤ n ≤ Z.of_nat (length mem)) then Done (take (Z.to_nat n) mem)
  else Undefined.

Definition CRYPT_AsnEncodeNameValue (value : CERT_NAME_VALUE)
    (pbEncoded : option Cursor) (pcbEncoded : Z)
  : Exec (Ret * option Cursor * Z) :=
  let encodedLen := cbData (nv_Value value) in
  let tagged :=
    if nv_dwValueType value =? CERT_RDN_NUMERIC_STRING
    then inl ASN_NUMERICSTRING
    else if nv_dwValueType value =? CERT_RDN_PRINTABLE_STRING
    then inl ASN_PRINTABLESTRING
    else if nv_dwValueType value =? CERT_RDN_IA5_STRING
    then inl ASN_IA5STRING
    else if nv_dwValueType value =? CERT_RDN_ANY_TYPE
    then inr (Some HRESULT_FROM_WIN32_ERROR_INVALID_PARAMETER)
    else inr None in
  match tagged with
  | inr e => Done (FALSE e, pbEncoded, pcbEncoded)
  | inl tag =>
      lenBytes ← lenBytes_of encodedLen;
      let bytesNeeded := DWORD_wrap (1 + lenBytes + encodedLen) in
      match pbEncoded with
      | None => Done (TRUE, None, bytesNeeded)
      | Some p0 =>
          if pcbEncoded <? bytesNeeded
          then Done (FALSE (Some ERROR_MORE_DATA), Some p0, bytesNeeded)
          else
            p ← emit p0 [BYTE_of tag];
            '(_, q, lenBytes) ← CRYPT_EncodeLen encodedLen (Some p) lenBytes;
            let p := advance (from_option (rebase p) p q) lenBytes in
            data ← read_bytes (pbData (nv_Value value)) encodedLen;
            p ← poke p data;
            Done (TRUE, Some (rebase p0 p), bytesNeeded)
      end
  end.

Definition CRYPT_AsnEncodeRdnAttr (attr : CERT_RDN_ATTR)
    (pbEncoded : option Cursor) (pcbEncoded : Z)
  : Exec (Ret * option Cursor * Z) :=
  '(ret, _, size) ← CRYPT_AsnEncodeOid (pszObjId attr) None 0;
  if negb (is_TRUE ret) then Done (ret, pbEncoded, pcbEncoded) else
  let bytesNeeded := size in
  '(ret, _, size) ← CRYPT_AsnEncodeNameValue (attr_name_value attr) None size;
  if negb (is_TRUE ret) then Done (ret, pbEncoded, pcbEncoded) else
  let bytesNeeded := DWORD_wrap (bytesNeeded + size) in
  lenBytes ← lenBytes_of bytesNeeded;
  let bytesNeeded := DWORD_wrap (bytesNeeded + (1 + lenBytes)) in
  match pbEncoded with
  | None => Done (TRUE, None, bytesNeeded)
  | Some p0 =>
      if pcbEncoded <? bytesNeeded
      then Done (FALSE (Some ERROR_MORE_DATA), Some p0, bytesNeeded)
      else
        p ← emit p0 [BYTE_of (Z.lor ASN_CONSTRUCTOR ASN_SEQUENCE)];
        '(_, q, lenBytes) ←
          CRYPT_EncodeLen (DWORD_wrap (bytesNeeded - lenBytes - 1)) (Some p)
            lenBytes;
        let p := advance (from_option (rebase p) p q) lenBytes in
        let size := DWORD_wrap (bytesNeeded - 1 - lenBytes) in
        '(ret, q, size) ← CRYPT_AsnEncodeOid (pszObjId attr) (Some p) size;
        let p := from_option (rebase p) p q in
        if negb (is_TRUE ret) then Done (ret, Some (rebase p0 p), bytesNeeded)
        else
          let p := advance p size in
          let size := DWORD_wrap (bytesNeeded - 1 - lenBytes - size) in
          '(ret, q, _) ←
            CRYPT_AsnEncodeNameValue (attr_name_value attr) (Some p) size;
          let p := from_option (rebase p) p q in
          Done (ret, Some (rebase p0 p), bytesNeeded)
  end.

(** [memcmp(a, b, n)] for [n] within both blocks; only its sign is used. *)
Fixpoint memcmp (a b : list byte) (n : nat) : Z :=
  match n, a, b with
  | S n', x :: a', y :: b' =>
      if decide (x = y) then memcmp a' b' n' else BYTE_val x - BYTE_val y
  | _, _, _ => 0
  end.

Definition BLOBComp (a b : CRYPT_DATA_BLOB) : Z :=
  let ret :=
    memcmp (pbData a) (pbData b) (Z.to_nat (Z.min (cbData a) (cbData b))) in
  if ret =? 0 then INT_wrap (cbData a - cbData b) else ret.

(** [qsort(base, n, size, compar)] leaves the array ordered by [compar]; the
    order of elements that compare equal is not specified by C, and merge
    sort stands in for the library's algorithm. *)
Definition compar_le {A} (compar : A → A → Z) : relation A :=
  λ a b, compar a b ≤ 0.

Global Instance compar_le_dec {A} (compar : A → A → Z) a b :
  Decision (compar_le compar a b).
Proof. unfold compar_le. apply _. Defined.

Definition qsort {A} (compar : A → A → Z) (base : list A) : list A :=
  merge_sort (compar_le compar) base.

(** A blob whose [cbData] bytes can be read. *)
Definition readable (b : CRYPT_DATA_BLOB) : bool :=
  bool_decide (0 ≤ cbData b ≤ Z.of_nat (length (pbData b))).

(** The sizing loop of [CRYPT_AsnEncodeRdn]: the sizes [blobs[i].cbData] of
    the attributes that were sized, the running [bytesNeeded] and [ret]. *)
Fixpoint Rdn_measure (attrs : list CERT_RDN_ATTR) (bytesNeeded : Z)
  : Exec (Ret * list Z * Z) :=
  match attrs with
  | [] => Done (TRUE, [], bytesNeeded)
  | attr :: attrs' =>
      '(ret, _, size) ← CRYPT_AsnEncodeRdnAttr attr None 0;
      if negb (is_TRUE ret) then Done (ret, [], bytesNeeded) else
      '(ret, sizes, bytesNeeded) ←
        Rdn_measure attrs' (DWORD_wrap (bytesNeeded + size));
      Done (ret, size :: sizes, bytesNeeded)
  end.

(** The encoding loop: attribute [i] is encoded into a block of its own. *)
Fixpoint Rdn_encode_each (i : nat) (attrs : list CERT_RDN_ATTR)
    (sizes : list Z) : Exec (Ret * list CRYPT_DATA_BLOB) :=
  match attrs, sizes with
  | attr :: attrs', size :: sizes' =>
      match HeapAlloc (S i) size with
      | None => Done (FALSE None, [])
      | Some contents =>
          '(ret, q, size) ←
            CRYPT_AsnEncodeRdnAttr attr
              (Some (mkCursor (fresh contents size) 0)) size;
          let blob := mkBlob size (from_option c_mem [] q) in
          if negb (is_TRUE ret) then Done (ret, [blob]) else
          '(ret, blobs) ← Rdn_encode_each (S i) attrs' sizes';
          Done (ret, blob :: blobs)
      end
  | [], [] => Done (TRUE, [])
  | _, _ => Undefined
  end.

(** [for (i = 0; i < n; i++) { memcpy(p, blobs[i].pbData, blobs[i].cbData);
    p += blobs[i].cbData; }] *)
Fixpoint Rdn_copy (blobs : list CRYPT_DATA_BLOB) (p : Cursor) : Exec Cursor :=
  match blobs with
  | [] => Done p
  | blob :: blobs' =>
      data ← read_bytes (pbData blob) (cbData blob);
      p ← emit p data;
      Rdn_copy blobs' p
  end.

(** The first [n] elements of an array that must have that many. *)
Definition array_prefix {A} (n : Z) (a : list A) : Exec (list A) :=
  if decide (0 ≤ n ≤ Z.of_nat (length a)) then Done (take (Z.to_nat n) a)
  else Undefined.

Definition CRYPT_AsnEncodeRdn (rdn : CERT_RDN) (pbEncoded : option Cursor)
    (pcbEncoded : Z) : Exec (Ret * option Cursor * Z) :=
  (* [ret] and the attributes the loops will visit *)
  '(ret, attrs) ←
    (if cRDNAttr rdn =? 0 then Done (TRUE, [])
     else match rgRDNAttr rdn with
          | None => Done (FALSE (Some STATUS_ACCESS_VIOLATION), [])
          | Some rg =>
              match HeapAlloc 0 (DWORD_wrap (cRDNAttr rdn * sizeof_CRYPT_DER_BLOB)) with
              | None => Done (FALSE None, [])
              | Some _ => attrs ← array_prefix (cRDNAttr rdn) rg; Done (TRUE, attrs)
              end
          end);
  '(ret, sizes, bytesNeeded) ←
    (if is_TRUE ret then Rdn_measure attrs 0 else Done (ret, [], 0));
  lenBytes ← lenBytes_of bytesNeeded;
  let bytesNeeded := DWORD_wrap (bytesNeeded + (1 + lenBytes)) in
  if negb (is_TRUE ret) then Done (ret, pbEncoded, pcbEncoded) else
  match pbEncoded with
  | None => Done (TRUE, None, bytesNeeded)
  | Some p0 =>
      if pcbEncoded <? bytesNeeded
      then Done (FALSE (Some ERROR_MORE_DATA), Some p0, bytesNeeded)
      else
        '(ret, blobs) ← Rdn_encode_each 0 attrs sizes;
        if negb (is_TRUE ret) then Done (ret, Some p0, bytesNeeded) else
        if negb (forallb readable blobs) then Undefined else
        let blobs := qsort BLOBComp blobs in
        p ← emit p0 [BYTE_of (Z.lor ASN_CONSTRUCTOR ASN_SETOF)];
        '(_, q, lenBytes) ←
          CRYPT_EncodeLen (DWORD_wrap (bytesNeeded - lenBytes - 1)) (Some p)
            lenBytes;
        let p := advance (from_option (rebase p) p q) lenBytes in
        p ← Rdn_copy blobs p;
        Done (TRUE, Some (rebase p0 p), bytesNeeded)
  end.

(** *** Bit strings *)

Definition CRYPT_AsnEncodeBits (dwFlags : Z)
    (pEncodePara : option CRYPT_CODEC_PARA)
    (pvStructInfo : option CRYPT_BIT_BLOB) (pbEncoded : option (list byte))
    (pcbEncoded : Z) : Exec Result :=
  match pvStructInfo with
  | None =>
      Done (mkResult (FALSE (Some STATUS_ACCESS_VIOLATION)) pbEncoded None
              pcbEncoded)
  | Some blob =>
      (* yep, MS allows cUnusedBits to be >= 8 *)
      let '(dataBytes, unusedBits) :=
        if DWORD_wrap (bit_cbData blob * 8) >? cUnusedBits blob then
          (DWORD_wrap
             (DWORD_wrap (DWORD_wrap (bit_cbData blob * 8) - cUnusedBits blob)
              / 8 + 1),
           (if cUnusedBits blob >=? 8 then cUnusedBits blob / 8
            else cUnusedBits blob) mod 256)
        else (0, 0) in
      lenBytes ← lenBytes_of (DWORD_wrap (dataBytes + 1));
      let bytesNeeded := DWORD_wrap (1 + lenBytes + dataBytes + 1) in
      match pbEncoded with
      | None => Done (mkResult TRUE None None bytesNeeded)
      | Some mem =>
          let '(ret, block, cb) :=
            CRYPT_EncodeEnsureSpace dwFlags pEncodePara pcbEncoded
              bytesNeeded in
          if negb (is_TRUE ret) then Done (mkResult ret (Some mem) None cb)
          else
            let p0 := mkCursor (default mem block) 0 in
            p ← emit p0 [BYTE_of ASN_BITSTRING];
            '(_, q, lenBytes) ←
              CRYPT_EncodeLen (DWORD_wrap (dataBytes + 1)) (Some p) lenBytes;
            let p := advance (from_option (rebase p) p q) lenBytes in
            p ← emit p [BYTE_of unusedBits];
            p ← (if dataBytes =? 0 then Done p else
                 (* BYTE mask = 0xff << unusedBits; *)
                 if 32 <=? unusedBits then Undefined else
                 let mask := Z.shiftl 0xff unusedBits mod 256 in
                 p ← (if dataBytes >? 1
                      then data ← read_bytes (bit_pbData blob) (dataBytes - 1);
                           emit p data
                      else Done p);
                 last ← peek (mkCursor (bit_pbData blob) 0) (dataBytes - 1);
                 poke p [BYTE_of (Z.land (BYTE_val last) mask)]);
            Done (if block is Some _
                  then mkResult TRUE (Some mem) (Some (c_mem p)) cb
                  else mkResult TRUE (Some (c_mem p)) None cb)
      end
  end.

(** *** Times *)

Definition CRYPT_AsnEncodeUtcTime (dwFlags : Z)
    (pEncodePara : option CRYPT_CODEC_PARA) (pvStructInfo : option Z)
    (pbEncoded : option (list byte)) (pcbEncoded : Z) : Exec Result :=
  (* enough for tag, len, YYMMDDHHMMSSZ\0 *)
  let sizeof_buf := 16 in
  let bytesNeeded := sizeof_buf - 1 in
  match pvStructInfo with
  | None =>
      Done (mkResult (FALSE (Some STATUS_ACCESS_VIOLATION)) pbEncoded None
              pcbEncoded)
  | Some ft =>
      (* Sanity check the year, this is a two-digit year format *)
      match FileTimeToSystemTime ft with
      | None => Done (mkResult (FALSE None) pbEncoded None pcbEncoded)
      | Some sysTime =>
          if (wYear sysTime <? 1950) || (wYear sysTime >? 2050)
          then Done (mkResult (FALSE (Some CRYPT_E_BAD_ENCODE)) pbEncoded None
                       pcbEncoded)
          else
          match pbEncoded with
          | None => Done (mkResult TRUE None None bytesNeeded)
          | Some mem =>
              let '(ret, block, cb) :=
                CRYPT_EncodeEnsureSpace dwFlags pEncodePara pcbEncoded
                  bytesNeeded in
              if negb (is_TRUE ret)
              then Done (mkResult ret (Some mem) None cb)
              else
                let p0 := mkCursor (default mem block) 0 in
                let text :=
                  fmt_02d (if wYear sysTime >=? 2000
                           then wYear sysTime - 2000
                           else wYear sysTime - 1900)
                  +:+ fmt_02d (wDay sysTime) +:+ fmt_02d (wMonth sysTime)
                  +:+ fmt_02d (wHour sysTime) +:+ fmt_02d (wMinute sysTime)
                  +:+ fmt_02d (wSecond sysTime) +:+ "Z" in
                (* snprintf stores at most sizeof(buf) - 3 characters; the
                   six conversions and the Z never give fewer *)
                let text := take (Z.to_nat (sizeof_buf - 3)) (string_bytes text) in
                if negb (Z.of_nat (length text) =? sizeof_buf - 3)
                then Undefined else
                let buf :=
                  BYTE_of ASN_UTCTIME :: BYTE_of (bytesNeeded - 2) :: text in
                p ← poke p0 buf;
                Done (if block is Some _
                      then mkResult TRUE (Some mem) (Some (c_mem p)) cb
                      else mkResult TRUE (Some (c_mem p)) None cb)
          end
      end
  end.

End Encode.

(** A calendar conversion to stand for [FileTimeToSystemTime] where an
    example needs one: the count is in units of 100 ns since 1601-01-01
    00:00 UTC, and counts with the top bit set are refused. *)
Definition FileTimeToSystemTime_calendar (ft : Z) : option SYSTEMTIME :=
  if (ft <? 0) || (2 ^ 63 <=? ft) then None else
  let ms := (ft mod 10000000) / 10000 in
  let secs := ft / 10000000 in
  let days := secs / 86400 in
  let sid := secs mod 86400 in
  let cleaps := (3 * ((4 * days + 1227) / 146097) + 3) / 4 in
  let d := days + 28188 + cleaps in
  let years := (20 * d - 2442) / (5 * 1461) in
  let yearday := d - (years * 1461) / 4 in
  let months := (64 * yearday) / 1959 in
  Some (mkSystemTime
          (if months <? 14 then years + 1524 else years + 1525)
          (if months <? 14 then months - 1 else months - 13)
          ((1 + days) mod 7)
          (yearday - (1959 * months) / 64)
          (sid / 3600) ((sid mod 3600) / 60) (sid mod 60) ms).

(** ** Decoding *)

(** Gets the number of length bytes from the given (leading) length byte *)
Definition GET_LEN_BYTES (b : Z) : Z :=
  if b <=? 0x7f then 1 else 1 + Z.land b 0x7f.

(** [while (lenLen--) { out <<= 8; out |= *pbEncoded++; }] with [lenLen] a
    [BYTE]: the assembled [out] and the [lenLen] the loop leaves behind. *)
Fixpoint GetLen_loop (fuel : nat) (lenLen : Z) (pbEncoded : Cursor) (out : Z)
  : Exec (Z * Z) :=
  let continue := negb (lenLen =? 0) in
  let lenLen := (lenLen - 1) mod 256 in
  if continue then
    match fuel with
    | O => Undefined
    | S fuel' =>
        b ← peek pbEncoded 0;
        GetLen_loop fuel' lenLen (advance pbEncoded 1)
          (Z.lor (DWORD_wrap (Z.shiftl out 8)) (BYTE_val b))
    end
  else Done (out, lenLen).

(** Gets the encoded length of the data starting at [pbEncoded], where
    [pbEncoded[0]] is the tag: the error, or [*len]. *)
Definition CRYPT_GetLen (pbEncoded : Cursor) (cbEncoded : Z)
  : Exec (LastError + Z) :=
  if cbEncoded <=? 1 then Done (inl CRYPT_E_ASN1_EOD) else
  b1 ← peek pbEncoded 1;
  if BYTE_val b1 <=? 0x7f then Done (inr (BYTE_val b1)) else
  let lenLen := GET_LEN_BYTES (BYTE_val b1) mod 256 in
  if lenLen >? sizeof_DWORD then Done (inl CRYPT_E_ASN1_LARGE)
  else if lenLen + 2 >? cbEncoded then Done (inl CRYPT_E_ASN1_CORRUPT)
  else
    '(out, lenLen) ← GetLen_loop 256 lenLen (advance pbEncoded 2) 0;
    if DWORD_wrap (out + lenLen + 1) >? cbEncoded
    then Done (inl CRYPT_E_ASN1_EOD)
    else Done (inr out).

(** The object representation of an [int] and of a [FILETIME] on the
    little-endian machines the library runs on. *)
Fixpoint le_bytes (n : nat) (v : Z) : list byte :=
  match n with
  | O => []
  | S n' => BYTE_of v :: le_bytes n' (Z.shiftr v 8)
  end.

Definition INT_bytes (v : Z) : list byte := le_bytes (Z.to_nat sizeof_int) v.
Definition FILETIME_bytes (v : Z) : list byte :=
  le_bytes (Z.to_nat sizeof_FILETIME) v.

(** The [int] that four bytes of memory hold. *)
Definition INT_of_bytes (bs : list byte) : Z :=
  INT_wrap (foldr (λ b acc, BYTE_val b + 256 * acc) 0 bs).

Section Decode.

Variable LocalAlloc : Allocator.

(** [SystemTimeToFileTime]: [None] when it fails. *)
Variable SystemTimeToFileTime : SYSTEMTIME → option Z.

(** Checks [*pcbStructInfo], sets it to the required size, and allocates
    under [CRYPT_DECODE_ALLOC_FLAG]. *)
Definition CRYPT_DecodeEnsureSpace (dwFlags : Z)
    (pDecodePara : option CRYPT_CODEC_PARA) (pcbStructInfo bytesNeeded : Z)
  : Ret * option (list byte) * Z :=
  if has_flag dwFlags CRYPT_DECODE_ALLOC_FLAG then
    let block :=
      match pDecodePara with
      | Some {| pfnAlloc := Some alloc |} => alloc bytesNeeded
      | _ => LocalAlloc bytesNeeded
      end in
    match block with
    | None => (FALSE None, None, pcbStructInfo)
    | Some b => (TRUE, Some (fresh b bytesNeeded), bytesNeeded)
    end
  else if pcbStructInfo <? bytesNeeded then
    (FALSE (Some ERROR_MORE_DATA), None, bytesNeeded)
  else (TRUE, None, pcbStructInfo).

(** The tail shared by the fixed-size decoders: make room for [bytes] and
    copy them to the output area. *)
Definition store_decoded (dwFlags : Z) (pDecodePara : option CRYPT_CODEC_PARA)
    (mem : list byte) (pcbStructInfo : Z) (bytes : list byte) : Exec Result :=
  let '(ret, block, cb) :=
    CRYPT_DecodeEnsureSpace dwFlags pDecodePara pcbStructInfo
      (Z.of_nat (length bytes)) in
  if negb (is_TRUE ret) then Done (mkResult ret (Some mem) None cb) else
  p ← poke (mkCursor (default mem block) 0) bytes;
  Done (if block is Some _
        then mkResult TRUE (Some mem) (Some (c_mem p)) cb
        else mkResult TRUE (Some (c_mem p)) None cb).

(** [for (i = 0; i < pbEncoded[1]; i++) { val <<= 8; val |= pbEncoded[2 + i]; }]
    for an [int] ([signed]) or an [unsigned int]. *)
Fixpoint DecodeInt_loop (signed : bool) (n : nat) (p : Cursor) (val : Z)
  : Exec Z :=
  match n with
  | O => Done val
  | S n' =>
      b ← peek p 0;
      let val := Z.shiftl val 8 in
      let val := if signed then INT_wrap val else DWORD_wrap val in
      DecodeInt_loop signed n' (advance p 1) (Z.lor val (BYTE_val b))
  end.

Definition CRYPT_AsnDecodeInt (pbEncoded : option (list byte))
    (cbEncoded dwFlags : Z) (pDecodePara : option CRYPT_CODEC_PARA)
    (pvStructInfo : option (list byte)) (pcbStructInfo : Z) : Exec Result :=
  let fail e := Done (mkResult (FALSE (Some e)) pvStructInfo None pcbStructInfo) in
  match pbEncoded with
  | None => fail CRYPT_E_ASN1_EOD
  | Some enc =>
      if cbEncoded =? 0 then fail CRYPT_E_ASN1_EOD else
      match pvStructInfo with
      | None => Done (mkResult TRUE None None sizeof_int)
      | Some mem =>
          let p := mkCursor enc 0 in
          tag ← peek p 0;
          if negb (BYTE_val tag =? ASN_INTEGER) then fail CRYPT_E_ASN1_BADTAG
          else if cbEncoded <=? 1 then fail CRYPT_E_ASN1_EOD else
          len ← peek p 1;
          if BYTE_val len =? 0 then fail CRYPT_E_ASN1_CORRUPT
          else if BYTE_val len >? sizeof_int then fail CRYPT_E_ASN1_LARGE
          else
            top ← peek p 2;
            (* initialize to a negative value to sign-extend *)
            let val := if negb (Z.land (BYTE_val top) 0x80 =? 0) then -1 else 0 in
            val ← DecodeInt_loop true (Z.to_nat (BYTE_val len)) (advance p 2) val;
            store_decoded dwFlags pDecodePara mem pcbStructInfo (INT_bytes val)
      end
  end.

Definition CRYPT_AsnDecodeEnumerated (pbEncoded : option (list byte))
    (cbEncoded dwFlags : Z) (pDecodePara : option CRYPT_CODEC_PARA)
    (pvStructInfo : option (list byte)) (pcbStructInfo : Z) : Exec Result :=
  let fail e := Done (mkResult (FALSE (Some e)) pvStructInfo None pcbStructInfo) in
  (* Based on CRYPT_AsnDecodeInt, but interprets as unsigned *)
  match pbEncoded with
  | None => fail CRYPT_E_ASN1_EOD
  | Some enc =>
      if cbEncoded =? 0 then fail CRYPT_E_ASN1_EOD else
      match pvStructInfo with
      | None => Done (mkResult TRUE None None sizeof_int)
      | Some mem =>
          let p := mkCursor enc 0 in
          tag ← peek p 0;
          if negb (BYTE_val tag =? ASN_ENUMERATED) then fail CRYPT_E_ASN1_BADTAG
          else if cbEncoded <=? 1 then fail CRYPT_E_ASN1_EOD else
          len ← peek p 1;
          if BYTE_val len =? 0 then fail CRYPT_E_ASN1_CORRUPT
          else if BYTE_val len >? sizeof_int + 1 then fail CRYPT_E_ASN1_LARGE
          else
            val ← DecodeInt_loop false (Z.to_nat (BYTE_val len)) (advance p 2) 0;
            store_decoded dwFlags pDecodePara mem pcbStructInfo (INT_bytes val)
      end
  end.

(** *** Times *)

Definition isdigit (b : byte) : bool :=
  (48 <=? BYTE_val b) && (BYTE_val b <=? 57).

(** [CRYPT_TIME_GET_DIGITS(pbEncoded, len, numDigits, word)]: reads up to
    [numDigits] digits while [len > 0].  [None] is the macro's
    [SetLastError(CRYPT_E_ASN1_CORRUPT); return FALSE;], otherwise the new
    [pbEncoded], [len] and [word]. *)
Fixpoint TIME_GET_DIGITS_loop (numDigits : nat) (pbEncoded : Cursor)
    (len word : Z) : Exec (option (Cursor * Z * Z)) :=
  match numDigits with
  | O => Done (Some (pbEncoded, len, word))
  | S numDigits' =>
      if len >? 0 then
        b ← peek pbEncoded 0;
        if negb (isdigit b) then Done None
        else TIME_GET_DIGITS_loop numDigits' (advance pbEncoded 1) (len - 1)
               (WORD_wrap (WORD_wrap (word * 10) + (BYTE_val b - 48)))
      else Done (Some (pbEncoded, len, word))
  end.

Definition CRYPT_TIME_GET_DIGITS (pbEncoded : Cursor) (len numDigits : Z)
  : Exec (option (Cursor * Z * Z)) :=
  TIME_GET_DIGITS_loop (Z.to_nat numDigits) pbEncoded len 0.

Definition set_wYear (v : Z) (t : SYSTEMTIME) : SYSTEMTIME :=
  mkSystemTime v (wMonth t) (wDayOfWeek t) (wDay t) (wHour t) (wMinute t)
    (wSecond t) (wMilliseconds t).
Definition set_wMonth (v : Z) (t : SYSTEMTIME) : SYSTEMTIME :=
  mkSystemTime (wYear t) v (wDayOfWeek t) (wDay t) (wHour t) (wMinute t)
    (wSecond t) (wMilliseconds t).
Definition set_wDay (v : Z) (t : SYSTEMTIME) : SYSTEMTIME :=
  mkSystemTime (wYear t) (wMonth t) (wDayOfWeek t) v (wHour t) (wMinute t)
    (wSecond t) (wMilliseconds t).
Definition set_wHour (v : Z) (t : SYSTEMTIME) : SYSTEMTIME :=
  mkSystemTime (wYear t) (wMonth t) (wDayOfWeek t) (wDay t) v (wMinute t)
    (wSecond t) (wMilliseconds t).
Definition set_wMinute (v : Z) (t : SYSTEMTIME) : SYSTEMTIME :=
  mkSystemTime (wYear t) (wMonth t) (wDayOfWeek t) (wDay t) (wHour t) v
    (wSecond t) (wMilliseconds t).
Definition set_wSecond (v : Z) (t : SYSTEMTIME) : SYSTEMTIME :=
  mkSystemTime (wYear t) (wMonth t) (wDayOfWeek t) (wDay t) (wHour t)
    (wMinute t) v (wMilliseconds t).
Definition set_wMilliseconds (v : Z) (t : SYSTEMTIME) : SYSTEMTIME :=
  mkSystemTime (wYear t) (wMonth t) (wDayOfWeek t) (wDay t) (wHour t)
    (wMinute t) (wSecond t) v.

(** [SYSTEMTIME sysTime = { 0 };] *)
Definition sysTime_zero : SYSTEMTIME := mkSystemTime 0 0 0 0 0 0 0 0.

Definition char_plus : Z := 43.
Definition char_comma : Z := 44.
Definition char_minus : Z := 45.
Definition char_dot : Z := 46.

Definition CRYPT_AsnDecodeTimeZone (pbEncoded : Cursor) (len : Z)
    (sysTime : SYSTEMTIME) : Exec (Ret * SYSTEMTIME) :=
  let corrupt := Done (FALSE (Some CRYPT_E_ASN1_CORRUPT), sysTime) in
  if len <? 3 then Done (TRUE, sysTime) else
  sign ← peek pbEncoded 0;
  let sign := BYTE_val sign in
  if negb ((sign =? char_plus) || (sign =? char_minus))
  then Done (TRUE, sysTime) else
  let pbEncoded := advance pbEncoded 1 in
  let len := DWORD_wrap (len - 1) in
  got ← CRYPT_TIME_GET_DIGITS pbEncoded len 2;
  match got with
  | None => corrupt
  | Some (pbEncoded, len, hours) =>
      if hours >=? 24 then corrupt else
      got ← (if len >=? 2 then CRYPT_TIME_GET_DIGITS pbEncoded len 2
             else Done (Some (pbEncoded, len, 0)));
      match got with
      | None => corrupt
      | Some (pbEncoded, len, minutes) =>
          if minutes >=? 60 then corrupt else
          if sign =? char_plus then
            Done (TRUE,
                  set_wMinute (WORD_wrap (wMinute sysTime + minutes))
                    (set_wHour (WORD_wrap (wHour sysTime + hours)) sysTime))
          else
            let sysTime :=
              if hours >? wHour sysTime
              then set_wHour (WORD_wrap (24 - (hours - wHour sysTime)))
                     (set_wDay (WORD_wrap (wDay sysTime - 1)) sysTime)
              else set_wHour (WORD_wrap (wHour sysTime - hours)) sysTime in
            let sysTime :=
              if minutes >? wMinute sysTime
              then set_wMinute (WORD_wrap (60 - (minutes - wMinute sysTime)))
                     (set_wHour (WORD_wrap (wHour sysTime - 1)) sysTime)
              else set_wMinute (WORD_wrap (wMinute sysTime - minutes)) sysTime in
            Done (TRUE, sysTime)
      end
  end.

Definition MIN_ENCODED_TIME_LENGTH : Z := 10.

(** The tail shared by the time decoders: make room for a [FILETIME] and
    have [SystemTimeToFileTime] fill it. *)
Definition store_time (dwFlags : Z) (pDecodePara : option CRYPT_CODEC_PARA)
    (mem : list byte) (pcbStructInfo : Z) (sysTime : SYSTEMTIME)
  : Exec Result :=
  let '(ret, block, cb) :=
    CRYPT_DecodeEnsureSpace dwFlags pDecodePara pcbStructInfo sizeof_FILETIME in
  if negb (is_TRUE ret) then Done (mkResult ret (Some mem) None cb) else
  match SystemTimeToFileTime sysTime with
  | None => Done (mkResult (FALSE None) (Some mem) block cb)
  | Some ft =>
      p ← poke (mkCursor (default mem block) 0) (FILETIME_bytes ft);
      Done (if block is Some _
            then mkResult TRUE (Some mem) (Some (c_mem p)) cb
            else mkResult TRUE (Some (c_mem p)) None cb)
  end.

(** A step of a decoder that reads digits into one field of [sysTime];
    [k] is the rest of the decoder. *)
Definition get_digits (pbEncoded : Cursor) (len numDigits : Z)
    (corrupt : Exec Result) (k : Cursor → Z → Z → Exec Result) : Exec Result :=
  got ← CRYPT_TIME_GET_DIGITS pbEncoded len numDigits;
  match got with
  | None => corrupt
  | Some (pbEncoded, len, word) => k pbEncoded len word
  end.

Definition CRYPT_AsnDecodeUtcTime (pbEncoded : option (list byte))
    (cbEncoded dwFlags : Z) (pDecodePara : option CRYPT_CODEC_PARA)
    (pvStructInfo : option (list byte)) (pcbStructInfo : Z) : Exec Result :=
  let fail e := Done (mkResult (FALSE e) pvStructInfo None pcbStructInfo) in
  let corrupt := fail (Some CRYPT_E_ASN1_CORRUPT) in
  match pbEncoded with
  | None => fail (Some CRYPT_E_ASN1_EOD)
  | Some enc =>
      if cbEncoded =? 0 then fail (Some CRYPT_E_ASN1_EOD) else
      match pvStructInfo with
      | None => Done (mkResult TRUE None None sizeof_FILETIME)
      | Some mem =>
          let p := mkCursor enc 0 in
          tag ← peek p 0;
          if negb (BYTE_val tag =? ASN_UTCTIME)
          then fail (Some CRYPT_E_ASN1_BADTAG)
          else if cbEncoded <=? 1 then fail (Some CRYPT_E_ASN1_EOD) else
          len ← peek p 1;
          let len := BYTE_val len in
          (* long-form date strings really can't be valid *)
          if len >? 0x7f then corrupt
          else if len <? MIN_ENCODED_TIME_LENGTH then corrupt else
          let p := advance p 2 in
          let t := sysTime_zero in
          get_digits p len 2 corrupt (λ p len year,
          let t :=
            set_wYear (WORD_wrap (if year >=? 50 then year + 1900
                                  else year + 2000)) t in
          get_digits p len 2 corrupt (λ p len month, let t := set_wMonth month t in
          get_digits p len 2 corrupt (λ p len day, let t := set_wDay day t in
          get_digits p len 2 corrupt (λ p len hour, let t := set_wHour hour t in
          get_digits p len 2 corrupt (λ p len minute,
          let t := set_wMinute minute t in
          let finish (ret : Ret) (t : SYSTEMTIME) :=
            if is_TRUE ret
            then store_time dwFlags pDecodePara mem pcbStructInfo t
            else fail (match ret with FALSE e => e | TRUE => None end) in
          if len >? 0 then
            c0 ← peek p 0;
            two ← (if (len >=? 2) && isdigit c0
                   then c1 ← peek p 1; Done (isdigit c1) else Done false);
            get_digits p len
              (if two : bool then 2 else if isdigit c0 then 1 else 0)
              corrupt (λ p len second,
            let t := if two || isdigit c0 then set_wSecond second t else t in
            '(ret, t) ← CRYPT_AsnDecodeTimeZone p len t;
            finish ret t)
          else finish TRUE t)))))
      end
  end.

Definition CRYPT_AsnDecodeGeneralizedTime (pbEncoded : option (list byte))
    (cbEncoded dwFlags : Z) (pDecodePara : option CRYPT_CODEC_PARA)
    (pvStructInfo : option (list byte)) (pcbStructInfo : Z) : Exec Result :=
  let fail e := Done (mkResult (FALSE e) pvStructInfo None pcbStructInfo) in
  let corrupt := fail (Some CRYPT_E_ASN1_CORRUPT) in
  match pbEncoded with
  | None => fail (Some CRYPT_E_ASN1_EOD)
  | Some enc =>
      if cbEncoded =? 0 then fail (Some CRYPT_E_ASN1_EOD) else
      match pvStructInfo with
      | None => Done (mkResult TRUE None None sizeof_FILETIME)
      | Some mem =>
          let p := mkCursor enc 0 in
          tag ← peek p 0;
          if negb (BYTE_val tag =? ASN_GENERALTIME)
          then fail (Some CRYPT_E_ASN1_BADTAG)
          else if cbEncoded <=? 1 then fail (Some CRYPT_E_ASN1_EOD) else
          len ← peek p 1;
          let len := BYTE_val len in
          (* long-form date strings really can't be valid *)
          if len >? 0x7f then corrupt
          else if len <? MIN_ENCODED_TIME_LENGTH then corrupt else
          let p := advance p 2 in
          let t := sysTime_zero in
          let finish (ret : Ret) (t : SYSTEMTIME) :=
            if is_TRUE ret
            then store_time dwFlags pDecodePara mem pcbStructInfo t
            else fail (match ret with FALSE e => e | TRUE => None end) in
          get_digits p len 4 corrupt (λ p len year, let t := set_wYear year t in
          get_digits p len 2 corrupt (λ p len month, let t := set_wMonth month t in
          get_digits p len 2 corrupt (λ p len day, let t := set_wDay day t in
          get_digits p len 2 corrupt (λ p len hour, let t := set_wHour hour t in
          if len >? 0 then
            get_digits p len 2 corrupt (λ p len minute,
            let t := set_wMinute minute t in
            get_digits p len (if len >? 0 then 2 else 0) corrupt (λ p len second,
            let t := set_wSecond second t in
            sep ← (if len >? 0 then c ← peek p 0; Done (BYTE_val c)
                   else Done 0);
            if (len >? 0) && ((sep =? char_dot) || (sep =? char_comma)) then
              let p := advance p 1 in
              let len := (len - 1) mod 256 in
              (* workaround macro weirdness *)
              let digits := Z.min len 3 in
              get_digits p len digits corrupt (λ p len ms,
              let t := set_wMilliseconds ms t in
              '(ret, t) ← CRYPT_AsnDecodeTimeZone p len t;
              finish ret t)
            else
              '(ret, t) ← CRYPT_AsnDecodeTimeZone p len t;
              finish ret t))
          else finish TRUE t))))
      end
  end.

Definition CRYPT_AsnDecodeChoiceOfTime (pbEncoded : option (list byte))
    (cbEncoded dwFlags : Z) (pDecodePara : option CRYPT_CODEC_PARA)
    (pvStructInfo : option (list byte)) (pcbStructInfo : Z) : Exec Result :=
  let fail e := Done (mkResult (FALSE e) pvStructInfo None pcbStructInfo) in
  match pbEncoded with
  | None => fail (Some CRYPT_E_ASN1_EOD)
  | Some enc =>
      if cbEncoded =? 0 then fail (Some CRYPT_E_ASN1_EOD) else
      match pvStructInfo with
      | None => Done (mkResult TRUE None None sizeof_FILETIME)
      | Some mem =>
          tag ← peek (mkCursor enc 0) 0;
          if BYTE_val tag =? ASN_UTCTIME then
            CRYPT_AsnDecodeUtcTime pbEncoded cbEncoded dwFlags pDecodePara
              pvStructInfo pcbStructInfo
          else if BYTE_val tag =? ASN_GENERALTIME then
            CRYPT_AsnDecodeGeneralizedTime pbEncoded cbEncoded dwFlags
              pDecodePara pvStructInfo pcbStructInfo
          else fail (Some CRYPT_E_ASN1_BADTAG)
      end
  end.

End Decode.

(** A calendar conversion to stand for [SystemTimeToFileTime] where an
    example needs one: the inverse of [FileTimeToSystemTime_calendar] on
    the dates of the Gregorian calendar from 1601 on. *)
Definition SystemTimeToFileTime_calendar (t : SYSTEMTIME) : option Z :=
  let leap :=
    ((wYear t mod 4 =? 0) && negb (wYear t mod 100 =? 0))
    || (wYear t mod 400 =? 0) in
  let mdays :=
    if wMonth t =? 2 then (if leap then 29 else 28)
    else if (wMonth t =? 4) || (wMonth t =? 6) || (wMonth t =? 9)
            || (wMonth t =? 11) then 30 else 31 in
  if (wYear t <? 1601) || (wMonth t <? 1) || (12 <? wMonth t)
     || (wDay t <? 1) || (mdays <? wDay t) || (wHour t <? 0) || (23 <? wHour t)
     || (wMinute t <? 0) || (59 <? wMinute t) || (wSecond t <? 0)
     || (59 <? wSecond t) || (wMilliseconds t <? 0) || (999 <? wMilliseconds t)
  then None else
  let m := if wMonth t <? 3 then wMonth t + 13 else wMonth t + 1 in
  let y := if wMonth t <? 3 then wYear t - 1 else wYear t in
  let cleaps := (3 * (y / 100) + 3) / 4 in
  let days := (36525 * y) / 100 - cleaps + (1959 * m) / 64 + wDay t - 584817 in
  Some ((((days * 24 + wHour t) * 60 + wMinute t) * 60 + wSecond t) * 10000000
        + wMilliseconds t * 10000).

(** ** The OID function registry *)

(** An [LPCSTR] that is either a small integer in a pointer ([HIWORD] is
    zero; NULL is [Ordinal 0]) or the address of a string. *)
Inductive LPCSTR : Type :=
  | Ordinal (n : Z)
  | Str (s : string).

Definition HIWORD_is_zero (p : LPCSTR) : bool :=
  match p with Ordinal _ => true | Str _ => false end.

Definition LPCSTR_is_null (p : LPCSTR) : bool :=
  match p with Ordinal n => n =? 0 | Str _ => false end.

Definition WCHAR : Type := Z.

Definition CERT_ENCODING_TYPE_MASK : Z := 0x0000ffff.
Definition CMSG_ENCODING_TYPE_MASK : Z := 0xffff0000.
Definition X509_ASN_ENCODING : Z := 0x00000001.
Definition PKCS_7_ASN_ENCODING : Z := 0x00010000.
Definition GET_CERT_ENCODING_TYPE (x : Z) : Z :=
  Z.land x CERT_ENCODING_TYPE_MASK.

(** [static const WCHAR szDllName[] = { 'D','l','l',0 };] *)
Definition szDllName : list WCHAR := [68; 108; 108].

(** The data of a [REG_SZ] value, as the narrow and the wide calls store
    it. *)
Inductive RegData : Type :=
  | REG_SZ_A (s : string)
  | REG_SZ_W (s : list WCHAR).

Definition szEncodingTypeFmt_head : string :=
  "Software\Microsoft\Cryptography\OID\EncodingType ".

(** [sizeof(szEncodingTypeFmt)]: the head, [%ld\%s\%s] and the NUL. *)
Definition sizeof_szEncodingTypeFmt : Z :=
  Z.of_nat (String.length szEncodingTypeFmt_head) + 9 + 1.

Section Registry.

Variable HeapAlloc : nat → Allocator.

(** The registry calls the file makes, over a store of type [Store];
    [RegCreateKeyA] gives a handle when it returns [ERROR_SUCCESS]. *)
Context {Store HKEY : Type}.
Variable RegCreateKeyA : Store → string → option HKEY * Store.
Variable RegSetValueExA : Store → HKEY → string → RegData → Store.
Variable RegSetValueExW : Store → HKEY → list WCHAR → RegData → Store.
Variable RegCloseKey : Store → HKEY → Store.

(** The key name, or NULL when there is no memory for it.  [pszFuncName]
    is a string here: the callers have refused NULL. *)
Definition CRYPT_GetKeyName (dwEncodingType : Z) (pszFuncName : string)
    (pszOID : LPCSTR) : Exec (option string) :=
  let oid :=
    match pszOID with
    | Ordinal n =>
        (* char numericOID[7]; enough for "#65535" *)
        String.string_of_list_ascii
          (take 6 (String.list_ascii_of_string ("#" +:+ pretty (INT_wrap n))))
    | Str s => s
    end in
  let len :=
    sizeof_szEncodingTypeFmt + Z.of_nat (String.length pszFuncName)
    + Z.of_nat (String.length oid) in
  match HeapAlloc 0 len with
  | None => Done None
  | Some _ =>
      let szKey :=
        szEncodingTypeFmt_head +:+ pretty (INT_wrap dwEncodingType) +:+ "\"
        +:+ pszFuncName +:+ "\" +:+ oid in
      (* sprintf writes the text and a NUL into [len] bytes *)
      if Z.of_nat (String.length szKey) + 1 >? len then Undefined
      else Done (Some szKey)
  end.

Definition CryptRegisterOIDFunction (st : Store) (dwEncodingType : Z)
    (pszFuncName : option string) (pszOID : LPCSTR)
    (pwszDll : option (list WCHAR)) (pszOverrideFuncName : option string)
  : Exec (Ret * Store) :=
  (* This only registers functions for encoding certs, not messages *)
  if GET_CERT_ENCODING_TYPE dwEncodingType =? 0 then Done (TRUE, st) else
  (* Native does nothing pwszDll is NULL *)
  match pwszDll with
  | None => Done (TRUE, st)
  | Some dll =>
      match pszFuncName with
      | None => Done (FALSE (Some ERROR_INVALID_PARAMETER), st)
      | Some func =>
          if LPCSTR_is_null pszOID
          then Done (FALSE (Some ERROR_INVALID_PARAMETER), st) else
          szKey ← CRYPT_GetKeyName dwEncodingType func pszOID;
          match szKey with
          | None => Done (FALSE None, st)
          | Some szKey =>
              match RegCreateKeyA st szKey with
              | (None, st) => Done (FALSE None, st)
              | (Some hKey, st) =>
                  (* write the values *)
                  let st :=
                    match pszOverrideFuncName with
                    | Some override =>
                        RegSetValueExA st hKey "FuncName" (REG_SZ_A override)
                    | None => st
                    end in
                  let st := RegSetValueExW st hKey szDllName (REG_SZ_W dll) in
                  let st := RegCloseKey st hKey in
                  Done (TRUE, st)
              end
          end
      end
  end.

End Registry.

(** A registry kept in a finite map, for the examples: a key is created on
    demand and a handle is the name of its key. *)
Module MapRegistry.

Definition narrow (s : list WCHAR) : string :=
  String.string_of_list_ascii ((λ c, ascii_of_N (Z.to_N c)) <$> s).

Definition RegCreateKeyA (st : gmap string (gmap string RegData))
    (name : string) : option string * gmap string (gmap string RegData) :=
  (Some name, if st !! name is Some _ then st else <[name := ∅]> st).

Definition RegSetValueExA (st : gmap string (gmap string RegData))
    (hKey : string) (name : string) (data : RegData)
  : gmap string (gmap string RegData) :=
  alter (insert name data) hKey st.

Definition RegSetValueExW (st : gmap string (gmap string RegData))
    (hKey : string) (name : list WCHAR) (data : RegData)
  : gmap string (gmap string RegData) :=
  alter (insert (narrow name) data) hKey st.

Definition RegCloseKey (st : gmap string (gmap string RegData))
    (hKey : string) : gmap string (gmap string RegData) := st.

(** The process heap of the examples never runs out. *)
Definition HeapAlloc : nat → Allocator := λ _ _, Some (λ _, x00).

Definition CryptRegisterOIDFunction :=
  CryptRegisterOIDFunction HeapAlloc RegCreateKeyA RegSetValueExA
    RegSetValueExW RegCloseKey.

End MapRegistry.

(** ** The public entry points *)

Definition X509_NAME : Z := 7.
Definition X509_KEY_USAGE : Z := 14.
Definition PKCS_UTC_TIME : Z := 17.
Definition X509_OCTET_STRING : Z := 25.
Definition X509_BITS : Z := 26.
Definition X509_INTEGER : Z := 27.
Definition X509_MULTI_BYTE_INTEGER : Z := 28.
Definition X509_ENUMERATED : Z := 29.
Definition X509_CHOICE_OF_TIME : Z := 30.
Definition X509_MULTI_BYTE_UINT : Z := 38.

Definition szOID_RSA_signingTime : string := "1.2.840.113549.1.9.5".
Definition szOID_CRL_REASON_CODE : string := "2.5.29.21".
Definition szOID_KEY_USAGE : string := "2.5.29.15".
Definition szOID_SUBJECT_KEY_IDENTIFIER : string := "2.5.29.14".

(** The codecs of this file that the entry points dispatch to, by the name
    of the encoder or decoder ([CRYPT_AsnEncodeName] and
    [CRYPT_AsnDecodeName] for [AsnName], and so on). *)
Inductive Builtin : Set :=
  | AsnName
  | AsnOctets
  | AsnBits
  | AsnInt
  | AsnInteger
  | AsnUnsignedInteger
  | AsnEnumerated
  | AsnChoiceOfTime
  | AsnUtcTime.

(** What an entry point does: it fails by itself with a last error, or it
    returns what the function it called returned. *)
Inductive Outcome (R : Type) : Type :=
  | Rejected (e : LastError)
  | Forwarded (r : R).
Arguments Rejected {R} e.
Arguments Forwarded {R} r.

(** The [switch] and the [strcmp] chain of [CryptEncodeObjectEx] and of
    [CryptDecodeObjectEx], which are the same. *)
Definition select_builtin (lpszStructType : LPCSTR) : option Builtin :=
  match lpszStructType with
  | Ordinal n =>
      let id := Z.land n 0xffff in
      if id =? X509_NAME then Some AsnName
      else if id =? X509_OCTET_STRING then Some AsnOctets
      else if (id =? X509_BITS) || (id =? X509_KEY_USAGE) then Some AsnBits
      else if id =? X509_INTEGER then Some AsnInt
      else if id =? X509_MULTI_BYTE_INTEGER then Some AsnInteger
      else if id =? X509_MULTI_BYTE_UINT then Some AsnUnsignedInteger
      else if id =? X509_ENUMERATED then Some AsnEnumerated
      else if id =? X509_CHOICE_OF_TIME then Some AsnChoiceOfTime
      else if id =? PKCS_UTC_TIME then Some AsnUtcTime
      else None
  | Str s =>
      if String.eqb s szOID_RSA_signingTime then Some AsnUtcTime
      else if String.eqb s szOID_CRL_REASON_CODE then Some AsnEnumerated
      else if String.eqb s szOID_KEY_USAGE then Some AsnBits
      else if String.eqb s szOID_SUBJECT_KEY_IDENTIFIER then Some AsnOctets
      else None
  end.

Definition unknown_encoding (dwCertEncodingType : Z) : bool :=
  negb (Z.land dwCertEncodingType CERT_ENCODING_TYPE_MASK =? X509_ASN_ENCODING)
  && negb (Z.land dwCertEncodingType CMSG_ENCODING_TYPE_MASK
           =? PKCS_7_ASN_ENCODING).

Section EntryPoints.

(** [StructInfo] is what a [const void *pvStructInfo] points to and [R]
    what a call of a codec amounts to: its return value and its effects. *)
Context {StructInfo R : Type}.

(** The four function-pointer types of the file.  The output pointer and
    the size cell are passed on as they are, NULL or not. *)
Definition CryptEncodeObjectFunc : Type :=
  Z → LPCSTR → option StructInfo → option (list byte) → option Z → R.
Definition CryptEncodeObjectExFunc : Type :=
  Z → LPCSTR → option StructInfo → Z → option CRYPT_CODEC_PARA →
  option (list byte) → option Z → R.
Definition CryptDecodeObjectFunc : Type :=
  Z → LPCSTR → option (list byte) → Z → Z → option (list byte) → option Z → R.
Definition CryptDecodeObjectExFunc : Type :=
  Z → LPCSTR → option (list byte) → Z → Z → option CRYPT_CODEC_PARA →
  option (list byte) → option Z → R.

(** The built-in encoders and decoders behind their names. *)
Variable encoder : Builtin → CryptEncodeObjectExFunc.
Variable decoder : Builtin → CryptDecodeObjectExFunc.

(** [CRYPT_GetFunc], which asks the registry and the loader for the
    function registered under [szFuncName], and the four casts of what it
    returns. *)
Context {FARPROC : Type}.
Variable CRYPT_GetFunc : Z → LPCSTR → string → option FARPROC.
Variable as_CryptEncodeObjectFunc : FARPROC → CryptEncodeObjectFunc.
Variable as_CryptEncodeObjectExFunc : FARPROC → CryptEncodeObjectExFunc.
Variable as_CryptDecodeObjectFunc : FARPROC → CryptDecodeObjectFunc.
Variable as_CryptDecodeObjectExFunc : FARPROC → CryptDecodeObjectExFunc.

Definition CryptEncodeObjectEx (dwCertEncodingType : Z)
    (lpszStructType : LPCSTR) (pvStructInfo : option StructInfo)
    (dwFlags : Z) (pEncodePara : option CRYPT_CODEC_PARA)
    (pvEncoded : option (list byte)) (pcbEncoded : option Z) : Outcome R :=
  if negb (is_Some_b pvEncoded) && negb (is_Some_b pcbEncoded)
  then Rejected ERROR_INVALID_PARAMETER
  else if unknown_encoding dwCertEncodingType
  then Rejected ERROR_FILE_NOT_FOUND
  else
    let encodeFunc := encoder <$> select_builtin lpszStructType in
    let encodeFunc :=
      match encodeFunc with
      | Some f => Some f
      | None =>
          as_CryptEncodeObjectExFunc <$>
            CRYPT_GetFunc dwCertEncodingType lpszStructType
              "CryptEncodeObjectEx"
      end in
    match encodeFunc with
    | Some f =>
        Forwarded (f dwCertEncodingType lpszStructType pvStructInfo dwFlags
                     pEncodePara pvEncoded pcbEncoded)
    | None => Rejected ERROR_FILE_NOT_FOUND
    end.

Definition CryptEncodeObject (dwCertEncodingType : Z)
    (lpszStructType : LPCSTR) (pvStructInfo : option StructInfo)
    (pbEncoded : option (list byte)) (pcbEncoded : option Z) : Outcome R :=
  if negb (is_Some_b pbEncoded) && negb (is_Some_b pcbEncoded)
  then Rejected ERROR_INVALID_PARAMETER
  else
    (* Try registered DLL first.. *)
    match CRYPT_GetFunc dwCertEncodingType lpszStructType "CryptEncodeObject"
    with
    | Some pCryptEncodeObject =>
        Forwarded (as_CryptEncodeObjectFunc pCryptEncodeObject
                     dwCertEncodingType lpszStructType pvStructInfo pbEncoded
                     pcbEncoded)
    | None =>
        (* If not, use CryptEncodeObjectEx *)
        CryptEncodeObjectEx dwCertEncodingType lpszStructType pvStructInfo 0
          None pbEncoded pcbEncoded
    end.

Definition CryptDecodeObjectEx (dwCertEncodingType : Z)
    (lpszStructType : LPCSTR) (pbEncoded : option (list byte))
    (cbEncoded dwFlags : Z) (pDecodePara : option CRYPT_CODEC_PARA)
    (pvStructInfo : option (list byte)) (pcbStructInfo : option Z)
  : Outcome R :=
  if negb (is_Some_b pvStructInfo) && negb (is_Some_b pcbStructInfo)
  then Rejected ERROR_INVALID_PARAMETER
  else if unknown_encoding dwCertEncodingType
  then Rejected ERROR_FILE_NOT_FOUND
  else
    let decodeFunc := decoder <$> select_builtin lpszStructType in
    let decodeFunc :=
      match decodeFunc with
      | Some f => Some f
      | None =>
          as_CryptDecodeObjectExFunc <$>
            CRYPT_GetFunc dwCertEncodingType lpszStructType
              "CryptDecodeObjectEx"
      end in
    match decodeFunc with
    | Some f =>
        Forwarded (f dwCertEncodingType lpszStructType pbEncoded cbEncoded
                     dwFlags pDecodePara pvStructInfo pcbStructInfo)
    | None => Rejected ERROR_FILE_NOT_FOUND
    end.

Definition CryptDecodeObject (dwCertEncodingType : Z)
    (lpszStructType : LPCSTR) (pbEncoded : option (list byte))
    (cbEncoded dwFlags : Z) (pvStructInfo : option (list byte))
    (pcbStructInfo : option Z) : Outcome R :=
  if negb (is_Some_b pvStructInfo) && negb (is_Some_b pcbStructInfo)
  then Rejected ERROR_INVALID_PARAMETER
  else
    (* Try registered DLL first.. *)
    match CRYPT_GetFunc dwCertEncodingType lpszStructType "CryptDecodeObject"
    with
    | Some pCryptDecodeObject =>
        Forwarded (as_CryptDecodeObjectFunc pCryptDecodeObject
                     dwCertEncodingType lpszStructType pbEncoded cbEncoded
                     dwFlags pvStructInfo pcbStructInfo)
    | None =>
        (* If not, use CryptDecodeObjectEx *)
        CryptDecodeObjectEx dwCertEncodingType lpszStructType pbEncoded
          cbEncoded dwFlags None pvStructInfo pcbStructInfo
    end.

End EntryPoints.

(** ** The bytes the name encoders write

    The encoders below write through a pointer as they go.  These
    functions give, for a writing call that succeeds, all the bytes it
    writes; [None] where the call cannot succeed. *)

(** The length octets of [len]. *)
Definition EncodeLen_bytes (len : Z) : list byte :=
  if len <=? 0x7f then [BYTE_of len]
  else
    let significantBytes := EncodeLen_significant 4 len sizeof_DWORD in
    BYTE_of (Z.lor significantBytes 0x80)
    :: EncodeLen_octets (Z.to_nat significantBytes) len.

(** The arcs after the first two, as the second loop of
    [CRYPT_AsnEncodeOid] writes them. *)
Fixpoint Oid_arcs (fuel : nat) (ptr : string) : option (list byte) :=
  match ptr with
  | EmptyString => Some []
  | _ =>
      match fuel with
      | O => None
      | S fuel' =>
          match sscanf_d_n ptr with
          | Match val pos _ =>
              if negb (representable_int val) then None else
              let ptr := string_drop (Z.to_nat pos) ptr in
              let ptr :=
                match ptr with String "." ptr' => ptr' | _ => ptr end in
              arcs ← Oid_arcs fuel' ptr;
              Some (Oid_arc val ++ arcs)
          | NoMatch => None
          end
      end
  end.

Definition Oid_bytes (pszObjId : option string) : option (list byte) :=
  match pszObjId with
  | Some s =>
      match sscanf_d_dot_d_dot_n s 0 with
      | Done (Some (val1, val2, firstPos)) =>
          let ptr := string_drop (Z.to_nat firstPos) s in
          arcs ← Oid_arcs (String.length ptr) ptr;
          Some (BYTE_of ASN_OBJECTIDENTIFIER
                :: EncodeLen_bytes (DWORD_wrap (1 + Z.of_nat (length arcs)))
                ++ BYTE_of (val1 * 40 + val2) :: arcs)
      | _ => None
      end
  | None => Some (BYTE_of ASN_OBJECTIDENTIFIER :: EncodeLen_bytes 0)
  end.

Definition NameValue_bytes (value : CERT_NAME_VALUE) : option (list byte) :=
  let encodedLen := cbData (nv_Value value) in
  tag ←
    (if nv_dwValueType value =? CERT_RDN_NUMERIC_STRING
     then Some ASN_NUMERICSTRING
     else if nv_dwValueType value =? CERT_RDN_PRINTABLE_STRING
     then Some ASN_PRINTABLESTRING
     else if nv_dwValueType value =? CERT_RDN_IA5_STRING
     then Some ASN_IA5STRING
     else None);
  if decide (0 ≤ encodedLen ≤ Z.of_nat (length (pbData (nv_Value value))))
  then Some (BYTE_of tag :: EncodeLen_bytes encodedLen
             ++ take (Z.to_nat encodedLen) (pbData (nv_Value value)))
  else None.

Definition RdnAttr_bytes (attr : CERT_RDN_ATTR) : option (list byte) :=
  oid ← Oid_bytes (pszObjId attr);
  value ← NameValue_bytes (attr_name_value attr);
  Some (BYTE_of (Z.lor ASN_CONSTRUCTOR ASN_SEQUENCE)
        :: EncodeLen_bytes
             (DWORD_wrap (Z.of_nat (length oid) + Z.of_nat (length value)))
        ++ oid ++ value).

(** The encoded element the SET OF encoder holds for an attribute. *)
Definition RdnAttr_blob (attr : CERT_RDN_ATTR) : CRYPT_DATA_BLOB :=
  let bytes := default [] (RdnAttr_bytes attr) in
  mkBlob (Z.of_nat (length bytes)) bytes.

(** All that a writing call of the SET OF encoder writes for the attributes
    [attrs], when it succeeds. *)
Definition Rdn_bytes (attrs : list CERT_RDN_ATTR) : list byte :=
  let blobs := qsort BLOBComp (RdnAttr_blob <$> attrs) in
  let content := mjoin (pbData <$> blobs) in
  BYTE_of (Z.lor ASN_CONSTRUCTOR ASN_SETOF)
  :: EncodeLen_bytes (DWORD_wrap (Z.of_nat (length content))) ++ content.

(** ** What the specification says of a decoded integer *)

(** The content bytes read big-endian, as a number that is not negative. *)
Definition be_unsigned (bs : list byte) : Z :=
  foldl (λ acc b, acc * 256 + BYTE_val b) 0 bs.

(** The same, sign-extended when the first content byte has its high bit
    set and zero-extended otherwise. *)
Definition sign_extended (bs : list byte) : Z :=
  match bs with
  | top :: _ =>
      if 0x80 <=? BYTE_val top
      then be_unsigned bs - 256 ^ Z.of_nat (length bs)
      else be_unsigned bs
  | [] => 0
  end.

(** ** What the specification says of the order of a SET OF *)

(** Lexicographic order by byte comparison, the shorter of two buffers
    being less when one is the head of the other. *)
Fixpoint lex_le (a b : list byte) : bool :=
  match a, b with
  | [], _ => true
  | _ :: _, [] => false
  | x :: a', y :: b' =>
      if BYTE_val x <? BYTE_val y then true
      else if BYTE_val y <? BYTE_val x then false
      else lex_le a' b'
  end.

(** An encoded element as the SET OF encoder holds it: [cbData] is the
    size of the block at [pbData], and fits an [int]. *)
Definition encoded_blob (b : CRYPT_DATA_BLOB) : Prop :=
  cbData b = Z.of_nat (length (pbData b)) ∧ cbData b ≤ INT_MAX.

(** ** Data of the examples *)

(** An allocator that has no memory left. *)
Definition out_of_memory : Allocator := λ _, None.

(** 1949-12-31 23:59:59 UTC and 2051-01-01 00:00:00 UTC as [FILETIME]s. *)
Definition ft_1949_12_31 : Z := 110133215990000000.
Definition ft_2051_01_01 : Z := 142006176000000000.

Definition CryptDllEncodeObject : string := "CryptDllEncodeObject".

(** [L"crypt32.dll"] *)
Definition crypt32_dll : list WCHAR :=
  [99; 114; 121; 112; 116; 51; 50; 46; 100; 108; 108].

(** The key that registering [CryptDllEncodeObject] for "1.2.3" under
    [X509_ASN_ENCODING] creates. *)
Definition registered_key : string :=
  "Software\Microsoft\Cryptography\OID\EncodingType 1\CryptDllEncodeObject\1.2.3".

(** 2015-04-15 00:00:00 UTC as a [FILETIME]. *)
Definition ft_2015_04_15 : Z := 130735296000000000.

(** A printable-string attribute. *)
Definition printable_attr (oid text : string) : CERT_RDN_ATTR :=
  mkRdnAttr (Some oid) CERT_RDN_PRINTABLE_STRING
    (mkBlob (Z.of_nat (String.length text)) (string_bytes text)).

(** commonName=Test, and an attribute under the arc of RSADSI. *)
Definition attr_CN : CERT_RDN_ATTR := printable_attr "2.5.4.3" "Test".
Definition attr_RSADSI : CERT_RDN_ATTR := printable_attr "1.2.840.113549" "x".

(** A process heap whose second block holds the byte 09 everywhere and
    whose third block holds 05, as blocks that were used and freed do;
    [HeapAlloc] without [HEAP_ZERO_MEMORY] hands them out as they are. *)
Definition used_heap : nat → Allocator :=
  λ n _, Some (λ _, match n with 1%nat => x09 | 2%nat => x05 | _ => x00 end).

(** A process heap whose blocks hold the byte [b] everywhere. *)
Definition stale_heap (b : byte) : nat → Allocator := λ _ _, Some (λ _, b).

(** A caller's buffer of [n] bytes, all [b], with the pointer at its
    start. *)
Definition buffer (n : nat) (b : byte) : option Cursor :=
  Some (mkCursor (replicate n b) 0).

(** An octet string of 128 bytes as [CRYPT_EncodeLen] frames it: the tag,
    the length octets 81 80, and the content. *)
Definition octets_128 : list byte := [x04; x81; x80] ++ replicate 128 xaa.

(** An entry-point instance that records calls: a call amounts to the name
    of the function called, the output pointer and the size cell it was
    given.  One module is registered, for the type "1.2.3.4". *)
Module Recording.

Definition Call : Type := string * option (list byte) * option Z.

Definition name (c : Builtin) : string :=
  match c with
  | AsnName => "Name"
  | AsnOctets => "Octets"
  | AsnBits => "Bits"
  | AsnInt => "Int"
  | AsnInteger => "Integer"
  | AsnUnsignedInteger => "UnsignedInteger"
  | AsnEnumerated => "Enumerated"
  | AsnChoiceOfTime => "ChoiceOfTime"
  | AsnUtcTime => "UtcTime"
  end.

Definition encoder (c : Builtin) : @CryptEncodeObjectExFunc Z Call :=
  λ _ _ _ _ _ pvEncoded pcbEncoded,
    ("CRYPT_AsnEncode" +:+ name c, pvEncoded, pcbEncoded).

Definition decoder (c : Builtin) : @CryptDecodeObjectExFunc Call :=
  λ _ _ _ _ _ _ pvStructInfo pcbStructInfo,
    ("CRYPT_AsnDecode" +:+ name c, pvStructInfo, pcbStructInfo).

Definition CRYPT_GetFunc (dwCertEncodingType : Z) (lpszStructType : LPCSTR)
    (szFuncName : string) : option string :=
  match lpszStructType with
  | Str s =>
      if String.eqb s "1.2.3.4" then Some ("plugin!" +:+ szFuncName)
      else None
  | Ordinal _ => None
  end.

Definition as_CryptEncodeObjectFunc (p : string)
  : @CryptEncodeObjectFunc Z Call :=
  λ _ _ _ pbEncoded pcbEncoded, (p, pbEncoded, pcbEncoded).

Definition as_CryptEncodeObjectExFunc (p : string)
  : @CryptEncodeObjectExFunc Z Call :=
  λ _ _ _ _ _ pvEncoded pcbEncoded, (p, pvEncoded, pcbEncoded).

Definition as_CryptDecodeObjectFunc (p : string)
  : @CryptDecodeObjectFunc Call :=
  λ _ _ _ _ _ pvStructInfo pcbStructInfo, (p, pvStructInfo, pcbStructInfo).

Definition as_CryptDecodeObjectExFunc (p : string)
  : @CryptDecodeObjectExFunc Call :=
  λ _ _ _ _ _ _ pvStructInfo pcbStructInfo,
    (p, pvStructInfo, pcbStructInfo).

Definition CryptEncodeObject :=
  CryptEncodeObject encoder CRYPT_GetFunc as_CryptEncodeObjectFunc
    as_CryptEncodeObjectExFunc.
Definition CryptEncodeObjectEx :=
  CryptEncodeObjectEx encoder CRYPT_GetFunc as_CryptEncodeObjectExFunc.
Definition CryptDecodeObject :=
  CryptDecodeObject decoder CRYPT_GetFunc as_CryptDecodeObjectFunc
    as_CryptDecodeObjectExFunc.
Definition CryptDecodeObjectEx :=
  CryptDecodeObjectEx decoder CRYPT_GetFunc as_CryptDecodeObjectExFunc.

End Recording.

(** ** The other encoders *)

(** A call that may still be running: [None] when it has not returned after
    the rounds of fuel it was given, for the one loop of the file that need
    not end. *)
Definition Running (A : Type) : Type := option (Exec A).

(** [for (significantBytes = sizeof(val); !(val & 0xff000000);
         val <<= 8, significantBytes--);]
    with [val] an [INT] and [significantBytes] a [BYTE]: the [val] and
    [significantBytes] the loop leaves, [None] when [fuel] rounds did not
    end it. *)
Fixpoint EncodeInt_significant (fuel : nat) (val significantBytes : Z)
  : option (Z * Z) :=
  match fuel with
  | O => None
  | S fuel' =>
      if Z.land (DWORD_wrap val) 0xff000000 =? 0
      then EncodeInt_significant fuel' (INT_wrap (Z.shiftl val 8))
             ((significantBytes - 1) mod 256)
      else Some (val, significantBytes)
  end.

(** [for (i = 0; i < significantBytes; i++, val <<= 8)
        *(pbEncoded + i) = (BYTE)((val & 0xff000000) >> 24);] *)
Fixpoint EncodeInt_octets (significantBytes : nat) (val : Z) : list byte :=
  match significantBytes with
  | O => []
  | S n =>
      BYTE_of (Z.shiftr (Z.land (DWORD_wrap val) 0xff000000) 24)
      :: EncodeInt_octets n (INT_wrap (Z.shiftl val 8))
  end.

(** [for (; significantBytes > 0 && blob->pbData[significantBytes - 1] == b;
         significantBytes--);]
    the [significantBytes] the loop leaves. *)
Fixpoint lop_off (significantBytes : nat) (pbData : list byte) (b : byte)
  : Exec Z :=
  match significantBytes with
  | O => Done 0
  | S n =>
      top ← peek (mkCursor pbData 0) (Z.of_nat n);
      if decide (top = b) then lop_off n pbData b
      else Done (Z.of_nat significantBytes)
  end.

(** [blob->pbData[significantBytes - 1]].  Where the loop above has left 0
    the index is the [DWORD] 0xFFFFFFFF: the byte before [pbData] in an
    address space of 32 bits, and no byte of the blob in any. *)
Definition top_byte (pbData : list byte) (significantBytes : Z) : Exec byte :=
  peek (mkCursor pbData 0) (significantBytes - 1).

(** [for (; significantBytes > 0; significantBytes--)
        *(pbEncoded++) = blob->pbData[significantBytes - 1];] *)
Fixpoint copy_reversed (significantBytes : nat) (pbData : list byte)
    (pbEncoded : Cursor) : Exec Cursor :=
  match significantBytes with
  | O => Done pbEncoded
  | S n =>
      b ← peek (mkCursor pbData 0) (Z.of_nat n);
      pbEncoded ← emit pbEncoded [b];
      copy_reversed n pbData pbEncoded
  end.

(** The conversion [%04d] of [printf]. *)
Definition fmt_04d (n : Z) : string :=
  let s := pretty n in
  String.string_of_list_ascii (replicate (4 - String.length s) "0"%char)
  +:+ s.

(** The fields of a time that the encoders print with [%02d] have no more
    than the two digits. *)
Definition two_digit_fields (t : SYSTEMTIME) : bool :=
  forallb (λ v, (0 <=? v) && (v <? 100))
    [wMonth t; wDay t; wHour t; wMinute t; wSecond t].

(** [CERT_NAME_INFO] *)
Record CERT_NAME_INFO := mkNameInfo {
  cRDN : Z;
  rgRDN : option (list CERT_RDN)
}.

(** What a writing call hands back once the bytes are at [p]: in the
    caller's buffer, or in the block made for the ALLOC flag. *)
Definition written (mem : list byte) (block : option (list byte))
    (p : Cursor) (cb : Z) : Result :=
  if block is Some _
  then mkResult TRUE (Some mem) (Some (c_mem p)) cb
  else mkResult TRUE (Some (c_mem p)) None cb.

Section EncodeMore.

Variable LocalAlloc : Allocator.

(** [HeapAlloc(GetProcessHeap(), 0, n)] by the number of the call of
    [CRYPT_AsnEncodeRdn] that makes the request, and the number of the
    request within that call. *)
Variable HeapAlloc : nat → nat → Allocator.

Variable FileTimeToSystemTime : Z → option SYSTEMTIME.

(** The sizing loop of [CRYPT_AsnEncodeName], from call [i] of the SET OF
    encoder on: [ret], what the local [size] holds, and [bytesNeeded]. *)
Fixpoint Name_measure (i : nat) (rdns : list CERT_RDN) (size bytesNeeded : Z)
  : Exec (Ret * Z * Z) :=
  match rdns with
  | [] => Done (TRUE, size, bytesNeeded)
  | rdn :: rdns' =>
      '(ret, _, size) ← CRYPT_AsnEncodeRdn (HeapAlloc i) rdn None size;
      if negb (is_TRUE ret) then Done (ret, size, bytesNeeded) else
      Name_measure (S i) rdns' size (DWORD_wrap (bytesNeeded + size))
  end.

(** The encoding loop: [ret] and the memory at [pbEncoded]. *)
Fixpoint Name_encode_each (i : nat) (rdns : list CERT_RDN) (pbEncoded : Cursor)
    (bytesNeeded : Z) : Exec (Ret * Cursor) :=
  match rdns with
  | [] => Done (TRUE, pbEncoded)
  | rdn :: rdns' =>
      '(ret, q, size) ←
        CRYPT_AsnEncodeRdn (HeapAlloc i) rdn (Some pbEncoded) bytesNeeded;
      let p := from_option (rebase pbEncoded) pbEncoded q in
      if negb (is_TRUE ret) then Done (ret, p) else
      Name_encode_each (S i) rdns' (advance p size)
        (DWORD_wrap (bytesNeeded - size))
  end.

(** [size] is what the local of that name holds on entry: it is not
    initialised, and the first call that gets its address need not be one
    that stores to it. *)
Definition CRYPT_AsnEncodeName (size : Z) (dwFlags : Z)
    (pEncodePara : option CRYPT_CODEC_PARA)
    (pvStructInfo : option CERT_NAME_INFO) (pbEncoded : option (list byte))
    (pcbEncoded : Z) : Exec Result :=
  match pvStructInfo with
  | None =>
      Done (mkResult (FALSE (Some STATUS_ACCESS_VIOLATION)) pbEncoded None
              pcbEncoded)
  | Some info =>
      if negb (cRDN info =? 0) && negb (bool_decide (is_Some (rgRDN info)))
      then Done (mkResult (FALSE (Some STATUS_ACCESS_VIOLATION)) pbEncoded
                   None pcbEncoded)
      else
        rdns ← (if cRDN info =? 0 then Done []
                else array_prefix (cRDN info) (default [] (rgRDN info)));
        '(ret, size, bytesNeeded) ← Name_measure 0 rdns size 0;
        lenBytes ← lenBytes_of bytesNeeded;
        let bytesNeeded := DWORD_wrap (bytesNeeded + (1 + lenBytes)) in
        if negb (is_TRUE ret)
        then Done (mkResult ret pbEncoded None pcbEncoded) else
        match pbEncoded with
        | None => Done (mkResult TRUE None None bytesNeeded)
        | Some mem =>
            let '(ret, block, cb) :=
              CRYPT_EncodeEnsureSpace LocalAlloc dwFlags pEncodePara
                pcbEncoded bytesNeeded in
            if negb (is_TRUE ret) then Done (mkResult ret (Some mem) None cb)
            else
              let p0 := mkCursor (default mem block) 0 in
              p ← emit p0 [BYTE_of (Z.lor ASN_CONSTRUCTOR ASN_SEQUENCEOF)];
              '(_, q, size) ←
                CRYPT_EncodeLen (DWORD_wrap (bytesNeeded - lenBytes - 1))
                  (Some p) size;
              let p := advance (from_option (rebase p) p q) size in
              '(ret, p) ←
                Name_encode_each (length rdns) rdns p bytesNeeded;
              let r := written mem block p cb in
              Done (mkResult ret (r_buf r) (r_alloc r) (r_cb r))
        end
  end.

Definition CRYPT_AsnEncodeOctets (dwFlags : Z)
    (pEncodePara : option CRYPT_CODEC_PARA)
    (pvStructInfo : option CRYPT_DATA_BLOB) (pbEncoded : option (list byte))
    (pcbEncoded : Z) : Exec Result :=
  match pvStructInfo with
  | None =>
      Done (mkResult (FALSE (Some STATUS_ACCESS_VIOLATION)) pbEncoded None
              pcbEncoded)
  | Some blob =>
      lenBytes ← lenBytes_of (cbData blob);
      let bytesNeeded := DWORD_wrap (1 + lenBytes + cbData blob) in
      match pbEncoded with
      | None => Done (mkResult TRUE None None bytesNeeded)
      | Some mem =>
          let '(ret, block, cb) :=
            CRYPT_EncodeEnsureSpace LocalAlloc dwFlags pEncodePara pcbEncoded
              bytesNeeded in
          if negb (is_TRUE ret) then Done (mkResult ret (Some mem) None cb)
          else
            let p0 := mkCursor (default mem block) 0 in
            p ← emit p0 [BYTE_of ASN_OCTETSTRING];
            '(_, q, lenBytes) ←
              CRYPT_EncodeLen (cbData blob) (Some p) lenBytes;
            let p := advance (from_option (rebase p) p q) lenBytes in
            p ← (if cbData blob =? 0 then Done p else
                 data ← read_bytes (pbData blob) (cbData blob);
                 poke p data);
            Done (written mem block p cb)
      end
  end.

(** [pvStructInfo] addresses an [INT]: the memory from there on. *)
Definition CRYPT_AsnEncodeInt (fuel : nat) (dwFlags : Z)
    (pEncodePara : option CRYPT_CODEC_PARA)
    (pvStructInfo : option (list byte)) (pbEncoded : option (list byte))
    (pcbEncoded : Z) : Running Result :=
  match pvStructInfo with
  | None =>
      Some (Done (mkResult (FALSE (Some STATUS_ACCESS_VIOLATION)) pbEncoded
                    None pcbEncoded))
  | Some info =>
      match read_bytes info sizeof_int with
      | Undefined => Some Undefined
      | Done bytes =>
          let val := INT_of_bytes bytes in
          (* Count the number of significant bytes.  Temporarily swap sign
             for negatives so I count the minimum number of bytes. *)
          let neg := val <? 0 in
          let val := if neg then INT_wrap (- val) else val in
          match EncodeInt_significant fuel val sizeof_int with
          | None => None
          | Some (val, significantBytes) =>
              let val := if neg then INT_wrap (- val) else val in
              let top := Z.land (DWORD_wrap val) 0xff000000 in
              let '(padByte, pad) :=
                if neg then
                  if top <? 0x80000000 then (0xff, true) else (0, false)
                else if top >? 0x7f000000 then (0, true) else (0, false) in
              let bytesNeeded := (2 + significantBytes) mod 256 in
              let bytesNeeded :=
                if pad : bool then (bytesNeeded + 1) mod 256
                else bytesNeeded in
              Some
                match pbEncoded with
                | None => Done (mkResult TRUE None None bytesNeeded)
                | Some mem =>
                    let '(ret, block, cb) :=
                      CRYPT_EncodeEnsureSpace LocalAlloc dwFlags pEncodePara
                        pcbEncoded bytesNeeded in
                    if negb (is_TRUE ret)
                    then Done (mkResult ret (Some mem) None cb)
                    else
                      let p0 := mkCursor (default mem block) 0 in
                      p ← emit p0 [BYTE_of ASN_INTEGER];
                      p ← (if pad
                           then emit p [BYTE_of (significantBytes + 1);
                                        BYTE_of padByte]
                           else emit p [BYTE_of significantBytes]);
                      p ← poke p (EncodeInt_octets
                                    (Z.to_nat significantBytes) val);
                      Done (written mem block p cb)
                end
          end
      end
  end.

(** [CRYPT_INTEGER_BLOB] is [CRYPT_DATA_BLOB]: the bytes are little-endian. *)
Definition CRYPT_AsnEncodeInteger (dwFlags : Z)
    (pEncodePara : option CRYPT_CODEC_PARA)
    (pvStructInfo : option CRYPT_DATA_BLOB) (pbEncoded : option (list byte))
    (pcbEncoded : Z) : Exec Result :=
  match pvStructInfo with
  | None =>
      Done (mkResult (FALSE (Some STATUS_ACCESS_VIOLATION)) pbEncoded None
              pcbEncoded)
  | Some blob =>
      let significantBytes := cbData blob in
      '(significantBytes, padByte, pad) ←
        (if significantBytes =? 0 then Done (significantBytes, 0, false) else
         top ← top_byte (pbData blob) significantBytes;
         if negb (Z.land (BYTE_val top) 0x80 =? 0) then
           (* negative, lop off leading (little-endian) 0xffs *)
           significantBytes ←
             lop_off (Z.to_nat significantBytes) (pbData blob) xff;
           top ← top_byte (pbData blob) significantBytes;
           Done (if BYTE_val top <? 0x80 then (significantBytes, 0xff, true)
                 else (significantBytes, 0, false))
         else
           (* positive, lop off leading (little-endian) zeroes *)
           significantBytes ←
             lop_off (Z.to_nat significantBytes) (pbData blob) x00;
           top ← top_byte (pbData blob) significantBytes;
           Done (if BYTE_val top >? 0x7f then (significantBytes, 0, true)
                 else (significantBytes, 0, false)));
      let len :=
        if pad : bool then DWORD_wrap (significantBytes + 1)
        else significantBytes in
      lenBytes ← lenBytes_of len;
      let bytesNeeded := (1 + lenBytes + significantBytes) mod 256 in
      let bytesNeeded :=
        if pad then (bytesNeeded + 1) mod 256 else bytesNeeded in
      match pbEncoded with
      | None => Done (mkResult TRUE None None bytesNeeded)
      | Some mem =>
          let '(ret, block, cb) :=
            CRYPT_EncodeEnsureSpace LocalAlloc dwFlags pEncodePara pcbEncoded
              bytesNeeded in
          if negb (is_TRUE ret) then Done (mkResult ret (Some mem) None cb)
          else
            let p0 := mkCursor (default mem block) 0 in
            p ← emit p0 [BYTE_of ASN_INTEGER];
            '(_, q, lenBytes) ← CRYPT_EncodeLen len (Some p) lenBytes;
            let p := advance (from_option (rebase p) p q) lenBytes in
            p ← (if pad then emit p [BYTE_of padByte] else Done p);
            p ← copy_reversed (Z.to_nat significantBytes) (pbData blob) p;
            Done (written mem block p cb)
      end
  end.

Definition CRYPT_AsnEncodeUnsignedInteger (dwFlags : Z)
    (pEncodePara : option CRYPT_CODEC_PARA)
    (pvStructInfo : option CRYPT_DATA_BLOB) (pbEncoded : option (list byte))
    (pcbEncoded : Z) : Exec Result :=
  match pvStructInfo with
  | None =>
      Done (mkResult (FALSE (Some STATUS_ACCESS_VIOLATION)) pbEncoded None
              pcbEncoded)
  | Some blob =>
      let significantBytes := cbData blob in
      '(significantBytes, pad) ←
        (if significantBytes =? 0 then Done (significantBytes, false) else
         (* positive, lop off leading (little-endian) zeroes *)
         significantBytes ←
           lop_off (Z.to_nat significantBytes) (pbData blob) x00;
         top ← top_byte (pbData blob) significantBytes;
         Done (significantBytes, BYTE_val top >? 0x7f));
      let len :=
        if pad : bool then DWORD_wrap (significantBytes + 1)
        else significantBytes in
      lenBytes ← lenBytes_of len;
      let bytesNeeded := (1 + lenBytes + significantBytes) mod 256 in
      let bytesNeeded :=
        if pad then (bytesNeeded + 1) mod 256 else bytesNeeded in
      match pbEncoded with
      | None => Done (mkResult TRUE None None bytesNeeded)
      | Some mem =>
          let '(ret, block, cb) :=
            CRYPT_EncodeEnsureSpace LocalAlloc dwFlags pEncodePara pcbEncoded
              bytesNeeded in
          if negb (is_TRUE ret) then Done (mkResult ret (Some mem) None cb)
          else
            let p0 := mkCursor (default mem block) 0 in
            p ← emit p0 [BYTE_of ASN_INTEGER];
            '(_, q, lenBytes) ← CRYPT_EncodeLen len (Some p) lenBytes;
            let p := advance (from_option (rebase p) p q) lenBytes in
            p ← (if pad then emit p [x00] else Done p);
            p ← copy_reversed (Z.to_nat significantBytes) (pbData blob) p;
            Done (written mem block p cb)
      end
  end.

(** [pbEncoded[0] = tag;] in the memory a writing call has filled. *)
Definition set_tag (tag : Z) (mem : list byte) : Exec (list byte) :=
  p ← poke (mkCursor mem 0) [BYTE_of tag]; Done (c_mem p).

(** [pvStructInfo] addresses a [DWORD]: the memory from there on.  It is
    not compared with NULL; a NULL is what [blob.pbData] then is, and the
    unsigned-integer encoder reads through it. *)
Definition CRYPT_AsnEncodeEnumerated (dwFlags : Z)
    (pEncodePara : option CRYPT_CODEC_PARA)
    (pvStructInfo : option (list byte)) (pbEncoded : option (list byte))
    (pcbEncoded : Z) : Exec Result :=
  match pvStructInfo with
  | None => Undefined
  | Some info =>
      (* Encode as an unsigned integer, then change the tag to enumerated *)
      let blob := mkBlob sizeof_DWORD info in
      r ← CRYPT_AsnEncodeUnsignedInteger dwFlags pEncodePara (Some blob)
            pbEncoded pcbEncoded;
      if is_TRUE (r_ret r) && is_Some_b pbEncoded then
        if has_flag dwFlags CRYPT_ENCODE_ALLOC_FLAG then
          block ← defined (r_alloc r);
          block ← set_tag ASN_ENUMERATED block;
          Done (mkResult (r_ret r) (r_buf r) (Some block) (r_cb r))
        else
          mem ← defined (r_buf r);
          mem ← set_tag ASN_ENUMERATED mem;
          Done (mkResult (r_ret r) (Some mem) (r_alloc r) (r_cb r))
      else Done r
  end.

(** The text of a time with the year in [%04d]; like the UTCTime encoder,
    it has the day before the month. *)
Definition CRYPT_AsnEncodeGeneralizedTime (dwFlags : Z)
    (pEncodePara : option CRYPT_CODEC_PARA) (pvStructInfo : option Z)
    (pbEncoded : option (list byte)) (pcbEncoded : Z) : Exec Result :=
  (* enough for tag, len, YYYYMMDDHHMMSSZ\0 *)
  let sizeof_buf := 18 in
  let bytesNeeded := sizeof_buf - 1 in
  match pvStructInfo with
  | None =>
      Done (mkResult (FALSE (Some STATUS_ACCESS_VIOLATION)) pbEncoded None
              pcbEncoded)
  | Some ft =>
      match pbEncoded with
      | None => Done (mkResult TRUE None None bytesNeeded)
      | Some mem =>
          match FileTimeToSystemTime ft with
          | None => Done (mkResult (FALSE None) pbEncoded None pcbEncoded)
          | Some sysTime =>
              let '(ret, block, cb) :=
                CRYPT_EncodeEnsureSpace LocalAlloc dwFlags pEncodePara
                  pcbEncoded bytesNeeded in
              if negb (is_TRUE ret)
              then Done (mkResult ret (Some mem) None cb)
              else
                let p0 := mkCursor (default mem block) 0 in
                let text :=
                  fmt_04d (wYear sysTime)
                  +:+ fmt_02d (wDay sysTime) +:+ fmt_02d (wMonth sysTime)
                  +:+ fmt_02d (wHour sysTime) +:+ fmt_02d (wMinute sysTime)
                  +:+ fmt_02d (wSecond sysTime) +:+ "Z" in
                (* snprintf stores at most sizeof(buf) - 3 characters; the
                   six conversions and the Z never give fewer *)
                let text :=
                  take (Z.to_nat (sizeof_buf - 3)) (string_bytes text) in
                if negb (Z.of_nat (length text) =? sizeof_buf - 3)
                then Undefined else
                let buf :=
                  BYTE_of ASN_GENERALTIME :: BYTE_of (bytesNeeded - 2)
                  :: text in
                p ← poke p0 buf;
                Done (written mem block p cb)
          end
      end
  end.

Definition CRYPT_AsnEncodeChoiceOfTime (dwFlags : Z)
    (pEncodePara : option CRYPT_CODEC_PARA) (pvStructInfo : option Z)
    (pbEncoded : option (list byte)) (pcbEncoded : Z) : Exec Result :=
  match pvStructInfo with
  | None =>
      Done (mkResult (FALSE (Some STATUS_ACCESS_VIOLATION)) pbEncoded None
              pcbEncoded)
  | Some ft =>
      (* Check the year, if it's in the UTCTime range call that encode func *)
      match FileTimeToSystemTime ft with
      | None => Done (mkResult (FALSE None) pbEncoded None pcbEncoded)
      | Some sysTime =>
          if (wYear sysTime >=? 1950) && (wYear sysTime <=? 2050)
          then CRYPT_AsnEncodeUtcTime LocalAlloc FileTimeToSystemTime dwFlags
                 pEncodePara pvStructInfo pbEncoded pcbEncoded
          else CRYPT_AsnEncodeGeneralizedTime dwFlags pEncodePara pvStructInfo
                 pbEncoded pcbEncoded
      end
  end.

End EncodeMore.

(** A [CERT_RDN] and a [CERT_NAME_INFO] that hold as many elements as they
    count. *)
Definition rdn_of (attrs : list CERT_RDN_ATTR) : CERT_RDN :=
  mkRdn (Z.of_nat (length attrs)) (Some attrs).

Definition name_of (names : list (list CERT_RDN_ATTR)) : CERT_NAME_INFO :=
  mkNameInfo (Z.of_nat (length names)) (Some (rdn_of <$> names)).

(** The SET OFs of a name one after the other, in the order of the array. *)
Definition Name_content (names : list (list CERT_RDN_ATTR)) : list byte :=
  mjoin (Rdn_bytes <$> names).

(** ** The other decoders *)

Definition sizeof_CRYPT_DATA_BLOB : Z := 8.
Definition sizeof_CRYPT_BIT_BLOB : Z := 12.

(** Where the [pbData] of a decoded blob points: into the encoded input
    (the NOCOPY flag) or into the output area, at an offset from its
    start. *)
Inductive BlobData : Set :=
  | InEncoded (offset : Z)
  | InStructInfo (offset : Z).

(** The fields a blob decoder stores at the start of the output area:
    [cbData], [pbData] and, for a bit string, [cUnusedBits].  The bytes of
    the fields are not spelled out: in the memory of a [Result] the first
    [sizeof] bytes stand for them and are left as they were. *)
Record DecodedBlob := mkDecoded {
  d_cbData : Z;
  d_pbData : BlobData;
  d_cUnusedBits : Z
}.

(** [for (i = 0; i < n; i++) dst[i] = *(pbEncoded + from - i);] *)
Fixpoint copy_backwards (n : nat) (pbEncoded : list byte) (from : Z)
    (dst : Cursor) : Exec Cursor :=
  match n with
  | O => Done dst
  | S n' =>
      b ← peek (mkCursor pbEncoded 0) from;
      dst ← emit dst [b];
      copy_backwards n' pbEncoded (from - 1) dst
  end.

(** [memcpy(dst, pbEncoded + offset, n)] *)
Definition copy_from (pbEncoded : list byte) (offset n : Z) (dst : Cursor)
  : Exec Cursor :=
  data ← read_bytes (drop (Z.to_nat offset) pbEncoded) n;
  poke dst data.

Section DecodeMore.

Variable LocalAlloc : Allocator.

Definition CRYPT_AsnDecodeOctets (pbEncoded : option (list byte))
    (cbEncoded dwFlags : Z) (pDecodePara : option CRYPT_CODEC_PARA)
    (pvStructInfo : option (list byte)) (pcbStructInfo : Z)
  : Exec (Result * option DecodedBlob) :=
  let fail e :=
    Done (mkResult (FALSE (Some e)) pvStructInfo None pcbStructInfo, None) in
  match pbEncoded with
  | None => fail CRYPT_E_ASN1_EOD
  | Some enc =>
      let p := mkCursor enc 0 in
      got ← CRYPT_GetLen p cbEncoded;
      match got with
      | inl e => fail e
      | inr dataLen =>
          tag ← peek p 0;
          if negb (BYTE_val tag =? ASN_OCTETSTRING)
          then fail CRYPT_E_ASN1_BADTAG else
          let bytesNeeded :=
            if has_flag dwFlags CRYPT_DECODE_NOCOPY_FLAG
            then sizeof_CRYPT_DATA_BLOB
            else DWORD_wrap (dataLen + sizeof_CRYPT_DATA_BLOB) in
          match pvStructInfo with
          | None => Done (mkResult TRUE None None bytesNeeded, None)
          | Some mem =>
              let '(ret, block, cb) :=
                CRYPT_DecodeEnsureSpace LocalAlloc dwFlags pDecodePara
                  pcbStructInfo bytesNeeded in
              if negb (is_TRUE ret)
              then Done (mkResult ret (Some mem) None cb, None) else
              let area := mkCursor (default mem block) 0 in
              (* the fields of the blob are stored *)
              if Z.of_nat (length (c_mem area)) <? sizeof_CRYPT_DATA_BLOB
              then Undefined else
              b1 ← peek p 1;
              let lenBytes := GET_LEN_BYTES (BYTE_val b1) in
              if has_flag dwFlags CRYPT_DECODE_NOCOPY_FLAG then
                Done (written mem block area cb,
                      Some (mkDecoded dataLen (InEncoded (1 + lenBytes)) 0))
              else
                q ← (if dataLen =? 0 then Done area else
                     copy_from enc (1 + lenBytes) dataLen
                       (advance area sizeof_CRYPT_DATA_BLOB));
                Done (written mem block q cb,
                      Some (mkDecoded dataLen
                              (InStructInfo sizeof_CRYPT_DATA_BLOB) 0))
          end
      end
  end.

Definition CRYPT_AsnDecodeBits (pbEncoded : option (list byte))
    (cbEncoded dwFlags : Z) (pDecodePara : option CRYPT_CODEC_PARA)
    (pvStructInfo : option (list byte)) (pcbStructInfo : Z)
  : Exec (Result * option DecodedBlob) :=
  let fail e :=
    Done (mkResult (FALSE (Some e)) pvStructInfo None pcbStructInfo, None) in
  match pbEncoded with
  | None => fail CRYPT_E_ASN1_EOD
  | Some enc =>
      let p := mkCursor enc 0 in
      got ← CRYPT_GetLen p cbEncoded;
      match got with
      | inl e => fail e
      | inr dataLen =>
          tag ← peek p 0;
          if negb (BYTE_val tag =? ASN_BITSTRING)
          then fail CRYPT_E_ASN1_BADTAG else
          let bytesNeeded :=
            if has_flag dwFlags CRYPT_DECODE_NOCOPY_FLAG
            then sizeof_CRYPT_BIT_BLOB
            else DWORD_wrap (dataLen - 1 + sizeof_CRYPT_BIT_BLOB) in
          match pvStructInfo with
          | None => Done (mkResult TRUE None None bytesNeeded, None)
          | Some mem =>
              let '(ret, block, cb) :=
                CRYPT_DecodeEnsureSpace LocalAlloc dwFlags pDecodePara
                  pcbStructInfo bytesNeeded in
              if negb (is_TRUE ret)
              then Done (mkResult ret (Some mem) None cb, None) else
              let area := mkCursor (default mem block) 0 in
              (* the fields of the blob are stored *)
              if Z.of_nat (length (c_mem area)) <? sizeof_CRYPT_BIT_BLOB
              then Undefined else
              let cbData := DWORD_wrap (dataLen - 1) in
              b1 ← peek p 1;
              let lenBytes := GET_LEN_BYTES (BYTE_val b1) in
              unused ← peek p (1 + lenBytes);
              let cUnusedBits := BYTE_val unused in
              if has_flag dwFlags CRYPT_DECODE_NOCOPY_FLAG then
                Done (written mem block area cb,
                      Some (mkDecoded cbData (InEncoded (2 + lenBytes))
                              cUnusedBits))
              else
                q ← (if cbData =? 0 then Done area else
                     (* BYTE mask = 0xff << blob->cUnusedBits; *)
                     if 32 <=? cUnusedBits then Undefined else
                     let mask := Z.shiftl 0xff cUnusedBits mod 256 in
                     let data := advance area sizeof_CRYPT_BIT_BLOB in
                     q ← copy_from enc (2 + lenBytes) cbData data;
                     last ← peek q (cbData - 1);
                     poke (advance q (cbData - 1))
                       [BYTE_of (Z.land (BYTE_val last) mask)]);
                Done (written mem block q cb,
                      Some (mkDecoded cbData
                              (InStructInfo sizeof_CRYPT_BIT_BLOB)
                              cUnusedBits))
          end
      end
  end.

Definition CRYPT_AsnDecodeInteger (pbEncoded : option (list byte))
    (cbEncoded dwFlags : Z) (pDecodePara : option CRYPT_CODEC_PARA)
    (pvStructInfo : option (list byte)) (pcbStructInfo : Z)
  : Exec (Result * option DecodedBlob) :=
  let fail e :=
    Done (mkResult (FALSE (Some e)) pvStructInfo None pcbStructInfo, None) in
  match pbEncoded with
  | None => fail CRYPT_E_ASN1_EOD
  | Some enc =>
      let p := mkCursor enc 0 in
      got ← CRYPT_GetLen p cbEncoded;
      match got with
      | inl e => fail e
      | inr dataLen =>
          tag ← peek p 0;
          if negb (BYTE_val tag =? ASN_INTEGER)
          then fail CRYPT_E_ASN1_BADTAG else
          b1 ← peek p 1;
          let lenBytes := GET_LEN_BYTES (BYTE_val b1) mod 256 in
          let bytesNeeded := DWORD_wrap (dataLen + sizeof_CRYPT_DATA_BLOB) in
          match pvStructInfo with
          | None => Done (mkResult TRUE None None bytesNeeded, None)
          | Some mem =>
              let '(ret, block, cb) :=
                CRYPT_DecodeEnsureSpace LocalAlloc dwFlags pDecodePara
                  pcbStructInfo bytesNeeded in
              if negb (is_TRUE ret)
              then Done (mkResult ret (Some mem) None cb, None) else
              let area := mkCursor (default mem block) 0 in
              (* the fields of the blob are stored *)
              if Z.of_nat (length (c_mem area)) <? sizeof_CRYPT_DATA_BLOB
              then Undefined else
              q ← copy_backwards (Z.to_nat dataLen) enc
                     (1 + lenBytes + dataLen - 1)
                     (advance area sizeof_CRYPT_DATA_BLOB);
              Done (written mem block q cb,
                    Some (mkDecoded dataLen
                            (InStructInfo sizeof_CRYPT_DATA_BLOB) 0))
          end
      end
  end.


End DecodeMore.

(** *** Attribute values *)

Definition sizeof_CERT_NAME_VALUE : Z := 12.

(** Where [Value.pbData] of a decoded value points: nowhere, into the
    encoded input at an offset from its start, or where the caller had set
    it, with the memory there. *)
Inductive ValueData : Type :=
  | NullData
  | EncodedData (offset : Z)
  | CallerData (mem : list byte).

(** [CERT_NAME_VALUE], decoded. *)
Record DecodedValue := mkDecodedValue {
  dv_dwValueType : Z;
  dv_cbData : Z;
  dv_pbData : ValueData
}.

(** [value] is NULL, or the struct with what its [Value.pbData] is set to:
    NULL, or the memory there.  The result holds the struct once the call
    has stored to it. *)
Definition CRYPT_AsnDecodeNameValue (pbEncoded : list byte)
    (cbEncoded dwFlags : Z) (value : option (option (list byte)))
    (pcbValue : Z) : Exec (Ret * option DecodedValue * Z) :=
  let p := mkCursor pbEncoded 0 in
  got ← CRYPT_GetLen p cbEncoded;
  match got with
  | inl e => Done (FALSE (Some e), None, pcbValue)
  | inr dataLen =>
      b1 ← peek p 1;
      let lenBytes := GET_LEN_BYTES (BYTE_val b1) mod 256 in
      tag ← peek p 0;
      let tag := BYTE_val tag in
      if negb ((tag =? ASN_NUMERICSTRING) || (tag =? ASN_PRINTABLESTRING)
               || (tag =? ASN_IA5STRING))
      then Done (FALSE (Some OSS_UNIMPLEMENTED), None, pcbValue) else
      let bytesNeeded :=
        if negb (dataLen =? 0)
           && negb (has_flag dwFlags CRYPT_DECODE_NOCOPY_FLAG)
        then DWORD_wrap (sizeof_CERT_NAME_VALUE + dataLen)
        else sizeof_CERT_NAME_VALUE in
      match value with
      | None => Done (TRUE, None, bytesNeeded)
      | Some pbData =>
          if pcbValue <? bytesNeeded
          then Done (FALSE (Some ERROR_MORE_DATA), None, bytesNeeded) else
          let dwValueType :=
            if tag =? ASN_NUMERICSTRING then CERT_RDN_NUMERIC_STRING
            else if tag =? ASN_PRINTABLESTRING then CERT_RDN_PRINTABLE_STRING
            else CERT_RDN_IA5_STRING in
          if dataLen =? 0
          then Done (TRUE, Some (mkDecodedValue dwValueType 0 NullData),
                     bytesNeeded)
          else if has_flag dwFlags CRYPT_DECODE_NOCOPY_FLAG
          then Done (TRUE,
                     Some (mkDecodedValue dwValueType dataLen
                             (EncodedData (1 + lenBytes))),
                     bytesNeeded)
          else
            match pbData with
            | None =>
                Done (FALSE (Some CRYPT_E_ASN1_INTERNAL),
                      Some (mkDecodedValue dwValueType dataLen NullData),
                      bytesNeeded)
            | Some mem =>
                q ← copy_from pbEncoded (1 + lenBytes) dataLen
                      (mkCursor mem 0);
                Done (TRUE,
                      Some (mkDecodedValue dwValueType dataLen
                              (CallerData (c_mem q))),
                      bytesNeeded)
            end
      end
  end.

(** *** Object identifiers *)

(** [snprintf(buf, size, ...)] leaves at most [size - 1] characters of the
    text in [buf]. *)
Definition snprintf (size : nat) (text : string) : string :=
  String.string_of_list_ascii
    (take (size - 1) (String.list_ascii_of_string text)).

(** [sprintf(p, ...)]: the text and its NUL go to [p], however much room
    there is. *)
Definition sprintf (p : Cursor) (text : string) : Exec Cursor :=
  poke p (string_bytes text ++ [x00]).

(** [val <<= 7; val |= b;] for an [int]. *)
Definition Oid_shift_in (val b : Z) : Z :=
  INT_wrap (Z.lor (INT_wrap (Z.shiftl val 7)) b).

(** ["%d.%d"] of [first / 40] and [first - (first / 40) * 40]. *)
Definition firstTwo_text (first : Z) : string :=
  pretty (first / 40) +:+ "." +:+ pretty (first - (first / 40) * 40).

(** The first pair of loops of [CRYPT_AsnDecodeOid], as one walk over the
    [remaining] content octets, the number of those for which
    [ptr - pbEncoded - 1 - lenBytes < dataLen]; [mid] says that the inner
    [while] has taken octets of an arc whose last octet has not come.
    When the content ends there the arc is corrupt; when it ends after a
    last octet the outer loop is left. *)
Fixpoint DecodeOid_measure (remaining : nat) (ptr : Cursor) (mid : bool)
    (val bytesNeeded : Z) : Exec (Ret * Z) :=
  match remaining with
  | O =>
      if mid then Done (FALSE (Some CRYPT_E_ASN1_CORRUPT), bytesNeeded)
      else Done (TRUE, bytesNeeded)
  | S remaining' =>
      b ← peek ptr 0;
      if negb (Z.land (BYTE_val b) 0x80 =? 0)
      then DecodeOid_measure remaining' (advance ptr 1) true
             (Oid_shift_in val (Z.land (BYTE_val b) 0x7f)) bytesNeeded
      else
        let val := Oid_shift_in val (BYTE_val b) in
        (* large enough for ".4000000" *)
        let str := snprintf 9 ("." +:+ pretty val) in
        DecodeOid_measure remaining' (advance ptr 1) false 0
          (DWORD_wrap (bytesNeeded + Z.of_nat (String.length str)))
  end.

(** The second pair of loops, which does not look for the end of the
    content after the inner [while]: the octet there is taken as the last
    of the arc. *)
Fixpoint DecodeOid_print (remaining : nat) (ptr : Cursor) (mid : bool)
    (val : Z) (pszObjId : Cursor) : Exec Cursor :=
  match remaining with
  | O =>
      if mid then
        b ← peek ptr 0;
        let text := "." +:+ pretty (Oid_shift_in val (BYTE_val b)) in
        pszObjId ← sprintf pszObjId text;
        Done (advance pszObjId (Z.of_nat (String.length text)))
      else Done pszObjId
  | S remaining' =>
      b ← peek ptr 0;
      if negb (Z.land (BYTE_val b) 0x80 =? 0)
      then DecodeOid_print remaining' (advance ptr 1) true
             (Oid_shift_in val (Z.land (BYTE_val b) 0x7f)) pszObjId
      else
        let text := "." +:+ pretty (Oid_shift_in val (BYTE_val b)) in
        pszObjId ← sprintf pszObjId text;
        DecodeOid_print remaining' (advance ptr 1) false 0
          (advance pszObjId (Z.of_nat (String.length text)))
  end.

(** [pbEncoded] is the memory at that pointer, [pszObjId] the memory of the
    output string.  [dwFlags] is not looked at. *)
Definition CRYPT_AsnDecodeOid (pbEncoded : list byte) (cbEncoded : Z)
    (pszObjId : option (list byte)) (pcbObjId : Z) : Exec Result :=
  let p := mkCursor pbEncoded 0 in
  got ← CRYPT_GetLen p cbEncoded;
  match got with
  | inl e => Done (mkResult (FALSE (Some e)) pszObjId None pcbObjId)
  | inr dataLen =>
      tag ← peek p 0;
      if negb (BYTE_val tag =? ASN_OBJECTIDENTIFIER)
      then Done (mkResult (FALSE (Some CRYPT_E_ASN1_BADTAG)) pszObjId None
                   pcbObjId)
      else
        b1 ← peek p 1;
        let lenBytes := GET_LEN_BYTES (BYTE_val b1) mod 256 in
        if dataLen =? 0 then Done (mkResult TRUE pszObjId None 0) else
        first ← peek p (1 + lenBytes);
        (* The largest possible string for the first two components is
           2.175 (= 2 * 40 + 175 = 255), so this is big enough. *)
        let firstTwo := snprintf 6 (firstTwo_text (BYTE_val first)) in
        let bytesNeeded := Z.of_nat (String.length firstTwo) + 1 in
        let ptr := advance p (2 + lenBytes) in
        '(ret, bytesNeeded) ←
          DecodeOid_measure (Z.to_nat dataLen - 1) ptr false 0 bytesNeeded;
        match pszObjId with
        | None => Done (mkResult ret None None bytesNeeded)
        | Some mem =>
            if pcbObjId <? bytesNeeded
            then Done (mkResult (FALSE (Some ERROR_MORE_DATA)) (Some mem)
                         None bytesNeeded)
            else
              let text := firstTwo_text (BYTE_val first) in
              out ← sprintf (mkCursor mem 0) text;
              let out := advance out (Z.of_nat (String.length text)) in
              out ← (if is_TRUE ret
                     then DecodeOid_print (Z.to_nat dataLen - 1) ptr false 0
                            out
                     else Done out);
              Done (mkResult ret (Some (c_mem out)) None bytesNeeded)
        end
  end.

(** The text of an OID whose first content octet is [first] and whose
    other arcs are [arcs]. *)
Definition Oid_text (first : Z) (arcs : list Z) : string :=
  foldl (λ text val, text +:+ "." +:+ pretty val) (firstTwo_text first) arcs.

(** ** More data of the examples *)

(** 2015-03-04 00:00:00 UTC, and 2015-04-03 00:00:00 UTC, which has its
    day and month the other way round. *)
Definition ft_2015_03_04 : Z := 130699008000000000.
Definition ft_2015_04_03 : Z := 130724928000000000.

(** A heap that never runs out, of zero bytes. *)
Definition zeroed_heap : Allocator := λ _, Some (λ _, x00).

(** commonName with a value of 250 characters. *)
Definition attr_long : CERT_RDN_ATTR :=
  printable_attr "2.5.4.3"
    (String.string_of_list_ascii (replicate 250 "a"%char)).

(** * Properties *)

(** ** Bytes *)

Lemma BYTE_val_range (b : byte) : 0 ≤ BYTE_val b < 256.
Proof.
  unfold BYTE_val. pose proof (Byte.to_N_bounded b) as H. lia.
Qed.

Lemma BYTE_of_val (b : byte) : BYTE_of (BYTE_val b) = b.
Proof.
  unfold BYTE_of, BYTE_val. pose proof (BYTE_val_range b) as H.
  unfold BYTE_val in H. rewrite Z.mod_small by lia.
  rewrite N2Z.id, Byte.of_to_N. reflexivity.
Qed.

Lemma BYTE_val_of (z : Z) : 0 ≤ z < 256 → BYTE_val (BYTE_of z) = z.
Proof.
  intros H. unfold BYTE_of, BYTE_val. rewrite Z.mod_small by lia.
  destruct (Byte.of_N (Z.to_N z)) as [b|] eqn:E.
  - apply Byte.to_of_N in E. simpl. rewrite E. lia.
  - apply Byte.of_N_None_iff in E. lia.
Qed.

(** ** Sizing calls of the fixed-size decoders *)

Section DecodeFacts.

Variable LocalAlloc : Allocator.
Variable SystemTimeToFileTime : SYSTEMTIME → option Z.

(** C10.  A sizing call (NULL output pointer) of the fixed-width integer,
    enumerated, UTCTime, GeneralizedTime and ChoiceOfTime decoders on an
    input that is not NULL and not empty succeeds with the size of an [int],
    respectively of a [FILETIME], whatever the input bytes are: no tag,
    length octet or content byte is looked at. *)
Theorem sizing_call_fixed_size (enc : list byte) (cbEncoded dwFlags : Z)
    (pDecodePara : option CRYPT_CODEC_PARA) (pcbStructInfo : Z) :
  cbEncoded ≠ 0 →
  CRYPT_AsnDecodeInt LocalAlloc (Some enc) cbEncoded dwFlags pDecodePara None
    pcbStructInfo = Done (mkResult TRUE None None sizeof_int)
  ∧ CRYPT_AsnDecodeEnumerated LocalAlloc (Some enc) cbEncoded dwFlags
      pDecodePara None pcbStructInfo
    = Done (mkResult TRUE None None sizeof_int)
  ∧ CRYPT_AsnDecodeUtcTime LocalAlloc SystemTimeToFileTime (Some enc)
      cbEncoded dwFlags pDecodePara None pcbStructInfo
    = Done (mkResult TRUE None None sizeof_FILETIME)
  ∧ CRYPT_AsnDecodeGeneralizedTime LocalAlloc SystemTimeToFileTime (Some enc)
      cbEncoded dwFlags pDecodePara None pcbStructInfo
    = Done (mkResult TRUE None None sizeof_FILETIME)
  ∧ CRYPT_AsnDecodeChoiceOfTime LocalAlloc SystemTimeToFileTime (Some enc)
      cbEncoded dwFlags pDecodePara None pcbStructInfo
    = Done (mkResult TRUE None None sizeof_FILETIME).
Proof.
  intros Hcb. apply Z.eqb_neq in Hcb.
  unfold CRYPT_AsnDecodeInt, CRYPT_AsnDecodeEnumerated,
    CRYPT_AsnDecodeUtcTime, CRYPT_AsnDecodeGeneralizedTime,
    CRYPT_AsnDecodeChoiceOfTime.
  rewrite Hcb. repeat split; reflexivity.
Qed.

End DecodeFacts.

Lemma sizing_call_fixed_size_witness :
  let garbage := [xff] in
  CRYPT_AsnDecodeInt out_of_memory (Some garbage) 1 0 None None 0
    = Done (mkResult TRUE None None sizeof_int)
  ∧ CRYPT_AsnDecodeEnumerated out_of_memory (Some garbage) 1 0 None None 0
    = Done (mkResult TRUE None None sizeof_int)
  ∧ CRYPT_AsnDecodeUtcTime out_of_memory SystemTimeToFileTime_calendar
      (Some garbage) 1 0 None None 0
    = Done (mkResult TRUE None None sizeof_FILETIME)
  ∧ CRYPT_AsnDecodeGeneralizedTime out_of_memory
      SystemTimeToFileTime_calendar (Some garbage) 1 0 None None 0
    = Done (mkResult TRUE None None sizeof_FILETIME)
  ∧ CRYPT_AsnDecodeChoiceOfTime out_of_memory SystemTimeToFileTime_calendar
      (Some garbage) 1 0 None None 0
    = Done (mkResult TRUE None None sizeof_FILETIME).
Proof.
  apply (sizing_call_fixed_size out_of_memory SystemTimeToFileTime_calendar
           [xff] 1 0 None 0).
  lia.
Defined.

(** ** UTCTime encoding *)

Section EncodeFacts.

Variable LocalAlloc : Allocator.
Variable FileTimeToSystemTime : Z → option SYSTEMTIME.

(** C7.  A time whose year is below 1950 or above 2050 makes the UTCTime
    encoder fail with [CRYPT_E_BAD_ENCODE]; the output memory and the size
    cell are left as they were and nothing is allocated. *)
Theorem CRYPT_AsnEncodeUtcTime_year_out_of_range (dwFlags : Z)
    (pEncodePara : option CRYPT_CODEC_PARA) (ft : Z) (sysTime : SYSTEMTIME)
    (pbEncoded : option (list byte)) (pcbEncoded : Z) :
  FileTimeToSystemTime ft = Some sysTime →
  wYear sysTime < 1950 ∨ wYear sysTime > 2050 →
  CRYPT_AsnEncodeUtcTime LocalAlloc FileTimeToSystemTime dwFlags pEncodePara
    (Some ft) pbEncoded pcbEncoded
  = Done (mkResult (FALSE (Some CRYPT_E_BAD_ENCODE)) pbEncoded None pcbEncoded).
Proof.
  intros Hft Hyear. unfold CRYPT_AsnEncodeUtcTime. rewrite Hft.
  assert ((wYear sysTime <? 1950) || (wYear sysTime >? 2050) = true) as ->.
  { apply orb_true_iff. destruct Hyear; [left|right]; lia. }
  reflexivity.
Qed.

End EncodeFacts.

Lemma CRYPT_AsnEncodeUtcTime_year_out_of_range_witness :
  (wYear <$> FileTimeToSystemTime_calendar ft_1949_12_31 = Some 1949
   ∧ CRYPT_AsnEncodeUtcTime out_of_memory FileTimeToSystemTime_calendar 0 None
       (Some ft_1949_12_31) (Some (replicate 15 x00)) 15
     = Done (mkResult (FALSE (Some CRYPT_E_BAD_ENCODE))
               (Some (replicate 15 x00)) None 15))
  ∧ (wYear <$> FileTimeToSystemTime_calendar ft_2051_01_01 = Some 2051
     ∧ CRYPT_AsnEncodeUtcTime out_of_memory FileTimeToSystemTime_calendar 0
         None (Some ft_2051_01_01) (Some (replicate 15 x00)) 15
       = Done (mkResult (FALSE (Some CRYPT_E_BAD_ENCODE))
                 (Some (replicate 15 x00)) None 15)).
Proof.
  split; (split; [reflexivity|]).
  - eapply (CRYPT_AsnEncodeUtcTime_year_out_of_range out_of_memory
              FileTimeToSystemTime_calendar 0 None ft_1949_12_31).
    + reflexivity.
    + left. vm_compute. reflexivity.
  - eapply (CRYPT_AsnEncodeUtcTime_year_out_of_range out_of_memory
              FileTimeToSystemTime_calendar 0 None ft_2051_01_01).
    + reflexivity.
    + right. vm_compute. reflexivity.
Defined.

(** ** Registration *)

Section RegistryFacts.

Variable HeapAlloc : nat → Allocator.
Context {Store HKEY : Type}.
Variable RegCreateKeyA : Store → string → option HKEY * Store.
Variable RegSetValueExA : Store → HKEY → string → RegData → Store.
Variable RegSetValueExW : Store → HKEY → list WCHAR → RegData → Store.
Variable RegCloseKey : Store → HKEY → Store.

(** C8, as the code has it.  Whatever the registry calls do, registration
    returns TRUE and hands back the store it was given when the encoding
    type has no certificate encoding or when [pwszDll] is NULL; otherwise,
    when [pszFuncName] or [pszOID] is NULL, it fails with
    [ERROR_INVALID_PARAMETER], again with the store it was given. *)
Theorem CryptRegisterOIDFunction_early_exits (st : Store)
    (dwEncodingType : Z) (pszFuncName : option string) (pszOID : LPCSTR)
    (pwszDll : option (list WCHAR)) (pszOverrideFuncName : option string) :
  (GET_CERT_ENCODING_TYPE dwEncodingType = 0 ∨ pwszDll = None →
   CryptRegisterOIDFunction HeapAlloc RegCreateKeyA RegSetValueExA
     RegSetValueExW RegCloseKey st dwEncodingType pszFuncName pszOID pwszDll
     pszOverrideFuncName = Done (TRUE, st))
  ∧ (GET_CERT_ENCODING_TYPE dwEncodingType ≠ 0 → pwszDll ≠ None →
     pszFuncName = None ∨ pszOID = Ordinal 0 →
     CryptRegisterOIDFunction HeapAlloc RegCreateKeyA RegSetValueExA
       RegSetValueExW RegCloseKey st dwEncodingType pszFuncName pszOID pwszDll
       pszOverrideFuncName = Done (FALSE (Some ERROR_INVALID_PARAMETER), st)).
Proof.
  unfold CryptRegisterOIDFunction. split.
  - intros [Hfam | ->].
    + rewrite Hfam. reflexivity.
    + destruct (_ =? 0); reflexivity.
  - intros Hfam Hdll Hnull. apply Z.eqb_neq in Hfam. rewrite Hfam.
    destruct pwszDll as [dll|]; [|done].
    destruct Hnull as [-> | ->]; [reflexivity|].
    destruct pszFuncName; reflexivity.
Qed.

End RegistryFacts.

Lemma CryptRegisterOIDFunction_early_exits_witness :
  let store : gmap string (gmap string RegData) :=
    {[ "HKLM"%string := ∅ ]} in
  MapRegistry.CryptRegisterOIDFunction store PKCS_7_ASN_ENCODING
    (Some CryptDllEncodeObject) (Str "1.2.3") (Some crypt32_dll) None
  = Done (TRUE, store)
  ∧ MapRegistry.CryptRegisterOIDFunction store X509_ASN_ENCODING
      (Some CryptDllEncodeObject) (Str "1.2.3") None None
    = Done (TRUE, store)
  ∧ MapRegistry.CryptRegisterOIDFunction store X509_ASN_ENCODING None
      (Str "1.2.3") (Some crypt32_dll) None
    = Done (FALSE (Some ERROR_INVALID_PARAMETER), store)
  ∧ MapRegistry.CryptRegisterOIDFunction store X509_ASN_ENCODING
      (Some CryptDllEncodeObject) (Ordinal 0) (Some crypt32_dll) None
    = Done (FALSE (Some ERROR_INVALID_PARAMETER), store).
Proof.
  intros store. split; [|split; [|split]].
  - apply (CryptRegisterOIDFunction_early_exits MapRegistry.HeapAlloc
             MapRegistry.RegCreateKeyA MapRegistry.RegSetValueExA
             MapRegistry.RegSetValueExW MapRegistry.RegCloseKey).
    left. reflexivity.
  - apply (CryptRegisterOIDFunction_early_exits MapRegistry.HeapAlloc
             MapRegistry.RegCreateKeyA MapRegistry.RegSetValueExA
             MapRegistry.RegSetValueExW MapRegistry.RegCloseKey).
    right. reflexivity.
  - apply (CryptRegisterOIDFunction_early_exits MapRegistry.HeapAlloc
             MapRegistry.RegCreateKeyA MapRegistry.RegSetValueExA
             MapRegistry.RegSetValueExW MapRegistry.RegCloseKey).
    + vm_compute. discriminate.
    + discriminate.
    + left. reflexivity.
  - apply (CryptRegisterOIDFunction_early_exits MapRegistry.HeapAlloc
             MapRegistry.RegCreateKeyA MapRegistry.RegSetValueExA
             MapRegistry.RegSetValueExW MapRegistry.RegCloseKey).
    + vm_compute. discriminate.
    + discriminate.
    + right. reflexivity.
Defined.

(** C8, as the specification words it, fails: a module name that is empty
    but not NULL is registered like any other.  On an empty store the call
    returns TRUE and leaves a store that has, under the key of the
    registration, the [Dll] value of the empty string: it has written. *)
Lemma CryptRegisterOIDFunction_empty_module_name_is_stored :
  match
    MapRegistry.CryptRegisterOIDFunction ∅ X509_ASN_ENCODING
      (Some CryptDllEncodeObject) (Str "1.2.3") (Some []) None
  with
  | Done (TRUE, st) =>
      (st !! registered_key) ≫= (.!! "Dll"%string) = Some (REG_SZ_W [])
      ∧ (∅ : gmap string (gmap string RegData)) !! registered_key = None
  | _ => False
  end.
Proof. vm_compute. split; reflexivity. Qed.

(** ** The parameter check of the entry points *)

Section EntryPointFacts.

Context {StructInfo R FARPROC : Type}.
Variable encoder : Builtin → @CryptEncodeObjectExFunc StructInfo R.
Variable decoder : Builtin → @CryptDecodeObjectExFunc R.
Variable CRYPT_GetFunc : Z → LPCSTR → string → option FARPROC.
Variable as_CryptEncodeObjectFunc : FARPROC → @CryptEncodeObjectFunc StructInfo R.
Variable as_CryptEncodeObjectExFunc :
  FARPROC → @CryptEncodeObjectExFunc StructInfo R.
Variable as_CryptDecodeObjectFunc : FARPROC → @CryptDecodeObjectFunc R.
Variable as_CryptDecodeObjectExFunc : FARPROC → @CryptDecodeObjectExFunc R.

Local Abbreviation EncodeObject :=
  (CryptEncodeObject encoder CRYPT_GetFunc as_CryptEncodeObjectFunc
     as_CryptEncodeObjectExFunc).
Local Abbreviation EncodeObjectEx :=
  (CryptEncodeObjectEx encoder CRYPT_GetFunc as_CryptEncodeObjectExFunc).
Local Abbreviation DecodeObject :=
  (CryptDecodeObject decoder CRYPT_GetFunc as_CryptDecodeObjectFunc
     as_CryptDecodeObjectExFunc).
Local Abbreviation DecodeObjectEx :=
  (CryptDecodeObjectEx decoder CRYPT_GetFunc as_CryptDecodeObjectExFunc).

Lemma EncodeObjectEx_rejects enc type info flags para out cell :
  EncodeObjectEx enc type info flags para out cell
    = Rejected ERROR_INVALID_PARAMETER
  ↔ out = None ∧ cell = None.
Proof.
  unfold CryptEncodeObjectEx.
  destruct out, cell; simpl; try done;
    (split; [|intros [? ?]; congruence]);
    destruct (unknown_encoding enc); try (intros H; discriminate H);
    destruct (select_builtin type); simpl; try (intros H; discriminate H);
    destruct (CRYPT_GetFunc _ _ _); simpl; intros H; discriminate H.
Qed.

Lemma DecodeObjectEx_rejects enc type bytes cb flags para out cell :
  DecodeObjectEx enc type bytes cb flags para out cell
    = Rejected ERROR_INVALID_PARAMETER
  ↔ out = None ∧ cell = None.
Proof.
  unfold CryptDecodeObjectEx.
  destruct out, cell; simpl; try done;
    (split; [|intros [? ?]; congruence]);
    destruct (unknown_encoding enc); try (intros H; discriminate H);
    destruct (select_builtin type); simpl; try (intros H; discriminate H);
    destruct (CRYPT_GetFunc _ _ _); simpl; intros H; discriminate H.
Qed.

(** C9.  Each of the four entry points fails with
    [ERROR_INVALID_PARAMETER] of its own exactly when the output pointer
    and the size cell are both NULL.  With an output buffer and a NULL size
    cell the check passes: the Ex entry points call the selected codec (the
    built-in one, else the registered one) and the simple entry points call
    the registered function, else the Ex entry point, each time with the
    buffer and the NULL size cell as they came in. *)
Theorem entry_points_parameter_check (enc : Z) (type : LPCSTR)
    (info : option StructInfo) (bytes : option (list byte))
    (cb flags : Z) (para : option CRYPT_CODEC_PARA) :
  (∀ out cell,
     (EncodeObject enc type info out cell = Rejected ERROR_INVALID_PARAMETER
      ↔ out = None ∧ cell = None)
     ∧ (EncodeObjectEx enc type info flags para out cell
          = Rejected ERROR_INVALID_PARAMETER
        ↔ out = None ∧ cell = None)
     ∧ (DecodeObject enc type bytes cb flags out cell
          = Rejected ERROR_INVALID_PARAMETER
        ↔ out = None ∧ cell = None)
     ∧ (DecodeObjectEx enc type bytes cb flags para out cell
          = Rejected ERROR_INVALID_PARAMETER
        ↔ out = None ∧ cell = None))
  ∧ (∀ buf,
       unknown_encoding enc = false →
       (∀ c, select_builtin type = Some c →
          EncodeObjectEx enc type info flags para (Some buf) None
            = Forwarded (encoder c enc type info flags para (Some buf) None)
          ∧ DecodeObjectEx enc type bytes cb flags para (Some buf) None
            = Forwarded
                (decoder c enc type bytes cb flags para (Some buf) None))
       ∧ (∀ p, select_builtin type = None →
            CRYPT_GetFunc enc type "CryptEncodeObjectEx" = Some p →
            EncodeObjectEx enc type info flags para (Some buf) None
            = Forwarded (as_CryptEncodeObjectExFunc p enc type info flags para
                           (Some buf) None))
       ∧ (∀ p, select_builtin type = None →
            CRYPT_GetFunc enc type "CryptDecodeObjectEx" = Some p →
            DecodeObjectEx enc type bytes cb flags para (Some buf) None
            = Forwarded (as_CryptDecodeObjectExFunc p enc type bytes cb flags
                           para (Some buf) None)))
  ∧ (∀ buf,
       (∀ p, CRYPT_GetFunc enc type "CryptEncodeObject" = Some p →
          EncodeObject enc type info (Some buf) None
          = Forwarded (as_CryptEncodeObjectFunc p enc type info (Some buf)
                         None))
       ∧ (CRYPT_GetFunc enc type "CryptEncodeObject" = None →
          EncodeObject enc type info (Some buf) None
          = EncodeObjectEx enc type info 0 None (Some buf) None)
       ∧ (∀ p, CRYPT_GetFunc enc type "CryptDecodeObject" = Some p →
            DecodeObject enc type bytes cb flags (Some buf) None
            = Forwarded (as_CryptDecodeObjectFunc p enc type bytes cb flags
                           (Some buf) None))
       ∧ (CRYPT_GetFunc enc type "CryptDecodeObject" = None →
          DecodeObject enc type bytes cb flags (Some buf) None
          = DecodeObjectEx enc type bytes cb flags None (Some buf) None)).
Proof.
  split; [|split].
  - intros out cell. split; [|split; [|split]].
    + unfold CryptEncodeObject.
      destruct out, cell; simpl; try done;
        (split; [|intros [? ?]; congruence]);
        (destruct (CRYPT_GetFunc enc type "CryptEncodeObject");
         [intros H; discriminate H|]);
        intros H; apply EncodeObjectEx_rejects in H;
        destruct H; congruence.
    + apply EncodeObjectEx_rejects.
    + unfold CryptDecodeObject.
      destruct out, cell; simpl; try done;
        (split; [|intros [? ?]; congruence]);
        (destruct (CRYPT_GetFunc enc type "CryptDecodeObject");
         [intros H; discriminate H|]);
        intros H; apply DecodeObjectEx_rejects in H;
        destruct H; congruence.
    + apply DecodeObjectEx_rejects.
  - intros buf Hknown. unfold CryptEncodeObjectEx, CryptDecodeObjectEx.
    simpl. rewrite Hknown. split; [|split].
    + intros c ->. split; reflexivity.
    + intros p -> Hp. simpl. rewrite Hp. reflexivity.
    + intros p -> Hp. simpl. rewrite Hp. reflexivity.
  - intros buf. unfold CryptEncodeObject, CryptDecodeObject. simpl.
    split; [|split; [|split]].
    + intros p ->. reflexivity.
    + intros ->. reflexivity.
    + intros p ->. reflexivity.
    + intros ->. reflexivity.
Qed.

End EntryPointFacts.

(** ** Decoding a fixed-width integer *)

Lemma BYTE_val_of_mod (z : Z) : BYTE_val (BYTE_of z) = z mod 256.
Proof.
  unfold BYTE_of. rewrite <- (BYTE_val_of (z mod 256)) at 2
    by (apply Z.mod_pos_bound; lia).
  unfold BYTE_of. rewrite Z.mod_mod by lia. reflexivity.
Qed.

Lemma high_bit_clear (b : byte) :
  (Z.land (BYTE_val b) 0x80 =? 0) = (BYTE_val b <? 0x80).
Proof. destruct b; reflexivity. Qed.

Lemma lor_shifted_byte (v b : Z) :
  0 ≤ b < 256 → Z.lor (v * 256) b = v * 256 + b.
Proof.
  intros Hb. rewrite Z.add_nocarry_lxor, Z.lxor_lor; try reflexivity.
  all: apply Z.bits_inj'; intros n Hn; rewrite Z.land_spec, Z.bits_0.
  all: destruct (Z.lt_ge_cases n 8) as [Hlt|Hge].
  all: try (change 256 with (2 ^ 8); rewrite Z.mul_pow2_bits_low by lia;
            reflexivity).
  all: rewrite (Z.bits_above_log2 b n), andb_false_r; try reflexivity;
       try lia.
  all: destruct (decide (b = 0)) as [->|]; [simpl; lia|];
       apply Z.log2_lt_pow2; try lia;
       apply Z.lt_le_trans with (2 ^ 8); [lia|];
       apply Z.pow_le_mono_r; lia.
Qed.

Lemma INT_wrap_small (v : Z) : INT_MIN ≤ v ≤ INT_MAX → INT_wrap v = v.
Proof.
  unfold INT_wrap, INT_MIN, INT_MAX. intros H.
  rewrite Z.mod_small by lia. lia.
Qed.

Lemma be_unsigned_from (acc : Z) (bs : list byte) :
  foldl (λ acc b, acc * 256 + BYTE_val b) acc bs
  = acc * 256 ^ Z.of_nat (length bs) + be_unsigned bs.
Proof.
  unfold be_unsigned. revert acc. induction bs as [|b bs IH]; intros acc.
  - simpl. lia.
  - simpl foldl. rewrite IH, (IH (0 * 256 + BYTE_val b)).
    rewrite length_cons, Nat2Z.inj_succ, Z.pow_succ_r by lia. lia.
Qed.

Lemma be_unsigned_cons (b : byte) (bs : list byte) :
  be_unsigned (b :: bs)
  = BYTE_val b * 256 ^ Z.of_nat (length bs) + be_unsigned bs.
Proof.
  unfold be_unsigned at 1. simpl foldl. rewrite be_unsigned_from. lia.
Qed.

Lemma be_unsigned_range (bs : list byte) :
  0 ≤ be_unsigned bs < 256 ^ Z.of_nat (length bs).
Proof.
  induction bs as [|b bs IH].
  - unfold be_unsigned. simpl. lia.
  - rewrite be_unsigned_cons, length_cons, Nat2Z.inj_succ,
      Z.pow_succ_r by lia.
    pose proof (BYTE_val_range b). nia.
Qed.

(** The loop of the decoder assembles the content bytes onto [val], as long
    as the end result fits an [int]. *)
Lemma DecodeInt_loop_signed (content : list byte) :
  ∀ (pre rest : list byte) (val : Z),
    INT_MIN ≤ val * 256 ^ Z.of_nat (length content) + be_unsigned content
      ≤ INT_MAX →
    DecodeInt_loop true (length content)
      (mkCursor (pre ++ content ++ rest) (length pre)) val
    = Done (val * 256 ^ Z.of_nat (length content) + be_unsigned content).
Proof.
  induction content as [|c content IH]; intros pre rest val Hfit.
  - simpl. unfold be_unsigned. simpl. f_equal. lia.
  - rewrite be_unsigned_cons, length_cons, Nat2Z.inj_succ,
      Z.pow_succ_r in * by lia.
    pose proof (BYTE_val_range c) as Hc.
    pose proof (be_unsigned_range content) as Hu.
    assert (0 < 256 ^ Z.of_nat (length content)) as Hp by (apply Z.pow_pos_nonneg; lia).
    unfold INT_MIN, INT_MAX in *.
    assert (- 2 ^ 31 ≤ val * 256 ≤ 2 ^ 31 - 1) as Hv by nia.
    simpl DecodeInt_loop. unfold peek. simpl.
    rewrite Nat.add_0_r, lookup_app_r by lia.
    rewrite Nat.sub_diag. simpl.
    rewrite Z.shiftl_mul_pow2 by lia. change (2 ^ 8) with 256.
    rewrite INT_wrap_small by (unfold INT_MIN, INT_MAX; lia).
    rewrite lor_shifted_byte by lia.
    unfold advance. simpl.
    replace (pre ++ c :: content ++ rest)
      with ((pre ++ [c]) ++ content ++ rest) by (rewrite <- app_assoc; reflexivity).
    replace (length pre + Z.to_nat 1)%nat with (length (pre ++ [c]))
      by (rewrite length_app; simpl; lia).
    rewrite IH by (unfold INT_MIN, INT_MAX; nia).
    f_equal. lia.
Qed.

Lemma sign_extended_fits (content : list byte) :
  (1 ≤ length content ≤ 4)%nat →
  INT_MIN ≤ sign_extended content ≤ INT_MAX.
Proof.
  intros Hlen. destruct content as [|top content]; [simpl in Hlen; lia|].
  unfold sign_extended. rewrite be_unsigned_cons, !length_cons,
    Nat2Z.inj_succ, Z.pow_succ_r by lia.
  pose proof (BYTE_val_range top) as Ht.
  pose proof (be_unsigned_range content) as Hu.
  simpl in Hlen.
  assert (256 ^ Z.of_nat (length content) ≤ 256 ^ 3) as Hp
    by (apply Z.pow_le_mono_r; lia).
  assert (0 < 256 ^ Z.of_nat (length content)) as Hp'
    by (apply Z.pow_pos_nonneg; lia).
  unfold INT_MIN, INT_MAX.
  destruct (0x80 <=? BYTE_val top) eqn:Htop; nia.
Qed.

(** The four bytes stored for an [int] hold that [int]. *)
Lemma INT_of_bytes_INT_bytes (v : Z) :
  INT_MIN ≤ v ≤ INT_MAX → INT_of_bytes (INT_bytes v) = v.
Proof.
  intros Hv. unfold INT_of_bytes, INT_bytes. simpl.
  rewrite !BYTE_val_of_mod, !Z.shiftr_div_pow2 by lia.
  change (2 ^ 8) with 256.
  pose proof (Z.div_mod v 256 ltac:(lia)) as H1.
  pose proof (Z.div_mod (v / 256) 256 ltac:(lia)) as H2.
  pose proof (Z.div_mod (v / 256 / 256) 256 ltac:(lia)) as H3.
  pose proof (Z.div_mod (v / 256 / 256 / 256) 256 ltac:(lia)) as H4.
  set (q := v / 256 / 256 / 256 / 256) in *.
  replace (v mod 256 + 256 * (v / 256 mod 256 + 256 *
            (v / 256 / 256 mod 256 + 256 *
              (v / 256 / 256 / 256 mod 256 + 256 * 0))))
    with (v + (- q) * 2 ^ 32) by lia.
  unfold INT_wrap. rewrite <- Z.add_assoc, (Z.add_comm (_ * _)), Z.add_assoc,
    Z.mod_add by lia.
  unfold INT_MIN, INT_MAX in Hv. rewrite Z.mod_small by lia. lia.
Qed.

Section DecodeIntFacts.

Variable LocalAlloc : Allocator.

(** C5.  The fixed-width signed integer decoder, given an output area and
    an encoding that starts with the INTEGER tag and a length octet:
    - fails with [CRYPT_E_ASN1_CORRUPT] when the length octet is zero;
    - fails with [CRYPT_E_ASN1_LARGE] when it is greater than four;
    - otherwise, when the content bytes are there, stores the content read
      big-endian and sign-extended when its first byte has the high bit
      set, zero-extended otherwise; the value fits an [int], and a plain
      call (no ALLOC flag) with room for an [int] returns TRUE with the
      four bytes of that [int] at the start of the output area. *)
Theorem CRYPT_AsnDecodeInt_value (tag len : byte) (content rest : list byte)
    (cbEncoded dwFlags : Z) (pDecodePara : option CRYPT_CODEC_PARA)
    (mem : list byte) (pcbStructInfo : Z) :
  BYTE_val tag = ASN_INTEGER →
  1 < cbEncoded →
  let decode :=
    CRYPT_AsnDecodeInt LocalAlloc (Some (tag :: len :: content ++ rest))
      cbEncoded dwFlags pDecodePara (Some mem) pcbStructInfo in
  (BYTE_val len = 0 →
   decode = Done (mkResult (FALSE (Some CRYPT_E_ASN1_CORRUPT)) (Some mem) None
                    pcbStructInfo))
  ∧ (BYTE_val len > 4 →
     decode = Done (mkResult (FALSE (Some CRYPT_E_ASN1_LARGE)) (Some mem) None
                      pcbStructInfo))
  ∧ (1 ≤ BYTE_val len ≤ 4 → Z.of_nat (length content) = BYTE_val len →
     decode = store_decoded LocalAlloc dwFlags pDecodePara mem pcbStructInfo
                (INT_bytes (sign_extended content))
     ∧ INT_of_bytes (INT_bytes (sign_extended content)) = sign_extended content
     ∧ (has_flag dwFlags CRYPT_DECODE_ALLOC_FLAG = false →
        sizeof_int ≤ pcbStructInfo ≤ Z.of_nat (length mem) →
        decode = Done (mkResult TRUE
                         (Some (INT_bytes (sign_extended content) ++ drop 4 mem))
                         None pcbStructInfo))).
Proof.
  intros Htag Hcb decode.
  assert ((cbEncoded =? 0) = false) as Hcb0 by lia.
  assert ((cbEncoded <=? 1) = false) as Hcb1 by lia.
  assert (decode =
    (if BYTE_val len =? 0
     then Done (mkResult (FALSE (Some CRYPT_E_ASN1_CORRUPT)) (Some mem) None
                  pcbStructInfo)
     else if BYTE_val len >? sizeof_int
     then Done (mkResult (FALSE (Some CRYPT_E_ASN1_LARGE)) (Some mem) None
                  pcbStructInfo)
     else
       top ← peek (mkCursor (tag :: len :: content ++ rest) 0) 2;
       val ← DecodeInt_loop true (Z.to_nat (BYTE_val len))
               (mkCursor (tag :: len :: content ++ rest) 2)
               (if negb (Z.land (BYTE_val top) 0x80 =? 0) then -1 else 0);
       store_decoded LocalAlloc dwFlags pDecodePara mem pcbStructInfo
         (INT_bytes val))) as Hdecode.
  { subst decode. unfold CRYPT_AsnDecodeInt. rewrite Hcb0.
    unfold peek at 1. simpl. rewrite Htag. simpl. rewrite Hcb1.
    reflexivity. }
  rewrite Hdecode. clear Hdecode decode. unfold sizeof_int.
  split; [|split].
  - intros ->. reflexivity.
  - intros Hlen.
    assert ((BYTE_val len =? 0) = false) as -> by lia.
    assert ((BYTE_val len >? 4) = true) as -> by lia. reflexivity.
  - intros Hlen Hcontent.
    assert ((BYTE_val len =? 0) = false) as -> by lia.
    assert ((BYTE_val len >? 4) = false) as -> by lia.
    assert (1 ≤ length content ≤ 4)%nat as Hn by lia.
    pose proof (sign_extended_fits content Hn) as Hfit.
    assert ((top ← peek (mkCursor (tag :: len :: content ++ rest) 0) 2;
             val ← DecodeInt_loop true (Z.to_nat (BYTE_val len))
                     (mkCursor (tag :: len :: content ++ rest) 2)
                     (if negb (Z.land (BYTE_val top) 0x80 =? 0) then -1 else 0);
             store_decoded LocalAlloc dwFlags pDecodePara mem pcbStructInfo
               (INT_bytes val))
            = store_decoded LocalAlloc dwFlags pDecodePara mem pcbStructInfo
                (INT_bytes (sign_extended content))) as Hstore.
    { destruct content as [|top content]; [simpl in Hn; lia|].
      unfold peek. simpl.
      replace (Z.to_nat (BYTE_val len)) with (length (top :: content)) by lia.
      pose proof (DecodeInt_loop_signed (top :: content) [tag; len] rest)
        as Hloop.
      simpl app in Hloop. simpl (length [tag; len]) in Hloop.
      unfold sign_extended in Hfit |- *.
      rewrite high_bit_clear, Z.ltb_antisym, negb_involutive.
      destruct (0x80 <=? BYTE_val top) eqn:Htop.
      - rewrite Hloop by lia. simpl.
        replace (-1 * 256 ^ Z.of_nat (S (length content))
                 + be_unsigned (top :: content))
          with (be_unsigned (top :: content)
                - 256 ^ Z.of_nat (S (length content))) by lia.
        reflexivity.
      - rewrite Hloop by lia. simpl.
        replace (0 * 256 ^ Z.of_nat (S (length content))
                 + be_unsigned (top :: content))
          with (be_unsigned (top :: content)) by lia.
        reflexivity. }
    rewrite Hstore. split; [reflexivity|]. split.
    + apply INT_of_bytes_INT_bytes, Hfit.
    + intros Hflag Hroom. unfold store_decoded, CRYPT_DecodeEnsureSpace.
      rewrite Hflag. unfold sizeof_int in Hroom.
      change (Z.of_nat (length (INT_bytes (sign_extended content)))) with 4.
      assert ((pcbStructInfo <? 4) = false) as -> by lia.
      simpl. unfold poke. simpl.
      rewrite decide_True by lia. reflexivity.
Qed.

End DecodeIntFacts.

Lemma CRYPT_AsnDecodeInt_value_witness :
  (* the length octets 0 and 5, then -1 in one byte and 128 in two *)
  CRYPT_AsnDecodeInt out_of_memory (Some [x02; x00]) 2 0 None
    (Some (replicate 4 x00)) 4
  = Done (mkResult (FALSE (Some CRYPT_E_ASN1_CORRUPT))
            (Some (replicate 4 x00)) None 4)
  ∧ CRYPT_AsnDecodeInt out_of_memory
      (Some [x02; x05; x01; x02; x03; x04; x05]) 7 0 None
      (Some (replicate 4 x00)) 4
    = Done (mkResult (FALSE (Some CRYPT_E_ASN1_LARGE))
              (Some (replicate 4 x00)) None 4)
  ∧ (sign_extended [xff] = -1
     ∧ CRYPT_AsnDecodeInt out_of_memory (Some [x02; x01; xff]) 3 0 None
         (Some (replicate 4 x00)) 4
       = Done (mkResult TRUE (Some [xff; xff; xff; xff]) None 4))
  ∧ (sign_extended [x00; x80] = 128
     ∧ CRYPT_AsnDecodeInt out_of_memory (Some [x02; x02; x00; x80]) 4 0 None
         (Some (replicate 4 x00)) 4
       = Done (mkResult TRUE (Some [x80; x00; x00; x00]) None 4)).
Proof.
  split; [|split; [|split]].
  - apply (CRYPT_AsnDecodeInt_value out_of_memory x02 x00 [] [] 2 0 None
             (replicate 4 x00) 4); [reflexivity|lia|reflexivity].
  - apply (CRYPT_AsnDecodeInt_value out_of_memory x02 x05
             [x01; x02; x03; x04; x05] [] 7 0 None (replicate 4 x00) 4);
      [reflexivity|lia|reflexivity].
  - split; [reflexivity|].
    apply (CRYPT_AsnDecodeInt_value out_of_memory x02 x01 [xff] [] 3 0 None
             (replicate 4 x00) 4);
      [reflexivity|lia|vm_compute; split; discriminate|reflexivity
      |reflexivity|vm_compute; split; discriminate].
  - split; [reflexivity|].
    apply (CRYPT_AsnDecodeInt_value out_of_memory x02 x02 [x00; x80] [] 4 0
             None (replicate 4 x00) 4);
      [reflexivity|lia|vm_compute; split; discriminate|reflexivity
      |reflexivity|vm_compute; split; discriminate].
Defined.

(** ** The capacity check of the encoders *)

Section EnsureSpaceFacts.

Variable LocalAlloc : Allocator.

(** The helper of the encoders that take flags: without the ALLOC flag, a
    capacity below [bytesNeeded] puts [bytesNeeded] in the size cell and
    fails with [ERROR_MORE_DATA]. *)
Lemma CRYPT_EncodeEnsureSpace_too_small (dwFlags : Z)
    (pEncodePara : option CRYPT_CODEC_PARA) (pcbEncoded bytesNeeded : Z) :
  has_flag dwFlags CRYPT_ENCODE_ALLOC_FLAG = false →
  pcbEncoded < bytesNeeded →
  CRYPT_EncodeEnsureSpace LocalAlloc dwFlags pEncodePara pcbEncoded bytesNeeded
  = (FALSE (Some ERROR_MORE_DATA), None, bytesNeeded).
Proof.
  intros Hflag Hsmall. unfold CRYPT_EncodeEnsureSpace. rewrite Hflag.
  assert ((bytesNeeded >? pcbEncoded) = true) as -> by lia. reflexivity.
Qed.

End EnsureSpaceFacts.

(** The attribute-value encoder checks the size cell, as the claim says. *)
Lemma CRYPT_AsnEncodeNameValue_too_small :
  CRYPT_AsnEncodeNameValue (attr_name_value attr_CN) (buffer 8 xff) 5
  = Done (FALSE (Some ERROR_MORE_DATA), buffer 8 xff, 6).
Proof. reflexivity. Qed.

(** C1 fails on the OID encoder, which compares the first byte of the
    output buffer, not the size cell, with [bytesNeeded].  "1.2.840.113549"
    needs 8 bytes.
    - With a capacity of 0 and a buffer that starts with FF the call does
      not fail: it returns TRUE and writes the 8 bytes.
    - With a capacity of 100 and a buffer that starts with 00 it fails with
      [ERROR_MORE_DATA]. *)
Theorem CRYPT_AsnEncodeOid_checks_first_byte :
  CRYPT_AsnEncodeOid (Some "1.2.840.113549"%string) (buffer 8 xff) 0
  = Done (TRUE,
          Some (mkCursor [x06; x06; x2a; x86; x48; x86; xf7; x0d] 0), 8)
  ∧ CRYPT_AsnEncodeOid (Some "1.2.840.113549"%string) (buffer 100 x00) 100
    = Done (FALSE (Some ERROR_MORE_DATA), buffer 100 x00, 8).
Proof. split; vm_compute; reflexivity. Qed.

(** ** The SET OF encoder *)

(** C2 fails with C1: each attribute is encoded into a fresh heap block,
    and inside it the OID encoder compares what the block happens to hold
    with the size of the OID.  On [used_heap], the attributes [attr_CN] and
    [attr_RSADSI] encode in one order and fail with [ERROR_MORE_DATA] in the
    other, with room for the 28 bytes in both calls. *)
Theorem CRYPT_AsnEncodeRdn_order_dependent :
  CRYPT_AsnEncodeRdn used_heap (mkRdn 2 (Some [attr_RSADSI; attr_CN]))
    (buffer 28 x00) 28
  = Done (TRUE,
          Some (mkCursor
                  ([x31; x1a]
                   ++ [x30; x0b; x06; x03; x55; x04; x03; x13; x04]
                   ++ string_bytes "Test"
                   ++ [x30; x0b; x06; x06; x2a; x86; x48; x86; xf7; x0d;
                       x13; x01]
                   ++ string_bytes "x") 0),
          28)
  ∧ CRYPT_AsnEncodeRdn used_heap (mkRdn 2 (Some [attr_CN; attr_RSADSI]))
      (buffer 28 x00) 28
    = Done (FALSE (Some ERROR_MORE_DATA), buffer 28 x00, 28).
Proof. split; vm_compute; reflexivity. Qed.

(** ** Length octets *)

(** A long-form length octet whose low seven bits are four or more is
    refused with [CRYPT_E_ASN1_LARGE]: [GET_LEN_BYTES] counts the leading
    octet too, and the count is compared with [sizeof(DWORD)]. *)
Lemma CRYPT_GetLen_large (mem : list byte) (b1 : byte) (cbEncoded : Z) :
  1 < cbEncoded →
  mem !! 1%nat = Some b1 →
  0x7f < BYTE_val b1 →
  4 ≤ Z.land (BYTE_val b1) 0x7f →
  CRYPT_GetLen (mkCursor mem 0) cbEncoded = Done (inl CRYPT_E_ASN1_LARGE).
Proof.
  intros Hcb Hb1 Hlong Hn. unfold CRYPT_GetLen, peek.
  assert ((cbEncoded <=? 1) = false) as -> by lia.
  rewrite decide_True by lia. cbn [c_mem c_pos].
  change (0 + Z.to_nat 1)%nat with 1%nat. rewrite Hb1.
  cbn [defined mbind Exec_bind].
  unfold GET_LEN_BYTES, sizeof_DWORD.
  assert ((BYTE_val b1 <=? 0x7f) = false) as -> by lia.
  assert (Z.land (BYTE_val b1) 0x7f < 128) as Hmask.
  { assert (0 ≤ Z.land (BYTE_val b1) 0x7f < 2 ^ 7); [|lia].
    change 0x7f with (Z.ones 7). rewrite Z.land_ones by lia.
    apply Z.mod_pos_bound. lia. }
  rewrite Z.mod_small by lia.
  assert ((1 + Z.land (BYTE_val b1) 0x7f >? 4) = true) as -> by lia.
  reflexivity.
Qed.

(** C3 fails on the long form.  [octets_128] has one length byte (80), and
    the 128 content bytes it announces are all there, yet the call fails
    with [CRYPT_E_ASN1_EOD]: the loop reads one byte more than the length
    bytes, and the bound it then checks is [out + 256].  Four length bytes,
    which the claim admits, are refused with [CRYPT_E_ASN1_LARGE]. *)
Theorem CRYPT_GetLen_long_form :
  length octets_128 = 131%nat
  ∧ CRYPT_GetLen (mkCursor octets_128 0) 131 = Done (inl CRYPT_E_ASN1_EOD)
  ∧ CRYPT_GetLen (mkCursor [x04; x84; x00; x00; x00; x01; xaa] 0) 7
    = Done (inl CRYPT_E_ASN1_LARGE).
Proof. split; [|split]; vm_compute; reflexivity. Qed.

(** ** UTCTime and bit strings *)

(** C4 fails: the day is written before the month.  2015-04-15 00:00:00
    UTC comes out as the text 151504000000Z, not 150415000000Z. *)
Theorem CRYPT_AsnEncodeUtcTime_day_before_month :
  wMonth <$> FileTimeToSystemTime_calendar ft_2015_04_15 = Some 4
  ∧ wDay <$> FileTimeToSystemTime_calendar ft_2015_04_15 = Some 15
  ∧ CRYPT_AsnEncodeUtcTime out_of_memory FileTimeToSystemTime_calendar 0 None
      (Some ft_2015_04_15) (Some (replicate 15 x00)) 15
    = Done (mkResult TRUE
              (Some ([x17; x0d] ++ string_bytes "151504000000Z")) None 15)
  ∧ [x17; x0d] ++ string_bytes "151504000000Z"
    = [x17; x0d; x31; x35; x31; x35; x30; x34; x30; x30; x30; x30; x30; x30;
       x5a].
Proof. split; [|split; [|split]]; vm_compute; reflexivity. Qed.

(** C6 fails.  Two bytes FF FF with eight unused bits have one byte of
    content and no unused bit left; the encoder writes two content bytes
    and the unused-bits octet 8 / 8 = 1.  With nine bytes and 64 unused
    bits the octet is 8, outside 0..7, and the mask leaves nothing of the
    last byte. *)
Theorem CRYPT_AsnEncodeBits_unused_bits :
  CRYPT_AsnEncodeBits out_of_memory 0 None (Some (mkBitBlob 2 [xff; xff] 8))
    (Some (replicate 5 x00)) 5
  = Done (mkResult TRUE (Some [x03; x03; x01; xff; xfe]) None 5)
  ∧ CRYPT_AsnEncodeBits out_of_memory 0 None
      (Some (mkBitBlob 9 (replicate 9 xff) 64)) (Some (replicate 5 x00)) 5
    = Done (mkResult TRUE (Some [x03; x03; x08; xff; x00]) None 5).
Proof. split; vm_compute; reflexivity. Qed.

(** ** The entry points on an example *)

Lemma entry_points_parameter_check_witness :
  let buf := Some [x00; x00; x00; x00] in
  Recording.CryptEncodeObjectEx X509_ASN_ENCODING (Ordinal X509_INTEGER)
    (Some 127) 0 None None None = Rejected ERROR_INVALID_PARAMETER
  ∧ Recording.CryptDecodeObject X509_ASN_ENCODING (Ordinal X509_INTEGER)
      (Some [x02; x01; x7f]) 3 0 None None = Rejected ERROR_INVALID_PARAMETER
  ∧ Recording.CryptEncodeObjectEx X509_ASN_ENCODING (Ordinal X509_INTEGER)
      (Some 127) 0 None buf None
    = Forwarded ("CRYPT_AsnEncodeInt"%string, buf, None)
  ∧ Recording.CryptDecodeObjectEx X509_ASN_ENCODING (Ordinal X509_INTEGER)
      (Some [x02; x01; x7f]) 3 0 None buf None
    = Forwarded ("CRYPT_AsnDecodeInt"%string, buf, None)
  ∧ Recording.CryptEncodeObjectEx X509_ASN_ENCODING (Str "1.2.3.4")
      (Some 127) 0 None buf None
    = Forwarded ("plugin!CryptEncodeObjectEx"%string, buf, None)
  ∧ Recording.CryptDecodeObject X509_ASN_ENCODING (Str "1.2.3.4")
      (Some [x02; x01; x7f]) 3 0 buf None
    = Forwarded ("plugin!CryptDecodeObject"%string, buf, None)
  ∧ Recording.CryptEncodeObject X509_ASN_ENCODING (Ordinal X509_INTEGER)
      (Some 127) buf None
    = Recording.CryptEncodeObjectEx X509_ASN_ENCODING (Ordinal X509_INTEGER)
        (Some 127) 0 None buf None.
Proof.
  intros buf.
  pose proof (entry_points_parameter_check Recording.encoder Recording.decoder
                Recording.CRYPT_GetFunc Recording.as_CryptEncodeObjectFunc
                Recording.as_CryptEncodeObjectExFunc
                Recording.as_CryptDecodeObjectFunc
                Recording.as_CryptDecodeObjectExFunc
                X509_ASN_ENCODING (Ordinal X509_INTEGER) (Some 127)
                (Some [x02; x01; x7f]) 3 0 None)
    as (Hreject & Hex & Hsimple).
  pose proof (entry_points_parameter_check Recording.encoder Recording.decoder
                Recording.CRYPT_GetFunc Recording.as_CryptEncodeObjectFunc
                Recording.as_CryptEncodeObjectExFunc
                Recording.as_CryptDecodeObjectFunc
                Recording.as_CryptDecodeObjectExFunc
                X509_ASN_ENCODING (Str "1.2.3.4") (Some 127)
                (Some [x02; x01; x7f]) 3 0 None)
    as (_ & Hex' & Hsimple').
  destruct (Hreject None None) as (_ & HrejEx & HrejDec & _).
  destruct (Hex [x00; x00; x00; x00] eq_refl) as (Hbuiltin & _ & _).
  destruct (Hbuiltin AsnInt eq_refl) as (HencInt & HdecInt).
  destruct (Hex' [x00; x00; x00; x00] eq_refl) as (_ & HplugEnc & _).
  destruct (Hsimple [x00; x00; x00; x00]) as (_ & HsimpleEx & _ & _).
  destruct (Hsimple' [x00; x00; x00; x00]) as (_ & _ & HplugDec & _).
  split; [apply HrejEx; split; reflexivity|].
  split; [apply HrejDec; split; reflexivity|].
  split; [exact HencInt|].
  split; [exact HdecInt|].
  split; [exact (HplugEnc _ eq_refl eq_refl)|].
  split; [exact (HplugDec _ eq_refl)|].
  exact (HsimpleEx eq_refl).
Defined.

(** ** The order of a SET OF *)

Lemma BYTE_val_inj (x y : byte) : BYTE_val x = BYTE_val y → x = y.
Proof. intros H. rewrite <- (BYTE_of_val x), <- (BYTE_of_val y), H. done. Qed.

(** [memcmp] over the common length decides the lexicographic order, up to
    the tie that the lengths break. *)
Lemma memcmp_lex (a : list byte) :
  ∀ b : list byte,
    let c := memcmp a b (min (length a) (length b)) in
    (c < 0 → lex_le a b = true ∧ lex_le b a = false)
    ∧ (0 < c → lex_le a b = false ∧ lex_le b a = true)
    ∧ (c = 0 → lex_le a b = bool_decide (length a ≤ length b)%nat
               ∧ lex_le b a = bool_decide (length b ≤ length a)%nat).
Proof.
  induction a as [|x a IH]; intros [|y b]; simpl.
  - split; [lia|]. split; [lia|]. intros _. split; reflexivity.
  - split; [lia|]. split; [lia|]. intros _. split; reflexivity.
  - split; [lia|]. split; [lia|]. intros _. split; reflexivity.
  - pose proof (BYTE_val_range x). pose proof (BYTE_val_range y).
    destruct (decide (x = y)) as [->|Hne].
    + rewrite Z.ltb_irrefl. destruct (IH b) as (Hlt & Hgt & Heq).
      split; [exact Hlt|]. split; [exact Hgt|]. intros Hc.
      destruct (Heq Hc) as [-> ->]. split; apply bool_decide_ext; lia.
    + assert (BYTE_val x ≠ BYTE_val y)
        by (intros E; apply Hne, BYTE_val_inj, E).
      destruct (BYTE_val x <? BYTE_val y) eqn:Hxy;
        destruct (BYTE_val y <? BYTE_val x) eqn:Hyx; try lia;
        (split; [|split]); intros; try lia; split; reflexivity.
Qed.

(** What the claim C2 says of the comparison: on encoded elements
    [BLOBComp] is the lexicographic order with shorter-is-less on a tie. *)
Lemma BLOBComp_lex (a b : CRYPT_DATA_BLOB) :
  encoded_blob a → encoded_blob b →
  compar_le BLOBComp a b ↔ lex_le (pbData a) (pbData b) = true.
Proof.
  intros [Ha Ha'] [Hb Hb']. unfold compar_le, BLOBComp.
  rewrite Ha, Hb, <- Nat2Z.inj_min, Nat2Z.id.
  destruct (memcmp_lex (pbData a) (pbData b)) as (Hlt & Hgt & Heq).
  simpl in Hlt, Hgt, Heq.
  set (c := memcmp (pbData a) (pbData b)
              (min (length (pbData a)) (length (pbData b)))) in *.
  destruct (Z.eqb_spec c 0) as [Hc|Hc].
  - rewrite (proj1 (Heq Hc)).
    rewrite INT_wrap_small by (unfold INT_MIN, INT_MAX in *; lia).
    rewrite bool_decide_eq_true. lia.
  - destruct (Z.lt_ge_cases c 0) as [Hneg|Hpos].
    + rewrite (proj1 (Hlt Hneg)). split; [reflexivity|lia].
    + rewrite (proj1 (Hgt ltac:(lia))). split; [lia|discriminate].
Qed.

Lemma lex_le_total (a b : list byte) : lex_le a b = true ∨ lex_le b a = true.
Proof.
  revert b. induction a as [|x a IH]; intros [|y b]; simpl; auto.
  destruct (BYTE_val x <? BYTE_val y) eqn:Hxy; auto.
  destruct (BYTE_val y <? BYTE_val x) eqn:Hyx; auto.
Qed.

Lemma lex_le_trans (a b c : list byte) :
  lex_le a b = true → lex_le b c = true → lex_le a c = true.
Proof.
  revert b c. induction a as [|x a IH]; intros [|y b] [|z c]; simpl;
    try done.
  destruct (BYTE_val x <? BYTE_val y) eqn:Hxy;
    destruct (BYTE_val y <? BYTE_val x) eqn:Hyx;
    destruct (BYTE_val y <? BYTE_val z) eqn:Hyz;
    destruct (BYTE_val z <? BYTE_val y) eqn:Hzy;
    destruct (BYTE_val x <? BYTE_val z) eqn:Hxz;
    destruct (BYTE_val z <? BYTE_val x) eqn:Hzx;
    try done; try lia.
  apply IH.
Qed.

Lemma lex_le_antisym (a b : list byte) :
  lex_le a b = true → lex_le b a = true → a = b.
Proof.
  revert b. induction a as [|x a IH]; intros [|y b]; simpl; try done.
  destruct (BYTE_val x <? BYTE_val y) eqn:Hxy;
    destruct (BYTE_val y <? BYTE_val x) eqn:Hyx; try done; try lia.
  intros H1 H2. f_equal; [apply BYTE_val_inj; lia|auto].
Qed.

(** The comparison is total on all blobs, which is what a sort needs to
    leave its array in order. *)
Global Instance BLOBComp_total : Total (compar_le BLOBComp).
Proof.
  intros a b. unfold compar_le, BLOBComp.
  rewrite (Z.min_comm (cbData b)).
  set (n := Z.to_nat (Z.min (cbData a) (cbData b))).
  assert (∀ (a b : list byte) n, memcmp b a n = - memcmp a b n) as Hflip.
  { clear. intros a. induction a as [|x a IH]; intros [|y b] [|n]; simpl;
      try reflexivity.
    destruct (decide (x = y)) as [->|Hne].
    - rewrite decide_True by done. apply IH.
    - rewrite decide_False by congruence. lia. }
  rewrite (Hflip (pbData a) (pbData b) n).
  destruct (Z.eqb_spec (memcmp (pbData a) (pbData b) n) 0) as [->|Hc].
  - simpl. unfold INT_wrap.
    pose proof (Z.mod_pos_bound (cbData a - cbData b + 2 ^ 31) (2 ^ 32)
                  ltac:(lia)).
    pose proof (Z.mod_pos_bound (cbData b - cbData a + 2 ^ 31) (2 ^ 32)
                  ltac:(lia)).
    destruct (decide ((cbData a - cbData b + 2 ^ 31) mod 2 ^ 32 ≤ 2 ^ 31));
      [left; lia|right].
    replace (cbData b - cbData a + 2 ^ 31)
      with (- (cbData a - cbData b + 2 ^ 31) + 1 * 2 ^ 32) by lia.
    rewrite Z.mod_add by lia.
    rewrite Z.mod_opp_l_nz by lia. lia.
  - assert ((- memcmp (pbData a) (pbData b) n =? 0) = false) as -> by lia.
    lia.
Qed.

(** An array of encoded elements that is in the order of [BLOBComp] is
    determined by the elements it holds: whatever algorithm [qsort] runs,
    two arrays with the same elements come out the same. *)
Lemma sorted_blobs_unique (s1 s2 : list CRYPT_DATA_BLOB) :
  Forall encoded_blob s1 →
  s1 ≡ₚ s2 →
  Sorted (compar_le BLOBComp) s1 → Sorted (compar_le BLOBComp) s2 →
  s1 = s2.
Proof.
  intros Hwf1 Hperm Hs1 Hs2.
  assert (Forall encoded_blob s2) as Hwf2 by (rewrite <- Hperm; done).
  set (R := λ a b : CRYPT_DATA_BLOB, lex_le (pbData a) (pbData b) = true).
  assert (Transitive R) as HR by (intros a b c; apply lex_le_trans).
  assert (∀ s, Forall encoded_blob s → Sorted (compar_le BLOBComp) s →
               StronglySorted R s) as Hstrong.
  { intros s Hwf Hs. apply Sorted_StronglySorted; [done|].
    induction Hs as [|x s Hs IH Hhd]; constructor.
    - apply IH. by inversion Hwf.
    - inversion Hwf as [|? ? Hx Hrest]; subst.
      destruct Hhd as [|y s Hxy]; constructor.
      inversion Hrest; subst. by apply BLOBComp_lex. }
  apply (StronglySorted_unique_strong R); auto.
  intros x1 x2 Hx1 Hx2 H12 H21.
  rewrite Forall_forall in Hwf1, Hwf2.
  destruct (Hwf1 x1 Hx1) as [E1 _], (Hwf2 x2 Hx2) as [E2 _].
  pose proof (lex_le_antisym _ _ H12 H21) as Hdata.
  destruct x1 as [c1 d1], x2 as [c2 d2]. simpl in *. congruence.
Qed.

(** The sort of the SET OF encoder does not depend on the order in which
    the encoded elements arrive. *)
Lemma qsort_BLOBComp_canonical (blobs1 blobs2 : list CRYPT_DATA_BLOB) :
  Forall encoded_blob blobs1 →
  blobs1 ≡ₚ blobs2 →
  qsort BLOBComp blobs1 = qsort BLOBComp blobs2.
Proof.
  intros Hwf Hperm. unfold qsort. apply sorted_blobs_unique.
  - by rewrite merge_sort_Permutation.
  - by rewrite !merge_sort_Permutation.
  - apply Sorted_merge_sort, _.
  - apply Sorted_merge_sort, _.
Qed.

(** ** The encoders that do check the size cell *)

Lemma lenBytes_of_eq (len : Z) :
  lenBytes_of len
  = Done (if len <=? 0x7f then 1
          else EncodeLen_significant 4 len sizeof_DWORD + 1).
Proof.
  unfold lenBytes_of, CRYPT_EncodeLen. destruct (len <=? 0x7f); reflexivity.
Qed.

(** The attribute-value encoder: when the sizing call asks for [size]
    bytes, a writing call with less room fails with [ERROR_MORE_DATA] and
    leaves [size] in the size cell. *)
Lemma CRYPT_AsnEncodeNameValue_checks_size_cell (value : CERT_NAME_VALUE)
    (p : Cursor) (pcbEncoded size : Z) :
  CRYPT_AsnEncodeNameValue value None 0 = Done (TRUE, None, size) →
  pcbEncoded < size →
  CRYPT_AsnEncodeNameValue value (Some p) pcbEncoded
  = Done (FALSE (Some ERROR_MORE_DATA), Some p, size).
Proof.
  unfold CRYPT_AsnEncodeNameValue. intros Hsize Hsmall.
  repeat case_match; try discriminate.
  all: simpl in *; injection Hsize as <-.
  all: match goal with
       | |- context [?a <? ?b] =>
           assert ((a <? b) = true) as -> by lia
       end; reflexivity.
Qed.

(** The attribute encoder, likewise. *)
Lemma CRYPT_AsnEncodeRdnAttr_checks_size_cell (attr : CERT_RDN_ATTR)
    (p : Cursor) (pcbEncoded size : Z) :
  CRYPT_AsnEncodeRdnAttr attr None 0 = Done (TRUE, None, size) →
  pcbEncoded < size →
  CRYPT_AsnEncodeRdnAttr attr (Some p) pcbEncoded
  = Done (FALSE (Some ERROR_MORE_DATA), Some p, size).
Proof.
  unfold CRYPT_AsnEncodeRdnAttr. intros Hsize Hsmall.
  destruct (CRYPT_AsnEncodeOid (pszObjId attr) None 0)
    as [[[ret q] oidSize]|]; [|discriminate].
  simpl in *. destruct ret; simpl in *; [|discriminate].
  destruct (CRYPT_AsnEncodeNameValue (attr_name_value attr) None oidSize)
    as [[[ret' q'] valueSize]|]; [|discriminate].
  simpl in *. destruct ret'; simpl in *; [|discriminate].
  injection Hsize as <-.
  match goal with
  | |- context [?a <? ?b] => assert ((a <? b) = true) as -> by lia
  end.
  reflexivity.
Qed.

Section EncodeSizeFacts.

Variable LocalAlloc : Allocator.
Variable HeapAlloc : nat → Allocator.
Variable FileTimeToSystemTime : Z → option SYSTEMTIME.

(** The SET OF encoder, likewise: a writing call whose size cell holds
    less than the sizing call reports fails with [ERROR_MORE_DATA], leaves
    the required size in the cell and does not touch the buffer. *)
Lemma CRYPT_AsnEncodeRdn_checks_size_cell (rdn : CERT_RDN) (p : Cursor)
    (pcbEncoded size : Z) :
  CRYPT_AsnEncodeRdn HeapAlloc rdn None 0 = Done (TRUE, None, size) →
  pcbEncoded < size →
  CRYPT_AsnEncodeRdn HeapAlloc rdn (Some p) pcbEncoded
  = Done (FALSE (Some ERROR_MORE_DATA), Some p, size).
Proof.
  unfold CRYPT_AsnEncodeRdn. intros Hsize Hsmall.
  match goal with
  | H : (?init ≫= _) = _ |- _ =>
      destruct init as [[ret attrs]|]; [|discriminate]
  end.
  simpl in *.
  match goal with
  | H : (?measured ≫= _) = _ |- _ =>
      destruct measured as [[[ret' sizes] bytesNeeded]|]; [|discriminate]
  end.
  simpl in *. destruct ret'; simpl in *; [|discriminate].
  injection Hsize as <-.
  match goal with
  | |- context [?a <? ?b] => assert ((a <? b) = true) as -> by lia
  end.
  reflexivity.
Qed.

(** The bit-string and UTCTime encoders, without the ALLOC flag, likewise. *)
Lemma CRYPT_AsnEncodeBits_checks_size_cell (dwFlags : Z)
    (pEncodePara : option CRYPT_CODEC_PARA) (blob : CRYPT_BIT_BLOB)
    (mem : list byte) (pcbEncoded size : Z) :
  has_flag dwFlags CRYPT_ENCODE_ALLOC_FLAG = false →
  CRYPT_AsnEncodeBits LocalAlloc dwFlags pEncodePara (Some blob) None 0
  = Done (mkResult TRUE None None size) →
  pcbEncoded < size →
  CRYPT_AsnEncodeBits LocalAlloc dwFlags pEncodePara (Some blob) (Some mem)
    pcbEncoded
  = Done (mkResult (FALSE (Some ERROR_MORE_DATA)) (Some mem) None size).
Proof.
  unfold CRYPT_AsnEncodeBits. intros Hflag Hsize Hsmall.
  destruct (if DWORD_wrap (bit_cbData blob * 8) >? cUnusedBits blob
            then _ else _) as [dataBytes unusedBits].
  simpl in *. injection Hsize as <-.
  rewrite CRYPT_EncodeEnsureSpace_too_small by (done || lia). reflexivity.
Qed.

Lemma CRYPT_AsnEncodeUtcTime_checks_size_cell (dwFlags : Z)
    (pEncodePara : option CRYPT_CODEC_PARA) (ft : Z) (mem : list byte)
    (pcbEncoded size : Z) :
  has_flag dwFlags CRYPT_ENCODE_ALLOC_FLAG = false →
  CRYPT_AsnEncodeUtcTime LocalAlloc FileTimeToSystemTime dwFlags pEncodePara
    (Some ft) None 0
  = Done (mkResult TRUE None None size) →
  pcbEncoded < size →
  CRYPT_AsnEncodeUtcTime LocalAlloc FileTimeToSystemTime dwFlags pEncodePara
    (Some ft) (Some mem) pcbEncoded
  = Done (mkResult (FALSE (Some ERROR_MORE_DATA)) (Some mem) None size).
Proof.
  unfold CRYPT_AsnEncodeUtcTime. intros Hflag Hsize Hsmall.
  destruct (FileTimeToSystemTime ft) as [sysTime|]; [|discriminate].
  destruct ((wYear sysTime <? 1950) || (wYear sysTime >? 2050));
    [discriminate|].
  injection Hsize as <-.
  rewrite CRYPT_EncodeEnsureSpace_too_small by (done || lia). reflexivity.
Qed.

End EncodeSizeFacts.

(** The OID encoder does not look at the size cell at all: two writing
    calls that differ in the capacity they state return the same, write
    the same, and leave the same in the size cell unless the OID does not
    scan (when the cell is left alone). *)
Lemma CRYPT_AsnEncodeOid_ignores_size_cell (pszObjId : option string)
    (p : Cursor) (cb1 cb2 : Z) :
  match CRYPT_AsnEncodeOid pszObjId (Some p) cb1,
        CRYPT_AsnEncodeOid pszObjId (Some p) cb2 with
  | Done (ret1, q1, size1), Done (ret2, q2, size2) =>
      ret1 = ret2 ∧ q1 = q2
      ∧ (ret1 ≠ FALSE (Some CRYPT_E_ASN1_ERROR) → size1 = size2)
  | Undefined, Undefined => True
  | _, _ => False
  end.
Proof.
  unfold CRYPT_AsnEncodeOid.
  match goal with
  | |- context [mbind _ ?sized] =>
      lazymatch type of sized with
      | Exec (option (Z * Z * byte * Z)) =>
          destruct sized as [[[[[bytesNeeded lenBytes] firstByte] firstPos]|]|]
      end
  end; cbn [mbind Exec_bind].
  - match goal with
    | |- match ?run with _ => _ end =>
        destruct run as [[[ret q] size]|]; [|done]
    end.
    split; [done|]. split; [done|]. intros _. done.
  - split; [done|]. split; [done|]. intros H. done.
  - done.
Qed.

(** ** The loops that are run on fuel have enough of it *)

Lemma string_drop_length (n : nat) (s : string) :
  String.length (string_drop n s) = (String.length s - n)%nat.
Proof.
  revert s. induction n as [|n IH]; intros [|c s]; simpl; done.
Qed.

Lemma skip_spaces_length (s : string) :
  (String.length (skip_spaces s) ≤ String.length s)%nat.
Proof.
  induction s as [|c s IH]; simpl; [done|].
  destruct (isspace c); simpl; lia.
Qed.

Lemma scan_digits_length (s : string) :
  ∀ acc v rest, scan_digits s acc = (v, rest) →
    (String.length rest ≤ String.length s)%nat
    ∧ (starts_with_digit s = true →
       (String.length rest < String.length s)%nat).
Proof.
  induction s as [|c s IH]; simpl; intros acc v rest H.
  - injection H as <- <-. split; [done|discriminate].
  - destruct (isdigit_char c).
    + destruct (IH _ _ _ H). split; intros; lia.
    + injection H as <- <-. split; [done|discriminate].
Qed.

(** A [%d] that matches consumes at least one character. *)
Lemma sscanf_d_n_consumes (s : string) (v pos : Z) (rest : string) :
  sscanf_d_n s = Match v pos rest →
  0 < pos ≤ Z.of_nat (String.length s).
Proof.
  unfold sscanf_d_n. pose proof (skip_spaces_length s) as Hskip.
  destruct (match skip_spaces s with
            | String "-" s' => (true, s')
            | String "+" s' => (false, s')
            | _ => (false, skip_spaces s)
            end) as [neg s2] eqn:Hsign.
  assert (String.length s2 ≤ String.length s)%nat as Hs2.
  { destruct (skip_spaces s) as [|c s1]; [injection Hsign as <- <-; done|].
    simpl in Hskip. repeat case_match; injection Hsign as <- <-; simpl; lia. }
  destruct (starts_with_digit s2) eqn:Hdigit; [|discriminate].
  destruct (scan_digits s2 0) as [v' rest'] eqn:Hscan.
  intros H. injection H as <- <- <-.
  destruct (scan_digits_length _ _ _ _ Hscan) as [_ Hlt].
  specialize (Hlt Hdigit). lia.
Qed.

(** The sizing loop of the OID encoder never runs out of the fuel it is
    given: any amount from the length of the text on gives the same. *)
Lemma Oid_measure_fuel (k : nat) :
  ∀ (fuel1 fuel2 : nat) (ptr : string) (bytesNeeded : Z),
    (String.length ptr ≤ k)%nat → (k ≤ fuel1)%nat → (k ≤ fuel2)%nat →
    Oid_measure fuel1 ptr bytesNeeded = Oid_measure fuel2 ptr bytesNeeded.
Proof.
  induction k as [|k IH]; intros fuel1 fuel2 ptr bytesNeeded Hlen H1 H2.
  - destruct ptr; [|simpl in Hlen; lia].
    destruct fuel1, fuel2; reflexivity.
  - destruct ptr as [|c ptr]; [destruct fuel1, fuel2; reflexivity|].
    destruct fuel1 as [|fuel1]; [lia|]. destruct fuel2 as [|fuel2]; [lia|].
    cbn [Oid_measure].
    destruct (sscanf_d_n (String c ptr)) as [|val1 pos rest] eqn:Hscan;
      [reflexivity|].
    destruct (negb (representable_int val1)); [reflexivity|].
    apply sscanf_d_n_consumes in Hscan.
    apply IH; try lia.
    pose proof (string_drop_length (Z.to_nat pos) (String c ptr)) as Hdrop.
    assert (String.length (string_drop (Z.to_nat pos) (String c ptr)) ≤ k)%nat
      as Hk by (simpl in *; lia).
    repeat case_match; simpl in *; lia.
Qed.

(** The writing loop, likewise. *)
Lemma Oid_write_fuel (k : nat) :
  ∀ (fuel1 fuel2 : nat) (ptr : string) (pbEncoded : Cursor),
    (String.length ptr ≤ k)%nat → (k ≤ fuel1)%nat → (k ≤ fuel2)%nat →
    Oid_write fuel1 ptr pbEncoded = Oid_write fuel2 ptr pbEncoded.
Proof.
  induction k as [|k IH]; intros fuel1 fuel2 ptr pbEncoded Hlen H1 H2.
  - destruct ptr; [|simpl in Hlen; lia].
    destruct fuel1, fuel2; reflexivity.
  - destruct ptr as [|c ptr]; [destruct fuel1, fuel2; reflexivity|].
    destruct fuel1 as [|fuel1]; [lia|]. destruct fuel2 as [|fuel2]; [lia|].
    cbn [Oid_write].
    destruct (sscanf_d_n (String c ptr)) as [|val pos rest] eqn:Hscan;
      [reflexivity|].
    destruct (negb (representable_int val)); [reflexivity|].
    destruct (emit pbEncoded (Oid_arc val)) as [p|]; [|reflexivity].
    cbn [mbind Exec_bind].
    apply sscanf_d_n_consumes in Hscan.
    apply IH; try lia.
    pose proof (string_drop_length (Z.to_nat pos) (String c ptr)) as Hdrop.
    assert (String.length (string_drop (Z.to_nat pos) (String c ptr)) ≤ k)%nat
      as Hk by (simpl in *; lia).
    repeat case_match; simpl in *; lia.
Qed.

(** The loop of [CRYPT_GetLen] runs [lenLen] rounds, a [BYTE]: 256 rounds of
    fuel are never used up. *)
Lemma GetLen_loop_fuel (fuel1 : nat) :
  ∀ (fuel2 : nat) (lenLen : Z) (p : Cursor) (out : Z),
    0 ≤ lenLen ≤ Z.of_nat fuel1 → lenLen ≤ Z.of_nat fuel2 → lenLen < 256 →
    GetLen_loop fuel1 lenLen p out = GetLen_loop fuel2 lenLen p out.
Proof.
  induction fuel1 as [|fuel1 IH]; intros fuel2 lenLen p out H1 H2 Hbyte.
  - assert (lenLen = 0) as -> by lia. destruct fuel2; reflexivity.
  - destruct (decide (lenLen = 0)) as [->|Hpos];
      [destruct fuel2; reflexivity|].
    destruct fuel2 as [|fuel2]; [lia|]. cbn [GetLen_loop].
    assert ((lenLen =? 0) = false) as -> by lia. cbn [negb].
    destruct (peek p 0) as [b|]; [|reflexivity]. cbn [mbind Exec_bind].
    rewrite Z.mod_small by lia. apply IH; lia.
Qed.

Lemma top_byte_clear (temp : Z) :
  0 ≤ temp < 2 ^ 32 → (Z.land temp 0xff000000 =? 0) = (temp <? 2 ^ 24).
Proof.
  intros Ht.
  assert (Z.land temp 0xff000000 = temp / 2 ^ 24 * 2 ^ 24) as ->.
  { apply Z.bits_inj'. intros n Hn. rewrite Z.land_spec.
    change 0xff000000 with (Z.ones 8 * 2 ^ 24).
    destruct (Z.lt_ge_cases n 24) as [Hlow|Hhigh].
    - rewrite !Z.mul_pow2_bits_low by lia. apply andb_false_r.
    - rewrite !Z.mul_pow2_bits by lia.
      rewrite Z.div_pow2_bits by lia. replace (n - 24 + 24) with n by lia.
      destruct (Z.lt_ge_cases n 32) as [Hin|Hout].
      + rewrite Z.ones_spec_low by lia. apply andb_true_r.
      + rewrite Z.ones_spec_high by lia.
        rewrite andb_false_r. symmetry. apply Z.bits_above_log2; [lia|].
        destruct (decide (temp = 0)) as [->|]; [simpl; lia|].
        apply Z.log2_lt_pow2; [lia|].
        apply Z.lt_le_trans with (2 ^ 32); [lia|].
        apply Z.pow_le_mono_r; lia. }
  pose proof (Z.div_mod temp (2 ^ 24) ltac:(lia)).
  pose proof (Z.mod_pos_bound temp (2 ^ 24) ltac:(lia)).
  destruct (Z.ltb_spec temp (2 ^ 24)) as [Hlt|Hge].
  - rewrite Z.div_small by lia. reflexivity.
  - apply Z.eqb_neq. assert (0 < temp / 2 ^ 24); [|lia].
    apply Z.div_str_pos. lia.
Qed.

(** The loop of [CRYPT_EncodeLen] finds the least number of bytes that
    hold a length above 0x7f, and leaves by itself: four rounds of fuel or
    more give the same. *)
Lemma EncodeLen_significant_minimal (fuel : nat) (len : Z) :
  0x7f < len < 2 ^ 32 → (4 ≤ fuel)%nat →
  EncodeLen_significant fuel len sizeof_DWORD
  = if len <? 2 ^ 8 then 1
    else if len <? 2 ^ 16 then 2
    else if len <? 2 ^ 24 then 3
    else 4.
Proof.
  intros Hlen Hfuel.
  do 4 (destruct fuel as [|fuel]; [lia|]). clear Hfuel.
  assert (∀ temp, 0 ≤ temp < 2 ^ 24 →
            DWORD_wrap (Z.shiftl temp 8) = temp * 2 ^ 8) as Hshift.
  { intros temp Ht. rewrite Z.shiftl_mul_pow2 by lia.
    unfold DWORD_wrap. apply Z.mod_small. lia. }
  unfold sizeof_DWORD. cbn [EncodeLen_significant].
  rewrite top_byte_clear by lia.
  destruct (Z.ltb_spec len (2 ^ 24)) as [H24|H24].
  2: { destruct (Z.ltb_spec len (2 ^ 8)); [lia|].
       destruct (Z.ltb_spec len (2 ^ 16)); [lia|]. reflexivity. }
  rewrite (Hshift len) by lia. rewrite top_byte_clear by lia.
  destruct (Z.ltb_spec (len * 2 ^ 8) (2 ^ 24)) as [H16|H16].
  2: { destruct (Z.ltb_spec len (2 ^ 8)); [lia|].
       destruct (Z.ltb_spec len (2 ^ 16)); [lia|]. reflexivity. }
  rewrite (Hshift (len * 2 ^ 8)) by lia. rewrite top_byte_clear by lia.
  destruct (Z.ltb_spec (len * 2 ^ 8 * 2 ^ 8) (2 ^ 24)) as [H8|H8].
  2: { destruct (Z.ltb_spec len (2 ^ 8)); [lia|].
       destruct (Z.ltb_spec len (2 ^ 16)); [|lia]. reflexivity. }
  rewrite (Hshift (len * 2 ^ 8 * 2 ^ 8)) by lia.
  rewrite top_byte_clear by lia.
  destruct (Z.ltb_spec (len * 2 ^ 8 * 2 ^ 8 * 2 ^ 8) (2 ^ 24)); [lia|].
  destruct (Z.ltb_spec len (2 ^ 8)); [|lia]. reflexivity.
Qed.

(** ** What does hold of the SET OF encoder: the size it asks for *)

Lemma DWORD_wrap_add_l (a b : Z) :
  DWORD_wrap (DWORD_wrap a + b) = DWORD_wrap (a + b).
Proof. unfold DWORD_wrap. apply Zplus_mod_idemp_l. Qed.

(** The sizing loop visits the attributes in order, but the sizes it finds
    and the sum it ends with do not depend on that order. *)
Lemma Rdn_measure_perm (attrs1 attrs2 : list CERT_RDN_ATTR) :
  attrs1 ≡ₚ attrs2 →
  ∀ (bytesNeeded : Z) (sizes1 : list Z) (total : Z),
    Rdn_measure attrs1 bytesNeeded = Done (TRUE, sizes1, total) →
    ∃ sizes2,
      Rdn_measure attrs2 bytesNeeded = Done (TRUE, sizes2, total)
      ∧ sizes1 ≡ₚ sizes2.
Proof.
  induction 1 as [|attr l1 l2 Hperm IH|x y l|l1 l2 l3 H12 IH12 H23 IH23];
    intros bytesNeeded sizes1 total Hrun.
  - exists sizes1. done.
  - cbn [Rdn_measure] in *.
    destruct (CRYPT_AsnEncodeRdnAttr attr None 0) as [[[ret q] size]|];
      [|discriminate].
    cbn [mbind Exec_bind] in *. destruct ret; cbn [is_TRUE negb] in *;
      [|discriminate].
    destruct (Rdn_measure l1 (DWORD_wrap (bytesNeeded + size)))
      as [[[ret sizes] n]|] eqn:Hrest; [|discriminate].
    cbn [mbind Exec_bind] in Hrun. injection Hrun as -> <- ->.
    destruct (IH _ _ _ Hrest) as (sizes2 & -> & Hsizes).
    exists (size :: sizes2). cbn [mbind Exec_bind]. split; [done|].
    by constructor.
  - cbn [Rdn_measure] in *.
    destruct (CRYPT_AsnEncodeRdnAttr y None 0) as [[[rety qy] sy]|];
      [|discriminate].
    cbn [mbind Exec_bind] in *. destruct rety; cbn [is_TRUE negb] in *;
      [|discriminate].
    destruct (CRYPT_AsnEncodeRdnAttr x None 0) as [[[retx qx] sx]|];
      [|discriminate].
    cbn [mbind Exec_bind] in *. destruct retx; cbn [is_TRUE negb] in *;
      [|discriminate].
    rewrite DWORD_wrap_add_l in *.
    replace (bytesNeeded + sx + sy) with (bytesNeeded + sy + sx) by lia.
    destruct (Rdn_measure l (DWORD_wrap (bytesNeeded + sy + sx)))
      as [[[ret sizes] n]|]; [|discriminate].
    cbn [mbind Exec_bind] in *. injection Hrun as -> <- ->.
    exists (sx :: sy :: sizes). split; [done|]. apply perm_swap.
  - destruct (IH12 _ _ _ Hrun) as (sizes2 & Hrun2 & Hs12).
    destruct (IH23 _ _ _ Hrun2) as (sizes3 & Hrun3 & Hs23).
    exists sizes3. split; [done|]. by etrans.
Qed.

Section RdnSizeFacts.

Variable HeapAlloc : nat → Allocator.

(** The part of C2 that holds: the sizing call of the SET OF encoder, when
    it succeeds, asks for the same number of bytes for every order of the
    attribute array. *)
Lemma CRYPT_AsnEncodeRdn_size_perm (attrs1 attrs2 : list CERT_RDN_ATTR)
    (pcbEncoded size : Z) :
  attrs1 ≡ₚ attrs2 →
  CRYPT_AsnEncodeRdn HeapAlloc
    (mkRdn (Z.of_nat (length attrs1)) (Some attrs1)) None pcbEncoded
  = Done (TRUE, None, size) →
  CRYPT_AsnEncodeRdn HeapAlloc
    (mkRdn (Z.of_nat (length attrs2)) (Some attrs2)) None pcbEncoded
  = Done (TRUE, None, size).
Proof.
  intros Hperm. unfold CRYPT_AsnEncodeRdn. cbn [cRDNAttr rgRDNAttr].
  rewrite <- (Permutation_length Hperm).
  destruct (Z.of_nat (length attrs1) =? 0) eqn:Hempty.
  - assert (attrs1 = []) as -> by (destruct attrs1; [done|simpl in *; lia]).
    apply Permutation_nil_l in Hperm as ->. done.
  - destruct (HeapAlloc 0 _); [|cbn; intros H; discriminate H].
    unfold array_prefix.
    rewrite decide_True by lia.
    rewrite decide_True by (rewrite (Permutation_length Hperm); lia).
    rewrite Nat2Z.id, firstn_all.
    rewrite (Permutation_length Hperm), firstn_all.
    cbn [mbind Exec_bind is_TRUE].
    destruct (Rdn_measure attrs1 0) as [[[ret sizes1] total]|] eqn:Hrun;
      [|intros H; discriminate H].
    destruct ret; cbn [mbind Exec_bind]; [|].
    + destruct (Rdn_measure_perm _ _ Hperm _ _ _ Hrun) as (sizes2 & -> & _).
      cbn [mbind Exec_bind]. done.
    + destruct (lenBytes_of total); cbn; intros H; discriminate H.
Qed.

End RdnSizeFacts.

(** ** What the name encoders write *)

(** This part shows that C1 is all that stands between the
    SET OF encoder and C2: a writing call that succeeds writes bytes that
    are a function of the attributes alone, sorted, so that two calls that
    succeed on two orders of the same attributes agree. *)

Lemma poke_emit (p q : Cursor) (bs : list byte) :
  emit p bs = Done q → poke p bs = Done (rebase p q).
Proof.
  unfold emit. destruct (poke p bs) as [p'|] eqn:Hpoke; [|discriminate].
  cbn. intros [= <-]. unfold poke in Hpoke. case_decide; [|discriminate].
  injection Hpoke as <-. reflexivity.
Qed.

Lemma emit_app (p p1 p2 : Cursor) (a b : list byte) :
  emit p a = Done p1 → emit p1 b = Done p2 → emit p (a ++ b) = Done p2.
Proof.
  unfold emit, poke. destruct p as [m pos]. cbn [c_mem c_pos].
  case_decide as Ha; [|discriminate]. cbn. intros [= <-].
  cbn [c_mem c_pos advance]. rewrite !Nat2Z.id.
  assert (length (take pos m ++ a ++ drop (pos + length a) m) = length m)
    as Hlen.
  { rewrite !length_app, length_take, length_drop. lia. }
  rewrite Hlen. case_decide as Hb; [|discriminate]. cbn. intros [= <-].
  rewrite decide_True by (rewrite length_app; lia).
  unfold mret, Exec_ret, advance. cbn [mbind Exec_bind c_mem c_pos].
  rewrite !Nat2Z.id. f_equal. f_equal; [|rewrite length_app; lia].
  rewrite (app_assoc (take pos m) a).
  rewrite take_app_length' by (rewrite length_app, length_take; lia).
  rewrite drop_app_add' by (rewrite length_app, length_take; lia).
  rewrite drop_drop, length_app, <- !app_assoc.
  by rewrite Nat.add_assoc.
Qed.

Lemma poke_pos (p q : Cursor) (bs : list byte) :
  poke p bs = Done q →
  c_pos q = c_pos p ∧ length (c_mem q) = length (c_mem p)
  ∧ (c_pos p + length bs ≤ length (c_mem p))%nat.
Proof.
  unfold poke. case_decide as Hfit; [|discriminate]. intros [= <-].
  cbn [c_mem c_pos]. rewrite !length_app, length_take, length_drop. lia.
Qed.

Lemma emit_of_poke (p q : Cursor) (bs : list byte) :
  poke p bs = Done q → emit p bs = Done (advance q (Z.of_nat (length bs))).
Proof. unfold emit. intros ->. reflexivity. Qed.

Lemma emit_pos (p q : Cursor) (bs : list byte) :
  emit p bs = Done q →
  c_pos q = (c_pos p + length bs)%nat
  ∧ length (c_mem q) = length (c_mem p)
  ∧ (c_pos q ≤ length (c_mem q))%nat.
Proof.
  unfold emit. destruct (poke p bs) as [p'|] eqn:Hpoke; [|discriminate].
  apply poke_pos in Hpoke as (Hpos & Hlen & Hfit).
  cbn. intros [= <-]. unfold advance. cbn [c_mem c_pos]. lia.
Qed.

Lemma emit_poke_app (p p1 p2 : Cursor) (a b : list byte) :
  emit p a = Done p1 → poke p1 b = Done p2 →
  poke p (a ++ b) = Done (rebase p p2).
Proof.
  intros Ha Hb. apply emit_of_poke in Hb.
  apply (poke_emit _ _ _ (emit_app _ _ _ _ _ Ha Hb)).
Qed.

Lemma emit_nil (p : Cursor) :
  (c_pos p ≤ length (c_mem p))%nat → emit p [] = Done p.
Proof.
  intros Hin. unfold emit, poke. destruct p as [m pos]. cbn [c_mem c_pos] in *.
  rewrite decide_True by (simpl; lia). cbn. unfold advance. cbn.
  rewrite !Nat.add_0_r, take_drop. reflexivity.
Qed.

Lemma EncodeLen_octets_length (n : nat) :
  ∀ len, length (EncodeLen_octets n len) = n.
Proof.
  induction n as [|n IH]; intros len; [done|].
  cbn [EncodeLen_octets]. rewrite length_app, IH. simpl. lia.
Qed.

Lemma EncodeLen_significant_bounds (fuel : nat) :
  ∀ temp significantBytes,
    significantBytes - Z.of_nat fuel
    ≤ EncodeLen_significant fuel temp significantBytes ≤ significantBytes.
Proof.
  induction fuel as [|fuel IH]; intros temp s; cbn [EncodeLen_significant].
  - lia.
  - destruct (Z.land temp 0xff000000 =? 0); [|lia].
    specialize (IH (DWORD_wrap (Z.shiftl temp 8)) (s - 1)). lia.
Qed.

Lemma lenBytes_of_bytes (len : Z) :
  lenBytes_of len = Done (Z.of_nat (length (EncodeLen_bytes len))).
Proof.
  rewrite lenBytes_of_eq. unfold EncodeLen_bytes.
  destruct (len <=? 0x7f); [reflexivity|].
  cbn [length]. rewrite EncodeLen_octets_length.
  pose proof (EncodeLen_significant_bounds 4 len sizeof_DWORD) as Hb.
  unfold sizeof_DWORD in *. f_equal. lia.
Qed.

Lemma CRYPT_EncodeLen_bytes (len : Z) (p : Cursor) r q n :
  CRYPT_EncodeLen len (Some p) (Z.of_nat (length (EncodeLen_bytes len)))
  = Done (r, q, n) →
  ∃ p', poke p (EncodeLen_bytes len) = Done p' ∧ r = TRUE ∧ q = Some p'
        ∧ n = Z.of_nat (length (EncodeLen_bytes len)).
Proof.
  pose proof (lenBytes_of_bytes len) as Hlen. rewrite lenBytes_of_eq in Hlen.
  injection Hlen as Hlen. rewrite <- Hlen.
  unfold CRYPT_EncodeLen, EncodeLen_bytes.
  destruct (len <=? 0x7f).
  - rewrite Z.ltb_irrefl.
    destruct (poke p [BYTE_of len]) as [p'|]; [|discriminate].
    cbn. intros [= <- <- <-]. by exists p'.
  - rewrite Z.ltb_irrefl.
    destruct (poke p _) as [p'|]; [|discriminate].
    cbn. intros [= <- <- <-]. by exists p'.
Qed.

(** The identifier octet and the length octets, written one after the
    other. *)
Lemma header_written (tag : byte) (len : Z) (p0 p : Cursor) r q n :
  emit p0 [tag] = Done p →
  CRYPT_EncodeLen len (Some p) (Z.of_nat (length (EncodeLen_bytes len)))
  = Done (r, q, n) →
  emit p0 (tag :: EncodeLen_bytes len)
  = Done (advance (from_option (rebase p) p q) n).
Proof.
  intros Htag Hlen.
  apply CRYPT_EncodeLen_bytes in Hlen as (p' & Hpoke & -> & -> & ->).
  cbn [from_option].
  pose proof (poke_pos _ _ _ Hpoke) as (Hpos & _ & _).
  apply emit_of_poke in Hpoke.
  change (tag :: EncodeLen_bytes len) with ([tag] ++ EncodeLen_bytes len).
  rewrite (emit_app _ _ _ _ _ Htag Hpoke). unfold rebase, advance.
  cbn [c_mem c_pos]. rewrite Hpos. reflexivity.
Qed.

Lemma DWORD_wrap_range (z : Z) : 0 ≤ DWORD_wrap z < 2 ^ 32.
Proof. unfold DWORD_wrap. apply Z.mod_pos_bound. lia. Qed.

Lemma DWORD_wrap_small (z : Z) : 0 ≤ z < 2 ^ 32 → DWORD_wrap z = z.
Proof. unfold DWORD_wrap. apply Z.mod_small. Qed.

Lemma DWORD_wrap_idemp (z : Z) : DWORD_wrap (DWORD_wrap z) = DWORD_wrap z.
Proof. unfold DWORD_wrap. apply Zmod_mod. Qed.

Lemma DWORD_wrap_add (a b : Z) :
  DWORD_wrap (DWORD_wrap a + DWORD_wrap b) = DWORD_wrap (a + b).
Proof. unfold DWORD_wrap. symmetry. apply Zplus_mod. Qed.

(** The content length that a writing call recomputes from the total is
    the one the sizing pass started from. *)
Lemma DWORD_wrap_content (len lenBytes : Z) :
  DWORD_wrap (DWORD_wrap (DWORD_wrap len + (1 + lenBytes)) - 1 - lenBytes)
  = DWORD_wrap len.
Proof.
  unfold DWORD_wrap.
  replace ((len mod 2 ^ 32 + (1 + lenBytes)) mod 2 ^ 32 - 1 - lenBytes)
    with ((len mod 2 ^ 32 + (1 + lenBytes)) mod 2 ^ 32 - (1 + lenBytes))
    by lia.
  rewrite Zminus_mod_idemp_l.
  replace (len mod 2 ^ 32 + (1 + lenBytes) - (1 + lenBytes))
    with (len mod 2 ^ 32) by lia.
  apply Zmod_mod.
Qed.

Lemma Oid_outBytes_length (i : nat) :
  ∀ val, length (Oid_outBytes i val) = i.
Proof.
  induction i as [|i IH]; intros val; [done|].
  cbn [Oid_outBytes]. rewrite length_app, IH. simpl. lia.
Qed.

Lemma Oid_numBytes_range (val : Z) : 1 ≤ Oid_numBytes val ≤ 5.
Proof. unfold Oid_numBytes. repeat case_match; lia. Qed.

Lemma Oid_arc_length (val : Z) :
  Z.of_nat (length (Oid_arc val)) = Oid_numBytes val.
Proof.
  unfold Oid_arc. pose proof (Oid_numBytes_range val) as Hn.
  pose proof (Oid_outBytes_length (Z.to_nat (Oid_numBytes val)) val) as Hlen.
  rewrite <- length_reverse in Hlen.
  destruct (reverse _) as [|last front]; simpl in Hlen; [lia|].
  rewrite length_app, length_fmap, length_reverse. simpl. lia.
Qed.

(** The writing loop of the OID encoder writes the arcs. *)
Lemma Oid_write_arcs (fuel : nat) :
  ∀ (ptr : string) (p q : Cursor),
    (c_pos p ≤ length (c_mem p))%nat →
    Oid_write fuel ptr p = Done q →
    ∃ arcs, Oid_arcs fuel ptr = Some arcs ∧ emit p arcs = Done q.
Proof.
  induction fuel as [|fuel IH]; intros ptr p q Hin Hrun.
  - destruct ptr; [|discriminate]. injection Hrun as <-.
    exists []. split; [done|]. by apply emit_nil.
  - destruct ptr as [|c ptr].
    { injection Hrun as <-. exists []. split; [done|]. by apply emit_nil. }
    cbn [Oid_write Oid_arcs] in *.
    destruct (sscanf_d_n (String c ptr)) as [|val pos rest]; [discriminate|].
    destruct (negb (representable_int val)); [discriminate|].
    destruct (emit p (Oid_arc val)) as [p1|] eqn:Harc; [|discriminate].
    cbn [mbind Exec_bind] in Hrun.
    pose proof (emit_pos _ _ _ Harc) as (_ & _ & Hin1).
    destruct (IH _ _ _ Hin1 Hrun) as (arcs & -> & Hrest).
    exists (Oid_arc val ++ arcs). split; [done|].
    apply (emit_app _ _ _ _ _ Harc Hrest).
Qed.

(** The sizing loop counts them. *)
Lemma Oid_measure_arcs (fuel : nat) :
  ∀ (ptr : string) (n : Z) (arcs : list byte),
    Oid_arcs fuel ptr = Some arcs →
    Oid_measure fuel ptr (DWORD_wrap n)
    = Done (Some (DWORD_wrap (n + Z.of_nat (length arcs)))).
Proof.
  induction fuel as [|fuel IH]; intros ptr n arcs Harcs.
  - destruct ptr; [|discriminate]. injection Harcs as <-.
    simpl. by rewrite Z.add_0_r.
  - destruct ptr as [|c ptr].
    { injection Harcs as <-. simpl. by rewrite Z.add_0_r. }
    cbn [Oid_measure Oid_arcs] in *.
    destruct (sscanf_d_n (String c ptr)) as [|val pos rest]; [discriminate|].
    destruct (negb (representable_int val)); [discriminate|].
    match type of Harcs with
    | (?rest ≫= _) = _ => destruct rest as [arcs'|] eqn:Hrest
    end; [|discriminate].
    injection Harcs as <-.
    rewrite DWORD_wrap_add_l, (IH _ _ _ Hrest).
    rewrite length_app, Nat2Z.inj_add, Oid_arc_length.
    do 3 f_equal. lia.
Qed.

(** The sizing call of the OID encoder asks for as many bytes as the
    writing call writes. *)
Lemma CRYPT_AsnEncodeOid_size (oid : option string) (bytes : list byte)
    (cb : Z) :
  Oid_bytes oid = Some bytes →
  CRYPT_AsnEncodeOid oid None cb
  = Done (TRUE, None, DWORD_wrap (Z.of_nat (length bytes))).
Proof.
  unfold Oid_bytes, CRYPT_AsnEncodeOid. destruct oid as [s|].
  - destruct (sscanf_d_dot_d_dot_n s 0) as [[[[val1 val2] firstPos]|]|];
      try discriminate.
    cbn [mbind Exec_bind].
    destruct (Oid_arcs _ _) as [arcs|] eqn:Harcs; [|discriminate].
    cbn [mbind option_bind]. intros [= <-].
    pose proof (Oid_measure_arcs _ _ 1 _ Harcs) as Hm.
    change (DWORD_wrap 1) with 1 in Hm. rewrite Hm.
    cbn [mbind Exec_bind]. rewrite lenBytes_of_bytes. cbn [mbind Exec_bind].
    rewrite DWORD_wrap_add_l. do 3 f_equal.
    cbn [length]. rewrite length_app. cbn [length]. lia.
  - intros [= <-]. reflexivity.
Qed.

Lemma Oid_measure_range (fuel : nat) :
  ∀ (ptr : string) (n bytesNeeded : Z),
    Oid_measure fuel ptr (DWORD_wrap n) = Done (Some bytesNeeded) →
    bytesNeeded = DWORD_wrap bytesNeeded.
Proof.
  induction fuel as [|fuel IH]; intros ptr n bytesNeeded Hrun.
  - destruct ptr; [|discriminate]. injection Hrun as <-.
    by rewrite DWORD_wrap_idemp.
  - destruct ptr as [|c ptr].
    { injection Hrun as <-. by rewrite DWORD_wrap_idemp. }
    cbn [Oid_measure] in Hrun.
    destruct (sscanf_d_n (String c ptr)) as [|val pos rest]; [discriminate|].
    destruct (negb (representable_int val)); [discriminate|].
    by apply IH in Hrun.
Qed.

(** A writing call of the OID encoder that succeeds has written
    [Oid_bytes]. *)
Lemma CRYPT_AsnEncodeOid_writes (oid : option string) (p0 : Cursor) (cb : Z)
    (q : option Cursor) (n : Z) :
  CRYPT_AsnEncodeOid oid (Some p0) cb = Done (TRUE, q, n) →
  ∃ bytes q',
    Oid_bytes oid = Some bytes ∧ poke p0 bytes = Done q' ∧ q = Some q'
    ∧ n = DWORD_wrap (Z.of_nat (length bytes)).
Proof.
  unfold CRYPT_AsnEncodeOid, Oid_bytes. destruct oid as [s|].
  - destruct (sscanf_d_dot_d_dot_n s 0) as [[[[val1 val2] firstPos]|]|];
      cbn [mbind Exec_bind]; try discriminate.
    destruct (Oid_measure _ _ 1) as [[bytesNeeded|]|] eqn:Hmeasure;
      cbn [mbind Exec_bind]; try discriminate.
    rewrite lenBytes_of_bytes. cbn [mbind Exec_bind].
    destruct (peek p0 0) as [first|]; cbn [mbind Exec_bind]; [|discriminate].
    destruct (BYTE_val first <? _); [discriminate|].
    destruct (emit p0 [BYTE_of ASN_OBJECTIDENTIFIER]) as [p|] eqn:Htag;
      cbn [mbind Exec_bind]; [|discriminate].
    change 1 with (DWORD_wrap 1) in Hmeasure at 1.
    pose proof (Oid_measure_range _ _ _ _ Hmeasure) as Hrange.
    pose proof (DWORD_wrap_content bytesNeeded
                  (Z.of_nat (length (EncodeLen_bytes bytesNeeded)))) as Hlen.
    rewrite <- Hrange in Hlen. rewrite Hlen. clear Hlen.
    destruct (CRYPT_EncodeLen bytesNeeded (Some p) _) as [[[r ql] lb]|]
      eqn:Hlen; cbn [mbind Exec_bind]; [|discriminate].
    pose proof (header_written _ _ _ _ _ _ _ Htag Hlen) as Hhead.
    destruct (emit _ [BYTE_of (val1 * 40 + val2)]) as [p1|] eqn:Hfirst;
      cbn [mbind Exec_bind]; [|discriminate].
    destruct (Oid_write _ _ p1) as [p2|] eqn:Hwrite;
      cbn [mbind Exec_bind]; [|discriminate].
    intros [= <- <-].
    pose proof (emit_pos _ _ _ Hfirst) as (_ & _ & Hin).
    destruct (Oid_write_arcs _ _ _ _ Hin Hwrite) as (arcs & Harcs & Hemit).
    rewrite Harcs. cbn [mbind option_bind].
    pose proof (Oid_measure_arcs _ _ 1 _ Harcs) as Hm.
    rewrite Hmeasure in Hm. injection Hm as ->.
    pose proof (emit_app _ _ _ _ _ Hfirst Hemit) as Hcontent.
    pose proof (emit_app _ _ _ _ _ Hhead Hcontent) as Hall.
    apply poke_emit in Hall.
    eexists _, _. split; [reflexivity|]. split; [exact Hall|].
    split; [reflexivity|].
    rewrite DWORD_wrap_add_l. f_equal.
    cbn [length]. rewrite length_app. cbn [length]. lia.
  - cbn [mbind Exec_bind].
    destruct (peek p0 0) as [first|]; cbn [mbind Exec_bind]; [|discriminate].
    destruct (BYTE_val first <? _); [discriminate|].
    destruct (emit p0 [BYTE_of ASN_OBJECTIDENTIFIER]) as [p|] eqn:Htag;
      cbn [mbind Exec_bind]; [|discriminate].
    change (DWORD_wrap (DWORD_wrap (0 + (1 + 1)) - 1 - 1)) with 0.
    change 1 with (Z.of_nat (length (EncodeLen_bytes 0))) at 1.
    destruct (CRYPT_EncodeLen 0 (Some p) _) as [[[r ql] lb]|]
      eqn:Hlen; cbn [mbind Exec_bind]; [|discriminate].
    pose proof (header_written _ _ _ _ _ _ _ Htag Hlen) as Hhead.
    intros [= <- <-]. apply poke_emit in Hhead.
    eexists _, _. split; [reflexivity|]. split; [exact Hhead|].
    split; reflexivity.
Qed.

(** The attribute-value encoder, likewise. *)
Lemma CRYPT_AsnEncodeNameValue_size (value : CERT_NAME_VALUE)
    (bytes : list byte) (cb : Z) :
  NameValue_bytes value = Some bytes →
  CRYPT_AsnEncodeNameValue value None cb
  = Done (TRUE, None, DWORD_wrap (Z.of_nat (length bytes))).
Proof.
  unfold NameValue_bytes, CRYPT_AsnEncodeNameValue.
  destruct (nv_dwValueType value =? CERT_RDN_NUMERIC_STRING);
    [|destruct (nv_dwValueType value =? CERT_RDN_PRINTABLE_STRING);
      [|destruct (nv_dwValueType value =? CERT_RDN_IA5_STRING);
        [|discriminate]]].
  all: cbn [mbind option_bind]; case_decide as Hfit; [|discriminate].
  all: intros [= <-]; rewrite lenBytes_of_bytes; cbn [mbind Exec_bind].
  all: do 3 f_equal; cbn [length]; rewrite length_app, length_take; lia.
Qed.

Lemma CRYPT_AsnEncodeNameValue_writes (value : CERT_NAME_VALUE)
    (p0 : Cursor) (cb : Z) (q : option Cursor) (n : Z) :
  CRYPT_AsnEncodeNameValue value (Some p0) cb = Done (TRUE, q, n) →
  ∃ bytes q',
    NameValue_bytes value = Some bytes ∧ poke p0 bytes = Done q'
    ∧ q = Some q' ∧ n = DWORD_wrap (Z.of_nat (length bytes)).
Proof.
  unfold CRYPT_AsnEncodeNameValue, NameValue_bytes.
  destruct (nv_dwValueType value =? CERT_RDN_NUMERIC_STRING);
    [|destruct (nv_dwValueType value =? CERT_RDN_PRINTABLE_STRING);
      [|destruct (nv_dwValueType value =? CERT_RDN_IA5_STRING);
        [|destruct (nv_dwValueType value =? CERT_RDN_ANY_TYPE);
          discriminate]]].
  all: cbn [mbind option_bind]; rewrite lenBytes_of_bytes;
    cbn [mbind Exec_bind].
  all: destruct (cb <? _); [discriminate|].
  all: destruct (emit p0 _) as [p|] eqn:Htag;
    cbn [mbind Exec_bind]; [|discriminate].
  all: destruct (CRYPT_EncodeLen _ (Some p) _) as [[[r ql] lb]|] eqn:Hlen;
    cbn [mbind Exec_bind]; [|discriminate].
  all: pose proof (header_written _ _ _ _ _ _ _ Htag Hlen) as Hhead.
  all: unfold read_bytes; case_decide as Hfit; [|discriminate].
  all: cbn [mbind Exec_bind].
  all: destruct (poke _ (take _ _)) as [p2|] eqn:Hdata;
    cbn [mbind Exec_bind]; [|discriminate].
  all: intros [= <- <-].
  all: pose proof (emit_poke_app _ _ _ _ _ Hhead Hdata) as Hall.
  all: eexists _, _; split; [reflexivity|]; split; [exact Hall|].
  all: split; [reflexivity|].
  all: f_equal; cbn [length]; rewrite length_app, length_take; lia.
Qed.

Lemma DWORD_wrap_content' (len lenBytes : Z) :
  DWORD_wrap (DWORD_wrap (DWORD_wrap len + (1 + lenBytes)) - lenBytes - 1)
  = DWORD_wrap len.
Proof.
  pose proof (DWORD_wrap_content len lenBytes) as Hcontent. revert Hcontent.
  generalize (DWORD_wrap (DWORD_wrap len + (1 + lenBytes))).
  intros total <-. f_equal. lia.
Qed.

(** The attribute encoder, likewise. *)
Lemma CRYPT_AsnEncodeRdnAttr_size (attr : CERT_RDN_ATTR) (bytes : list byte)
    (cb : Z) :
  RdnAttr_bytes attr = Some bytes →
  CRYPT_AsnEncodeRdnAttr attr None cb
  = Done (TRUE, None, DWORD_wrap (Z.of_nat (length bytes))).
Proof.
  unfold RdnAttr_bytes, CRYPT_AsnEncodeRdnAttr.
  destruct (Oid_bytes _) as [oid|] eqn:Hoid; [|discriminate].
  cbn [mbind option_bind].
  destruct (NameValue_bytes _) as [value|] eqn:Hvalue; [|discriminate].
  cbn [mbind option_bind]. intros [= <-].
  rewrite (CRYPT_AsnEncodeOid_size _ _ _ Hoid).
  cbn [mbind Exec_bind is_TRUE negb].
  rewrite (CRYPT_AsnEncodeNameValue_size _ _ _ Hvalue).
  cbn [mbind Exec_bind is_TRUE negb].
  rewrite DWORD_wrap_add, lenBytes_of_bytes. cbn [mbind Exec_bind].
  rewrite DWORD_wrap_add_l. do 3 f_equal.
  cbn [length]. rewrite !length_app. lia.
Qed.

Lemma CRYPT_AsnEncodeRdnAttr_writes (attr : CERT_RDN_ATTR) (p0 : Cursor)
    (cb : Z) (q : option Cursor) (n : Z) :
  Z.of_nat (length (c_mem p0)) < 2 ^ 32 →
  CRYPT_AsnEncodeRdnAttr attr (Some p0) cb = Done (TRUE, q, n) →
  ∃ bytes q',
    RdnAttr_bytes attr = Some bytes ∧ poke p0 bytes = Done q'
    ∧ q = Some q' ∧ n = DWORD_wrap (Z.of_nat (length bytes)).
Proof.
  intros Hmem. unfold CRYPT_AsnEncodeRdnAttr, RdnAttr_bytes.
  destruct (CRYPT_AsnEncodeOid (pszObjId attr) None 0)
    as [[[ret1 q1] size1]|] eqn:HoidA; cbn [mbind Exec_bind]; [|discriminate].
  destruct ret1; cbn [is_TRUE negb]; [|discriminate].
  destruct (CRYPT_AsnEncodeNameValue _ None size1)
    as [[[ret2 q2] size2]|] eqn:HvalA; cbn [mbind Exec_bind]; [|discriminate].
  destruct ret2; cbn [is_TRUE negb]; [|discriminate].
  rewrite lenBytes_of_bytes. cbn [mbind Exec_bind].
  destruct (cb <? _); [discriminate|].
  destruct (emit p0 _) as [p|] eqn:Htag; cbn [mbind Exec_bind]; [|discriminate].
  rewrite DWORD_wrap_content'.
  destruct (CRYPT_EncodeLen _ (Some p) _) as [[[r ql] lb]|] eqn:Hlen;
    cbn [mbind Exec_bind]; [|discriminate].
  pose proof (header_written _ _ _ _ _ _ _ Htag Hlen) as Hhead.
  apply CRYPT_EncodeLen_bytes in Hlen as (pl & _ & _ & -> & ->).
  cbn [from_option] in *.
  destruct (CRYPT_AsnEncodeOid _ (Some _) _) as [[[ret3 q3] size3]|] eqn:HoidB;
    cbn [mbind Exec_bind]; [|discriminate].
  destruct ret3; cbn [is_TRUE negb]; [|discriminate].
  apply CRYPT_AsnEncodeOid_writes in HoidB
    as (oid & q3' & Hoid & HpokeOid & -> & ->).
  cbn [from_option].
  destruct (CRYPT_AsnEncodeNameValue _ (Some _) _)
    as [[[ret4 q4] size4]|] eqn:HvalB; cbn [mbind Exec_bind]; [|discriminate].
  intros [= -> <- <-].
  apply CRYPT_AsnEncodeNameValue_writes in HvalB
    as (value & q4' & Hvalue & HpokeVal & -> & _).
  rewrite Hoid, Hvalue. cbn [mbind option_bind from_option].
  rewrite (CRYPT_AsnEncodeOid_size _ _ _ Hoid) in HoidA.
  injection HoidA as _ <-.
  rewrite (CRYPT_AsnEncodeNameValue_size _ _ _ Hvalue) in HvalA.
  injection HvalA as _ <-.
  rewrite DWORD_wrap_add in *.
  pose proof (emit_pos _ _ _ Hhead) as (_ & HlenA & _).
  pose proof (poke_pos _ _ _ HpokeOid) as (Hpos3 & _ & Hfit3).
  rewrite HlenA in Hfit3.
  rewrite (DWORD_wrap_small (Z.of_nat (length oid))) in HpokeVal by lia.
  apply emit_of_poke in HpokeOid.
  replace (advance (rebase _ q3') _)
    with (advance q3' (Z.of_nat (length oid))) in HpokeVal
    by (unfold advance, rebase; cbn [c_mem c_pos]; by rewrite Hpos3).
  pose proof (emit_poke_app _ _ _ _ _ HpokeOid HpokeVal) as Hcontent.
  apply emit_of_poke in Hcontent.
  pose proof (emit_app _ _ _ _ _ Hhead Hcontent) as Hall.
  apply poke_emit in Hall.
  eexists _, _. split; [reflexivity|]. split; [exact Hall|].
  split; [reflexivity|].
  rewrite DWORD_wrap_add_l. f_equal. cbn [length]. rewrite !length_app. lia.
Qed.

Lemma CRYPT_AsnEncodeRdnAttr_size_range (attr : CERT_RDN_ATTR) (cb : Z)
    (q : option Cursor) (size : Z) :
  CRYPT_AsnEncodeRdnAttr attr None cb = Done (TRUE, q, size) →
  0 ≤ size < 2 ^ 32.
Proof.
  unfold CRYPT_AsnEncodeRdnAttr.
  destruct (CRYPT_AsnEncodeOid (pszObjId attr) None 0)
    as [[[ret1 q1] size1]|]; cbn [mbind Exec_bind]; [|discriminate].
  destruct ret1; cbn [is_TRUE negb]; [|discriminate].
  destruct (CRYPT_AsnEncodeNameValue _ None size1)
    as [[[ret2 q2] size2]|]; cbn [mbind Exec_bind]; [|discriminate].
  destruct ret2; cbn [is_TRUE negb]; [|discriminate].
  rewrite lenBytes_of_bytes. cbn [mbind Exec_bind].
  intros [= _ <-]. apply DWORD_wrap_range.
Qed.

(** The sizing loop of the SET OF encoder: each size is the one the
    attribute encoder asks for, and the total is their sum. *)
Lemma Rdn_measure_sizes (attrs : list CERT_RDN_ATTR) :
  ∀ (acc : Z) (sizes : list Z) (total : Z),
    Rdn_measure attrs (DWORD_wrap acc) = Done (TRUE, sizes, total) →
    Forall2 (λ attr size,
               ∃ q, CRYPT_AsnEncodeRdnAttr attr None 0 = Done (TRUE, q, size))
      attrs sizes
    ∧ total = DWORD_wrap (acc + foldr Z.add 0 sizes).
Proof.
  induction attrs as [|attr attrs IH]; intros acc sizes total Hrun.
  - injection Hrun as <- <-. split; [constructor|].
    cbn [foldr]. by rewrite Z.add_0_r.
  - cbn [Rdn_measure] in Hrun.
    destruct (CRYPT_AsnEncodeRdnAttr attr None 0) as [[[ret q] size]|]
      eqn:Hattr; cbn [mbind Exec_bind] in Hrun; [|discriminate].
    destruct ret; cbn [is_TRUE negb] in Hrun; [|discriminate].
    rewrite DWORD_wrap_add_l in Hrun.
    destruct (Rdn_measure attrs _) as [[[ret sizes'] total']|] eqn:Hrest;
      cbn [mbind Exec_bind] in Hrun; [|discriminate].
    injection Hrun as -> <- <-.
    destruct (IH _ _ _ Hrest) as [Hsizes ->].
    split; [constructor; eauto|].
    cbn [foldr]. f_equal. lia.
Qed.

Lemma length_fresh (contents : nat → byte) (size : Z) :
  length (fresh contents size) = Z.to_nat size.
Proof. unfold fresh. by rewrite length_fmap, length_seq. Qed.

Lemma RdnAttr_blob_sizes (attrs : list CERT_RDN_ATTR) :
  foldr Z.add 0 (cbData <$> (RdnAttr_blob <$> attrs))
  = Z.of_nat (length (mjoin (pbData <$> (RdnAttr_blob <$> attrs)))).
Proof.
  induction attrs as [|attr attrs IH]; [done|].
  cbn [fmap list_fmap foldr mjoin list_join]. rewrite length_app, IH.
  unfold RdnAttr_blob at 1 3. cbn [cbData pbData]. by rewrite Nat2Z.inj_add.
Qed.

Lemma RdnAttr_blob_encoded (attrs : list CERT_RDN_ATTR) :
  Forall (λ b, cbData b = Z.of_nat (length (pbData b)))
    (RdnAttr_blob <$> attrs).
Proof. apply Forall_fmap, Forall_forall. intros attr _. reflexivity. Qed.

Section RdnFacts.

Variable HeapAlloc : nat → Allocator.

(** The encoding loop: every block comes back filled from end to end with
    the encoding of its attribute, whatever the allocator left in it. *)
Lemma Rdn_encode_each_blobs (attrs : list CERT_RDN_ATTR) :
  ∀ (sizes : list Z) (i : nat) (blobs : list CRYPT_DATA_BLOB),
    Forall2 (λ attr size,
               ∃ q, CRYPT_AsnEncodeRdnAttr attr None 0 = Done (TRUE, q, size))
      attrs sizes →
    Rdn_encode_each HeapAlloc i attrs sizes = Done (TRUE, blobs) →
    blobs = RdnAttr_blob <$> attrs ∧ sizes = cbData <$> blobs.
Proof.
  induction attrs as [|attr attrs IH]; intros sizes i blobs Hsizes Hrun.
  - inversion Hsizes; subst. injection Hrun as <-. done.
  - inversion Hsizes as [|? size ? sizes' [q0 Hsize] Hrest]; subst.
    cbn [Rdn_encode_each] in Hrun.
    destruct (HeapAlloc (S i) size) as [contents|]; [|discriminate].
    destruct (CRYPT_AsnEncodeRdnAttr attr (Some _) size)
      as [[[ret q] size']|] eqn:Hattr; cbn [mbind Exec_bind] in Hrun;
      [|discriminate].
    destruct ret; cbn [is_TRUE negb] in Hrun; [|discriminate].
    destruct (Rdn_encode_each HeapAlloc (S i) attrs sizes')
      as [[ret blobs']|] eqn:Heach; cbn [mbind Exec_bind] in Hrun;
      [|discriminate].
    injection Hrun as -> <-.
    destruct (IH _ _ _ Hrest Heach) as [-> ->].
    pose proof (CRYPT_AsnEncodeRdnAttr_size_range _ _ _ _ Hsize) as Hrange.
    apply CRYPT_AsnEncodeRdnAttr_writes in Hattr
      as (bytes & q' & Hbytes & Hpoke & -> & ->);
      [|cbn [c_mem]; rewrite length_fresh; lia].
    rewrite (CRYPT_AsnEncodeRdnAttr_size _ _ _ Hbytes) in Hsize.
    injection Hsize as _ <-.
    pose proof (poke_pos _ _ _ Hpoke) as (_ & _ & Hfit).
    cbn [c_mem c_pos] in Hfit. rewrite length_fresh in Hfit.
    assert (DWORD_wrap (Z.of_nat (length bytes)) = Z.of_nat (length bytes))
      as Hexact by (apply DWORD_wrap_small; lia).
    rewrite Hexact in *.
    unfold poke in Hpoke. cbn [c_mem c_pos] in Hpoke.
    case_decide; [|discriminate]. injection Hpoke as <-.
    cbn [from_option c_mem take].
    rewrite drop_ge by (rewrite length_fresh; lia).
    rewrite app_nil_r.
    assert (RdnAttr_blob attr = mkBlob (Z.of_nat (length bytes)) bytes) as Hblob
      by (unfold RdnAttr_blob; by rewrite Hbytes).
    cbn [fmap list_fmap]. rewrite Hblob. cbn [cbData]. done.
Qed.

(** The copying loop lays the encoded elements end to end. *)
Lemma Rdn_copy_emits (blobs : list CRYPT_DATA_BLOB) :
  ∀ (p q : Cursor),
    (c_pos p ≤ length (c_mem p))%nat →
    Forall (λ b, cbData b = Z.of_nat (length (pbData b))) blobs →
    Rdn_copy blobs p = Done q →
    emit p (mjoin (pbData <$> blobs)) = Done q.
Proof.
  induction blobs as [|blob blobs IH]; intros p q Hin Hwf Hrun.
  - injection Hrun as <-. by apply emit_nil.
  - inversion Hwf as [|? ? Hblob Hrest]; subst.
    cbn [Rdn_copy] in Hrun. unfold read_bytes in Hrun.
    rewrite decide_True in Hrun by lia. cbn [mbind Exec_bind] in Hrun.
    rewrite Hblob, Nat2Z.id, firstn_all in Hrun.
    destruct (emit p (pbData blob)) as [p1|] eqn:Hdata;
      cbn [mbind Exec_bind] in Hrun; [|discriminate].
    pose proof (emit_pos _ _ _ Hdata) as (_ & _ & Hin1).
    cbn [fmap list_fmap mjoin list_join].
    apply (emit_app _ _ _ _ _ Hdata (IH _ _ Hin1 Hrest Hrun)).
Qed.

End RdnFacts.

Lemma length_mjoin_elem {A} (ls : list (list A)) (l : list A) :
  l ∈ ls → (length l ≤ length (mjoin ls))%nat.
Proof.
  induction 1 as [l ls|l l' ls Hin IH];
    simpl in *; rewrite length_app; lia.
Qed.

Lemma Rdn_content_length (attrs : list CERT_RDN_ATTR) :
  length (mjoin (pbData <$> qsort BLOBComp (RdnAttr_blob <$> attrs)))
  = length (mjoin (pbData <$> (RdnAttr_blob <$> attrs))).
Proof.
  apply Permutation_length. unfold qsort. by rewrite merge_sort_Permutation.
Qed.

(** The bytes of a SET OF do not depend on the order of the attributes,
    as long as every element is short enough for the [int] that
    [BLOBComp] returns. *)
Lemma Rdn_bytes_perm (attrs1 attrs2 : list CERT_RDN_ATTR) :
  attrs1 ≡ₚ attrs2 →
  Z.of_nat (length (Rdn_bytes attrs1)) ≤ INT_MAX →
  Rdn_bytes attrs1 = Rdn_bytes attrs2.
Proof.
  intros Hperm Hshort. unfold Rdn_bytes in *.
  rewrite (qsort_BLOBComp_canonical (RdnAttr_blob <$> attrs1)
             (RdnAttr_blob <$> attrs2)); [done| |by apply fmap_Permutation].
  cbn [length] in Hshort. rewrite length_app, Rdn_content_length in Hshort.
  apply Forall_forall. intros blob Hblob. split; [|].
  - apply list_elem_of_fmap in Hblob as (attr & -> & _). reflexivity.
  - assert (pbData blob ∈ pbData <$> (RdnAttr_blob <$> attrs1)) as Hin
      by (by apply list_elem_of_fmap_2).
    apply length_mjoin_elem in Hin.
    apply list_elem_of_fmap in Hblob as (attr & -> & _).
    unfold RdnAttr_blob in *. cbn [cbData pbData] in *. lia.
Qed.

Section RdnWrites.

Variable HeapAlloc : nat → Allocator.

(** A writing call of the SET OF encoder that succeeds has written
    [Rdn_bytes]: the identifier octet, the length octets, and the encoded
    attributes in the order of [BLOBComp]. *)
Lemma CRYPT_AsnEncodeRdn_writes (attrs : list CERT_RDN_ATTR) (p0 : Cursor)
    (cb : Z) (q : option Cursor) (n : Z) :
  CRYPT_AsnEncodeRdn HeapAlloc
    (mkRdn (Z.of_nat (length attrs)) (Some attrs)) (Some p0) cb
  = Done (TRUE, q, n) →
  ∃ q',
    poke p0 (Rdn_bytes attrs) = Done q' ∧ q = Some q'
    ∧ n = DWORD_wrap (Z.of_nat (length (Rdn_bytes attrs))).
Proof.
  unfold CRYPT_AsnEncodeRdn. cbn [cRDNAttr rgRDNAttr].
  match goal with
  | |- (?init ≫= _) = _ → _ =>
      assert (init = Done (TRUE, attrs) ∨ init = Done (FALSE None, []))
        as [-> | ->]
  end.
  { destruct (Z.of_nat (length attrs) =? 0) eqn:Hempty.
    - left. destruct attrs; [done|simpl in Hempty; lia].
    - destruct (HeapAlloc 0 _); [left|by right].
      unfold array_prefix. rewrite decide_True by lia.
      by rewrite Nat2Z.id, firstn_all. }
  2: { cbn [mbind Exec_bind is_TRUE]. rewrite lenBytes_of_bytes.
       cbn [mbind Exec_bind is_TRUE negb]. discriminate. }
  cbn [mbind Exec_bind is_TRUE].
  destruct (Rdn_measure attrs 0) as [[[ret sizes] total]|] eqn:Hmeasure;
    cbn [mbind Exec_bind]; [|discriminate].
  rewrite lenBytes_of_bytes. cbn [mbind Exec_bind].
  destruct ret; cbn [is_TRUE negb]; [|discriminate].
  destruct (cb <? _); [discriminate|].
  change 0 with (DWORD_wrap 0) in Hmeasure.
  apply Rdn_measure_sizes in Hmeasure as [Hsizes ->]. rewrite Z.add_0_l.
  destruct (Rdn_encode_each HeapAlloc 0 attrs sizes) as [[ret blobs]|]
    eqn:Heach; cbn [mbind Exec_bind]; [|discriminate].
  destruct ret; cbn [is_TRUE negb]; [|discriminate].
  destruct (Rdn_encode_each_blobs _ _ _ _ _ Hsizes Heach) as [-> ->].
  destruct (forallb readable _); cbn [negb]; [|discriminate].
  destruct (emit p0 _) as [p|] eqn:Htag; cbn [mbind Exec_bind]; [|discriminate].
  rewrite DWORD_wrap_content'.
  destruct (CRYPT_EncodeLen _ (Some p) _) as [[[r ql] lb]|] eqn:Hlen;
    cbn [mbind Exec_bind]; [|discriminate].
  pose proof (header_written _ _ _ _ _ _ _ Htag Hlen) as Hhead.
  destruct (Rdn_copy _ _) as [p2|] eqn:Hcopy;
    cbn [mbind Exec_bind]; [|discriminate].
  intros [= <- <-].
  apply Rdn_copy_emits in Hcopy.
  2: { by destruct (emit_pos _ _ _ Hhead) as (_ & _ & ?). }
  2: { unfold qsort. rewrite merge_sort_Permutation.
       apply RdnAttr_blob_encoded. }
  pose proof (emit_app _ _ _ _ _ Hhead Hcopy) as Hall. apply poke_emit in Hall.
  rewrite RdnAttr_blob_sizes, <- Rdn_content_length in *.
  eexists. split; [exact Hall|]. split; [reflexivity|].
  rewrite DWORD_wrap_add_l. f_equal. unfold Rdn_bytes.
  cbn [length]. rewrite !length_app. lia.
Qed.

End RdnWrites.

(** What holds of C2: two writing calls of the SET OF encoder that succeed
    on the same attributes in two orders, whatever the heap of each holds,
    write the same bytes and report the same size. *)
Theorem CRYPT_AsnEncodeRdn_order_independent
    (HeapAlloc1 HeapAlloc2 : nat → Allocator)
    (attrs1 attrs2 : list CERT_RDN_ATTR) (p0 : Cursor) (cb1 cb2 : Z)
    (q1 q2 : option Cursor) (n1 n2 : Z) :
  attrs1 ≡ₚ attrs2 →
  Z.of_nat (length (c_mem p0)) ≤ INT_MAX →
  CRYPT_AsnEncodeRdn HeapAlloc1
    (mkRdn (Z.of_nat (length attrs1)) (Some attrs1)) (Some p0) cb1
  = Done (TRUE, q1, n1) →
  CRYPT_AsnEncodeRdn HeapAlloc2
    (mkRdn (Z.of_nat (length attrs2)) (Some attrs2)) (Some p0) cb2
  = Done (TRUE, q2, n2) →
  q1 = q2 ∧ n1 = n2.
Proof.
  intros Hperm Hmem Hrun1 Hrun2.
  apply CRYPT_AsnEncodeRdn_writes in Hrun1 as (q1' & Hpoke1 & -> & ->).
  apply CRYPT_AsnEncodeRdn_writes in Hrun2 as (q2' & Hpoke2 & -> & ->).
  pose proof (poke_pos _ _ _ Hpoke1) as (_ & _ & Hfit).
  rewrite <- (Rdn_bytes_perm _ _ Hperm) in * by lia.
  rewrite Hpoke1 in Hpoke2. injection Hpoke2 as <-. done.
Qed.

(** The theorem at [attr_CN] and [attr_RSADSI] in their two orders, on two
    heaps that hold different bytes. *)
Lemma CRYPT_AsnEncodeRdn_order_independent_witness :
  let written :=
    Some (mkCursor
            [x31; x1a;
             x30; x0b; x06; x03; x55; x04; x03; x13; x04; x54; x65; x73; x74;
             x30; x0b; x06; x06; x2a; x86; x48; x86; xf7; x0d; x13; x01; x78]
            0) in
  CRYPT_AsnEncodeRdn (stale_heap xff) (mkRdn 2 (Some [attr_CN; attr_RSADSI]))
    (buffer 28 x00) 28
  = Done (TRUE, written, 28)
  ∧ CRYPT_AsnEncodeRdn (stale_heap x80)
      (mkRdn 2 (Some [attr_RSADSI; attr_CN])) (buffer 28 x00) 28
    = Done (TRUE, written, 28)
  ∧ (written = written ∧ 28 = 28).
Proof.
  intros written.
  assert (CRYPT_AsnEncodeRdn (stale_heap xff)
            (mkRdn 2 (Some [attr_CN; attr_RSADSI])) (buffer 28 x00) 28
          = Done (TRUE, written, 28)) as Hrun1 by (vm_compute; reflexivity).
  assert (CRYPT_AsnEncodeRdn (stale_heap x80)
            (mkRdn 2 (Some [attr_RSADSI; attr_CN])) (buffer 28 x00) 28
          = Done (TRUE, written, 28)) as Hrun2 by (vm_compute; reflexivity).
  split; [exact Hrun1|]. split; [exact Hrun2|].
  apply (CRYPT_AsnEncodeRdn_order_independent (stale_heap xff)
           (stale_heap x80) [attr_CN; attr_RSADSI] [attr_RSADSI; attr_CN]
           (mkCursor (replicate 28 x00) 0) 28 28).
  - apply perm_swap.
  - vm_compute. intros H. discriminate H.
  - exact Hrun1.
  - exact Hrun2.
Defined.

(** * More of the file *)

(** ** The fixed-width integer encoder *)






(** On 0 it does not end. *)
Lemma EncodeInt_significant_zero (fuel : nat) :
  ∀ significantBytes, EncodeInt_significant fuel 0 significantBytes = None.
Proof.
  induction fuel as [|fuel IH]; intros significantBytes; [done|].
  cbn [EncodeInt_significant]. change (Z.land (DWORD_wrap 0) 4278190080) with 0.
  change (INT_wrap (Z.shiftl 0 8)) with 0. apply IH.
Qed.


Lemma poke_start (mem bs : list byte) :
  (length bs ≤ length mem)%nat →
  poke (mkCursor mem 0) bs = Done (mkCursor (bs ++ drop (length bs) mem) 0).
Proof.
  intros Hfit. unfold poke. cbn [c_mem c_pos].
  rewrite decide_True by lia. reflexivity.
Qed.

Lemma emit_fits (p : Cursor) (bs : list byte) :
  (c_pos p + length bs ≤ length (c_mem p))%nat → ∃ q, emit p bs = Done q.
Proof.
  intros Hfit. unfold emit, poke. rewrite decide_True by done. eauto.
Qed.

Lemma poke_fits (p : Cursor) (bs : list byte) :
  (c_pos p + length bs ≤ length (c_mem p))%nat → ∃ q, poke p bs = Done q.
Proof. intros Hfit. unfold poke. rewrite decide_True by done. eauto. Qed.

(** The bytes written one after the other from the start of [mem]. *)
Lemma emit_emit_poke_start {A} (mem a b c : list byte)
    (k : Cursor → Exec A) :
  (length a + length b + length c ≤ length mem)%nat →
  (p ← emit (mkCursor mem 0) a; p ← emit p b; p ← poke p c; k p)
  = k (mkCursor ((a ++ b ++ c) ++ drop (length (a ++ b ++ c)) mem)
         (length a + length b)).
Proof.
  intros Hfit.
  destruct (emit_fits (mkCursor mem 0) a) as [p1 H1]; [simpl; lia|].
  pose proof (emit_pos _ _ _ H1) as (Hp1 & Hl1 & _). cbn [c_pos c_mem] in *.
  destruct (emit_fits p1 b) as [p2 H2]; [lia|].
  pose proof (emit_pos _ _ _ H2) as (Hp2 & Hl2 & _).
  destruct (poke_fits p2 c) as [p3 H3]; [lia|].
  pose proof (poke_pos _ _ _ H3) as (Hp3 & Hl3 & _).
  rewrite H1. cbn [mbind Exec_bind]. rewrite H2. cbn [mbind Exec_bind].
  rewrite H3. cbn [mbind Exec_bind].
  pose proof (emit_poke_app _ _ _ _ _ H2 H3) as H23.
  apply emit_of_poke in H23.
  pose proof (emit_app _ _ _ _ _ H1 H23) as H123. apply poke_emit in H123.
  rewrite poke_start in H123 by (rewrite !length_app; lia).
  injection H123 as Hmem. f_equal.
  destruct p3 as [m3 pos3]. cbn [c_mem c_pos] in *. f_equal; [done|lia].
Qed.


Lemma read_INT_bytes (v : Z) (rest : list byte) :
  read_bytes (INT_bytes v ++ rest) sizeof_int = Done (INT_bytes v).
Proof.
  unfold read_bytes, sizeof_int.
  rewrite decide_True by (rewrite length_app; simpl; lia).
  reflexivity.
Qed.

Section IntFacts.

Variable LocalAlloc : Allocator.


End IntFacts.



Section IntEncoder.

Variable LocalAlloc : Allocator.

(** Encoding the [int] 0 does not return: the loop that counts the
    significant bytes shifts a [val] of 0 for ever, whatever output was
    asked for. *)
Theorem CRYPT_AsnEncodeInt_zero_never_returns (fuel : nat) (dwFlags : Z)
    (pEncodePara : option CRYPT_CODEC_PARA) (rest : list byte)
    (pbEncoded : option (list byte)) (pcbEncoded : Z) :
  CRYPT_AsnEncodeInt LocalAlloc fuel dwFlags pEncodePara
    (Some (INT_bytes 0 ++ rest)) pbEncoded pcbEncoded
  = None.
Proof.
  unfold CRYPT_AsnEncodeInt. rewrite read_INT_bytes.
  change (INT_of_bytes (INT_bytes 0)) with 0. cbn [Z.ltb Z.compare].
  by rewrite EncodeInt_significant_zero.
Qed.


End IntEncoder.

(** ** Octet strings *)

Lemma CRYPT_EncodeLen_eq (len : Z) (p : Cursor) :
  CRYPT_EncodeLen len (Some p) (Z.of_nat (length (EncodeLen_bytes len)))
  = (p' ← poke p (EncodeLen_bytes len);
     Done (TRUE, Some p', Z.of_nat (length (EncodeLen_bytes len)))).
Proof.
  pose proof (lenBytes_of_bytes len) as Hlen. rewrite lenBytes_of_eq in Hlen.
  injection Hlen as Hlen. rewrite <- Hlen.
  unfold CRYPT_EncodeLen, EncodeLen_bytes.
  destruct (len <=? 0x7f); rewrite Z.ltb_irrefl; reflexivity.
Qed.

(** The identifier octet and the length octets, as every encoder of the
    file writes them. *)
Lemma encode_header_eq {A} (tag : byte) (len : Z) (p0 : Cursor)
    (k : Cursor → Exec A) :
  (p ← emit p0 [tag];
   '(_, q, lenBytes) ←
     CRYPT_EncodeLen len (Some p) (Z.of_nat (length (EncodeLen_bytes len)));
   k (advance (from_option (rebase p) p q) lenBytes))
  = (p ← emit p0 [tag]; p ← emit p (EncodeLen_bytes len); k p).
Proof.
  destruct (emit p0 [tag]) as [p|]; [|done]. cbn [mbind Exec_bind].
  rewrite CRYPT_EncodeLen_eq. unfold emit.
  destruct (poke p (EncodeLen_bytes len)) as [p'|] eqn:Hpoke; [|done].
  cbn [mbind Exec_bind mret Exec_ret from_option].
  apply poke_pos in Hpoke as (Hpos & _ & _).
  unfold rebase, advance. cbn [c_mem c_pos]. by rewrite Hpos.
Qed.

Lemma EncodeLen_bytes_short (len : Z) :
  len ≤ 0x7f → EncodeLen_bytes len = [BYTE_of len].
Proof.
  intros Hlen. unfold EncodeLen_bytes.
  by assert ((len <=? 0x7f) = true) as -> by lia.
Qed.

Lemma EncodeLen_bytes_length (len : Z) :
  (1 ≤ length (EncodeLen_bytes len) ≤ 5)%nat.
Proof.
  unfold EncodeLen_bytes. destruct (len <=? 0x7f); [simpl; lia|].
  cbn [length]. rewrite EncodeLen_octets_length.
  pose proof (EncodeLen_significant_bounds 4 len sizeof_DWORD) as Hb.
  unfold sizeof_DWORD in *. lia.
Qed.

Lemma read_all (data : list byte) :
  read_bytes data (Z.of_nat (length data)) = Done data.
Proof.
  unfold read_bytes. rewrite decide_True by lia.
  by rewrite Nat2Z.id, firstn_all.
Qed.

Lemma GetLen_short (tag len : byte) (rest : list byte) (cbEncoded : Z) :
  1 < cbEncoded → BYTE_val len ≤ 0x7f →
  CRYPT_GetLen (mkCursor (tag :: len :: rest) 0) cbEncoded
  = Done (inr (BYTE_val len)).
Proof.
  intros Hcb Hlen. unfold CRYPT_GetLen.
  assert ((cbEncoded <=? 1) = false) as -> by lia.
  change (peek (mkCursor (tag :: len :: rest) 0) 1) with (Done len).
  cbn [mbind Exec_bind].
  by assert ((BYTE_val len <=? 0x7f) = true) as -> by lia.
Qed.

Section OctetsFacts.

Variable LocalAlloc : Allocator.

(** What the octet-string encoder writes, and that the sizing call asks
    for as much. *)
Lemma CRYPT_AsnEncodeOctets_writes (data buf : list byte) (dwFlags : Z)
    (pEncodePara : option CRYPT_CODEC_PARA) (cb0 cb : Z) :
  let blob := mkBlob (Z.of_nat (length data)) data in
  let encoded :=
    BYTE_of ASN_OCTETSTRING :: EncodeLen_bytes (Z.of_nat (length data))
    ++ data in
  Z.of_nat (length encoded) < 2 ^ 32 →
  has_flag dwFlags CRYPT_ENCODE_ALLOC_FLAG = false →
  Z.of_nat (length encoded) ≤ cb → (length encoded ≤ length buf)%nat →
  CRYPT_AsnEncodeOctets LocalAlloc dwFlags pEncodePara (Some blob) None cb0
  = Done (mkResult TRUE None None (Z.of_nat (length encoded)))
  ∧ CRYPT_AsnEncodeOctets LocalAlloc dwFlags pEncodePara (Some blob)
      (Some buf) cb
    = Done (mkResult TRUE (Some (encoded ++ drop (length encoded) buf)) None
              cb).
Proof.
  intros blob encoded Hsmall Hflag Hcb Hbuf.
  assert (Z.of_nat (length encoded)
          = 1 + Z.of_nat (length (EncodeLen_bytes (Z.of_nat (length data))))
            + Z.of_nat (length data)) as Hlen
    by (subst encoded; rewrite length_cons, length_app; lia).
  unfold CRYPT_AsnEncodeOctets. cbn [blob cbData pbData].
  rewrite lenBytes_of_bytes. cbn [mbind Exec_bind].
  rewrite <- Hlen, DWORD_wrap_small by lia.
  split; [done|].
  unfold CRYPT_EncodeEnsureSpace. rewrite Hflag.
  assert ((Z.of_nat (length encoded) >? cb) = false) as -> by lia.
  cbn [is_TRUE negb default].
  rewrite (encode_header_eq _ _ _ (λ p,
    p ← (if Z.of_nat (length data) =? 0 then Done p
         else data0 ← read_bytes data (Z.of_nat (length data)); poke p data0);
    Done (written buf None p cb))).
  rewrite read_all. cbn [mbind Exec_bind].
  assert (∀ p : Cursor,
    (c_pos p + length data ≤ length (c_mem p))%nat →
    (if Z.of_nat (length data) =? 0 then Done p else poke p data)
    = poke p data) as Hdata.
  { intros p Hp. destruct data; [|done]. cbn [length Z.of_nat Z.eqb].
    unfold poke. rewrite decide_True by done. cbn [length app].
    rewrite Nat.add_0_r, take_drop. by destruct p. }
  destruct (emit_fits (mkCursor buf 0) [BYTE_of ASN_OCTETSTRING])
    as [p1 H1]; [cbn [c_pos c_mem length]; lia|].
  pose proof (emit_pos _ _ _ H1) as (Hp1 & Hl1 & _).
  destruct (emit_fits p1 (EncodeLen_bytes (Z.of_nat (length data))))
    as [p2 H2]; [cbn [c_pos c_mem length] in *; lia|].
  pose proof (emit_pos _ _ _ H2) as (Hp2 & Hl2 & _).
  pose proof (emit_emit_poke_start buf [BYTE_of ASN_OCTETSTRING]
                (EncodeLen_bytes (Z.of_nat (length data))) data
                (λ p, Done (written buf None p cb))) as Hall.
  rewrite H1 in Hall |- *. cbn [mbind Exec_bind] in Hall |- *.
  rewrite H2 in Hall |- *. cbn [mbind Exec_bind] in Hall |- *.
  rewrite Hdata by (cbn [c_pos c_mem length] in *; lia).
  rewrite Hall by (cbn [length] in *; lia). reflexivity.
Qed.

(** What the decoder makes of an octet string with a short-form length
    whose content is there. *)
Lemma CRYPT_AsnDecodeOctets_short (data rest area : list byte)
    (cbEncoded dwFlags : Z) (pDecodePara : option CRYPT_CODEC_PARA)
    (pcbStructInfo : Z) :
  let n := Z.of_nat (length data) in
  n ≤ 0x7f → 1 < cbEncoded →
  has_flag dwFlags CRYPT_DECODE_ALLOC_FLAG = false →
  has_flag dwFlags CRYPT_DECODE_NOCOPY_FLAG = false →
  n + 8 ≤ pcbStructInfo → n + 8 ≤ Z.of_nat (length area) →
  CRYPT_AsnDecodeOctets LocalAlloc
    (Some (BYTE_of ASN_OCTETSTRING :: BYTE_of n :: data ++ rest)) cbEncoded
    dwFlags pDecodePara (Some area) pcbStructInfo
  = Done (mkResult TRUE
            (Some (take 8 area ++ data ++ drop (8 + length data) area)) None
            pcbStructInfo,
          Some (mkDecoded n (InStructInfo 8) 0)).
Proof.
  intros n Hn Hcb Halloc Hnocopy Hroom Harea.
  assert (BYTE_val (BYTE_of n) = n) as Hlen by (apply BYTE_val_of; lia).
  unfold CRYPT_AsnDecodeOctets.
  rewrite GetLen_short by lia. cbn [mbind Exec_bind]. rewrite Hlen.
  change (peek _ 0) with (Done (BYTE_of ASN_OCTETSTRING)).
  cbn [mbind Exec_bind].
  change (BYTE_val (BYTE_of ASN_OCTETSTRING) =? ASN_OCTETSTRING) with true.
  cbn [negb]. rewrite Hnocopy.
  unfold CRYPT_DecodeEnsureSpace. rewrite Halloc.
  unfold sizeof_CRYPT_DATA_BLOB in *.
  rewrite DWORD_wrap_small by lia.
  assert ((pcbStructInfo <? n + 8) = false) as -> by lia.
  cbn [is_TRUE negb default c_mem].
  assert ((Z.of_nat (length area) <? 8) = false) as -> by lia.
  change (peek _ 1) with (Done (BYTE_of n)). cbn [mbind Exec_bind].
  rewrite Hlen. unfold GET_LEN_BYTES.
  assert ((n <=? 0x7f) = true) as -> by lia.
  unfold copy_from. change (Z.to_nat (1 + 1)) with 2%nat. cbn [drop].
  rewrite drop_0. unfold read_bytes.
  rewrite decide_True by (rewrite length_app; lia).
  subst n. rewrite Nat2Z.id, take_app_length. cbn [mbind Exec_bind].
  unfold advance, poke. cbn [c_mem c_pos].
  change (0 + Z.to_nat 8)%nat with 8%nat.
  rewrite decide_True by lia.
  destruct (Z.of_nat (length data) =? 0) eqn:Hempty.
  - assert (data = []) as -> by (destruct data; [done|simpl in *; lia]).
    cbn [mbind Exec_bind length app]. unfold written. cbn [c_mem].
    by rewrite Nat.add_0_r, take_drop.
  - reflexivity.
Qed.

(** An octet string of up to 127 bytes comes back from the decoder as it
    went into the encoder: the decoded blob has its length, and its bytes
    lie behind the blob in the output area. *)
Theorem CRYPT_AsnEncodeOctets_round_trip (data buf area : list byte)
    (cb pcbStructInfo : Z) :
  let n := Z.of_nat (length data) in
  let encoded :=
    BYTE_of ASN_OCTETSTRING :: BYTE_of n :: data
    ++ drop (2 + length data) buf in
  n ≤ 0x7f →
  n + 2 ≤ cb → n + 2 ≤ Z.of_nat (length buf) →
  n + 8 ≤ pcbStructInfo → n + 8 ≤ Z.of_nat (length area) →
  CRYPT_AsnEncodeOctets LocalAlloc 0 None (Some (mkBlob n data)) None 0
  = Done (mkResult TRUE None None (n + 2))
  ∧ CRYPT_AsnEncodeOctets LocalAlloc 0 None (Some (mkBlob n data))
      (Some buf) cb
    = Done (mkResult TRUE (Some encoded) None cb)
  ∧ CRYPT_AsnDecodeOctets LocalAlloc (Some encoded) (n + 2) 0 None
      (Some area) pcbStructInfo
    = Done (mkResult TRUE
              (Some (take 8 area ++ data ++ drop (8 + length data) area))
              None pcbStructInfo,
            Some (mkDecoded n (InStructInfo 8) 0)).
Proof.
  intros n encoded Hn Hcb Hbuf Hroom Harea.
  pose proof (CRYPT_AsnEncodeOctets_writes data buf 0 None 0 cb) as Henc.
  cbv zeta in Henc. rewrite EncodeLen_bytes_short in Henc by done.
  cbn [length app] in Henc. subst n encoded.
  destruct Henc as [Hsize Hwrite]; try done; try lia.
  split; [|split; [exact Hwrite|]].
  - rewrite Hsize. do 2 f_equal. lia.
  - apply CRYPT_AsnDecodeOctets_short; try done; lia.
Qed.

End OctetsFacts.

(** ** Length octets, written and read back *)

Lemma be_unsigned_snoc (bs : list byte) (b : byte) :
  be_unsigned (bs ++ [b]) = be_unsigned bs * 256 + BYTE_val b.
Proof. unfold be_unsigned. by rewrite foldl_app. Qed.

Lemma EncodeLen_octets_value (n : nat) :
  ∀ len, 0 ≤ len →
    be_unsigned (EncodeLen_octets n len) = len mod 256 ^ Z.of_nat n.
Proof.
  induction n as [|n IH]; intros len Hlen.
  - change (256 ^ Z.of_nat 0) with 1. by rewrite Z.mod_1_r.
  - cbn [EncodeLen_octets]. rewrite be_unsigned_snoc, IH
      by (rewrite Z.shiftr_div_pow2 by lia; apply Z.div_pos; lia).
    rewrite BYTE_val_of_mod. change 0xff with (Z.ones 8).
    rewrite Z.land_ones, Z.shiftr_div_pow2 by lia.
    rewrite Nat2Z.inj_succ, Z.pow_succ_r by lia.
    change (2 ^ 8) with 256. rewrite Z.mod_mod by lia.
    rewrite (Z.rem_mul_r len 256 (256 ^ Z.of_nat n)) by lia. lia.
Qed.

(** The length octets [CRYPT_EncodeLen] writes for a length above 127: the
    count of the octets that follow with the high bit set, then the length
    big-endian in that many octets, the first of them not zero. *)
Theorem CRYPT_EncodeLen_long_form (len : Z) (p q : Cursor) (cb n : Z) :
  0x7f < len < 2 ^ 32 →
  CRYPT_EncodeLen len (Some p) cb = Done (TRUE, Some q, n) →
  ∃ (first : byte) (octets : list byte),
    take (Z.to_nat n) (drop (c_pos p) (c_mem q))
    = BYTE_of (0x80 + Z.of_nat (length (first :: octets))) :: first :: octets
    ∧ n = 1 + Z.of_nat (length (first :: octets))
    ∧ (length (first :: octets) ≤ 4)%nat
    ∧ be_unsigned (first :: octets) = len
    ∧ first ≠ x00.
Proof.
  intros Hlen Hrun. unfold CRYPT_EncodeLen in Hrun.
  assert ((len <=? 0x7f) = false) as Hlong by lia. rewrite Hlong in Hrun.
  rewrite EncodeLen_significant_minimal in Hrun by (done || lia).
  set (k := if len <? 2 ^ 8 then 1 else if len <? 2 ^ 16 then 2
            else if len <? 2 ^ 24 then 3 else 4) in *.
  assert (1 ≤ k ≤ 4 ∧ len < 256 ^ k ∧ 256 ^ (k - 1) ≤ len) as (Hk & Hhi & Hlo).
  { subst k. repeat case_match; cbn; lia. }
  destruct (cb <? k + 1); [done|].
  destruct (poke p _) as [p'|] eqn:Hpoke; [|done].
  cbn [mbind Exec_bind] in Hrun. injection Hrun as <- <-.
  pose proof (poke_pos _ _ _ Hpoke) as (Hpos & Hmem & Hroom).
  unfold poke in Hpoke. destruct (decide _) as [Hfit|]; [|done].
  injection Hpoke as <-. cbn [c_mem].
  rewrite drop_app_length' by (rewrite length_take; lia).
  set (octets := EncodeLen_octets (Z.to_nat k) len).
  assert (length octets = Z.to_nat k) as Hoctets
    by apply EncodeLen_octets_length.
  assert (be_unsigned octets = len) as Hvalue.
  { subst octets. rewrite EncodeLen_octets_value, Z2Nat.id by lia.
    apply Z.mod_small. lia. }
  destruct octets as [|first octets'] eqn:Heq; [cbn [length] in Hoctets; lia|].
  exists first, octets'. rewrite Hoctets.
  split; [|split; [lia|split; [lia|split; [done|]]]].
  - replace (Z.to_nat (k + 1)) with (S (Z.to_nat k)) by lia.
    rewrite Z2Nat.id by lia. rewrite <- Hoctets.
    rewrite (app_comm_cons _ _ (BYTE_of _)).
    change (S (length (first :: octets')))
      with (length (BYTE_of (Z.lor k 128) :: first :: octets')).
    rewrite take_app_length. f_equal.
    assert (k = 1 ∨ k = 2 ∨ k = 3 ∨ k = 4) as [-> | [-> | [-> | ->]]] by lia;
      reflexivity.
  - intros ->. rewrite be_unsigned_cons in Hvalue.
    change (BYTE_val x00) with 0 in Hvalue.
    pose proof (be_unsigned_range octets') as Hr.
    rewrite length_cons in Hoctets.
    replace (Z.of_nat (length octets')) with (k - 1) in Hr by lia. lia.
Qed.

Lemma GetLen_loop_reads (bs : list byte) :
  ∀ (fuel : nat) (mem : list byte) (pos : nat) (out : Z),
    (length bs ≤ fuel)%nat → Z.of_nat (length bs) < 256 →
    take (length bs) (drop pos mem) = bs →
    GetLen_loop fuel (Z.of_nat (length bs)) (mkCursor mem pos) out
    = Done (foldl (λ out b, Z.lor (DWORD_wrap (Z.shiftl out 8)) (BYTE_val b))
              out bs, 255).
Proof.
  induction bs as [|b bs IH]; intros fuel mem pos out Hfuel Hbyte Hmem.
  - destruct fuel; reflexivity.
  - destruct fuel as [|fuel]; [cbn [length] in Hfuel; lia|].
    cbn [GetLen_loop]. rewrite length_cons in *.
    rewrite (proj2 (Z.eqb_neq _ _)) by lia.
    cbn [negb].
    assert (mem !! pos = Some b ∧ take (length bs) (drop (S pos) mem) = bs)
      as [Hb Hrest].
    { destruct (drop pos mem) as [|b' rest] eqn:Hdrop; [done|].
      cbn [take] in Hmem. injection Hmem as -> Hrest.
      split.
      - rewrite <- (Nat.add_0_r pos), <- lookup_drop, Hdrop. done.
      - by rewrite <- (Nat.add_1_r pos), <- drop_drop, Hdrop. }
    unfold peek. rewrite decide_True by lia. cbn [c_mem c_pos].
    change (Z.to_nat 0) with 0%nat. rewrite Nat.add_0_r, Hb.
    cbn [defined mbind Exec_bind foldl].
    replace ((Z.of_nat (S (length bs)) - 1) mod 256)
      with (Z.of_nat (length bs)) by (rewrite Z.mod_small; lia).
    unfold advance. cbn [c_mem c_pos].
    change (Z.to_nat 1) with 1%nat. rewrite Nat.add_1_r.
    apply IH; [lia|lia|done].
Qed.

Lemma GetLen_loop_value (bs : list byte) :
  ∀ out : Z,
    0 ≤ out → out * 256 ^ Z.of_nat (length bs) + be_unsigned bs < 2 ^ 32 →
    foldl (λ out b, Z.lor (DWORD_wrap (Z.shiftl out 8)) (BYTE_val b)) out bs
    = out * 256 ^ Z.of_nat (length bs) + be_unsigned bs.
Proof.
  induction bs as [|b bs IH]; intros out Hout Hsmall.
  - unfold be_unsigned. cbn. lia.
  - rewrite be_unsigned_cons, length_cons, Nat2Z.inj_succ, Z.pow_succ_r
      in * by lia.
    pose proof (BYTE_val_range b) as Hb.
    pose proof (be_unsigned_range bs) as Hbs.
    assert (0 < 256 ^ Z.of_nat (length bs)) as Hpow
      by (apply Z.pow_pos_nonneg; lia).
    cbn [foldl]. rewrite Z.shiftl_mul_pow2 by lia. change (2 ^ 8) with 256.
    rewrite DWORD_wrap_small by nia.
    rewrite lor_shifted_byte by lia. rewrite IH by nia. lia.
Qed.

(** What [CRYPT_GetLen] makes of the long-form length octets that
    [CRYPT_EncodeLen] writes: it reads one octet more than the length has,
    so the first content byte ends up in the length, and it asks for 256
    bytes beyond that length.  Four length octets it refuses. *)
Lemma CRYPT_GetLen_of_EncodeLen (tag c0 : byte) (len cbEncoded : Z)
    (content : list byte) :
  0x7f < len < 2 ^ 32 → 6 ≤ cbEncoded →
  CRYPT_GetLen (mkCursor (tag :: EncodeLen_bytes len ++ c0 :: content) 0)
    cbEncoded
  = Done (if 2 ^ 24 <=? len then inl CRYPT_E_ASN1_LARGE
          else if DWORD_wrap (256 * len + BYTE_val c0 + 256) >? cbEncoded
               then inl CRYPT_E_ASN1_EOD
               else inr (256 * len + BYTE_val c0)).
Proof.
  intros Hlen Hcb. unfold EncodeLen_bytes.
  assert ((len <=? 0x7f) = false) as -> by lia.
  rewrite EncodeLen_significant_minimal by (done || lia).
  set (k := if len <? 2 ^ 8 then 1 else if len <? 2 ^ 16 then 2
            else if len <? 2 ^ 24 then 3 else 4).
  assert (1 ≤ k ≤ 4 ∧ len < 256 ^ k ∧ (k = 4 ↔ 2 ^ 24 ≤ len))
    as (Hk & Hhi & Hfour).
  { subst k. repeat case_match; cbn; lia. }
  set (octets := EncodeLen_octets (Z.to_nat k) len).
  assert (length octets = Z.to_nat k) as Hoctets
    by apply EncodeLen_octets_length.
  assert (be_unsigned octets = len) as Hvalue.
  { subst octets. rewrite EncodeLen_octets_value, Z2Nat.id by lia.
    apply Z.mod_small. lia. }
  unfold CRYPT_GetLen.
  assert ((cbEncoded <=? 1) = false) as -> by lia.
  change (peek _ 1) with (Done (BYTE_of (Z.lor k 0x80))).
  cbn [mbind Exec_bind].
  assert (BYTE_val (BYTE_of (Z.lor k 0x80)) = 0x80 + k) as ->.
  { assert (k = 1 ∨ k = 2 ∨ k = 3 ∨ k = 4) as [-> | [-> | [-> | ->]]] by lia;
      reflexivity. }
  assert ((0x80 + k <=? 0x7f) = false) as -> by lia.
  assert (GET_LEN_BYTES (0x80 + k) mod 256 = 1 + k) as ->.
  { assert (k = 1 ∨ k = 2 ∨ k = 3 ∨ k = 4) as [-> | [-> | [-> | ->]]] by lia;
      reflexivity. }
  unfold sizeof_DWORD.
  destruct (Z.leb_spec (2 ^ 24) len) as [Hbig|Hsmall].
  { assert ((1 + k >? 4) = true) as -> by lia. reflexivity. }
  assert ((1 + k >? 4) = false) as -> by lia.
  assert ((1 + k + 2 >? cbEncoded) = false) as -> by lia.
  unfold advance. cbn [c_mem c_pos]. change (0 + Z.to_nat 2)%nat with 2%nat.
  replace (1 + k) with (Z.of_nat (length (octets ++ [c0])))
    by (rewrite length_app, Hoctets; cbn [length]; lia).
  rewrite GetLen_loop_reads.
  - cbn [mbind Exec_bind]. rewrite GetLen_loop_value.
    + rewrite be_unsigned_snoc, Hvalue.
      replace (0 * 256 ^ Z.of_nat (length (octets ++ [c0]))
               + (len * 256 + BYTE_val c0))
        with (256 * len + BYTE_val c0) by lia.
      replace (256 * len + BYTE_val c0 + 255 + 1)
        with (256 * len + BYTE_val c0 + 256) by lia.
      by destruct (_ >? _).
    + lia.
    + rewrite be_unsigned_snoc, Hvalue. pose proof (BYTE_val_range c0). lia.
  - rewrite length_app, Hoctets. cbn [length]. lia.
  - rewrite length_app, Hoctets. cbn [length]. lia.
  - change (drop 2 (tag :: (BYTE_of (Z.lor k 128) :: octets)
                     ++ c0 :: content))
      with (octets ++ [c0] ++ content).
    rewrite (app_assoc octets). apply take_app_length.
Qed.

(** The decoders cannot read back a length above 127 that the encoders
    have written: an object with [len] bytes of content, handed to
    [CRYPT_GetLen] with its exact size, is refused as too short, or as too
    large from 2^24 on. *)
Theorem CRYPT_GetLen_refuses_EncodeLen_long_form (tag : byte) (len : Z)
    (content : list byte) :
  0x7f < len < 2 ^ 32 → len ≠ 2 ^ 24 - 1 →
  Z.of_nat (length content) = len →
  let encoded := tag :: EncodeLen_bytes len ++ content in
  CRYPT_GetLen (mkCursor encoded 0) (Z.of_nat (length encoded))
  = Done (inl (if len <? 2 ^ 24 then CRYPT_E_ASN1_EOD
               else CRYPT_E_ASN1_LARGE)).
Proof.
  intros Hlen Hodd Hcontent encoded.
  destruct content as [|c0 content]; [cbn [length] in Hcontent; lia|].
  pose proof (EncodeLen_bytes_length len) as Hbytes.
  pose proof (BYTE_val_range c0) as Hc0.
  assert (Z.of_nat (length encoded) ≤ 6 + len) as Hsize.
  { subst encoded. rewrite length_cons, length_app. lia. }
  assert (6 ≤ Z.of_nat (length encoded)) as Hmin.
  { subst encoded. rewrite length_cons, length_app. lia. }
  subst encoded. rewrite CRYPT_GetLen_of_EncodeLen by lia.
  destruct (Z.leb_spec (2 ^ 24) len) as [Hbig|Hsmall].
  { by assert ((len <? 2 ^ 24) = false) as -> by lia. }
  assert ((len <? 2 ^ 24) = true) as -> by lia.
  rewrite DWORD_wrap_small by lia.
  by assert ((256 * len + BYTE_val c0 + 256
              >? Z.of_nat (length (tag :: EncodeLen_bytes len
                                   ++ c0 :: content))) = true) as -> by lia.
Qed.

(** ** Multi-byte integers *)

Lemma emit_at (pre rest bs : list byte) :
  (length bs ≤ length rest)%nat →
  emit (mkCursor (pre ++ rest) (length pre)) bs
  = Done (mkCursor ((pre ++ bs) ++ drop (length bs) rest)
            (length (pre ++ bs))).
Proof.
  intros Hfit. unfold emit, poke. cbn [c_mem c_pos].
  rewrite decide_True by (rewrite length_app; lia).
  cbn [mbind Exec_bind mret Exec_ret]. unfold advance. cbn [c_mem c_pos].
  rewrite take_app_length, drop_app_add', Nat2Z.id, length_app by done.
  by rewrite <- app_assoc.
Qed.

Lemma emit_short {A} (pre rest bs : list byte) (k : Cursor → Exec A) :
  (length rest < length bs)%nat →
  emit (mkCursor (pre ++ rest) (length pre)) bs ≫= k = Undefined.
Proof.
  intros Hshort. unfold emit, poke. cbn [c_mem c_pos].
  by rewrite decide_False by (rewrite length_app; lia).
Qed.

Lemma copy_reversed_at (n : nat) (pbData : list byte) :
  ∀ pre rest : list byte,
    (n ≤ length pbData)%nat → (n ≤ length rest)%nat →
    copy_reversed n pbData (mkCursor (pre ++ rest) (length pre))
    = Done (mkCursor ((pre ++ reverse (take n pbData)) ++ drop n rest)
              (length (pre ++ reverse (take n pbData)))).
Proof.
  induction n as [|n IH]; intros pre rest Hdata Hrest.
  - cbn [copy_reversed take reverse]. by rewrite app_nil_r, drop_0.
  - destruct (lookup_lt_is_Some_2 pbData n ltac:(lia)) as [b Hb].
    cbn [copy_reversed]. unfold peek. rewrite decide_True by lia.
    cbn [c_mem c_pos]. rewrite Nat2Z.id, Nat.add_0_l, Hb.
    cbn [defined mbind Exec_bind].
    rewrite emit_at by (cbn [length]; lia). cbn [mbind Exec_bind].
    rewrite IH by (rewrite ?length_drop; cbn [length]; lia).
    rewrite (take_S_r _ _ _ Hb), reverse_snoc, drop_drop.
    cbn [length]. rewrite <- (app_assoc pre [b]). reflexivity.
Qed.

Lemma copy_reversed_short {A} (n : nat) (pbData : list byte)
    (k : Cursor → Exec A) :
  ∀ pre rest : list byte,
    (n ≤ length pbData)%nat → (length rest < n)%nat →
    copy_reversed n pbData (mkCursor (pre ++ rest) (length pre)) ≫= k
    = Undefined.
Proof.
  induction n as [|n IH]; intros pre rest Hdata Hrest; [lia|].
  destruct (lookup_lt_is_Some_2 pbData n ltac:(lia)) as [b Hb].
  cbn [copy_reversed]. unfold peek. rewrite decide_True by lia.
  cbn [c_mem c_pos]. rewrite Nat2Z.id, Nat.add_0_l, Hb.
    cbn [defined mbind Exec_bind].
  destruct rest as [|r rest].
  - unfold emit, poke. cbn [c_mem c_pos].
    by rewrite decide_False by (rewrite length_app; cbn [length]; lia).
  - rewrite emit_at by (cbn [length]; lia). cbn [mbind Exec_bind drop].
    change (drop (length [b]) (r :: rest)) with rest.
    apply IH; [lia|cbn [length] in Hrest; lia].
Qed.

Lemma copy_backwards_at (n : nat) (pbEncoded : list byte) :
  ∀ (start : nat) (pre rest : list byte),
    (start + n ≤ length pbEncoded)%nat → (n ≤ length rest)%nat →
    copy_backwards n pbEncoded (Z.of_nat (start + n) - 1)
      (mkCursor (pre ++ rest) (length pre))
    = Done (mkCursor
              ((pre ++ reverse (take n (drop start pbEncoded)))
               ++ drop n rest)
              (length (pre ++ reverse (take n (drop start pbEncoded))))).
Proof.
  induction n as [|n IH]; intros start pre rest Henc Hrest.
  - cbn [copy_backwards take reverse]. by rewrite app_nil_r, drop_0.
  - destruct (lookup_lt_is_Some_2 pbEncoded (start + n) ltac:(lia))
      as [b Hb].
    cbn [copy_backwards]. unfold peek. rewrite decide_True by lia.
    cbn [c_mem c_pos].
    replace (Z.to_nat (Z.of_nat (start + S n) - 1)) with (start + n)%nat
      by lia.
    rewrite Nat.add_0_l, Hb. cbn [defined mbind Exec_bind].
    rewrite emit_at by (cbn [length]; lia). cbn [mbind Exec_bind].
    replace (Z.of_nat (start + S n) - 1 - 1) with (Z.of_nat (start + n) - 1)
      by lia.
    rewrite IH by (rewrite ?length_drop; cbn [length]; lia).
    assert (drop start pbEncoded !! n = Some b) as Hb'
      by by rewrite lookup_drop.
    rewrite (take_S_r _ _ _ Hb'), reverse_snoc, drop_drop.
    cbn [length]. rewrite <- (app_assoc pre [b]). reflexivity.
Qed.

Lemma lop_off_rest (low rest : list byte) (b : byte) (K : nat) :
  last low ≠ Some b →
  ∀ k : nat, (k ≤ K)%nat →
    lop_off (length low + k) (low ++ replicate K b ++ rest) b
    = Done (Z.of_nat (length low)).
Proof.
  intros Hlast. induction k as [|k IH]; intros Hk.
  - rewrite Nat.add_0_r.
    destruct low as [|t low _] using rev_ind; [done|].
    rewrite length_app. cbn [length]. rewrite Nat.add_1_r.
    cbn [lop_off]. unfold peek. rewrite decide_True by lia.
    cbn [c_mem c_pos]. rewrite Nat2Z.id, Nat.add_0_l.
    rewrite <- app_assoc, lookup_app_r, Nat.sub_diag by done.
    cbn [defined mbind Exec_bind app lookup list_lookup].
    rewrite last_snoc in Hlast.
    by rewrite decide_False by congruence.
  - rewrite Nat.add_succ_r. cbn [lop_off]. unfold peek.
    rewrite decide_True by lia. cbn [c_mem c_pos].
    rewrite Nat2Z.id, Nat.add_0_l, lookup_app_r by lia.
    rewrite lookup_app_l by (rewrite length_replicate; lia).
    rewrite lookup_replicate_2 by lia.
    cbn [defined mbind Exec_bind]. rewrite decide_True by done.
    apply IH. lia.
Qed.

Lemma lop_off_spec (low : list byte) (b : byte) (K : nat) :
  last low ≠ Some b →
  ∀ k : nat, (k ≤ K)%nat →
    lop_off (length low + k) (low ++ replicate K b) b
    = Done (Z.of_nat (length low)).
Proof.
  intros Hlast k Hk. rewrite <- (app_nil_r (replicate K b)).
  by apply lop_off_rest.
Qed.

Lemma top_byte_last (low : list byte) (t : byte) :
  top_byte (low ++ [t]) (Z.of_nat (length (low ++ [t]))) = Done t.
Proof.
  unfold top_byte, peek. rewrite decide_True by (rewrite length_app; cbn; lia).
  cbn [c_mem c_pos]. rewrite Nat.add_0_l, length_app. cbn [length].
  replace (Z.to_nat (Z.of_nat (length low + 1) - 1)) with (length low) by lia.
  by rewrite lookup_app_r, Nat.sub_diag by done.
Qed.

Lemma top_byte_app (low rest : list byte) (n : Z) :
  0 < n ≤ Z.of_nat (length low) →
  top_byte (low ++ rest) n = top_byte low n.
Proof.
  intros Hn. unfold top_byte, peek. rewrite !decide_True by lia.
  cbn [c_mem c_pos]. by rewrite lookup_app_l by lia.
Qed.

Lemma poke_at (pre rest bs : list byte) :
  (length bs ≤ length rest)%nat →
  poke (mkCursor (pre ++ rest) (length pre)) bs
  = Done (mkCursor ((pre ++ bs) ++ drop (length bs) rest) (length pre)).
Proof.
  intros Hfit. unfold poke. cbn [c_mem c_pos].
  rewrite decide_True by (rewrite length_app; lia).
  rewrite take_app_length, drop_app_add' by done.
  by rewrite <- app_assoc.
Qed.

Section IntegerFacts.

Variable LocalAlloc : Allocator.

(** The end the two multi-byte integer encoders have in common, once the
    number of significant bytes and the need for a pad byte are settled:
    while the encoding has less than 128 content bytes, it is the tag, the
    length, the pad byte if any, and the significant bytes most
    significant first. *)
Lemma integer_encoders_end (pad : bool) (padByte : byte) (sig : Z)
    (blob buf : list byte) (cb : Z) :
  let content :=
    (if pad then [padByte] else []) ++ reverse (take (Z.to_nat sig) blob) in
  let n := Z.of_nat (length content) in
  let encoded := BYTE_of ASN_INTEGER :: BYTE_of n :: content in
  0 ≤ sig → (Z.to_nat sig ≤ length blob)%nat → n ≤ 0x7f →
  n + 2 ≤ cb → n + 2 ≤ Z.of_nat (length buf) →
  (lenBytes ← lenBytes_of (if pad then DWORD_wrap (sig + 1) else sig);
   let '(ret, block, cb0) :=
     CRYPT_EncodeEnsureSpace LocalAlloc 0 None cb
       (if pad then ((1 + lenBytes + sig) mod 256 + 1) mod 256
        else (1 + lenBytes + sig) mod 256) in
   if negb (is_TRUE ret) then Done (mkResult ret (Some buf) None cb0)
   else
     p0 ← emit (mkCursor (default buf block) 0) [BYTE_of ASN_INTEGER];
     '(_, q, lenBytes0) ←
       CRYPT_EncodeLen (if pad then DWORD_wrap (sig + 1) else sig)
         (Some p0) lenBytes;
     p1 ← (if pad
           then emit (advance (from_option (rebase p0) p0 q) lenBytes0)
                  [padByte]
           else Done (advance (from_option (rebase p0) p0 q) lenBytes0));
     p2 ← copy_reversed (Z.to_nat sig) blob p1;
     Done (written buf block p2 cb0))
  = Done (mkResult TRUE (Some (encoded ++ drop (length encoded) buf)) None cb)
  ∧ (lenBytes ← lenBytes_of (if pad then DWORD_wrap (sig + 1) else sig);
     Done (mkResult TRUE None None
             (if pad then ((1 + lenBytes + sig) mod 256 + 1) mod 256
              else (1 + lenBytes + sig) mod 256)))
    = Done (mkResult TRUE None None (n + 2)).
Proof.
  intros content n encoded Hsig Hblob Hn Hcb Hbuf.
  assert (Z.of_nat (length (reverse (take (Z.to_nat sig) blob))) = sig)
    as Hdigits by (rewrite length_reverse, length_take; lia).
  assert (n = if pad then sig + 1 else sig) as Hnsig.
  { subst n content. rewrite length_app, Nat2Z.inj_add, Hdigits.
    destruct pad; cbn [length]; lia. }
  assert ((if pad then DWORD_wrap (sig + 1) else sig) = n) as ->.
  { clearbody n. destruct pad; cbv iota in Hnsig;
      [rewrite DWORD_wrap_small|]; lia. }
  rewrite lenBytes_of_bytes. cbn [mbind Exec_bind].
  rewrite EncodeLen_bytes_short by done.
  assert ((if pad
           then ((1 + Z.of_nat (length [BYTE_of n]) + sig) mod 256 + 1)
                mod 256
           else (1 + Z.of_nat (length [BYTE_of n]) + sig) mod 256)
          = n + 2) as ->.
  { clearbody n. cbn [length]. change (Z.of_nat 1) with 1.
    destruct pad; cbv iota in Hnsig;
      rewrite (Z.mod_small (1 + 1 + sig)) by lia;
      rewrite ?Z.mod_small by lia; lia. }
  split; [|done].
  unfold CRYPT_EncodeEnsureSpace.
  change (has_flag 0 CRYPT_ENCODE_ALLOC_FLAG) with false.
  assert ((n + 2 >? cb) = false) as -> by lia.
  cbn [is_TRUE negb default].
  change (mkCursor buf 0) with (mkCursor ([] ++ buf) (length (@nil byte))).
  rewrite emit_at by (cbn [length]; lia). cbn [mbind Exec_bind].
  rewrite <- (EncodeLen_bytes_short n) by done.
  rewrite CRYPT_EncodeLen_eq. rewrite EncodeLen_bytes_short by done.
  rewrite poke_at by (rewrite length_drop; cbn [length]; lia).
  cbn [mbind Exec_bind from_option]. unfold advance, rebase.
  cbn [c_mem c_pos]. rewrite Nat2Z.id, <- length_app.
  assert (length content ≤ 127)%nat as Hcontent by lia.
  assert (Z.to_nat sig = length (reverse (take (Z.to_nat sig) blob)))
    as Hsig' by lia.
  subst encoded n. clear Hn Hcb Hnsig.
  destruct pad.
  - rewrite emit_at by (rewrite !length_drop; subst content;
                         rewrite length_app in *; cbn [length] in *; lia).
    cbn [mbind Exec_bind].
    rewrite copy_reversed_at
      by (rewrite ?length_drop; subst content;
          rewrite ?length_app in *; cbn [length] in *; lia).
    cbn [mbind Exec_bind]. unfold written. cbn [c_mem].
    rewrite !drop_drop. subst content. do 4 f_equal.
    cbn [length app]. f_equal. lia.
  - cbn [mbind Exec_bind].
    rewrite copy_reversed_at
      by (rewrite ?length_drop; subst content;
          rewrite ?length_app in *; cbn [length] in *; lia).
    cbn [mbind Exec_bind]. unfold written. cbn [c_mem].
    rewrite !drop_drop. subst content. do 4 f_equal.
    cbn [length app]. f_equal. lia.
Qed.

(** What the decoder makes of an integer with a short-form length whose
    content is there: the content, least significant byte first. *)
Lemma CRYPT_AsnDecodeInteger_short (content rest area : list byte)
    (cbEncoded : Z) (pDecodePara : option CRYPT_CODEC_PARA)
    (pcbStructInfo : Z) :
  let n := Z.of_nat (length content) in
  n ≤ 0x7f → 1 < cbEncoded →
  n + 8 ≤ pcbStructInfo → n + 8 ≤ Z.of_nat (length area) →
  CRYPT_AsnDecodeInteger LocalAlloc
    (Some (BYTE_of ASN_INTEGER :: BYTE_of n :: content ++ rest)) cbEncoded
    0 pDecodePara (Some area) pcbStructInfo
  = Done (mkResult TRUE
            (Some (take 8 area ++ reverse content
                   ++ drop (8 + length content) area)) None
            pcbStructInfo,
          Some (mkDecoded n (InStructInfo 8) 0)).
Proof.
  intros n Hn Hcb Hroom Harea.
  assert (BYTE_val (BYTE_of n) = n) as Hlen by (apply BYTE_val_of; lia).
  unfold CRYPT_AsnDecodeInteger.
  rewrite GetLen_short by lia. cbn [mbind Exec_bind]. rewrite Hlen.
  change (peek _ 0) with (Done (BYTE_of ASN_INTEGER)).
  cbn [mbind Exec_bind].
  change (BYTE_val (BYTE_of ASN_INTEGER) =? ASN_INTEGER) with true.
  cbn [negb].
  change (peek _ 1) with (Done (BYTE_of n)). cbn [mbind Exec_bind].
  rewrite Hlen. unfold CRYPT_DecodeEnsureSpace.
  change (has_flag 0 CRYPT_DECODE_ALLOC_FLAG) with false.
  unfold sizeof_CRYPT_DATA_BLOB in *.
  rewrite DWORD_wrap_small by lia.
  assert ((pcbStructInfo <? n + 8) = false) as -> by lia.
  cbn [is_TRUE negb default c_mem].
  assert ((Z.of_nat (length area) <? 8) = false) as -> by lia.
  unfold GET_LEN_BYTES.
  assert ((n <=? 0x7f) = true) as -> by lia.
  change (1 mod 256) with 1.
  unfold advance. cbn [c_mem c_pos]. change (0 + Z.to_nat 8)%nat with 8%nat.
  assert (mkCursor area 8
          = mkCursor (take 8 area ++ drop 8 area) (length (take 8 area)))
    as -> by (rewrite take_drop, length_take; f_equal; lia).
  subst n. rewrite Nat2Z.id.
  replace (1 + 1 + Z.of_nat (length content) - 1)
    with (Z.of_nat (2 + length content) - 1) by lia.
  rewrite copy_backwards_at
    by (rewrite ?length_drop; cbn [length]; rewrite ?length_app; lia).
  cbn [mbind Exec_bind drop]. rewrite drop_0, take_app_length.
  unfold written. cbn [c_mem]. rewrite drop_drop, <- app_assoc.
  reflexivity.
Qed.

(** A multi-byte integer comes back from the decoder in its shortest
    form.  The blob is little-endian: [low], then a byte [t], then [k]
    bytes that only repeat the sign.  The encoder drops the [k] bytes,
    and keeps one of them where [t] alone would give the wrong sign. *)
Theorem CRYPT_AsnEncodeInteger_round_trip (low : list byte) (t : byte)
    (neg : bool) (k : nat) (buf area : list byte)
    (cb pcbStructInfo : Z) :
  let sign := if neg then xff else x00 in
  let blob := low ++ t :: replicate k sign in
  let shortest :=
    low ++ t :: (if Bool.eqb neg (0x80 <=? BYTE_val t) then [] else [sign]) in
  let n := Z.of_nat (length shortest) in
  let encoded := BYTE_of ASN_INTEGER :: BYTE_of n :: reverse shortest in
  t ≠ sign → (k = 0%nat → neg = (0x80 <=? BYTE_val t)) →
  n ≤ 0x7f →
  n + 2 ≤ cb → n + 2 ≤ Z.of_nat (length buf) →
  n + 8 ≤ pcbStructInfo → n + 8 ≤ Z.of_nat (length area) →
  CRYPT_AsnEncodeInteger LocalAlloc 0 None
    (Some (mkBlob (Z.of_nat (length blob)) blob)) None 0
  = Done (mkResult TRUE None None (n + 2))
  ∧ CRYPT_AsnEncodeInteger LocalAlloc 0 None
      (Some (mkBlob (Z.of_nat (length blob)) blob)) (Some buf) cb
    = Done (mkResult TRUE
              (Some (encoded ++ drop (length encoded) buf)) None cb)
  ∧ CRYPT_AsnDecodeInteger LocalAlloc
      (Some (encoded ++ drop (length encoded) buf)) (n + 2) 0 None
      (Some area) pcbStructInfo
    = Done (mkResult TRUE
              (Some (take 8 area ++ shortest
                     ++ drop (8 + length shortest) area))
              None pcbStructInfo,
            Some (mkDecoded n (InStructInfo 8) 0)).
Proof.
  intros sign blob shortest n encoded Ht Hk Hn Hcb Hbuf Hroom Harea.
  set (pad := negb (Bool.eqb neg (0x80 <=? BYTE_val t))).
  set (sig := Z.of_nat (length (low ++ [t]))).
  assert (reverse shortest
          = (if pad then [sign] else []) ++ reverse (low ++ [t]))
    as Hshortest.
  { subst shortest pad. rewrite cons_middle, app_assoc, reverse_app.
    by destruct (Bool.eqb _ _). }
  assert (1 ≤ sig) as Hsig by (subst sig; rewrite length_app; cbn; lia).
  assert (blob = (low ++ [t]) ++ replicate k sign) as Hblob
    by (subst blob; by rewrite <- app_assoc).
  assert (take (Z.to_nat sig) blob = low ++ [t]) as Htake
    by (subst sig; rewrite Hblob, Nat2Z.id; apply take_app_length).
  assert (length (reverse shortest) = length shortest) as Hrev
    by apply length_reverse.
  assert (CRYPT_AsnEncodeInteger LocalAlloc 0 None
            (Some (mkBlob (Z.of_nat (length blob)) blob)) (Some buf) cb
          = Done (mkResult TRUE
                    (Some (encoded ++ drop (length encoded) buf)) None cb)
          ∧ CRYPT_AsnEncodeInteger LocalAlloc 0 None
              (Some (mkBlob (Z.of_nat (length blob)) blob)) None 0
            = Done (mkResult TRUE None None (n + 2))) as [Hwrite Hsize].
  { unfold CRYPT_AsnEncodeInteger. cbn [cbData pbData].
    rewrite (proj2 (Z.eqb_neq (Z.of_nat (length blob)) 0))
      by (rewrite Hblob, !length_app; cbn [length]; lia).
    match goal with
    | |- (?m ≫= _ = _) ∧ _ =>
        assert (m = Done (sig, if pad && neg then 0xff else 0, pad)) as ->
    end.
    { assert (top_byte blob (Z.of_nat (length blob))
              = Done (if k is O then t else sign)) as ->.
      { rewrite Hblob. destruct k as [|k'].
        - cbn [replicate]. rewrite app_nil_r. apply top_byte_last.
        - cbn [replicate]. rewrite replicate_cons_app, app_assoc.
          apply top_byte_last. }
      cbn [mbind Exec_bind].
      assert (negb (Z.land (BYTE_val (if k is O then t else sign)) 128 =? 0)
              = neg) as ->.
      { rewrite high_bit_clear. destruct k as [|k'].
        - rewrite Hk by done. lia.
        - subst sign. by destruct neg. }
      rewrite Nat2Z.id.
      assert (lop_off (length blob) blob sign
              = Done (Z.of_nat (length (low ++ [t])))) as Hlop.
      { rewrite Hblob, length_app, length_replicate.
        apply lop_off_spec; [|done]. rewrite last_snoc. congruence. }
      assert (top_byte blob sig = Done t) as Htop.
      { rewrite Hblob, top_byte_app by lia. apply top_byte_last. }
      subst pad.
      destruct neg; [change sign with xff in Hlop|change sign with x00 in Hlop];
        rewrite Hlop; cbn [mbind Exec_bind]; fold sig; rewrite Htop;
        cbn [mbind Exec_bind].
      - destruct (Z.ltb_spec (BYTE_val t) 128), (Z.leb_spec 128 (BYTE_val t));
          (lia || reflexivity).
      - destruct (Z.gtb_spec (BYTE_val t) 127), (Z.leb_spec 128 (BYTE_val t));
          (lia || reflexivity). }
    cbn [mbind Exec_bind].
    assert (BYTE_of (if pad && neg then 0xff else 0)
            = if pad then sign else x00) as ->
      by (subst sign; by destruct pad, neg).
    pose proof (integer_encoders_end pad (if pad then sign else x00) sig blob
                  buf cb) as Hend.
    cbv zeta in Hend. rewrite Htake in Hend.
    assert ((if pad then [if pad then sign else x00] else [])
            = if pad then [sign] else []) as Hpad by by destruct pad.
    rewrite Hpad, <- Hshortest, Hrev in Hend.
    apply Hend; try lia.
    rewrite Hblob, length_app. lia. }
  split; [exact Hsize|]. split; [exact Hwrite|].
  subst encoded. rewrite <- !app_comm_cons.
  replace n with (Z.of_nat (length (reverse shortest))) by (rewrite Hrev; done).
  rewrite CRYPT_AsnDecodeInteger_short; rewrite ?Hrev; try (fold n; lia).
  by rewrite reverse_involutive.
Qed.



(** What the unsigned encoder writes for a blob of [low], a byte [t] that
    is not zero and [k] zero bytes, whatever memory follows the blob. *)
Lemma CRYPT_AsnEncodeUnsignedInteger_writes (low : list byte) (t : byte)
    (k : nat) (rest buf : list byte) (cb : Z) :
  let shortest := low ++ [t] in
  let pad := 0x80 <=? BYTE_val t in
  let content := (if pad then [x00] else []) ++ reverse shortest in
  let n := Z.of_nat (length content) in
  let encoded := BYTE_of ASN_INTEGER :: BYTE_of n :: content in
  let blob :=
    mkBlob (Z.of_nat (length (low ++ t :: replicate k x00)))
      (low ++ t :: replicate k x00 ++ rest) in
  t ≠ x00 → n ≤ 0x7f →
  n + 2 ≤ cb → n + 2 ≤ Z.of_nat (length buf) →
  CRYPT_AsnEncodeUnsignedInteger LocalAlloc 0 None (Some blob) (Some buf) cb
  = Done (mkResult TRUE (Some (encoded ++ drop (length encoded) buf)) None cb)
  ∧ CRYPT_AsnEncodeUnsignedInteger LocalAlloc 0 None (Some blob) None 0
    = Done (mkResult TRUE None None (n + 2)).
Proof.
  intros shortest pad content n encoded blob Ht Hn Hcb Hbuf.
  set (sig := Z.of_nat (length shortest)).
  assert (1 ≤ sig) as Hsig
    by (subst sig shortest; rewrite length_app; cbn; lia).
  assert (pbData blob = shortest ++ replicate k x00 ++ rest) as Hblob
    by (subst blob shortest; cbn [pbData]; by rewrite <- app_assoc).
  assert (cbData blob = Z.of_nat (length shortest + k)) as Hcount.
  { subst blob shortest. cbn [cbData]. f_equal.
    rewrite !length_app. cbn [length]. rewrite length_replicate. lia. }
  assert (take (Z.to_nat sig) (pbData blob) = shortest) as Htake
    by (subst sig; rewrite Hblob, Nat2Z.id; apply take_app_length).
  unfold CRYPT_AsnEncodeUnsignedInteger.
  rewrite Hcount, (proj2 (Z.eqb_neq _ 0)) by lia.
  match goal with
  | |- (?m ≫= _ = _) ∧ _ => assert (m = Done (sig, pad)) as ->
  end.
  { rewrite Nat2Z.id, Hblob.
    rewrite lop_off_rest
      by (done || subst shortest; rewrite last_snoc; congruence).
    cbn [mbind Exec_bind]. fold sig.
    rewrite top_byte_app by lia. subst sig shortest.
    rewrite top_byte_last. cbn [mbind Exec_bind]. subst pad. do 2 f_equal.
    destruct (Z.gtb_spec (BYTE_val t) 127), (Z.leb_spec 128 (BYTE_val t));
      (lia || reflexivity). }
  cbn [mbind Exec_bind].
  pose proof (integer_encoders_end pad x00 sig (pbData blob) buf cb) as Hend.
  cbv zeta in Hend. rewrite Htake in Hend.
  apply Hend; try (fold content; fold n; lia).
  rewrite Hblob, length_app. lia.
Qed.


(** Zero and minus one cannot be encoded.  A blob of nothing but zero
    bytes, or of nothing but FF bytes, loses all its bytes as redundant,
    and the byte that is then tested for the sign is [pbData[-1]]. *)
Theorem CRYPT_AsnEncodeInteger_zero_or_minus_one (neg : bool) (k : nat)
    (dwFlags : Z) (pEncodePara : option CRYPT_CODEC_PARA)
    (pbEncoded : option (list byte)) (pcbEncoded : Z) :
  let blob := replicate (S k) (if neg then xff else x00) in
  CRYPT_AsnEncodeInteger LocalAlloc dwFlags pEncodePara
    (Some (mkBlob (Z.of_nat (length blob)) blob)) pbEncoded pcbEncoded
  = Undefined.
Proof.
  intros blob. unfold CRYPT_AsnEncodeInteger. cbn [cbData pbData].
  rewrite (proj2 (Z.eqb_neq (Z.of_nat (length blob)) 0))
    by (subst blob; rewrite length_replicate; lia).
  assert (top_byte blob (Z.of_nat (length blob))
          = Done (if neg then xff else x00)) as ->.
  { subst blob. cbn [replicate]. rewrite replicate_cons_app.
    apply top_byte_last. }
  cbn [mbind Exec_bind]. rewrite Nat2Z.id.
  assert (lop_off (length blob) blob (if neg then xff else x00) = Done 0)
    as Hlop.
  { subst blob. rewrite length_replicate.
    apply (lop_off_spec [] _ (S k)); [done|lia]. }
  destruct neg; cbn [BYTE_val negb]; rewrite Hlop; reflexivity.
Qed.

(** Nor can the unsigned encoder do with a blob of nothing but zero
    bytes. *)
Lemma CRYPT_AsnEncodeUnsignedInteger_all_zero (k : nat) (rest : list byte)
    (dwFlags : Z) (pEncodePara : option CRYPT_CODEC_PARA)
    (pbEncoded : option (list byte)) (pcbEncoded : Z) :
  CRYPT_AsnEncodeUnsignedInteger LocalAlloc dwFlags pEncodePara
    (Some (mkBlob (Z.of_nat (S k)) (replicate (S k) x00 ++ rest))) pbEncoded
    pcbEncoded
  = Undefined.
Proof.
  unfold CRYPT_AsnEncodeUnsignedInteger. cbn [cbData pbData].
  rewrite (proj2 (Z.eqb_neq (Z.of_nat (S k)) 0)) by lia.
  rewrite Nat2Z.id.
  pose proof (lop_off_rest [] rest x00 (S k) ltac:(done) (S k) ltac:(lia))
    as Hlop.
  cbn [length app Nat.add] in Hlop. by rewrite Hlop.
Qed.

End IntegerFacts.

(** ** Enumerated values *)

Lemma be_unsigned_zeros (k : nat) (bs : list byte) :
  be_unsigned (replicate k x00 ++ bs) = be_unsigned bs.
Proof.
  induction k as [|k IH]; [done|].
  cbn [replicate app]. rewrite be_unsigned_cons, IH.
  change (BYTE_val x00) with 0. lia.
Qed.

Lemma be_unsigned_le_bytes (n : nat) :
  ∀ v, 0 ≤ v → be_unsigned (reverse (le_bytes n v)) = v mod 256 ^ Z.of_nat n.
Proof.
  induction n as [|n IH]; intros v Hv.
  - change (256 ^ Z.of_nat 0) with 1. by rewrite Z.mod_1_r.
  - cbn [le_bytes]. rewrite reverse_cons, be_unsigned_snoc, IH
      by (rewrite Z.shiftr_div_pow2 by lia; apply Z.div_pos; lia).
    rewrite BYTE_val_of_mod, Z.shiftr_div_pow2 by lia.
    rewrite Nat2Z.inj_succ, Z.pow_succ_r by lia.
    change (2 ^ 8) with 256.
    rewrite (Z.rem_mul_r v 256 (256 ^ Z.of_nat n)) by lia. lia.
Qed.

Lemma le_bytes_length (n : nat) (v : Z) : length (le_bytes n v) = n.
Proof. revert v. induction n as [|n IH]; intros v; cbn; by rewrite ?IH. Qed.

(** A little-endian number that is not zero has a last byte that is not
    zero, before the zero bytes that only pad it. *)
Lemma significant_bytes (bs : list byte) :
  be_unsigned (reverse bs) ≠ 0 →
  ∃ (low : list byte) (t : byte) (k : nat),
    bs = low ++ t :: replicate k x00 ∧ t ≠ x00.
Proof.
  induction bs as [|b bs IH] using rev_ind; [done|].
  rewrite reverse_snoc. intros Hvalue.
  destruct (decide (b = x00)) as [->|Hb].
  - change (x00 :: reverse bs) with (replicate 1 x00 ++ reverse bs)
      in Hvalue.
    rewrite be_unsigned_zeros in Hvalue.
    destruct (IH Hvalue) as (low & t & k & -> & Ht).
    exists low, t, (S k). split; [|done].
    rewrite <- app_assoc. cbn [app replicate].
    by rewrite replicate_cons_app.
  - by exists bs, b, 0%nat.
Qed.

Lemma DecodeInt_loop_unsigned (content : list byte) :
  ∀ (pre rest : list byte) (val : Z),
    0 ≤ val →
    val * 256 ^ Z.of_nat (length content) + be_unsigned content < 2 ^ 32 →
    DecodeInt_loop false (length content)
      (mkCursor (pre ++ content ++ rest) (length pre)) val
    = Done (val * 256 ^ Z.of_nat (length content) + be_unsigned content).
Proof.
  induction content as [|c content IH]; intros pre rest val Hval Hfit.
  - cbn [DecodeInt_loop length]. unfold be_unsigned. cbn. f_equal. lia.
  - rewrite be_unsigned_cons, length_cons, Nat2Z.inj_succ,
      Z.pow_succ_r in * by lia.
    pose proof (BYTE_val_range c) as Hc.
    pose proof (be_unsigned_range content) as Hu.
    assert (0 < 256 ^ Z.of_nat (length content)) as Hp
      by (apply Z.pow_pos_nonneg; lia).
    assert (0 ≤ val * 256 < 2 ^ 32) as Hv by nia.
    cbn [DecodeInt_loop]. unfold peek. rewrite decide_True by lia.
    cbn [c_mem c_pos]. change (Z.to_nat 0) with 0%nat.
    rewrite Nat.add_0_r, lookup_app_r by lia.
    rewrite Nat.sub_diag. cbn [app lookup list_lookup defined mbind Exec_bind].
    rewrite Z.shiftl_mul_pow2 by lia. change (2 ^ 8) with 256.
    rewrite DWORD_wrap_small by lia.
    rewrite lor_shifted_byte by lia.
    unfold advance. cbn [c_mem c_pos].
    replace (pre ++ c :: content ++ rest)
      with ((pre ++ [c]) ++ content ++ rest)
      by (rewrite <- app_assoc; reflexivity).
    replace (length pre + Z.to_nat 1)%nat with (length (pre ++ [c]))
      by (rewrite length_app; cbn [length]; lia).
    rewrite IH by nia.
    f_equal. lia.
Qed.

Section EnumeratedFacts.

Variable LocalAlloc : Allocator.

(** An enumerated value that is not zero comes back from the decoder as
    it went into the encoder.  What is written is the tag 0A, the number
    of content bytes, and the value big-endian in the fewest bytes that
    keep it from reading as negative. *)
Theorem CRYPT_AsnEncodeEnumerated_round_trip (v : Z)
    (rest buf out : list byte) (cb : Z) :
  0 < v < 2 ^ 32 →
  7 ≤ cb → (7 ≤ length buf)%nat → (4 ≤ length out)%nat →
  ∃ content : list byte,
    (1 ≤ length content ≤ 5)%nat ∧ be_unsigned content = v
    ∧ let encoded :=
        BYTE_of ASN_ENUMERATED :: BYTE_of (Z.of_nat (length content))
        :: content in
      CRYPT_AsnEncodeEnumerated LocalAlloc 0 None
        (Some (INT_bytes v ++ rest)) None 0
      = Done (mkResult TRUE None None (Z.of_nat (length encoded)))
      ∧ CRYPT_AsnEncodeEnumerated LocalAlloc 0 None
          (Some (INT_bytes v ++ rest)) (Some buf) cb
        = Done (mkResult TRUE (Some (encoded ++ drop (length encoded) buf))
                  None cb)
      ∧ CRYPT_AsnDecodeEnumerated LocalAlloc
          (Some (encoded ++ drop (length encoded) buf)) cb 0 None
          (Some out) sizeof_int
        = Done (mkResult TRUE (Some (INT_bytes v ++ drop 4 out)) None
                  sizeof_int).
Proof.
  intros Hv Hcb Hbuf Hout.
  assert (be_unsigned (reverse (INT_bytes v)) = v) as Hvalue.
  { unfold INT_bytes. rewrite be_unsigned_le_bytes by lia.
    apply Z.mod_small. change (256 ^ Z.of_nat (Z.to_nat sizeof_int))
      with (2 ^ 32). lia. }
  destruct (significant_bytes (INT_bytes v)) as (low & t & k & Hbytes & Ht);
    [lia|].
  assert (length low + S k = 4)%nat as Hfour.
  { pose proof (le_bytes_length 4 v) as Hlen. unfold INT_bytes in Hbytes.
    change (Z.to_nat sizeof_int) with 4%nat in Hbytes.
    rewrite Hbytes, length_app in Hlen. cbn [length] in Hlen.
    rewrite length_replicate in Hlen. lia. }
  set (pad := 0x80 <=? BYTE_val t).
  set (content := (if pad then [x00] else []) ++ reverse (low ++ [t])).
  assert (1 ≤ length content ≤ 5)%nat as Hcontent.
  { subst content. rewrite length_app, length_reverse, length_app.
    destruct pad; cbn [length]; lia. }
  assert (be_unsigned content = v) as Hdenotes.
  { subst content. rewrite <- Hvalue, Hbytes.
    replace (low ++ t :: replicate k x00)
      with ((low ++ [t]) ++ replicate k x00) by (by rewrite <- app_assoc).
    rewrite (reverse_app (low ++ [t])), reverse_replicate, be_unsigned_zeros.
    destruct pad; [apply (be_unsigned_zeros 1)|done]. }
  exists content. split; [done|]. split; [done|]. cbv zeta.
  pose proof (CRYPT_AsnEncodeUnsignedInteger_writes LocalAlloc low t k rest
                buf cb) as Henc.
  cbv zeta in Henc. fold pad content in Henc.
  replace (Z.of_nat (length (low ++ t :: replicate k x00)))
    with sizeof_DWORD in Henc
    by (rewrite length_app; cbn [length]; rewrite length_replicate;
        unfold sizeof_DWORD; lia).
  replace (low ++ t :: replicate k x00 ++ rest) with (INT_bytes v ++ rest)
    in Henc by (rewrite Hbytes, <- app_assoc; done).
  destruct Henc as [Hwrite Hsize]; [done|lia|lia|lia|].
  unfold CRYPT_AsnEncodeEnumerated. rewrite Hwrite, Hsize.
  cbn [mbind Exec_bind r_ret r_buf r_alloc r_cb is_TRUE is_Some_b andb].
  change (has_flag 0 CRYPT_ENCODE_ALLOC_FLAG) with false.
  cbn [defined mbind Exec_bind app]. unfold set_tag.
  split; [do 2 f_equal; cbn [length]; lia|].
  set (len := BYTE_of (Z.of_nat (length content))).
  set (tail := drop (length (BYTE_of ASN_ENUMERATED :: len :: content)) buf).
  split.
  { unfold poke. cbn [c_mem c_pos length].
    rewrite decide_True by apply le_n_S, Nat.le_0_l. reflexivity. }
  set (enc := BYTE_of ASN_ENUMERATED :: len :: content ++ tail).
  assert (BYTE_val len = Z.of_nat (length content)) as Hlen
    by (apply BYTE_val_of; lia).
  unfold CRYPT_AsnDecodeEnumerated.
  assert ((cb =? 0) = false) as -> by lia.
  assert ((cb <=? 1) = false) as -> by lia.
  change (peek (mkCursor enc 0) 0) with (Done (BYTE_of ASN_ENUMERATED)).
  cbn [mbind Exec_bind].
  change (BYTE_val (BYTE_of ASN_ENUMERATED) =? ASN_ENUMERATED) with true.
  cbn [negb].
  change (peek (mkCursor enc 0) 1) with (Done len). cbn [mbind Exec_bind].
  rewrite Hlen.
  rewrite (proj2 (Z.eqb_neq _ 0)) by lia.
  assert ((Z.of_nat (length content) >? sizeof_int + 1) = false) as ->
    by (unfold sizeof_int; lia).
  rewrite Nat2Z.id.
  change (advance (mkCursor enc 0) 2)
    with (mkCursor ([BYTE_of ASN_ENUMERATED; len] ++ content ++ tail)
            (length [BYTE_of ASN_ENUMERATED; len])).
  rewrite DecodeInt_loop_unsigned by lia.
  cbn [mbind Exec_bind]. rewrite Z.mul_0_l, Z.add_0_l, Hdenotes.
  unfold store_decoded, CRYPT_DecodeEnsureSpace.
  change (has_flag 0 CRYPT_DECODE_ALLOC_FLAG) with false.
  change (Z.of_nat (length (INT_bytes v))) with 4.
  change (sizeof_int <? 4) with false.
  cbn [is_TRUE negb default].
  rewrite poke_start by (change (length (INT_bytes v)) with 4%nat; lia).
  reflexivity.
Qed.

(** Zero cannot be encoded, as an unsigned integer or as an enumerated
    value: the blob loses all its bytes as leading zeroes, and the byte
    that is then tested is [pbData[-1]].  And the enumerated encoder does
    not refuse a null pointer, but reads through it. *)
Theorem CRYPT_AsnEncodeEnumerated_zero_or_null (k : nat) (rest : list byte)
    (dwFlags : Z) (pEncodePara : option CRYPT_CODEC_PARA)
    (pbEncoded : option (list byte)) (pcbEncoded : Z) :
  CRYPT_AsnEncodeUnsignedInteger LocalAlloc dwFlags pEncodePara
    (Some (mkBlob (Z.of_nat (S k)) (replicate (S k) x00))) pbEncoded
    pcbEncoded = Undefined
  ∧ CRYPT_AsnEncodeEnumerated LocalAlloc dwFlags pEncodePara
      (Some (INT_bytes 0 ++ rest)) pbEncoded pcbEncoded = Undefined
  ∧ CRYPT_AsnEncodeEnumerated LocalAlloc dwFlags pEncodePara None pbEncoded
      pcbEncoded = Undefined.
Proof.
  split; [|split; [|done]].
  - rewrite <- (app_nil_r (replicate (S k) x00)).
    apply CRYPT_AsnEncodeUnsignedInteger_all_zero.
  - unfold CRYPT_AsnEncodeEnumerated.
    change (INT_bytes 0) with (replicate 4 x00).
    change sizeof_DWORD with (Z.of_nat 4).
    by rewrite CRYPT_AsnEncodeUnsignedInteger_all_zero.
Qed.

End EnumeratedFacts.

(** ** The size of a multi-byte integer is kept in a byte *)

Section IntegerSizeFacts.

Variable LocalAlloc : Allocator.

(** Writing the tag, the length octets and [sig] bytes of the blob into
    memory that is too short for them. *)
Lemma integer_encoders_overflow (sig : Z) (blob mem : list byte)
    (k : Cursor → Exec Result) :
  0 ≤ sig → (Z.to_nat sig ≤ length blob)%nat →
  Z.of_nat (length mem)
  < 1 + Z.of_nat (length (EncodeLen_bytes sig)) + sig →
  (p0 ← emit (mkCursor mem 0) [BYTE_of ASN_INTEGER];
   '(_, q, lenBytes0) ←
     CRYPT_EncodeLen sig (Some p0)
       (Z.of_nat (length (EncodeLen_bytes sig)));
   p1 ← Done (advance (from_option (rebase p0) p0 q) lenBytes0);
   p2 ← copy_reversed (Z.to_nat sig) blob p1;
   k p2) = Undefined.
Proof.
  intros Hsig Hblob Hmem.
  change (mkCursor mem 0) with (mkCursor ([] ++ mem) (length (@nil byte))).
  destruct mem as [|m mem]; [by apply emit_short; cbn [length]; lia|].
  rewrite emit_at by (cbn [length]; lia). cbn [mbind Exec_bind].
  rewrite CRYPT_EncodeLen_eq. cbn [length drop] in *. rewrite drop_0.
  destruct (decide (length (EncodeLen_bytes sig) ≤ length mem)%nat)
    as [Hfit|Hshort].
  - rewrite poke_at by done.
    cbn [mbind Exec_bind from_option]. unfold advance, rebase.
    cbn [c_mem c_pos]. rewrite Nat2Z.id, <- length_app.
    apply copy_reversed_short; [done|]. rewrite length_drop. lia.
  - unfold poke. cbn [c_mem c_pos].
    by rewrite decide_False by (rewrite !length_app; cbn [length]; lia).
Qed.

(** The size the integer encoder computes is kept in a [BYTE].  A blob
    whose encoding has 256 bytes or more (here one of 253 bytes or more
    with no byte to drop and none to add) is announced with that size
    modulo 256, and the writing call, which compares the room with the
    announced size only, writes past the end of every buffer that is not
    as long as the encoding; so does it past the block it allocates
    itself. *)
Theorem CRYPT_AsnEncodeInteger_size_wraps (low : list byte) (t : byte)
    (buf : list byte) (cb : Z) :
  let blob := low ++ [t] in
  let n := Z.of_nat (length blob) in
  let size := 1 + Z.of_nat (length (EncodeLen_bytes n)) + n in
  0 < BYTE_val t < 0x80 → 0xfd ≤ n < 2 ^ 32 →
  size mod 256 ≤ cb → Z.of_nat (length buf) < size →
  CRYPT_AsnEncodeInteger LocalAlloc 0 None (Some (mkBlob n blob)) None 0
  = Done (mkResult TRUE None None (size mod 256))
  ∧ size mod 256 < 256 ≤ size
  ∧ CRYPT_AsnEncodeInteger LocalAlloc 0 None (Some (mkBlob n blob))
      (Some buf) cb
    = Undefined
  ∧ CRYPT_AsnEncodeInteger LocalAlloc CRYPT_ENCODE_ALLOC_FLAG None
      (Some (mkBlob n blob)) (Some buf) cb
    = if LocalAlloc (size mod 256) is Some _ then Undefined
      else Done (mkResult (FALSE None) (Some buf) None cb).
Proof.
  intros blob n size Ht Hn Hcb Hbuf.
  pose proof (EncodeLen_bytes_length n) as Hlen.
  assert (size mod 256 < 256 ≤ size) as Hwrap.
  { split; [apply Z.mod_pos_bound; lia|].
    subst size. unfold EncodeLen_bytes.
    destruct (Z.leb_spec n 0x7f); [lia|]. cbn [length].
    rewrite EncodeLen_octets_length, EncodeLen_significant_minimal
      by (done || lia).
    repeat case_match; lia. }
  assert (∀ dwFlags pbEncoded pcbEncoded,
    CRYPT_AsnEncodeInteger LocalAlloc dwFlags None (Some (mkBlob n blob))
      pbEncoded pcbEncoded
    = (lenBytes ← lenBytes_of n;
       let bytesNeeded := (1 + lenBytes + n) mod 256 in
       match pbEncoded with
       | None => Done (mkResult TRUE None None bytesNeeded)
       | Some mem =>
           let '(ret, block, cb) :=
             CRYPT_EncodeEnsureSpace LocalAlloc dwFlags None pcbEncoded
               bytesNeeded in
           if negb (is_TRUE ret) then Done (mkResult ret (Some mem) None cb)
           else
             p0 ← emit (mkCursor (default mem block) 0) [BYTE_of ASN_INTEGER];
             '(_, q, lenBytes0) ← CRYPT_EncodeLen n (Some p0) lenBytes;
             p1 ← Done (advance (from_option (rebase p0) p0 q) lenBytes0);
             p2 ← copy_reversed (Z.to_nat n) blob p1;
             Done (written mem block p2 cb)
       end)) as Hrun.
  { intros dwFlags pbEncoded pcbEncoded.
    unfold CRYPT_AsnEncodeInteger. cbn [cbData pbData].
    rewrite (proj2 (Z.eqb_neq n 0)) by lia.
    assert (top_byte blob n = Done t) as -> by apply top_byte_last.
    cbn [mbind Exec_bind]. rewrite high_bit_clear.
    assert ((BYTE_val t <? 0x80) = true) as -> by lia. cbn [negb].
    assert (lop_off (Z.to_nat n) blob x00 = Done n) as ->.
    { subst n. rewrite Nat2Z.id.
      rewrite <- (app_nil_r blob) at 2.
      rewrite <- (Nat.add_0_r (length blob)) at 1.
      apply (lop_off_spec blob x00 0); [|done].
      subst blob. rewrite last_snoc. intros [= ->]. cbn in Ht. lia. }
    cbn [mbind Exec_bind].
    assert (top_byte blob n = Done t) as -> by apply top_byte_last.
    cbn [mbind Exec_bind].
    assert ((BYTE_val t >? 0x7f) = false) as -> by lia.
    reflexivity. }
  rewrite !Hrun, lenBytes_of_bytes. cbn [mbind Exec_bind]. fold size.
  split; [done|]. split; [done|].
  unfold CRYPT_EncodeEnsureSpace.
  change (has_flag 0 CRYPT_ENCODE_ALLOC_FLAG) with false.
  change (has_flag CRYPT_ENCODE_ALLOC_FLAG CRYPT_ENCODE_ALLOC_FLAG) with true.
  assert ((size mod 256 >? cb) = false) as -> by lia.
  cbn [is_TRUE negb default]. split.
  - apply integer_encoders_overflow; [lia|subst n; lia|fold size; lia].
  - destruct (LocalAlloc (size mod 256)) as [contents|]; [|done].
    cbn [is_TRUE negb default].
    apply integer_encoders_overflow; [lia|subst n; lia|].
    unfold id. rewrite length_fresh. fold size. lia.
Qed.

End IntegerSizeFacts.

(** ** Octet strings and bit strings that are not all there *)

Section BlobDecoderFacts.

Variable LocalAlloc : Allocator.

(** The octet-string decoder takes a short-form length at its word.  When
    the input ends before the content does, the sizing call still
    succeeds, a call with the NOCOPY flag hands out a blob that reaches
    past the input, and a copying call reads past it. *)
Theorem CRYPT_AsnDecodeOctets_trusts_length (len : byte)
    (content area : list byte) (pcbStructInfo : Z) :
  let encoded := BYTE_of ASN_OCTETSTRING :: len :: content in
  let cbEncoded := Z.of_nat (length encoded) in
  Z.of_nat (length content) < BYTE_val len ≤ 0x7f →
  BYTE_val len + 8 ≤ pcbStructInfo →
  BYTE_val len + 8 ≤ Z.of_nat (length area) →
  CRYPT_AsnDecodeOctets LocalAlloc (Some encoded) cbEncoded 0 None None 0
  = Done (mkResult TRUE None None (BYTE_val len + 8), None)
  ∧ CRYPT_AsnDecodeOctets LocalAlloc (Some encoded) cbEncoded
      CRYPT_DECODE_NOCOPY_FLAG None (Some area) pcbStructInfo
    = Done (mkResult TRUE (Some area) None pcbStructInfo,
            Some (mkDecoded (BYTE_val len) (InEncoded 2) 0))
  ∧ CRYPT_AsnDecodeOctets LocalAlloc (Some encoded) cbEncoded 0 None
      (Some area) pcbStructInfo
    = Undefined.
Proof.
  intros encoded cbEncoded Hlen Hroom Harea.
  pose proof (BYTE_val_range len) as Hbyte.
  assert (1 < cbEncoded) as Hcb
    by (subst cbEncoded encoded; cbn [length]; lia).
  unfold CRYPT_AsnDecodeOctets. subst encoded.
  rewrite GetLen_short by lia. cbn [mbind Exec_bind].
  change (peek _ 0) with (Done (BYTE_of ASN_OCTETSTRING)).
  cbn [mbind Exec_bind].
  change (BYTE_val (BYTE_of ASN_OCTETSTRING) =? ASN_OCTETSTRING) with true.
  cbn [negb].
  change (has_flag 0 CRYPT_DECODE_NOCOPY_FLAG) with false.
  change (has_flag CRYPT_DECODE_NOCOPY_FLAG CRYPT_DECODE_NOCOPY_FLAG)
    with true.
  unfold CRYPT_DecodeEnsureSpace.
  change (has_flag 0 CRYPT_DECODE_ALLOC_FLAG) with false.
  change (has_flag CRYPT_DECODE_NOCOPY_FLAG CRYPT_DECODE_ALLOC_FLAG)
    with false.
  unfold sizeof_CRYPT_DATA_BLOB in *.
  rewrite DWORD_wrap_small by lia.
  split; [done|].
  assert ((pcbStructInfo <? 8) = false) as -> by lia.
  assert ((pcbStructInfo <? BYTE_val len + 8) = false) as -> by lia.
  cbn [is_TRUE negb default c_mem].
  assert ((Z.of_nat (length area) <? 8) = false) as -> by lia.
  change (peek _ 1) with (Done len). cbn [mbind Exec_bind].
  unfold GET_LEN_BYTES.
  assert ((BYTE_val len <=? 0x7f) = true) as -> by lia.
  split; [done|].
  rewrite (proj2 (Z.eqb_neq _ 0)) by lia.
  unfold copy_from, read_bytes. change (Z.to_nat (1 + 1)) with 2%nat.
  cbn [drop]. rewrite drop_0.
  by rewrite decide_False by lia.
Qed.

(** A bit string without content, which has not even the octet that
    counts the unused bits, is taken for one of 2^32 - 1 bytes: the
    length of the data is the content length less one, in a [DWORD].
    The sizing call asks for 11 bytes, a call with the NOCOPY flag hands
    out the blob of 2^32 - 1 bytes, and a copying call copies as many. *)
Theorem CRYPT_AsnDecodeBits_without_content (next : byte)
    (rest area : list byte) (cbEncoded pcbStructInfo : Z) :
  let encoded := BYTE_of ASN_BITSTRING :: x00 :: next :: rest in
  1 < cbEncoded → Z.of_nat (length rest) < 2 ^ 32 - 1 →
  12 ≤ pcbStructInfo → 12 ≤ Z.of_nat (length area) →
  CRYPT_AsnDecodeBits LocalAlloc (Some encoded) cbEncoded 0 None None 0
  = Done (mkResult TRUE None None 11, None)
  ∧ CRYPT_AsnDecodeBits LocalAlloc (Some encoded) cbEncoded
      CRYPT_DECODE_NOCOPY_FLAG None (Some area) pcbStructInfo
    = Done (mkResult TRUE (Some area) None pcbStructInfo,
            Some (mkDecoded (2 ^ 32 - 1) (InEncoded 3) (BYTE_val next)))
  ∧ CRYPT_AsnDecodeBits LocalAlloc (Some encoded) cbEncoded 0 None
      (Some area) pcbStructInfo
    = Undefined.
Proof.
  intros encoded Hcb Hrest Hroom Harea.
  unfold CRYPT_AsnDecodeBits. subst encoded.
  rewrite GetLen_short by (done || change (BYTE_val x00) with 0; lia).
  cbn [mbind Exec_bind].
  change (peek _ 0) with (Done (BYTE_of ASN_BITSTRING)).
  cbn [mbind Exec_bind].
  change (BYTE_val (BYTE_of ASN_BITSTRING) =? ASN_BITSTRING) with true.
  cbn [negb].
  change (has_flag 0 CRYPT_DECODE_NOCOPY_FLAG) with false.
  change (has_flag CRYPT_DECODE_NOCOPY_FLAG CRYPT_DECODE_NOCOPY_FLAG)
    with true.
  unfold CRYPT_DecodeEnsureSpace.
  change (has_flag 0 CRYPT_DECODE_ALLOC_FLAG) with false.
  change (has_flag CRYPT_DECODE_NOCOPY_FLAG CRYPT_DECODE_ALLOC_FLAG)
    with false.
  change (BYTE_val x00) with 0.
  change (DWORD_wrap (0 - 1 + sizeof_CRYPT_BIT_BLOB)) with 11.
  change (DWORD_wrap (0 - 1)) with (2 ^ 32 - 1).
  unfold sizeof_CRYPT_BIT_BLOB.
  split; [done|].
  assert ((pcbStructInfo <? 12) = false) as -> by lia.
  assert ((pcbStructInfo <? 11) = false) as -> by lia.
  cbn [is_TRUE negb default c_mem].
  assert ((Z.of_nat (length area) <? 12) = false) as -> by lia.
  change (peek _ 1) with (Done x00). cbn [mbind Exec_bind].
  change (GET_LEN_BYTES (BYTE_val x00)) with 1.
  change (peek _ (1 + 1)) with (Done next). cbn [mbind Exec_bind].
  split; [done|].
  change (2 ^ 32 - 1 =? 0) with false. cbn [mbind Exec_bind].
  destruct (32 <=? BYTE_val next); [done|].
  unfold copy_from, read_bytes. change (Z.to_nat (2 + 1)) with 3%nat.
  cbn [drop]. rewrite drop_0.
  by rewrite decide_False by lia.
Qed.

(** The bit-string encoder counts one byte too many when no bit is
    unused: for [n] bytes of data and [cUnusedBits] 0 it announces [n + 1]
    data bytes, and the writing call reads the byte after the blob. *)
Theorem CRYPT_AsnEncodeBits_no_unused_bits (data buf : list byte)
    (cb : Z) :
  let n := Z.of_nat (length data) in
  let size := 1 + Z.of_nat (length (EncodeLen_bytes (n + 2))) + (n + 2) in
  0 < n → size < 2 ^ 29 → size ≤ cb →
  CRYPT_AsnEncodeBits LocalAlloc 0 None (Some (mkBitBlob n data 0)) None 0
  = Done (mkResult TRUE None None size)
  ∧ CRYPT_AsnEncodeBits LocalAlloc 0 None (Some (mkBitBlob n data 0))
      (Some buf) cb
    = Undefined.
Proof.
  intros n size Hn Hsize Hcb.
  pose proof (EncodeLen_bytes_length (n + 2)) as Hlen.
  unfold CRYPT_AsnEncodeBits. cbn [bit_cbData bit_pbData cUnusedBits].
  rewrite (DWORD_wrap_small (n * 8)) by lia.
  assert ((n * 8 >? 0) = true) as -> by lia.
  rewrite Z.sub_0_r, (DWORD_wrap_small (n * 8)) by lia.
  rewrite Z.div_mul by lia.
  rewrite (DWORD_wrap_small (n + 1)) by lia.
  replace (n + 1 + 1) with (n + 2) by lia.
  rewrite (DWORD_wrap_small (n + 2)) by lia.
  rewrite lenBytes_of_bytes. cbn [mbind Exec_bind].
  replace (1 + Z.of_nat (length (EncodeLen_bytes (n + 2))) + (n + 1) + 1)
    with size by (subst size; lia).
  rewrite (DWORD_wrap_small size) by lia.
  split; [done|].
  unfold CRYPT_EncodeEnsureSpace.
  change (has_flag 0 CRYPT_ENCODE_ALLOC_FLAG) with false.
  assert ((size >? cb) = false) as -> by lia.
  cbn [is_TRUE negb default].
  destruct (emit _ [BYTE_of ASN_BITSTRING]) as [p1|]; [|done].
  cbn [mbind Exec_bind].
  destruct (CRYPT_EncodeLen _ _ _) as [[[r q] l]|]; [|done].
  cbn [mbind Exec_bind].
  destruct (emit _ [_]) as [p2|]; [|done]. cbn [mbind Exec_bind].
  rewrite (proj2 (Z.eqb_neq (n + 1) 0)) by lia.
  change (32 <=? 0 mod 256) with false.
  assert ((n + 1 >? 1) = true) as -> by lia.
  replace (n + 1 - 1) with n by lia.
  subst n. rewrite read_all. cbn [mbind Exec_bind].
  destruct (emit p2 data) as [p3|]; [|done]. cbn [mbind Exec_bind].
  unfold peek. rewrite decide_True by lia. cbn [c_mem c_pos].
  rewrite Nat2Z.id, Nat.add_0_l, lookup_ge_None_2 by lia.
  reflexivity.
Qed.

(** A bit string with one to seven unused bits comes back from the
    decoder as it went into the encoder, but for the unused bits of its
    last byte, which are cleared. *)
Theorem CRYPT_AsnEncodeBits_round_trip (init : list byte) (last : byte)
    (u : Z) (buf area : list byte) (cb pcbStructInfo : Z) :
  let data := init ++ [last] in
  let n := Z.of_nat (length data) in
  let mask := Z.shiftl 0xff u mod 256 in
  let kept := init ++ [BYTE_of (Z.land (BYTE_val last) mask)] in
  let encoded :=
    BYTE_of ASN_BITSTRING :: BYTE_of (n + 1) :: BYTE_of u :: kept in
  1 ≤ u ≤ 7 → n + 1 ≤ 0x7f →
  n + 3 ≤ cb → n + 3 ≤ Z.of_nat (length buf) →
  n + 12 ≤ pcbStructInfo → n + 12 ≤ Z.of_nat (length area) →
  CRYPT_AsnEncodeBits LocalAlloc 0 None (Some (mkBitBlob n data u)) None 0
  = Done (mkResult TRUE None None (n + 3))
  ∧ CRYPT_AsnEncodeBits LocalAlloc 0 None (Some (mkBitBlob n data u))
      (Some buf) cb
    = Done (mkResult TRUE (Some (encoded ++ drop (length encoded) buf)) None
              cb)
  ∧ CRYPT_AsnDecodeBits LocalAlloc
      (Some (encoded ++ drop (length encoded) buf)) (n + 3) 0 None
      (Some area) pcbStructInfo
    = Done (mkResult TRUE
              (Some (take 12 area ++ kept ++ drop (12 + length kept) area))
              None pcbStructInfo,
            Some (mkDecoded n (InStructInfo 12) u)).
Proof.
  intros data n mask kept encoded Hu Hn Hcb Hbuf Hroom Harea.
  set (m := BYTE_of (Z.land (BYTE_val last) mask)).
  assert (n = Z.of_nat (length init) + 1) as Hinit
    by (subst n data; rewrite length_app; cbn [length]; lia).
  assert (length kept = length data) as Hkept
    by (subst kept data; rewrite !length_app; done).
  assert (0 ≤ mask < 256) as Hmask by (apply Z.mod_pos_bound; lia).
  assert (Z.land (BYTE_val m) mask = Z.land (BYTE_val last) mask) as Hidem.
  { subst m. rewrite BYTE_val_of_mod. change 256 with (2 ^ 8) at 1.
    rewrite <- Z.land_ones by lia.
    rewrite <- (Z.land_assoc _ (Z.ones 8) mask), (Z.land_comm (Z.ones 8)).
    rewrite (Z.land_ones mask) by lia. change (2 ^ 8) with 256.
    rewrite (Z.mod_small mask) by lia.
    by rewrite <- Z.land_assoc, Z.land_diag. }
  split; [|split].
  - unfold CRYPT_AsnEncodeBits. cbn [bit_cbData bit_pbData cUnusedBits].
    rewrite (DWORD_wrap_small (n * 8)) by lia.
    assert ((n * 8 >? u) = true) as -> by lia.
    rewrite (DWORD_wrap_small (n * 8 - u)) by lia.
    replace ((n * 8 - u) / 8) with (n - 1)
      by (apply (Z.div_unique _ _ _ (8 - u)); lia).
    replace (n - 1 + 1) with n by lia.
    rewrite (DWORD_wrap_small n), (DWORD_wrap_small (n + 1)) by lia.
    rewrite lenBytes_of_bytes, EncodeLen_bytes_short by lia.
    cbn [mbind Exec_bind length]. do 2 f_equal.
    rewrite DWORD_wrap_small; lia.
  - unfold CRYPT_AsnEncodeBits. cbn [bit_cbData bit_pbData cUnusedBits].
    rewrite (DWORD_wrap_small (n * 8)) by lia.
    assert ((n * 8 >? u) = true) as -> by lia.
    rewrite (DWORD_wrap_small (n * 8 - u)) by lia.
    replace ((n * 8 - u) / 8) with (n - 1)
      by (apply (Z.div_unique _ _ _ (8 - u)); lia).
    replace (n - 1 + 1) with n by lia.
    rewrite (DWORD_wrap_small n), (DWORD_wrap_small (n + 1)) by lia.
    assert ((u >=? 8) = false) as -> by lia.
    rewrite (Z.mod_small u 256) by lia.
    rewrite lenBytes_of_bytes. cbn [mbind Exec_bind].
    set (L := Z.of_nat (length (EncodeLen_bytes (n + 1)))).
    assert (L = 1) as HL by (subst L; by rewrite EncodeLen_bytes_short by lia).
    replace (DWORD_wrap (1 + L + n + 1)) with (n + 3)
      by (rewrite HL, DWORD_wrap_small; lia).
    unfold CRYPT_EncodeEnsureSpace.
    change (has_flag 0 CRYPT_ENCODE_ALLOC_FLAG) with false.
    assert ((n + 3 >? cb) = false) as -> by lia.
    cbn [is_TRUE negb default].
    change (mkCursor buf 0) with (mkCursor ([] ++ buf) (length (@nil byte))).
    rewrite emit_at by (cbn [length]; lia). cbn [mbind Exec_bind].
    subst L.
    rewrite CRYPT_EncodeLen_eq, EncodeLen_bytes_short by lia.
    rewrite poke_at by (rewrite length_drop; cbn [length]; lia).
    cbn [mbind Exec_bind from_option]. unfold advance, rebase.
    cbn [c_mem c_pos]. rewrite Nat2Z.id, <- length_app.
    rewrite emit_at by (rewrite !length_drop; cbn [length]; lia).
    cbn [mbind Exec_bind].
    rewrite (proj2 (Z.eqb_neq n 0)) by lia.
    assert ((32 <=? u) = false) as -> by lia.
    assert (peek (mkCursor data 0) (n - 1) = Done last) as ->.
    { unfold peek. rewrite decide_True by lia. cbn [c_mem c_pos].
      subst data. rewrite Nat.add_0_l, lookup_app_r by lia.
      by replace (Z.to_nat (n - 1) - length init)%nat with 0%nat by lia. }
    assert (read_bytes data (n - 1) = Done init) as Hread.
    { unfold read_bytes. rewrite decide_True by lia. subst data.
      replace (Z.to_nat (n - 1)) with (length init) by lia.
      by rewrite take_app_length. }
    fold mask. fold m. unfold written.
    destruct (n >? 1) eqn:Hmore.
    + rewrite Hread. cbn [mbind Exec_bind].
      rewrite emit_at by (rewrite !length_drop; cbn [length]; lia).
      cbn [mbind Exec_bind].
      rewrite poke_at by (rewrite !length_drop; cbn [length]; lia).
      cbn [mbind Exec_bind c_mem]. rewrite !drop_drop.
      subst encoded kept. do 3 f_equal.
      cbn [app]. rewrite <- !app_assoc. cbn [app length].
      rewrite length_app. cbn [length]. do 5 f_equal.
    + assert (init = []) as -> by (destruct init; [done|cbn in Hinit; lia]).
      cbn [mbind Exec_bind].
      rewrite poke_at by (rewrite !length_drop; cbn [length]; lia).
      cbn [mbind Exec_bind c_mem]. rewrite !drop_drop.
      subst encoded kept. reflexivity.
  - subst encoded. rewrite <- !app_comm_cons.
    set (tail := drop _ buf).
    assert (BYTE_val (BYTE_of (n + 1)) = n + 1) as Hlen
      by (apply BYTE_val_of; lia).
    assert (BYTE_val (BYTE_of u) = u) as Hunused
      by (apply BYTE_val_of; lia).
    unfold CRYPT_AsnDecodeBits.
    rewrite GetLen_short by lia. cbn [mbind Exec_bind]. rewrite Hlen.
    change (peek _ 0) with (Done (BYTE_of ASN_BITSTRING)).
    cbn [mbind Exec_bind].
    change (BYTE_val (BYTE_of ASN_BITSTRING) =? ASN_BITSTRING) with true.
    cbn [negb].
    change (has_flag 0 CRYPT_DECODE_NOCOPY_FLAG) with false.
    unfold CRYPT_DecodeEnsureSpace.
    change (has_flag 0 CRYPT_DECODE_ALLOC_FLAG) with false.
    unfold sizeof_CRYPT_BIT_BLOB in *.
    replace (n + 1 - 1) with n by lia.
    rewrite (DWORD_wrap_small (n + 12)), (DWORD_wrap_small n) by lia.
    assert ((pcbStructInfo <? n + 12) = false) as -> by lia.
    cbn [is_TRUE negb default c_mem].
    assert ((Z.of_nat (length area) <? 12) = false) as -> by lia.
    change (peek _ 1) with (Done (BYTE_of (n + 1))). cbn [mbind Exec_bind].
    rewrite Hlen. unfold GET_LEN_BYTES.
    assert ((n + 1 <=? 0x7f) = true) as -> by lia.
    change (peek _ (1 + 1)) with (Done (BYTE_of u)). cbn [mbind Exec_bind].
    rewrite Hunused, (proj2 (Z.eqb_neq n 0)) by lia.
    assert ((32 <=? u) = false) as -> by lia.
    unfold copy_from. change (Z.to_nat (2 + 1)) with 3%nat. cbn [drop].
    rewrite drop_0.
    assert (read_bytes (kept ++ tail) n = Done kept) as ->.
    { unfold read_bytes. rewrite decide_True by (rewrite length_app; lia).
      replace (Z.to_nat n) with (length kept) by lia.
      by rewrite take_app_length. }
    cbn [mbind Exec_bind]. unfold advance. cbn [c_mem c_pos].
    change (0 + Z.to_nat 12)%nat with 12%nat.
    assert (mkCursor area 12
            = mkCursor (take 12 area ++ drop 12 area)
                (length (take 12 area)))
      as -> by (rewrite take_drop, length_take; f_equal; lia).
    rewrite poke_at by (rewrite length_drop; lia).
    cbn [mbind Exec_bind]. fold mask.
    set (rest := drop (length kept) (drop 12 area)).
    assert (peek (mkCursor ((take 12 area ++ kept) ++ rest)
                    (length (take 12 area))) (n - 1) = Done m) as ->.
    { unfold peek. rewrite decide_True by lia. cbn [c_mem c_pos].
      rewrite <- app_assoc, lookup_app_r by lia.
      replace (length (take 12 area) + Z.to_nat (n - 1)
               - length (take 12 area))%nat
        with (length init) by lia.
      subst kept. rewrite <- app_assoc.
      by rewrite lookup_app_r, Nat.sub_diag by done. }
    cbn [mbind Exec_bind]. rewrite Hidem. fold m.
    cbn [c_mem c_pos].
    assert (mkCursor ((take 12 area ++ kept) ++ rest)
              (length (take 12 area) + Z.to_nat (n - 1))
            = mkCursor ((take 12 area ++ init) ++ [m] ++ rest)
                (length (take 12 area ++ init))) as ->.
    { subst kept. f_equal; [by rewrite <- !app_assoc|].
      rewrite length_app. lia. }
    rewrite poke_at by (cbn [length app]; lia).
    cbn [mbind Exec_bind]. unfold written. cbn [c_mem].
    do 3 f_equal. subst kept rest. rewrite <- !app_assoc. cbn [app drop].
    change (drop (length [m]) (m :: ?l)) with l.
    by rewrite drop_drop.
Qed.

End BlobDecoderFacts.

(** ** Times, written and read back *)

Lemma fmt_02d_bytes (n : Z) :
  0 ≤ n < 100 →
  string_bytes (fmt_02d n) = [BYTE_of (48 + n / 10); BYTE_of (48 + n mod 10)].
Proof.
  intros Hn.
  assert (forallb (λ n, bool_decide (string_bytes (fmt_02d n)
            = [BYTE_of (48 + n / 10); BYTE_of (48 + n mod 10)]))
            (seqZ 0 100) = true) as Hall by (vm_compute; reflexivity).
  rewrite forallb_forall in Hall.
  assert (In n (seqZ 0 100)) as Hin
    by (apply list_elem_of_In, elem_of_seqZ; lia).
  apply Hall in Hin. cbv beta in Hin. by apply bool_decide_eq_true in Hin.
Qed.

Lemma fmt_04d_bytes (n : Z) :
  0 ≤ n < 10000 →
  string_bytes (fmt_04d n)
  = [BYTE_of (48 + n / 1000); BYTE_of (48 + n / 100 mod 10);
     BYTE_of (48 + n / 10 mod 10); BYTE_of (48 + n mod 10)].
Proof.
  intros Hn.
  assert (forallb (λ n, bool_decide (string_bytes (fmt_04d n)
            = [BYTE_of (48 + n / 1000); BYTE_of (48 + n / 100 mod 10);
               BYTE_of (48 + n / 10 mod 10); BYTE_of (48 + n mod 10)]))
            (seqZ 0 10000) = true) as Hall by (vm_compute; reflexivity).
  rewrite forallb_forall in Hall.
  assert (In n (seqZ 0 10000)) as Hin
    by (apply list_elem_of_In, elem_of_seqZ; lia).
  apply Hall in Hin. cbv beta in Hin. by apply bool_decide_eq_true in Hin.
Qed.

Lemma string_bytes_app (a b : string) :
  string_bytes (a +:+ b) = string_bytes a ++ string_bytes b.
Proof.
  unfold string_bytes. rewrite <- fmap_app. f_equal.
  induction a as [|c a IH]; [done|]. simpl. by f_equal.
Qed.

Lemma digit_byte (d : Z) :
  0 ≤ d ≤ 9 →
  isdigit (BYTE_of (48 + d)) = true ∧ BYTE_val (BYTE_of (48 + d)) - 48 = d.
Proof.
  intros Hd. unfold isdigit. rewrite BYTE_val_of by lia.
  split; [|lia]. apply andb_true_intro. split; lia.
Qed.

(** Two digits, read. *)
Lemma get_two_digits (pre rest : list byte) (a b len : Z)
    (corrupt : Exec Result) (k : Cursor → Z → Z → Exec Result) :
  0 ≤ a ≤ 9 → 0 ≤ b ≤ 9 → 2 ≤ len →
  get_digits
    (mkCursor (pre ++ BYTE_of (48 + a) :: BYTE_of (48 + b) :: rest)
       (length pre)) len 2 corrupt k
  = k (mkCursor
         ((pre ++ [BYTE_of (48 + a); BYTE_of (48 + b)]) ++ rest)
         (length (pre ++ [BYTE_of (48 + a); BYTE_of (48 + b)])))
      (len - 2) (10 * a + b).
Proof.
  intros Ha Hb Hlen.
  destruct (digit_byte a Ha) as [Hda Hva], (digit_byte b Hb) as [Hdb Hvb].
  unfold get_digits, CRYPT_TIME_GET_DIGITS.
  change (Z.to_nat 2) with 2%nat. cbn [TIME_GET_DIGITS_loop].
  assert ((len >? 0) = true) as -> by lia.
  unfold peek. rewrite !decide_True by lia. cbn [c_mem c_pos].
  change (Z.to_nat 0) with 0%nat.
  rewrite !Nat.add_0_r, (lookup_app_r pre _ (length pre)), Nat.sub_diag
    by lia.
  cbn [lookup list_lookup defined mbind Exec_bind]. rewrite Hda. cbn [negb].
  assert ((len - 1 >? 0) = true) as -> by lia.
  unfold advance. cbn [c_mem c_pos]. change (Z.to_nat 1) with 1%nat.
  rewrite (lookup_app_r pre _ (length pre + 1)) by lia.
  replace (length pre + 1 - length pre)%nat with 1%nat by lia.
  cbn [lookup list_lookup defined mbind Exec_bind]. rewrite Hdb. cbn [negb].
  rewrite Hva, Hvb. unfold WORD_wrap.
  change (0 * 10) with 0. rewrite (Z.mod_small 0), Z.add_0_l by lia.
  rewrite (Z.mod_small a), (Z.mod_small (a * 10)) by lia.
  rewrite (Z.mod_small (a * 10 + b)) by lia.
  rewrite <- app_assoc, length_app. cbn [app length].
  replace (length pre + 1 + 1)%nat with (length pre + 2)%nat by lia.
  replace (len - 1 - 1) with (len - 2) by lia.
  replace (a * 10 + b) with (10 * a + b) by lia.
  reflexivity.
Qed.

(** Four digits, read. *)
Lemma get_four_digits (pre rest : list byte) (a b c d len : Z)
    (corrupt : Exec Result) (k : Cursor → Z → Z → Exec Result) :
  0 ≤ a ≤ 9 → 0 ≤ b ≤ 9 → 0 ≤ c ≤ 9 → 0 ≤ d ≤ 9 → 4 ≤ len →
  get_digits
    (mkCursor (pre ++ BYTE_of (48 + a) :: BYTE_of (48 + b)
               :: BYTE_of (48 + c) :: BYTE_of (48 + d) :: rest)
       (length pre)) len 4 corrupt k
  = k (mkCursor
         ((pre ++ [BYTE_of (48 + a); BYTE_of (48 + b); BYTE_of (48 + c);
                   BYTE_of (48 + d)]) ++ rest)
         (length (pre ++ [BYTE_of (48 + a); BYTE_of (48 + b);
                          BYTE_of (48 + c); BYTE_of (48 + d)])))
      (len - 4) (1000 * a + 100 * b + 10 * c + d).
Proof.
  intros Ha Hb Hc Hd Hlen.
  destruct (digit_byte a Ha) as [Hda Hva], (digit_byte b Hb) as [Hdb Hvb].
  destruct (digit_byte c Hc) as [Hdc Hvc], (digit_byte d Hd) as [Hdd Hvd].
  unfold get_digits, CRYPT_TIME_GET_DIGITS.
  change (Z.to_nat 4) with 4%nat. cbn [TIME_GET_DIGITS_loop].
  assert ((len >? 0) = true) as -> by lia.
  assert ((len - 1 >? 0) = true) as -> by lia.
  assert ((len - 1 - 1 >? 0) = true) as -> by lia.
  assert ((len - 1 - 1 - 1 >? 0) = true) as -> by lia.
  unfold peek, advance. rewrite !decide_True by lia. cbn [c_mem c_pos].
  change (Z.to_nat 0) with 0%nat. change (Z.to_nat 1) with 1%nat.
  rewrite !Nat.add_0_r.
  rewrite (lookup_app_r pre _ (length pre)), Nat.sub_diag by lia.
  cbn [lookup list_lookup defined mbind Exec_bind]. rewrite Hda. cbn [negb].
  rewrite (lookup_app_r pre _ (length pre + 1)) by lia.
  replace (length pre + 1 - length pre)%nat with 1%nat by lia.
  cbn [lookup list_lookup defined mbind Exec_bind]. rewrite Hdb. cbn [negb].
  rewrite (lookup_app_r pre _ (length pre + 1 + 1)) by lia.
  replace (length pre + 1 + 1 - length pre)%nat with 2%nat by lia.
  cbn [lookup list_lookup defined mbind Exec_bind]. rewrite Hdc. cbn [negb].
  rewrite (lookup_app_r pre _ (length pre + 1 + 1 + 1)) by lia.
  replace (length pre + 1 + 1 + 1 - length pre)%nat with 3%nat by lia.
  cbn [lookup list_lookup defined mbind Exec_bind]. rewrite Hdd. cbn [negb].
  rewrite Hva, Hvb, Hvc, Hvd. unfold WORD_wrap.
  change (0 * 10) with 0. rewrite (Z.mod_small 0), Z.add_0_l by lia.
  rewrite (Z.mod_small a), (Z.mod_small (a * 10)) by lia.
  rewrite (Z.mod_small (a * 10 + b)) by lia.
  rewrite (Z.mod_small ((a * 10 + b) * 10)) by lia.
  rewrite (Z.mod_small ((a * 10 + b) * 10 + c)) by lia.
  rewrite (Z.mod_small (((a * 10 + b) * 10 + c) * 10)) by lia.
  rewrite (Z.mod_small (((a * 10 + b) * 10 + c) * 10 + d)) by lia.
  rewrite <- app_assoc, length_app. cbn [app length].
  replace (length pre + 1 + 1 + 1 + 1)%nat with (length pre + 4)%nat by lia.
  replace (len - 1 - 1 - 1 - 1) with (len - 4) by lia.
  replace (((a * 10 + b) * 10 + c) * 10 + d)
    with (1000 * a + 100 * b + 10 * c + d) by lia.
  reflexivity.
Qed.

Lemma four_digits_of (n : Z) :
  0 ≤ n < 10000 →
  0 ≤ n / 1000 ≤ 9 ∧ 0 ≤ n / 100 mod 10 ≤ 9 ∧ 0 ≤ n / 10 mod 10 ≤ 9
  ∧ 0 ≤ n mod 10 ≤ 9
  ∧ 1000 * (n / 1000) + 100 * (n / 100 mod 10) + 10 * (n / 10 mod 10)
    + n mod 10 = n.
Proof. intros Hn. Z.div_mod_to_equations. lia. Qed.

Lemma two_digit_fields_spec (t : SYSTEMTIME) :
  two_digit_fields t = true →
  0 ≤ wMonth t < 100 ∧ 0 ≤ wDay t < 100 ∧ 0 ≤ wHour t < 100
  ∧ 0 ≤ wMinute t < 100 ∧ 0 ≤ wSecond t < 100.
Proof.
  unfold two_digit_fields. cbn [forallb]. rewrite !andb_true_iff. lia.
Qed.

Lemma two_digits_of (n : Z) :
  0 ≤ n < 100 → 0 ≤ n / 10 ≤ 9 ∧ 0 ≤ n mod 10 ≤ 9 ∧ 10 * (n / 10) + n mod 10 = n.
Proof. intros Hn. Z.div_mod_to_equations. lia. Qed.

Section TimeFacts.

Variable LocalAlloc : Allocator.
Variable FileTimeToSystemTime : Z → option SYSTEMTIME.
Variable SystemTimeToFileTime : SYSTEMTIME → option Z.

(** What the UTCTime encoder writes for a time of 1950 to 2050. *)
Lemma CRYPT_AsnEncodeUtcTime_writes (ft : Z) (t : SYSTEMTIME)
    (buf : list byte) (cb : Z) :
  FileTimeToSystemTime ft = Some t →
  1950 ≤ wYear t ≤ 2050 → two_digit_fields t = true →
  15 ≤ cb → (15 ≤ length buf)%nat →
  let yy := if wYear t >=? 2000 then wYear t - 2000 else wYear t - 1900 in
  CRYPT_AsnEncodeUtcTime LocalAlloc FileTimeToSystemTime 0 None (Some ft)
    (Some buf) cb
  = Done (mkResult TRUE
            (Some ([BYTE_of ASN_UTCTIME; BYTE_of 13;
                    BYTE_of (48 + yy / 10); BYTE_of (48 + yy mod 10);
                    BYTE_of (48 + wDay t / 10); BYTE_of (48 + wDay t mod 10);
                    BYTE_of (48 + wMonth t / 10);
                    BYTE_of (48 + wMonth t mod 10);
                    BYTE_of (48 + wHour t / 10);
                    BYTE_of (48 + wHour t mod 10);
                    BYTE_of (48 + wMinute t / 10);
                    BYTE_of (48 + wMinute t mod 10);
                    BYTE_of (48 + wSecond t / 10);
                    BYTE_of (48 + wSecond t mod 10); BYTE_of 90]
                   ++ drop 15 buf)) None cb).
Proof.
  intros Hft Hyear Hfields Hcb Hbuf yy.
  apply two_digit_fields_spec in Hfields as (Hmo & Hd & Hh & Hmi & Hs).
  assert (0 ≤ yy < 100) as Hyy by (subst yy; case_match; lia).
  unfold CRYPT_AsnEncodeUtcTime. rewrite Hft.
  assert ((wYear t <? 1950) || (wYear t >? 2050) = false) as ->
    by (apply orb_false_intro; lia).
  unfold CRYPT_EncodeEnsureSpace.
  change (has_flag 0 CRYPT_ENCODE_ALLOC_FLAG) with false.
  assert ((16 - 1 >? cb) = false) as -> by lia.
  cbn [is_TRUE negb default]. fold yy.
  rewrite !string_bytes_app, !fmt_02d_bytes by done.
  change (string_bytes "Z") with [BYTE_of 90].
  cbn [app take length]. change (Z.to_nat (16 - 3)) with 13%nat.
  cbn [take]. change (Z.of_nat 13 =? 16 - 3) with true. cbn [negb].
  rewrite poke_start by (cbn [length]; lia).
  reflexivity.
Qed.

(** What the UTCTime decoder reads from twelve digits and a Z: the time
    it hands to [SystemTimeToFileTime]. *)
Lemma CRYPT_AsnDecodeUtcTime_reads (yy f2 f3 hour minute second : Z)
    (rest mem : list byte) (cbEncoded dwFlags : Z)
    (pDecodePara : option CRYPT_CODEC_PARA) (pcbStructInfo : Z) :
  0 ≤ yy < 100 → 0 ≤ f2 < 100 → 0 ≤ f3 < 100 → 0 ≤ hour < 100 →
  0 ≤ minute < 100 → 0 ≤ second < 100 → 1 < cbEncoded →
  CRYPT_AsnDecodeUtcTime LocalAlloc SystemTimeToFileTime
    (Some ([BYTE_of ASN_UTCTIME; BYTE_of 13;
            BYTE_of (48 + yy / 10); BYTE_of (48 + yy mod 10);
            BYTE_of (48 + f2 / 10); BYTE_of (48 + f2 mod 10);
            BYTE_of (48 + f3 / 10); BYTE_of (48 + f3 mod 10);
            BYTE_of (48 + hour / 10); BYTE_of (48 + hour mod 10);
            BYTE_of (48 + minute / 10); BYTE_of (48 + minute mod 10);
            BYTE_of (48 + second / 10); BYTE_of (48 + second mod 10);
            BYTE_of 90] ++ rest))
    cbEncoded dwFlags pDecodePara (Some mem) pcbStructInfo
  = store_time LocalAlloc SystemTimeToFileTime dwFlags pDecodePara mem
      pcbStructInfo
      (mkSystemTime (if yy >=? 50 then yy + 1900 else yy + 2000) f2 0 f3
         hour minute second 0).
Proof.
  intros Hyy Hf2 Hf3 Hh Hmi Hs Hcb.
  destruct (two_digits_of yy Hyy) as (Hy1 & Hy2 & Hy).
  destruct (two_digits_of f2 Hf2) as (H21 & H22 & H2).
  destruct (two_digits_of f3 Hf3) as (H31 & H32 & H3).
  destruct (two_digits_of hour Hh) as (Hh1 & Hh2 & Hhv).
  destruct (two_digits_of minute Hmi) as (Hm1 & Hm2 & Hmv).
  destruct (two_digits_of second Hs) as (Hs1 & Hs2 & Hsv).
  unfold CRYPT_AsnDecodeUtcTime.
  rewrite (proj2 (Z.eqb_neq cbEncoded 0)) by lia.
  cbn [app].
  change (peek (mkCursor _ 0) 0) with (Done (BYTE_of ASN_UTCTIME)).
  cbn [mbind Exec_bind].
  change (BYTE_val (BYTE_of ASN_UTCTIME) =? ASN_UTCTIME) with true.
  cbn [negb].
  assert ((cbEncoded <=? 1) = false) as -> by lia.
  change (peek (mkCursor _ 0) 1) with (Done (BYTE_of 13)).
  cbn [mbind Exec_bind].
  change (BYTE_val (BYTE_of 13)) with 13.
  change (13 >? 0x7f) with false.
  change (13 <? MIN_ENCODED_TIME_LENGTH) with false.
  cbn [app].
  match goal with
  | |- context [advance (mkCursor (?a :: ?b :: ?l) 0) 2] =>
      change (advance (mkCursor (a :: b :: l) 0) 2)
        with (mkCursor ([a; b] ++ l) (length [a; b]))
  end.
  rewrite get_two_digits by lia. rewrite Hy.
  rewrite get_two_digits by lia. rewrite H2.
  rewrite get_two_digits by lia. rewrite H3.
  rewrite get_two_digits by lia. rewrite Hhv.
  rewrite get_two_digits by lia. rewrite Hmv.
  change (13 - 2 - 2 - 2 - 2 - 2) with 3. change (3 >? 0) with true.
  destruct (digit_byte _ Hs1) as [Hd1 _], (digit_byte _ Hs2) as [Hd2 _].
  match goal with
  | |- context [peek ?p 0] =>
      assert (peek p 0 = Done (BYTE_of (48 + second / 10))) as ->
        by (unfold peek; rewrite decide_True by lia; cbn [c_mem c_pos];
            rewrite lookup_app_r by (rewrite Nat.add_0_r; lia);
            by rewrite Nat.add_0_r, Nat.sub_diag);
      cbn [mbind Exec_bind]; rewrite Hd1;
      assert (peek p 1 = Done (BYTE_of (48 + second mod 10))) as ->
        by (unfold peek; rewrite decide_True by lia; cbn [c_mem c_pos];
            rewrite lookup_app_r by lia;
            by replace (length _ + Z.to_nat 1 - length _)%nat with 1%nat
              by lia)
  end.
  change (3 >=? 2) with true. cbn [andb mbind Exec_bind]. rewrite Hd2.
  rewrite get_two_digits by lia. rewrite Hsv.
  unfold CRYPT_AsnDecodeTimeZone. change (3 - 2 <? 3) with true.
  cbn [mbind Exec_bind is_TRUE orb].
  unfold set_wSecond, set_wMinute, set_wHour, set_wDay, set_wMonth, set_wYear,
    sysTime_zero.
  cbn [wYear wMonth wDayOfWeek wDay wHour wMinute wSecond wMilliseconds].
  unfold WORD_wrap. rewrite Z.mod_small by (case_match; lia).
  reflexivity.
Qed.

(** What the GeneralizedTime encoder writes for a time whose year has
    four digits. *)
Lemma CRYPT_AsnEncodeGeneralizedTime_writes (ft : Z) (t : SYSTEMTIME)
    (buf : list byte) (cb : Z) :
  FileTimeToSystemTime ft = Some t →
  0 ≤ wYear t < 10000 → two_digit_fields t = true →
  17 ≤ cb → (17 ≤ length buf)%nat →
  CRYPT_AsnEncodeGeneralizedTime LocalAlloc FileTimeToSystemTime 0 None
    (Some ft) (Some buf) cb
  = Done (mkResult TRUE
            (Some ([BYTE_of ASN_GENERALTIME; BYTE_of 15;
                    BYTE_of (48 + wYear t / 1000);
                    BYTE_of (48 + wYear t / 100 mod 10);
                    BYTE_of (48 + wYear t / 10 mod 10);
                    BYTE_of (48 + wYear t mod 10);
                    BYTE_of (48 + wDay t / 10); BYTE_of (48 + wDay t mod 10);
                    BYTE_of (48 + wMonth t / 10);
                    BYTE_of (48 + wMonth t mod 10);
                    BYTE_of (48 + wHour t / 10);
                    BYTE_of (48 + wHour t mod 10);
                    BYTE_of (48 + wMinute t / 10);
                    BYTE_of (48 + wMinute t mod 10);
                    BYTE_of (48 + wSecond t / 10);
                    BYTE_of (48 + wSecond t mod 10); BYTE_of 90]
                   ++ drop 17 buf)) None cb).
Proof.
  intros Hft Hyear Hfields Hcb Hbuf.
  apply two_digit_fields_spec in Hfields as (Hmo & Hd & Hh & Hmi & Hs).
  unfold CRYPT_AsnEncodeGeneralizedTime. rewrite Hft.
  unfold CRYPT_EncodeEnsureSpace.
  change (has_flag 0 CRYPT_ENCODE_ALLOC_FLAG) with false.
  assert ((18 - 1 >? cb) = false) as -> by lia.
  cbn [is_TRUE negb default].
  rewrite !string_bytes_app, !fmt_02d_bytes, fmt_04d_bytes by done.
  change (string_bytes "Z") with [BYTE_of 90].
  cbn [app take length]. change (Z.to_nat (18 - 3)) with 15%nat.
  cbn [take]. change (Z.of_nat 15 =? 18 - 3) with true. cbn [negb].
  rewrite poke_start by (cbn [length]; lia).
  reflexivity.
Qed.

(** What the GeneralizedTime decoder reads from fourteen digits and a Z:
    the time it hands to [SystemTimeToFileTime]. *)
Lemma CRYPT_AsnDecodeGeneralizedTime_reads (year f2 f3 hour minute second : Z)
    (rest mem : list byte) (cbEncoded dwFlags : Z)
    (pDecodePara : option CRYPT_CODEC_PARA) (pcbStructInfo : Z) :
  0 ≤ year < 10000 → 0 ≤ f2 < 100 → 0 ≤ f3 < 100 → 0 ≤ hour < 100 →
  0 ≤ minute < 100 → 0 ≤ second < 100 → 1 < cbEncoded →
  CRYPT_AsnDecodeGeneralizedTime LocalAlloc SystemTimeToFileTime
    (Some ([BYTE_of ASN_GENERALTIME; BYTE_of 15;
            BYTE_of (48 + year / 1000); BYTE_of (48 + year / 100 mod 10);
            BYTE_of (48 + year / 10 mod 10); BYTE_of (48 + year mod 10);
            BYTE_of (48 + f2 / 10); BYTE_of (48 + f2 mod 10);
            BYTE_of (48 + f3 / 10); BYTE_of (48 + f3 mod 10);
            BYTE_of (48 + hour / 10); BYTE_of (48 + hour mod 10);
            BYTE_of (48 + minute / 10); BYTE_of (48 + minute mod 10);
            BYTE_of (48 + second / 10); BYTE_of (48 + second mod 10);
            BYTE_of 90] ++ rest))
    cbEncoded dwFlags pDecodePara (Some mem) pcbStructInfo
  = store_time LocalAlloc SystemTimeToFileTime dwFlags pDecodePara mem
      pcbStructInfo (mkSystemTime year f2 0 f3 hour minute second 0).
Proof.
  intros Hyear Hf2 Hf3 Hh Hmi Hs Hcb.
  destruct (four_digits_of year Hyear) as (Hy1 & Hy2 & Hy3 & Hy4 & Hy).
  destruct (two_digits_of f2 Hf2) as (H21 & H22 & H2).
  destruct (two_digits_of f3 Hf3) as (H31 & H32 & H3).
  destruct (two_digits_of hour Hh) as (Hh1 & Hh2 & Hhv).
  destruct (two_digits_of minute Hmi) as (Hm1 & Hm2 & Hmv).
  destruct (two_digits_of second Hs) as (Hs1 & Hs2 & Hsv).
  unfold CRYPT_AsnDecodeGeneralizedTime.
  rewrite (proj2 (Z.eqb_neq cbEncoded 0)) by lia.
  cbn [app].
  change (peek (mkCursor _ 0) 0) with (Done (BYTE_of ASN_GENERALTIME)).
  cbn [mbind Exec_bind].
  change (BYTE_val (BYTE_of ASN_GENERALTIME) =? ASN_GENERALTIME) with true.
  cbn [negb].
  assert ((cbEncoded <=? 1) = false) as -> by lia.
  change (peek (mkCursor _ 0) 1) with (Done (BYTE_of 15)).
  cbn [mbind Exec_bind].
  change (BYTE_val (BYTE_of 15)) with 15.
  change (15 >? 0x7f) with false.
  change (15 <? MIN_ENCODED_TIME_LENGTH) with false.
  match goal with
  | |- context [advance (mkCursor (?a :: ?b :: ?l) 0) 2] =>
      change (advance (mkCursor (a :: b :: l) 0) 2)
        with (mkCursor ([a; b] ++ l) (length [a; b]))
  end.
  rewrite get_four_digits by lia. rewrite Hy.
  rewrite get_two_digits by lia. rewrite H2.
  rewrite get_two_digits by lia. rewrite H3.
  rewrite get_two_digits by lia. rewrite Hhv.
  change (15 - 4 - 2 - 2 - 2) with 5. change (5 >? 0) with true.
  rewrite get_two_digits by lia. rewrite Hmv.
  change (5 - 2 >? 0) with true. cbv iota.
  rewrite get_two_digits by lia. rewrite Hsv.
  change (5 - 2 - 2 >? 0) with true. cbv iota.
  match goal with
  | |- context [peek ?p 0] =>
      assert (peek p 0 = Done (BYTE_of 90)) as ->
        by (unfold peek; rewrite decide_True by lia; cbn [c_mem c_pos];
            rewrite lookup_app_r by (rewrite Nat.add_0_r; lia);
            by rewrite Nat.add_0_r, Nat.sub_diag)
  end.
  cbn [mbind Exec_bind].
  change (BYTE_val (BYTE_of 90)) with 90.
  change (90 =? char_dot) with false. change (90 =? char_comma) with false.
  cbn [andb orb].
  unfold CRYPT_AsnDecodeTimeZone. change (5 - 2 - 2 <? 3) with true.
  cbn [mbind Exec_bind is_TRUE].
  reflexivity.
Qed.

(** A time of 1950 to 2050 does not come back from the UTCTime decoder as
    it went into the encoder.  The encoder prints the day before the
    month and the decoder reads the month before the day, so that the
    two are exchanged in the time that is handed to
    [SystemTimeToFileTime]; and the year 2050, printed as 50, is read as
    1950. *)
Theorem CRYPT_AsnEncodeUtcTime_round_trip (ft : Z) (t : SYSTEMTIME)
    (buf out : list byte) (dwFlags : Z)
    (pDecodePara : option CRYPT_CODEC_PARA) (pcbStructInfo : Z) :
  FileTimeToSystemTime ft = Some t →
  1950 ≤ wYear t ≤ 2050 → two_digit_fields t = true →
  (15 ≤ length buf)%nat →
  ∃ encoded : list byte,
    CRYPT_AsnEncodeUtcTime LocalAlloc FileTimeToSystemTime 0 None (Some ft)
      (Some buf) 15
    = Done (mkResult TRUE (Some encoded) None 15)
    ∧ CRYPT_AsnDecodeUtcTime LocalAlloc SystemTimeToFileTime (Some encoded)
        15 dwFlags pDecodePara (Some out) pcbStructInfo
      = store_time LocalAlloc SystemTimeToFileTime dwFlags pDecodePara out
          pcbStructInfo
          (mkSystemTime (if wYear t =? 2050 then 1950 else wYear t)
             (wDay t) 0 (wMonth t) (wHour t) (wMinute t) (wSecond t) 0).
Proof.
  intros Hft Hyear Hfields Hbuf.
  pose proof (two_digit_fields_spec t Hfields) as (Hmo & Hd & Hh & Hmi & Hs).
  eexists. split.
  - by apply CRYPT_AsnEncodeUtcTime_writes.
  - rewrite CRYPT_AsnDecodeUtcTime_reads by (done || case_match; lia).
    do 2 f_equal. repeat case_match; lia.
Qed.

(** Nor does a time come back from the GeneralizedTime decoder as it went
    into the encoder: the day and the month are exchanged here too. *)
Theorem CRYPT_AsnEncodeGeneralizedTime_round_trip (ft : Z) (t : SYSTEMTIME)
    (buf out : list byte) (dwFlags : Z)
    (pDecodePara : option CRYPT_CODEC_PARA) (pcbStructInfo : Z) :
  FileTimeToSystemTime ft = Some t →
  0 ≤ wYear t < 10000 → two_digit_fields t = true →
  (17 ≤ length buf)%nat →
  ∃ encoded : list byte,
    CRYPT_AsnEncodeGeneralizedTime LocalAlloc FileTimeToSystemTime 0 None
      (Some ft) (Some buf) 17
    = Done (mkResult TRUE (Some encoded) None 17)
    ∧ CRYPT_AsnDecodeGeneralizedTime LocalAlloc SystemTimeToFileTime
        (Some encoded) 17 dwFlags pDecodePara (Some out) pcbStructInfo
      = store_time LocalAlloc SystemTimeToFileTime dwFlags pDecodePara out
          pcbStructInfo
          (mkSystemTime (wYear t) (wDay t) 0 (wMonth t) (wHour t)
             (wMinute t) (wSecond t) 0).
Proof.
  intros Hft Hyear Hfields Hbuf.
  pose proof (two_digit_fields_spec t Hfields) as (Hmo & Hd & Hh & Hmi & Hs).
  eexists. split.
  - by apply CRYPT_AsnEncodeGeneralizedTime_writes.
  - by rewrite CRYPT_AsnDecodeGeneralizedTime_reads by (done || lia).
Qed.

(** The two together, as the choice-of-time encoder and decoder combine
    them: the encoder takes the UTCTime form for the years 1950 to 2050
    and the GeneralizedTime form for the others, the decoder goes by the
    tag, and whichever form it is, the day and the month come back
    exchanged, and the year 2050 as 1950. *)
Theorem CRYPT_AsnEncodeChoiceOfTime_round_trip (ft : Z) (t : SYSTEMTIME)
    (buf out : list byte) (dwFlags : Z)
    (pDecodePara : option CRYPT_CODEC_PARA) (pcbStructInfo : Z) :
  FileTimeToSystemTime ft = Some t →
  0 ≤ wYear t < 10000 → two_digit_fields t = true →
  (17 ≤ length buf)%nat →
  ∃ (encoded : list byte) (cb : Z),
    CRYPT_AsnEncodeChoiceOfTime LocalAlloc FileTimeToSystemTime 0 None
      (Some ft) None 0
    = Done (mkResult TRUE None None cb)
    ∧ cb = (if (1950 <=? wYear t) && (wYear t <=? 2050) then 15 else 17)
    ∧ CRYPT_AsnEncodeChoiceOfTime LocalAlloc FileTimeToSystemTime 0 None
        (Some ft) (Some buf) cb
      = Done (mkResult TRUE (Some encoded) None cb)
    ∧ CRYPT_AsnDecodeChoiceOfTime LocalAlloc SystemTimeToFileTime
        (Some encoded) cb dwFlags pDecodePara (Some out) pcbStructInfo
      = store_time LocalAlloc SystemTimeToFileTime dwFlags pDecodePara out
          pcbStructInfo
          (mkSystemTime (if wYear t =? 2050 then 1950 else wYear t)
             (wDay t) 0 (wMonth t) (wHour t) (wMinute t) (wSecond t) 0).
Proof.
  intros Hft Hyear Hfields Hbuf.
  pose proof (two_digit_fields_spec t Hfields) as (Hmo & Hd & Hh & Hmi & Hs).
  unfold CRYPT_AsnEncodeChoiceOfTime. rewrite Hft.
  replace ((wYear t >=? 1950) && (wYear t <=? 2050))
    with ((1950 <=? wYear t) && (wYear t <=? 2050))
    by (f_equal; lia).
  destruct ((1950 <=? wYear t) && (wYear t <=? 2050)) eqn:Hutc.
  - apply andb_true_iff in Hutc as [Hlo Hhi].
    eexists _, 15. split; [|split; [done|split]].
    + unfold CRYPT_AsnEncodeUtcTime. rewrite Hft.
      by assert ((wYear t <? 1950) || (wYear t >? 2050) = false) as ->
        by (apply orb_false_intro; lia).
    + apply CRYPT_AsnEncodeUtcTime_writes; (done || lia).
    + unfold CRYPT_AsnDecodeChoiceOfTime. cbn [app].
      change (15 =? 0) with false.
      change (peek (mkCursor _ 0) 0) with (Done (BYTE_of ASN_UTCTIME)).
      cbn [mbind Exec_bind].
      change (BYTE_val (BYTE_of ASN_UTCTIME) =? ASN_UTCTIME) with true.
      cbv iota.
      pose proof CRYPT_AsnDecodeUtcTime_reads as Hreads.
      cbn [app] in Hreads. rewrite Hreads by (done || case_match; lia).
      do 2 f_equal. repeat case_match; lia.
  - eexists _, 17. split; [done|]. split; [done|]. split.
    + apply CRYPT_AsnEncodeGeneralizedTime_writes; (done || lia).
    + unfold CRYPT_AsnDecodeChoiceOfTime. cbn [app].
      change (17 =? 0) with false.
      change (peek (mkCursor _ 0) 0) with (Done (BYTE_of ASN_GENERALTIME)).
      cbn [mbind Exec_bind].
      change (BYTE_val (BYTE_of ASN_GENERALTIME) =? ASN_UTCTIME) with false.
      change (BYTE_val (BYTE_of ASN_GENERALTIME) =? ASN_GENERALTIME)
        with true.
      cbv iota.
      pose proof CRYPT_AsnDecodeGeneralizedTime_reads as Hreads.
      cbn [app] in Hreads. rewrite Hreads by (done || lia).
      do 2 f_equal. apply andb_false_iff in Hutc.
      case_match; lia.
Qed.

End TimeFacts.

(** ** The name of a registry key *)

Lemma String_length_app (a b : string) :
  String.length (a +:+ b) = (String.length a + String.length b)%nat.
Proof. induction a as [|c a IH]; [done|]. simpl. by rewrite IH. Qed.

(** The digits [%ld] prints: as many as the number has in base ten. *)
Lemma pretty_N_go_grows (x : N) (s : string) :
  (String.length s ≤ String.length (pretty_N_go x s))%nat.
Proof.
  revert s. induction (N.lt_wf_0 x) as [x _ IH]. intros s.
  assert (x = 0 ∨ 0 < x)%N as [->|Hpos] by lia; [by rewrite pretty_N_go_0|].
  rewrite pretty_N_go_step by done.
  etrans; [|by eapply IH, N.div_lt]. simpl. lia.
Qed.

Lemma pretty_N_go_short (k : nat) (x : N) (s : string) :
  (x < 10 ^ N.of_nat k)%N →
  (String.length (pretty_N_go x s) ≤ k + String.length s)%nat.
Proof.
  revert x s. induction k as [|k IH]; intros x s Hx.
  - assert (x = 0%N) as -> by (simpl in Hx; lia). by rewrite pretty_N_go_0.
  - assert (x = 0 ∨ 0 < x)%N as [->|Hpos] by lia.
    { rewrite pretty_N_go_0. lia. }
    rewrite pretty_N_go_step by done.
    etrans; [apply IH|simpl; lia].
    apply N.Div0.div_lt_upper_bound.
    rewrite Nat2N.inj_succ, N.pow_succ_r' in Hx. lia.
Qed.

Lemma pretty_N_go_long (k : nat) (x : N) (s : string) :
  (10 ^ N.of_nat k ≤ x)%N →
  (k + String.length s < String.length (pretty_N_go x s))%nat.
Proof.
  revert x s. induction k as [|k IH]; intros x s Hx.
  - rewrite pretty_N_go_step by (simpl in Hx; lia).
    eapply Nat.lt_le_trans; [|apply pretty_N_go_grows]. simpl. lia.
  - rewrite Nat2N.inj_succ, N.pow_succ_r' in Hx.
    assert (0 < 10 ^ N.of_nat k)%N by (apply N.neq_0_lt_0, N.pow_nonzero; lia).
    rewrite pretty_N_go_step by lia.
    eapply Nat.le_lt_trans; [|apply IH].
    + simpl. lia.
    + apply N.div_le_lower_bound; lia.
Qed.

Lemma pretty_positive_length (k : nat) (p : positive) :
  (String.length (pretty p) ≤ k)%nat ↔ (N.pos p < 10 ^ N.of_nat k)%N.
Proof.
  unfold pretty, pretty_positive, pretty, pretty_N.
  rewrite decide_False by done. split.
  - intros Hlen. apply N.lt_nge. intros Hx.
    apply (pretty_N_go_long k _ "") in Hx. simpl in Hx. lia.
  - intros Hx. apply (pretty_N_go_short k _ "") in Hx. simpl in Hx. lia.
Qed.

(** [%ld] prints more than seven characters from 10000000 on and from
    -1000000 down. *)
Lemma pretty_Z_long (v : Z) :
  (7 <? String.length (pretty v))%nat
  = (v <=? -1000000) || (10000000 <=? v).
Proof.
  destruct v as [|p|p].
  - reflexivity.
  - change (pretty (Z.pos p)) with (pretty p).
    pose proof (pretty_positive_length 7 p) as Hlen.
    change (10 ^ N.of_nat 7)%N with 10000000%N in Hlen.
    destruct (Nat.ltb_spec 7 (String.length (pretty p))),
      (Z.leb_spec 10000000 (Z.pos p)); simpl; try done; lia.
  - change (pretty (Z.neg p)) with ("-" +:+ pretty p).
    pose proof (pretty_positive_length 6 p) as Hlen.
    change (10 ^ N.of_nat 6)%N with 1000000%N in Hlen.
    rewrite String_length_app. change (String.length "-") with 1%nat.
    destruct (Nat.ltb_spec 7 (1 + String.length (pretty p))),
      (Z.leb_spec (Z.neg p) (-1000000)); simpl; try done; lia.
Qed.

Section KeyNameFacts.

Variable HeapAlloc : nat → Allocator.

(** The buffer for the name of a registry key is counted with room for an
    encoding type that [%ld] prints in seven characters, the room of the
    characters [%ld], [%s] and [%s] of the format.  For an encoding type
    that is, as a [long], between -999999 and 9999999 the key name is
    returned; for every other one [sprintf] writes past the end of the
    buffer. *)
Theorem CRYPT_GetKeyName_room (dwEncodingType : Z) (pszFuncName oid : string)
    (contents : nat → byte) :
  HeapAlloc 0
    (sizeof_szEncodingTypeFmt + Z.of_nat (String.length pszFuncName)
     + Z.of_nat (String.length oid))
  = Some contents →
  CRYPT_GetKeyName HeapAlloc dwEncodingType pszFuncName (Str oid)
  = if (INT_wrap dwEncodingType <=? -1000000)
       || (10000000 <=? INT_wrap dwEncodingType)
    then Undefined
    else Done (Some (szEncodingTypeFmt_head
                     +:+ pretty (INT_wrap dwEncodingType) +:+ "\"
                     +:+ pszFuncName +:+ "\" +:+ oid)).
Proof.
  intros Halloc. unfold CRYPT_GetKeyName. rewrite Halloc.
  rewrite <- pretty_Z_long.
  rewrite !String_length_app. unfold sizeof_szEncodingTypeFmt.
  change (String.length "\") with 1%nat.
  destruct (Nat.ltb_spec 7 (String.length (pretty (INT_wrap dwEncodingType))))
    as [Hlong|Hshort].
  - by rewrite (proj2 (Z.gtb_lt _ _)) by lia.
  - destruct (_ >? _) eqn:Hgt; [|done]. apply Z.gtb_lt in Hgt. lia.
Qed.

End KeyNameFacts.

(** ** Names *)

(** A sizing call and a writing call of the SET OF encoder that both
    succeed report the same size. *)
Lemma CRYPT_AsnEncodeRdn_sizes_agree (HeapAlloc1 HeapAlloc2 : nat → Allocator)
    (rdn : CERT_RDN) (p : Cursor) (cb1 cb2 : Z) (q1 q2 : option Cursor)
    (s n : Z) :
  CRYPT_AsnEncodeRdn HeapAlloc1 rdn None cb1 = Done (TRUE, q1, s) →
  CRYPT_AsnEncodeRdn HeapAlloc2 rdn (Some p) cb2 = Done (TRUE, q2, n) →
  s = n.
Proof.
  unfold CRYPT_AsnEncodeRdn.
  set (found :=
         if cRDNAttr rdn =? 0 then Done (TRUE, [])
         else match rgRDNAttr rdn with
              | None => Done (FALSE (Some STATUS_ACCESS_VIOLATION), [])
              | Some rg =>
                  attrs ← array_prefix (cRDNAttr rdn) rg; Done (TRUE, attrs)
              end).
  assert (∀ HeapAlloc : nat → Allocator,
            let init :=
              if cRDNAttr rdn =? 0 then Done (TRUE, [])
              else match rgRDNAttr rdn with
                   | None => Done (FALSE (Some STATUS_ACCESS_VIOLATION), [])
                   | Some rg =>
                       match HeapAlloc 0%nat
                               (DWORD_wrap
                                  (cRDNAttr rdn * sizeof_CRYPT_DER_BLOB))
                       with
                       | None => Done (FALSE None, [])
                       | Some _ =>
                           attrs ← array_prefix (cRDNAttr rdn) rg;
                           Done (TRUE, attrs)
                       end
                   end in
            init = found ∨ init = Done (FALSE None, [])) as Hinit.
  { intros HeapAlloc. subst found. cbv zeta.
    destruct (cRDNAttr rdn =? 0); [by left|].
    destruct (rgRDNAttr rdn); [|by left].
    destruct (HeapAlloc 0%nat _); [by left|by right]. }
  destruct (Hinit HeapAlloc1) as [-> | ->];
    [|cbn [mbind Exec_bind is_TRUE]; rewrite lenBytes_of_bytes; discriminate].
  destruct (Hinit HeapAlloc2) as [-> | ->];
    [|cbn [mbind Exec_bind is_TRUE]; rewrite lenBytes_of_bytes; discriminate].
  clear Hinit. destruct found as [[ret attrs]|]; [|discriminate].
  cbn [mbind Exec_bind].
  destruct (if is_TRUE ret then _ else _) as [[[ret' sizes] total]|];
    [|discriminate].
  cbn [mbind Exec_bind]. rewrite lenBytes_of_bytes. cbn [mbind Exec_bind].
  destruct ret'; cbn [is_TRUE negb]; [|discriminate].
  intros [= _ <-].
  destruct (cb2 <? _); [discriminate|].
  destruct (Rdn_encode_each _ _ _ _) as [[ret' blobs]|];
    cbn [mbind Exec_bind]; [|discriminate].
  destruct ret'; cbn [is_TRUE negb]; [|discriminate].
  destruct (forallb readable _); cbn [negb]; [|discriminate].
  destruct (emit p _) as [p1|]; cbn [mbind Exec_bind]; [|discriminate].
  destruct (CRYPT_EncodeLen _ _ _) as [[[r ql] lb]|];
    cbn [mbind Exec_bind]; [|discriminate].
  destruct (Rdn_copy _ _) as [p2|]; cbn [mbind Exec_bind]; [|discriminate].
  by intros [= _ <-].
Qed.

(** With room for the length octets in the size cell, the length encoder
    writes them. *)
Lemma CRYPT_EncodeLen_room (len : Z) (p : Cursor) (cb : Z) :
  CRYPT_EncodeLen len (Some p) cb
  = if cb <? Z.of_nat (length (EncodeLen_bytes len))
    then Done (FALSE (Some ERROR_MORE_DATA), Some p, cb)
    else p' ← poke p (EncodeLen_bytes len);
         Done (TRUE, Some p', Z.of_nat (length (EncodeLen_bytes len))).
Proof.
  pose proof (lenBytes_of_bytes len) as Hlen. rewrite lenBytes_of_eq in Hlen.
  injection Hlen as Hlen. rewrite <- Hlen.
  unfold CRYPT_EncodeLen, EncodeLen_bytes.
  destruct (len <=? 0x7f); destruct (cb <? _); reflexivity.
Qed.

Lemma foldr_add_lengths {A} (f : A → list byte) (l : list A) :
  foldr Z.add 0 ((λ a, Z.of_nat (length (f a))) <$> l)
  = Z.of_nat (length (mjoin (f <$> l))).
Proof.
  induction l as [|a l IH]; [done|].
  rewrite !fmap_cons. cbn [foldr]. rewrite IH.
  change (mjoin (f a :: (f <$> l))) with (f a ++ mjoin (f <$> l)).
  rewrite length_app. lia.
Qed.

Section NameFacts.

Variable LocalAlloc : Allocator.
Variable HeapAlloc : nat → nat → Allocator.

(** The sizing loop of the name encoder: the sizes that the sizing calls of
    the SET OF encoder report, their sum, and the last of them in the
    local. *)
Lemma Name_measure_sizes (names : list (list CERT_RDN_ATTR)) :
  ∀ (i : nat) (size acc size' total : Z),
    Name_measure HeapAlloc i (rdn_of <$> names) size (DWORD_wrap acc)
    = Done (TRUE, size', total) →
    ∃ sizes,
      Forall2 (λ attrs s,
                 ∃ j cb q,
                   CRYPT_AsnEncodeRdn (HeapAlloc j) (rdn_of attrs) None cb
                   = Done (TRUE, q, s))
        names sizes
      ∧ total = DWORD_wrap (acc + foldr Z.add 0 sizes)
      ∧ size' = default size (last sizes).
Proof.
  induction names as [|attrs names IH]; intros i size acc size' total Hrun.
  - injection Hrun as <- <-. exists []. split; [constructor|].
    cbn [foldr last default]. by rewrite Z.add_0_r.
  - cbn [fmap list_fmap Name_measure] in Hrun.
    destruct (CRYPT_AsnEncodeRdn _ _ None size) as [[[ret q] s]|] eqn:Hrdn;
      cbn [mbind Exec_bind] in Hrun; [|discriminate].
    destruct ret; cbn [is_TRUE negb] in Hrun; [|discriminate].
    rewrite DWORD_wrap_add_l in Hrun.
    apply IH in Hrun as (sizes & Hsizes & -> & ->).
    exists (s :: sizes). split; [constructor; eauto|].
    cbn [foldr]. split; [f_equal; lia|].
    rewrite last_cons. by destruct (last sizes).
Qed.

(** The encoding loop of the name encoder, when it succeeds, has written
    the SET OFs one after the other from where it started, each of the size
    its sizing call reported. *)
Lemma Name_encode_each_emits (names : list (list CERT_RDN_ATTR)) :
  ∀ (sizes : list Z) (i : nat) (p q : Cursor) (cb : Z),
    Z.of_nat (length (c_mem p)) < 2 ^ 32 →
    names ≠ [] ∨ (c_pos p ≤ length (c_mem p))%nat →
    Forall2 (λ attrs s,
               ∃ j cb q,
                 CRYPT_AsnEncodeRdn (HeapAlloc j) (rdn_of attrs) None cb
                 = Done (TRUE, q, s))
      names sizes →
    Name_encode_each HeapAlloc i (rdn_of <$> names) p cb = Done (TRUE, q) →
    emit p (Name_content names) = Done q
    ∧ sizes = (λ attrs, Z.of_nat (length (Rdn_bytes attrs))) <$> names.
Proof.
  induction names as [|attrs names IH];
    intros sizes i p q cb Hmem Hin Hsizes Hrun.
  - inversion Hsizes; subst. injection Hrun as <-.
    destruct Hin as [|Hin]; [done|]. split; [by apply emit_nil|done].
  - inversion Hsizes as [|? s ? sizes' (j & cb0 & q0 & Hsize) Hrest]; subst.
    cbn [fmap list_fmap Name_encode_each] in Hrun.
    destruct (CRYPT_AsnEncodeRdn _ _ (Some p) cb) as [[[ret q1] n]|] eqn:Hrdn;
      cbn [mbind Exec_bind] in Hrun; [|discriminate].
    destruct ret; cbn [is_TRUE negb] in Hrun; [|discriminate].
    pose proof (CRYPT_AsnEncodeRdn_sizes_agree _ _ _ _ _ _ _ _ _ _ Hsize Hrdn)
      as ->.
    apply CRYPT_AsnEncodeRdn_writes in Hrdn as (q' & Hpoke & -> & ->).
    pose proof (poke_pos _ _ _ Hpoke) as (Hpos & Hlen & Hfit).
    rewrite DWORD_wrap_small in * by lia.
    cbn [from_option] in Hrun.
    assert (rebase p q' = q') as Hq'
      by (unfold rebase; rewrite <- Hpos; by destruct q').
    rewrite Hq' in Hrun.
    apply emit_of_poke in Hpoke.
    pose proof (emit_pos _ _ _ Hpoke) as (_ & Hlen' & Hin').
    apply IH with (sizes := sizes') in Hrun as [Hrest' ->];
      [|by rewrite Hlen'|by right|done].
    split; [|done].
    unfold Name_content. cbn [fmap list_fmap mjoin list_join].
    by apply (emit_app _ _ _ _ _ Hpoke).
Qed.

Lemma CRYPT_EncodeLen_cursor (len : Z) (p : Cursor) (cb : Z) r q n :
  CRYPT_EncodeLen len (Some p) cb = Done (r, q, n) →
  ∃ q', q = Some q' ∧ c_pos q' = c_pos p
        ∧ length (c_mem q') = length (c_mem p).
Proof.
  rewrite CRYPT_EncodeLen_room. destruct (cb <? _).
  - intros [= _ <- _]. eauto.
  - destruct (poke p _) as [p'|] eqn:Hpoke; [|discriminate].
    apply poke_pos in Hpoke as (Hpos & Hlen & _).
    intros [= _ <- _]. eauto.
Qed.

(** What a writing call of the name encoder that succeeds leaves in the
    buffer, for a name with at least one RDN. *)
Lemma CRYPT_AsnEncodeName_buffer (size0 dwFlags : Z)
    (pEncodePara : option CRYPT_CODEC_PARA)
    (names : list (list CERT_RDN_ATTR)) (last_attrs : list CERT_RDN_ATTR)
    (mem : list byte) (pcbEncoded : Z) (r : Result) :
  has_flag dwFlags CRYPT_ENCODE_ALLOC_FLAG = false →
  Z.of_nat (length mem) < 2 ^ 32 →
  last names = Some last_attrs →
  CRYPT_AsnEncodeName LocalAlloc HeapAlloc size0 dwFlags pEncodePara
    (Some (name_of names)) (Some mem) pcbEncoded
  = Done r →
  r_ret r = TRUE →
  let content := Name_content names in
  let len := EncodeLen_bytes (Z.of_nat (length content)) in
  let header :=
    if (length (Rdn_bytes last_attrs) <? length len)%nat
    then take (length (Rdn_bytes last_attrs)) (drop 1 mem) else len in
  (1 + length header + length content ≤ length mem)%nat
  ∧ length header
    = (if (length (Rdn_bytes last_attrs) <? length len)%nat
       then length (Rdn_bytes last_attrs) else length len)
  ∧ r = mkResult TRUE
          (Some (BYTE_of (Z.lor ASN_CONSTRUCTOR ASN_SEQUENCEOF)
                 :: header ++ content
                 ++ drop (1 + length header + length content) mem))
          None pcbEncoded.
Proof.
  intros Hflag Hmem Hlast Hrun Hret content len header.
  unfold CRYPT_AsnEncodeName, name_of in Hrun. cbn [cRDN rgRDN] in Hrun.
  rewrite bool_decide_eq_true_2, andb_false_r in Hrun by eauto.
  cbn [default] in Hrun. unfold id in Hrun.
  assert ((if Z.of_nat (length names) =? 0 then Done []
           else array_prefix (Z.of_nat (length names)) (rdn_of <$> names))
          = Done (rdn_of <$> names)) as Hrdns.
  { destruct names; [done|].
    rewrite (proj2 (Z.eqb_neq _ _)) by (cbn [length]; lia).
    unfold array_prefix. rewrite decide_True by (rewrite length_fmap; lia).
    rewrite Nat2Z.id, <- (length_fmap rdn_of), firstn_all. done. }
  rewrite Hrdns in Hrun. clear Hrdns. cbn [mbind Exec_bind] in Hrun.
  destruct (Name_measure _ _ _ _ _) as [[[ret size] total]|] eqn:Hmeasure;
    cbn [mbind Exec_bind] in Hrun; [|discriminate].
  rewrite lenBytes_of_bytes in Hrun. cbn [mbind Exec_bind] in Hrun.
  destruct ret; cbn [is_TRUE negb] in Hrun;
    [|injection Hrun as <-; discriminate Hret].
  unfold CRYPT_EncodeEnsureSpace in Hrun. rewrite Hflag in Hrun.
  destruct (_ >? pcbEncoded); cbn [is_TRUE negb] in Hrun;
    [injection Hrun as <-; discriminate Hret|].
  cbn [default] in Hrun.
  destruct (emit _ [_]) as [p1|] eqn:Htag; cbn [mbind Exec_bind] in Hrun;
    [|discriminate].
  change 0 with (DWORD_wrap 0) in Hmeasure.
  apply Name_measure_sizes in Hmeasure as (sizes & Hsizes & -> & ->).
  rewrite Z.add_0_l, DWORD_wrap_content' in Hrun.
  destruct (CRYPT_EncodeLen _ _ _) as [[[rl ql] sl]|] eqn:Hlen;
    cbn [mbind Exec_bind] in Hrun; [|discriminate].
  destruct (Name_encode_each _ _ _ _ _) as [[ret p]|] eqn:Heach;
    cbn [mbind Exec_bind] in Hrun; [|discriminate].
  unfold written in Hrun. injection Hrun as <-. cbn [r_ret] in Hret. subst ret.
  pose proof (emit_pos _ _ _ Htag) as (Hpos1 & Hlen1 & _).
  cbn [c_pos c_mem length] in Hpos1, Hlen1.
  pose proof (CRYPT_EncodeLen_cursor _ _ _ _ _ _ Hlen)
    as (q' & -> & Hposq & Hlenq).
  cbn [from_option] in Heach.
  apply Name_encode_each_emits with (sizes := sizes) in Heach as [Hemit ->];
    [| |left; by intros ->|done].
  2: { unfold advance, rebase. cbn [c_mem]. lia. }
  rewrite foldr_add_lengths in Hlen. fold (Name_content names) in Hlen.
  fold content in Hlen, Hemit.
  rewrite fmap_last, Hlast in Hlen.
  cbn [fmap option_fmap option_map default] in Hlen. unfold id in Hlen.
  set (n := length (Rdn_bytes last_attrs)) in *. clearbody n.
  set (tag := BYTE_of (Z.lor ASN_CONSTRUCTOR ASN_SEQUENCEOF)) in *.
  pose proof (emit_pos _ _ _ Hemit) as (Hposp & _ & Hfit).
  unfold advance, rebase in Hposp. cbn [c_mem c_pos] in Hposp.
  assert (length (c_mem p) = length mem) as Hlenp.
  { apply emit_pos in Hemit as (_ & -> & _).
    unfold advance, rebase. cbn [c_mem]. lia. }
  rewrite DWORD_wrap_small in Hlen by lia.
  fold len in Hlen.
  assert (1 ≤ length mem)%nat as Hone by lia.
  pose proof (emit_at [] mem [tag]) as Htag'.
  cbn [app length] in Htag'. rewrite Htag' in Htag by lia. clear Htag'.
  injection Htag as <-. cbn [app length c_pos c_mem] in *.
  assert (advance (rebase (mkCursor (tag :: drop 1 mem) 1) q') sl
          = mkCursor ((tag :: header) ++ drop (length header) (drop 1 mem))
              (length (tag :: header))
          ∧ length header
            = (if (n <? length len)%nat then n else length len))
    as [Hstart Hheader].
  { rewrite CRYPT_EncodeLen_room in Hlen. fold len in Hlen. subst header.
    destruct (Z.ltb_spec (Z.of_nat n) (Z.of_nat (length len)))
      as [Hshort|Hroom].
    - rewrite (proj2 (Nat.ltb_lt _ _)) by lia.
      injection Hlen as <- <- <-.
      unfold advance, rebase. cbn [c_mem c_pos length].
      rewrite Nat2Z.id in *.
      rewrite length_take, length_drop.
      rewrite Nat.min_l by lia.
      rewrite <- app_comm_cons, take_drop. done.
    - rewrite (proj2 (Nat.ltb_ge _ _)) by lia.
      pose proof (poke_at [tag] (drop 1 mem) len) as Hpoke'.
      cbn [app length] in Hpoke'. rewrite Hpoke' in Hlen. clear Hpoke'.
      2: { rewrite length_drop.
           destruct (poke _ len) as [p'|] eqn:Hpoke; [|discriminate].
           apply poke_pos in Hpoke as (_ & _ & Hpoke).
           cbn [c_mem c_pos length] in Hpoke. rewrite length_drop in Hpoke.
           lia. }
      cbn [mbind Exec_bind] in Hlen. injection Hlen as <- <- <-.
      unfold advance, rebase. cbn [c_mem c_pos length app].
      rewrite Nat2Z.id. done. }
  rewrite Hstart in Hemit. clear Hposp Hstart.
  pose proof (emit_pos _ _ _ Hemit) as (Hposp & _ & _).
  cbn [c_pos length] in Hposp.
  assert (length content ≤ length (drop (length header) (drop 1 mem)))%nat
    as Hroom by (rewrite !length_drop; lia).
  rewrite (emit_at (tag :: header) _ content Hroom) in Hemit.
  injection Hemit as <-. cbn [c_mem].
  split; [lia|]. split; [done|]. do 2 f_equal.
  rewrite <- app_assoc, !drop_drop. repeat (f_equal; try lia).
Qed.

(** A writing call of the name encoder that succeeds has written the
    SEQUENCE OF: the identifier octet, the length octets, and the SET OFs of
    the RDNs in the order of the array, provided the encoding of the last
    RDN is at least as long as the length octets.  The buffer is one of
    less than 4 GB, and the ALLOC flag is not set. *)
Theorem CRYPT_AsnEncodeName_writes (size0 dwFlags : Z)
    (pEncodePara : option CRYPT_CODEC_PARA)
    (names : list (list CERT_RDN_ATTR)) (last_attrs : list CERT_RDN_ATTR)
    (mem : list byte) (pcbEncoded : Z) (r : Result) :
  let content := Name_content names in
  let len := EncodeLen_bytes (Z.of_nat (length content)) in
  has_flag dwFlags CRYPT_ENCODE_ALLOC_FLAG = false →
  Z.of_nat (length mem) < 2 ^ 32 →
  last names = Some last_attrs →
  (length len ≤ length (Rdn_bytes last_attrs))%nat →
  CRYPT_AsnEncodeName LocalAlloc HeapAlloc size0 dwFlags pEncodePara
    (Some (name_of names)) (Some mem) pcbEncoded
  = Done r →
  r_ret r = TRUE →
  r = mkResult TRUE
        (Some (BYTE_of (Z.lor ASN_CONSTRUCTOR ASN_SEQUENCEOF)
               :: len ++ content
               ++ drop (1 + length len + length content) mem))
        None pcbEncoded.
Proof.
  intros content len Hflag Hmem Hlast Hroom Hrun Hret.
  destruct (CRYPT_AsnEncodeName_buffer _ _ _ _ _ _ _ _ Hflag Hmem Hlast Hrun
              Hret) as (_ & _ & ->).
  fold content len. by rewrite (proj2 (Nat.ltb_ge _ _)) by done.
Qed.

(** When the encoding of the last RDN is shorter than the length octets of
    the name, a writing call that succeeds has not written the length
    octets: the local [size], which holds the size of the last RDN, is
    handed to the length encoder as the room it has.  After the identifier
    octet come as many bytes of what the buffer held as the last RDN is
    long, then the SET OFs; the bytes from there to the size the call
    reported are not written either. *)
Theorem CRYPT_AsnEncodeName_length_not_written (size0 dwFlags : Z)
    (pEncodePara : option CRYPT_CODEC_PARA)
    (names : list (list CERT_RDN_ATTR)) (last_attrs : list CERT_RDN_ATTR)
    (mem : list byte) (pcbEncoded : Z) (r : Result) :
  let content := Name_content names in
  let len := EncodeLen_bytes (Z.of_nat (length content)) in
  let n := length (Rdn_bytes last_attrs) in
  has_flag dwFlags CRYPT_ENCODE_ALLOC_FLAG = false →
  Z.of_nat (length mem) < 2 ^ 32 →
  last names = Some last_attrs →
  (n < length len)%nat →
  CRYPT_AsnEncodeName LocalAlloc HeapAlloc size0 dwFlags pEncodePara
    (Some (name_of names)) (Some mem) pcbEncoded
  = Done r →
  r_ret r = TRUE →
  (1 + n + length content ≤ length mem)%nat
  ∧ r = mkResult TRUE
          (Some (BYTE_of (Z.lor ASN_CONSTRUCTOR ASN_SEQUENCEOF)
                 :: take n (drop 1 mem) ++ content
                 ++ drop (1 + n + length content) mem))
          None pcbEncoded.
Proof.
  intros content len n Hflag Hmem Hlast Hshort Hrun Hret.
  destruct (CRYPT_AsnEncodeName_buffer _ _ _ _ _ _ _ _ Hflag Hmem Hlast Hrun
              Hret) as (Hfit & Hheader & ->).
  fold content len n in Hfit, Hheader |- *.
  rewrite (proj2 (Nat.ltb_lt _ _)) in Hfit, Hheader |- * by done.
  rewrite Hheader in Hfit |- *. done.
Qed.

(** The empty name: the length octet 00 is written only if the local
    [size], which nothing has stored to, holds something other than 0.  If
    it holds 0 the second byte of the buffer is left as it was, and the
    call returns TRUE all the same. *)
Theorem CRYPT_AsnEncodeName_empty (size0 dwFlags : Z)
    (pEncodePara : option CRYPT_CODEC_PARA)
    (rg : option (list CERT_RDN)) (mem : list byte) (pcbEncoded : Z) :
  has_flag dwFlags CRYPT_ENCODE_ALLOC_FLAG = false →
  0 ≤ size0 →
  2 ≤ pcbEncoded →
  (2 ≤ length mem)%nat →
  CRYPT_AsnEncodeName LocalAlloc HeapAlloc size0 dwFlags pEncodePara
    (Some (mkNameInfo 0 rg)) (Some mem) pcbEncoded
  = Done (mkResult TRUE
            (Some (BYTE_of (Z.lor ASN_CONSTRUCTOR ASN_SEQUENCEOF)
                   :: (if size0 =? 0 then drop 1 mem
                       else x00 :: drop 2 mem)))
            None pcbEncoded).
Proof.
  intros Hflag Hsize Hcb Hmem.
  unfold CRYPT_AsnEncodeName. cbn [cRDN rgRDN Z.eqb negb andb].
  cbn [mbind Exec_bind Name_measure].
  rewrite lenBytes_of_bytes.
  change (EncodeLen_bytes 0) with [x00].
  cbn [mbind Exec_bind is_TRUE negb length].
  unfold CRYPT_EncodeEnsureSpace. rewrite Hflag.
  change (DWORD_wrap (0 + (1 + Z.of_nat 1))) with 2.
  rewrite Z.gtb_ltb, (proj2 (Z.ltb_ge _ _)) by lia.
  cbn [is_TRUE negb default].
  destruct mem as [|b0 [|b1 rest]]; [cbn [length] in Hmem; lia..|].
  set (tag := BYTE_of (Z.lor ASN_CONSTRUCTOR ASN_SEQUENCEOF)).
  pose proof (emit_at [] (b0 :: b1 :: rest) [tag]) as Htag.
  cbn [app length drop] in Htag. rewrite Htag by lia. clear Htag.
  cbn [mbind Exec_bind]. rewrite CRYPT_EncodeLen_room.
  change (DWORD_wrap (2 - Z.of_nat 1 - 1)) with 0.
  change (EncodeLen_bytes 0) with [x00]. cbn [length].
  destruct (Z.eqb_spec size0 0) as [->|Hsome].
  - reflexivity.
  - rewrite (proj2 (Z.ltb_ge _ _)) by lia.
    pose proof (poke_at [tag] (b1 :: rest) [x00]) as Hpoke.
    cbn [app length drop] in Hpoke. rewrite Hpoke by lia. clear Hpoke.
    reflexivity.
Qed.

End NameFacts.

(** ** Object identifiers, decoded *)

(** Seven more bits below a number. *)
Lemma lor_shiftl_7 (x g : Z) :
  0 ≤ x → 0 ≤ g < 128 → Z.lor (Z.shiftl x 7) g = x * 128 + g.
Proof.
  intros Hx Hg. rewrite Z.shiftl_mul_pow2 by lia. change (2 ^ 7) with 128.
  assert (Z.land (x * 128) g = 0) as Hdisjoint.
  { apply Z.bits_inj'. intros n Hn. rewrite Z.land_spec, Z.bits_0.
    destruct (Z.lt_ge_cases n 7) as [Hlow|Hhigh].
    - change 128 with (2 ^ 7). rewrite Z.mul_pow2_bits_low by lia. done.
    - assert (Z.testbit g n = false) as ->; [|by rewrite andb_false_r].
      destruct (Z.eq_dec g 0) as [->|Hnz]; [apply Z.bits_0|].
      apply Z.bits_above_log2; [lia|].
      assert (Z.log2 g < 7); [|lia]. apply Z.log2_lt_pow2; lia. }
  rewrite <- Z.lxor_lor by done. symmetry. by apply Z.add_nocarry_lxor.
Qed.

Lemma INT_wrap_id (z : Z) : - 2 ^ 31 ≤ z < 2 ^ 31 → INT_wrap z = z.
Proof. intros Hz. unfold INT_wrap. rewrite Z.mod_small; lia. Qed.

Lemma Oid_shift_in_small (val g : Z) :
  0 ≤ val → 0 ≤ g < 128 → val * 128 + g < 2 ^ 31 →
  Oid_shift_in val g = val * 128 + g.
Proof.
  intros Hval Hg Hsmall. unfold Oid_shift_in.
  rewrite (INT_wrap_id (Z.shiftl val 7))
    by (rewrite Z.shiftl_mul_pow2 by lia; lia).
  rewrite lor_shiftl_7 by done. apply INT_wrap_id. lia.
Qed.

(** The groups of seven bits that the encoder finds for an arc. *)
Lemma Oid_outBytes_range (i : nat) :
  ∀ val, Forall (λ g, 0 ≤ g < 128) (Oid_outBytes i val).
Proof.
  induction i as [|i IH]; intros val; [constructor|].
  cbn [Oid_outBytes]. apply Forall_app. split; [apply IH|].
  constructor; [|constructor].
  change 0x7f with (Z.ones 7). rewrite Z.land_ones by lia.
  apply Z.mod_pos_bound. lia.
Qed.

(** Shifted in one after the other they give the arc back, as far as they
    reach. *)
Lemma Oid_outBytes_value (i : nat) :
  ∀ x val,
    0 ≤ x → 0 ≤ val → val * 128 ^ Z.of_nat i + x mod 128 ^ Z.of_nat i < 2 ^ 31 →
    foldl Oid_shift_in val (Oid_outBytes i x)
    = val * 128 ^ Z.of_nat i + x mod 128 ^ Z.of_nat i.
Proof.
  induction i as [|i IH]; intros x val Hx Hval Hsmall.
  - cbn [Oid_outBytes foldl]. change (128 ^ Z.of_nat 0) with 1.
    rewrite Z.mod_1_r. lia.
  - cbn [Oid_outBytes]. rewrite foldl_app. cbn [foldl].
    rewrite Nat2Z.inj_succ, Z.pow_succ_r in * by lia.
    assert (0 < 128 ^ Z.of_nat i) as Hpow by (apply Z.pow_pos_nonneg; lia).
    rewrite Z.rem_mul_r in * by lia.
    rewrite Z.shiftr_div_pow2 by lia. change (2 ^ 7) with 128.
    change 0x7f with (Z.ones 7). rewrite Z.land_ones by lia.
    change (2 ^ 7) with 128.
    pose proof (Z.mod_pos_bound x 128 ltac:(lia)) as Hlow.
    pose proof (Z.mod_pos_bound (x / 128) (128 ^ Z.of_nat i) Hpow) as Hhigh.
    rewrite IH; [| apply Z.div_pos; lia | done | nia].
    rewrite Oid_shift_in_small; [lia | nia | done | nia].
Qed.

(** The octets the encoder writes for an arc: groups of seven bits with
    the high bit set, a last group without, and the arc is what the groups
    give when they are shifted in. *)
Lemma Oid_arc_groups (val : Z) :
  0 ≤ val < 2 ^ 31 →
  ∃ (gs : list Z) (g : Z),
    Oid_arc val = ((λ g, BYTE_of (Z.lor g 0x80)) <$> gs) ++ [BYTE_of g]
    ∧ Forall (λ g, 0 ≤ g < 128) gs
    ∧ 0 ≤ g < 128
    ∧ Oid_shift_in (foldl Oid_shift_in 0 gs) g = val.
Proof.
  intros Hval.
  assert (∃ n : nat,
            Z.to_nat (Oid_numBytes val) = S n
            ∧ val / 128 < 128 ^ Z.of_nat n) as (n & Hn & Hfits).
  { unfold Oid_numBytes.
    destruct (Z.geb_spec val 0x10000000);
      [exists 4%nat; split; [done|];
       apply Z.div_lt_upper_bound; [lia|]; change (128 ^ Z.of_nat 4) with (2 ^ 28); lia|].
    destruct (Z.geb_spec val 0x200000);
      [exists 3%nat; split; [done|];
       apply Z.div_lt_upper_bound; [lia|]; change (128 ^ Z.of_nat 3) with (2 ^ 21); lia|].
    destruct (Z.geb_spec val 0x4000);
      [exists 2%nat; split; [done|];
       apply Z.div_lt_upper_bound; [lia|]; change (128 ^ Z.of_nat 2) with (2 ^ 14); lia|].
    destruct (Z.geb_spec val 0x80);
      [exists 1%nat; split; [done|];
       apply Z.div_lt_upper_bound; [lia|]; change (128 ^ Z.of_nat 1) with (2 ^ 7); lia|].
    exists 0%nat. split; [done|].
    apply Z.div_lt_upper_bound; [lia|]. change (128 ^ Z.of_nat 0) with 1. lia. }
  exists (Oid_outBytes n (Z.shiftr val 7)), (Z.land val 0x7f).
  assert (0 ≤ Z.land val 0x7f < 128) as Hg.
  { change 0x7f with (Z.ones 7). rewrite Z.land_ones by lia.
    apply Z.mod_pos_bound. lia. }
  split; [|split; [apply Oid_outBytes_range|split; [done|]]].
  - unfold Oid_arc. rewrite Hn. cbn [Oid_outBytes].
    rewrite reverse_app.
    change (reverse [Z.land val 0x7f]) with [Z.land val 0x7f].
    cbn [app]. by rewrite reverse_involutive.
  - assert (0 < 128 ^ Z.of_nat n) as Hpow by (apply Z.pow_pos_nonneg; lia).
    assert (0 ≤ val / 128) as Hdiv by (apply Z.div_pos; lia).
    rewrite Z.shiftr_div_pow2 by lia. change (2 ^ 7) with 128.
    rewrite Oid_outBytes_value; [|done|done|].
    2: { rewrite Z.mod_small by lia.
         assert (val / 128 ≤ val) by (apply Z.div_le_upper_bound; lia). lia. }
    rewrite Z.mod_small by lia. rewrite Z.mul_0_l, Z.add_0_l.
    change 0x7f with (Z.ones 7) in *. rewrite Z.land_ones in * by lia.
    change (2 ^ 7) with 128 in *.
    pose proof (Z.div_mod val 128 ltac:(lia)) as Hsplit.
    rewrite Oid_shift_in_small; lia.
Qed.

(** What the decoder sees in such octets. *)
Lemma continuation_octet (g : Z) :
  0 ≤ g < 128 →
  let b := BYTE_val (BYTE_of (Z.lor g 0x80)) in
  (Z.land b 0x80 =? 0) = false ∧ Z.land b 0x7f = g.
Proof.
  intros Hg.
  assert (forallb
            (λ g, let b := BYTE_val (BYTE_of (Z.lor g 0x80)) in
                  negb (Z.land b 0x80 =? 0) && (Z.land b 0x7f =? g))
            (seqZ 0 128) = true) as Hall by (vm_compute; reflexivity).
  rewrite forallb_forall in Hall.
  assert (In g (seqZ 0 128)) as Hin
    by (apply list_elem_of_In, elem_of_seqZ; lia).
  apply Hall in Hin. cbv zeta in Hin.
  apply andb_prop in Hin as [Hhigh Hlow].
  split; [by apply negb_true_iff in Hhigh|by apply Z.eqb_eq in Hlow].
Qed.

Lemma last_octet (g : Z) :
  0 ≤ g < 128 →
  let b := BYTE_val (BYTE_of g) in (Z.land b 0x80 =? 0) = true ∧ b = g.
Proof.
  intros Hg. cbv zeta. rewrite BYTE_val_of by lia. split; [|done].
  apply Z.eqb_eq. apply Z.bits_inj'. intros n Hn.
  rewrite Z.land_spec, Z.bits_0.
  destruct (Z.eq_dec n 7) as [->|Hne].
  - assert (Z.testbit g 7 = false) as ->; [|done].
    destruct (Z.eq_dec g 0) as [->|Hnz]; [apply Z.bits_0|].
    apply Z.bits_above_log2; [lia|].
    assert (Z.log2 g < 7); [|lia]. apply Z.log2_lt_pow2; lia.
  - change 0x80 with (2 ^ 7). rewrite Z.pow2_bits_false by lia.
    by rewrite andb_false_r.
Qed.

(** Reading the octet at a pointer and stepping over it. *)
Lemma peek_here (ptr : Cursor) (b : byte) (rest : list byte) :
  drop (c_pos ptr) (c_mem ptr) = b :: rest →
  peek ptr 0 = Done b
  ∧ drop (c_pos (advance ptr 1)) (c_mem (advance ptr 1)) = rest.
Proof.
  intros Hhere. split.
  - unfold peek. rewrite decide_True by lia.
    change (Z.to_nat 0) with 0%nat.
    by rewrite <- lookup_drop, Hhere.
  - unfold advance. cbn [c_mem c_pos]. change (Z.to_nat 1) with 1%nat.
    by rewrite <- drop_drop, Hhere.
Qed.

(** One arc in the sizing walk: its text, cut to the eight characters of
    [str], is counted. *)
Lemma DecodeOid_measure_arc (gs : list Z) :
  ∀ (g val : Z) (mid : bool) (ptr : Cursor) (n : nat) (acc : Z)
    (rest : list byte),
    Forall (λ g, 0 ≤ g < 128) gs → 0 ≤ g < 128 →
    drop (c_pos ptr) (c_mem ptr)
    = ((λ g, BYTE_of (Z.lor g 0x80)) <$> gs) ++ BYTE_of g :: rest →
    ∃ ptr',
      drop (c_pos ptr') (c_mem ptr') = rest
      ∧ DecodeOid_measure (length gs + S n) ptr mid val acc
        = DecodeOid_measure n ptr' false 0
            (DWORD_wrap
               (acc
                + Z.of_nat
                    (String.length
                       (snprintf 9
                          ("." +:+ pretty
                                     (Oid_shift_in (foldl Oid_shift_in val gs)
                                        g)))))).
Proof.
  induction gs as [|g0 gs IH]; intros g val mid ptr n acc rest Hgs Hg Hhere.
  - cbn [fmap list_fmap app] in Hhere.
    apply peek_here in Hhere as [Hpeek Hnext].
    exists (advance ptr 1). split; [done|].
    cbn [length Nat.add DecodeOid_measure foldl]. rewrite Hpeek.
    cbn [mbind Exec_bind].
    destruct (last_octet g Hg) as [-> ->]. reflexivity.
  - inversion Hgs as [|? ? Hg0 Hgs']; subst.
    cbn [fmap list_fmap app] in Hhere.
    apply peek_here in Hhere as [Hpeek Hnext].
    cbn [length Nat.add DecodeOid_measure foldl]. rewrite Hpeek.
    cbn [mbind Exec_bind].
    destruct (continuation_octet g0 Hg0) as [-> ->]. cbn [negb].
    by apply IH.
Qed.

(** One arc in the printing walk: its whole text goes to the string. *)
Lemma DecodeOid_print_arc (gs : list Z) :
  ∀ (g val : Z) (mid : bool) (ptr : Cursor) (n : nat) (out : Cursor)
    (rest : list byte),
    Forall (λ g, 0 ≤ g < 128) gs → 0 ≤ g < 128 →
    drop (c_pos ptr) (c_mem ptr)
    = ((λ g, BYTE_of (Z.lor g 0x80)) <$> gs) ++ BYTE_of g :: rest →
    ∃ ptr',
      drop (c_pos ptr') (c_mem ptr') = rest
      ∧ DecodeOid_print (length gs + S n) ptr mid val out
        = (let text :=
             "." +:+ pretty (Oid_shift_in (foldl Oid_shift_in val gs) g) in
           out' ← sprintf out text;
           DecodeOid_print n ptr' false 0
             (advance out' (Z.of_nat (String.length text)))).
Proof.
  induction gs as [|g0 gs IH]; intros g val mid ptr n out rest Hgs Hg Hhere.
  - cbn [fmap list_fmap app] in Hhere.
    apply peek_here in Hhere as [Hpeek Hnext].
    exists (advance ptr 1). split; [done|].
    cbn [length Nat.add DecodeOid_print foldl]. rewrite Hpeek.
    cbn [mbind Exec_bind].
    destruct (last_octet g Hg) as [-> ->]. reflexivity.
  - inversion Hgs as [|? ? Hg0 Hgs']; subst.
    cbn [fmap list_fmap app] in Hhere.
    apply peek_here in Hhere as [Hpeek Hnext].
    cbn [length Nat.add DecodeOid_print foldl]. rewrite Hpeek.
    cbn [mbind Exec_bind].
    destruct (continuation_octet g0 Hg0) as [-> ->]. cbn [negb].
    by apply IH.
Qed.

Lemma length_string_bytes (s : string) :
  length (string_bytes s) = String.length s.
Proof.
  unfold string_bytes. rewrite length_fmap.
  induction s as [|c s IH]; [done|]. simpl. by rewrite IH.
Qed.

(** [sprintf] into a string that has [rest] left. *)
Lemma sprintf_at (pre rest : list byte) (text : string) :
  sprintf (mkCursor (pre ++ rest) (length pre)) text
  = if decide (String.length text < length rest)%nat
    then Done (mkCursor
                 ((pre ++ string_bytes text) ++ x00
                  :: drop (S (String.length text)) rest)
                 (length pre))
    else Undefined.
Proof.
  unfold sprintf. case_decide as Hroom.
  - rewrite poke_at by (rewrite length_app, length_string_bytes; simpl; lia).
    rewrite length_app, length_string_bytes. cbn [length].
    rewrite Nat.add_1_r. do 2 f_equal.
    by rewrite <- !app_assoc.
  - unfold poke. cbn [c_mem c_pos].
    rewrite decide_False; [done|].
    rewrite !length_app, length_string_bytes. cbn [length]. lia.
Qed.

(** The walks over the octets of a list of arcs. *)
Lemma DecodeOid_measure_arcs (arcs : list Z) :
  ∀ (ptr : Cursor) (acc : Z) (tail : list byte),
    Forall (λ val, 0 ≤ val < 2 ^ 31) arcs →
    drop (c_pos ptr) (c_mem ptr) = mjoin (Oid_arc <$> arcs) ++ tail →
    DecodeOid_measure (length (mjoin (Oid_arc <$> arcs))) ptr false 0
      (DWORD_wrap acc)
    = Done (TRUE,
            DWORD_wrap
              (acc
               + foldr Z.add 0
                   ((λ val,
                       Z.of_nat
                         (String.length (snprintf 9 ("." +:+ pretty val))))
                    <$> arcs))).
Proof.
  induction arcs as [|val arcs IH]; intros ptr acc tail Harcs Hhere.
  - cbn [fmap list_fmap mjoin list_join length DecodeOid_measure foldr].
    by rewrite Z.add_0_r.
  - inversion Harcs as [|? ? Hval Harcs']; subst.
    destruct (Oid_arc_groups val Hval) as (gs & g & Harc & Hgs & Hg & Hvalue).
    rewrite fmap_cons in *.
    change (mjoin (Oid_arc val :: (Oid_arc <$> arcs)))
      with (Oid_arc val ++ mjoin (Oid_arc <$> arcs)) in *.
    rewrite Harc, <- !app_assoc in Hhere. cbn [app] in Hhere.
    rewrite Harc, !length_app, length_fmap. cbn [length].
    rewrite <- Nat.add_assoc. cbn [Nat.add].
    destruct (DecodeOid_measure_arc gs g 0 false ptr
                (length (mjoin (Oid_arc <$> arcs))) (DWORD_wrap acc) _ Hgs Hg
                Hhere) as (ptr' & Hnext & ->).
    rewrite Hvalue, DWORD_wrap_add_l, (IH _ _ tail) by done.
    rewrite fmap_cons. cbn [foldr]. do 3 f_equal. lia.
Qed.

Lemma DecodeOid_print_arcs (arcs : list Z) :
  ∀ (ptr : Cursor) (pre rest tail : list byte),
    Forall (λ val, 0 ≤ val < 2 ^ 31) arcs →
    drop (c_pos ptr) (c_mem ptr) = mjoin (Oid_arc <$> arcs) ++ tail →
    let text :=
      mjoin ((λ val, string_bytes ("." +:+ pretty val)) <$> arcs) in
    DecodeOid_print (length (mjoin (Oid_arc <$> arcs))) ptr false 0
      (mkCursor (pre ++ x00 :: rest) (length pre))
    = if decide (length text ≤ length rest)%nat
      then Done (mkCursor ((pre ++ text) ++ x00 :: drop (length text) rest)
                   (length (pre ++ text)))
      else Undefined.
Proof.
  induction arcs as [|val arcs IH]; intros ptr pre rest tail Harcs Hhere text.
  - subst text.
    cbn [fmap list_fmap mjoin list_join length DecodeOid_print].
    rewrite decide_True by lia. by rewrite app_nil_r.
  - inversion Harcs as [|? ? Hval Harcs']; subst.
    destruct (Oid_arc_groups val Hval) as (gs & g & Harc & Hgs & Hg & Hvalue).
    subst text. rewrite !fmap_cons in *.
    change (mjoin (Oid_arc val :: (Oid_arc <$> arcs)))
      with (Oid_arc val ++ mjoin (Oid_arc <$> arcs)) in *.
    set (texts := (λ val, string_bytes ("." +:+ pretty val)) <$> arcs).
    change (mjoin (string_bytes ("." +:+ pretty val) :: texts))
      with (string_bytes ("." +:+ pretty val) ++ mjoin texts).
    rewrite Harc, <- !app_assoc in Hhere. cbn [app] in Hhere.
    rewrite Harc, !length_app, length_fmap. cbn [length].
    rewrite <- Nat.add_assoc. cbn [Nat.add].
    destruct (DecodeOid_print_arc gs g 0 false ptr
                (length (mjoin (Oid_arc <$> arcs)))
                (mkCursor (pre ++ x00 :: rest) (length pre)) _ Hgs Hg Hhere)
      as (ptr' & Hnext & ->).
    rewrite Hvalue. cbv zeta. rewrite sprintf_at.
    rewrite length_string_bytes. cbn [length].
    set (t := "." +:+ pretty val).
    case_decide as Hfirst.
    + cbn [mbind Exec_bind]. unfold advance. cbn [c_mem c_pos].
      rewrite Nat2Z.id, <- (length_string_bytes t), <- length_app.
      cbn [drop].
      rewrite (IH ptr' (pre ++ string_bytes t) (drop (length (string_bytes t)) rest) tail)
        by done.
      fold texts. rewrite length_drop.
      case_decide as Hrest.
      * rewrite decide_True by (rewrite length_string_bytes in *; lia).
        rewrite drop_drop, <- !app_assoc. do 2 f_equal.
        all: rewrite ?length_app; try lia.
      * rewrite decide_False; [done|].
        rewrite length_string_bytes in *. lia.
    + rewrite decide_False; [done|]. lia.
Qed.

(** The text of the first two arcs fits the six characters of
    [firstTwo]. *)
Lemma firstTwo_fits (first : byte) :
  snprintf 6 (firstTwo_text (BYTE_val first)) = firstTwo_text (BYTE_val first)
  ∧ (3 ≤ String.length (firstTwo_text (BYTE_val first)) ≤ 4)%nat.
Proof.
  assert (forallb
            (λ b, let text := firstTwo_text b in
                  bool_decide (snprintf 6 text = text)
                  && bool_decide (3 ≤ String.length text ≤ 4)%nat)
            (seqZ 0 256) = true) as Hall by (vm_compute; reflexivity).
  rewrite forallb_forall in Hall.
  pose proof (BYTE_val_range first) as Hrange.
  assert (In (BYTE_val first) (seqZ 0 256)) as Hin
    by (apply list_elem_of_In, elem_of_seqZ; lia).
  apply Hall in Hin. cbv zeta in Hin. apply andb_prop in Hin as [H1 H2].
  split; [by apply bool_decide_eq_true in H1|by apply bool_decide_eq_true in H2].
Qed.

Lemma Oid_text_bytes (arcs : list Z) :
  ∀ text : string,
    string_bytes (foldl (λ text val, text +:+ "." +:+ pretty val) text arcs)
    = string_bytes text
      ++ mjoin ((λ val, string_bytes ("." +:+ pretty val)) <$> arcs).
Proof.
  induction arcs as [|val arcs IH]; intros text.
  - cbn [foldl fmap list_fmap mjoin list_join]. by rewrite app_nil_r.
  - cbn [foldl]. rewrite IH, string_bytes_app, fmap_cons, <- app_assoc. done.
Qed.

(** What [str] holds of the text of an arc: all of it up to 9999999, eight
    characters of it from there on. *)
Lemma snprintf_9_arc (val : Z) :
  0 ≤ val →
  String.length (snprintf 9 ("." +:+ pretty val))
  = if val <? 10000000 then String.length ("." +:+ pretty val) else 8%nat.
Proof.
  intros Hval. pose proof (pretty_Z_long val) as Hlong.
  assert ((val <=? -1000000) = false) as Hneg by lia.
  rewrite Hneg, orb_false_l in Hlong. clear Hneg.
  unfold snprintf.
  assert (∀ l, String.length (String.string_of_list_ascii l) = length l)
    as Hlen by (intros l; induction l as [|c l IH]; [done|]; simpl; by rewrite IH).
  assert (∀ s, length (String.list_ascii_of_string s) = String.length s)
    as Hlen' by (intros s; induction s as [|c s IH]; [done|]; simpl; by rewrite IH).
  rewrite Hlen, length_take, Hlen'.
  change (String.length ("." +:+ pretty val))
    with (S (String.length (pretty val))).
  change (9 - 1)%nat with 8%nat.
  destruct (Z.ltb_spec val 10000000) as [Hshort|Hbig].
  - rewrite (proj2 (Z.leb_gt _ _)) in Hlong by lia.
    apply Nat.ltb_ge in Hlong. lia.
  - rewrite (proj2 (Z.leb_le _ _)) in Hlong by lia.
    apply Nat.ltb_lt in Hlong. lia.
Qed.

Lemma arcs_chars_bound (arcs : list Z) :
  0 ≤ foldr Z.add 0
        ((λ val, Z.of_nat (String.length (snprintf 9 ("." +:+ pretty val))))
         <$> arcs)
  ≤ 8 * Z.of_nat (length arcs).
Proof.
  induction arcs as [|val arcs IH]; [done|].
  rewrite fmap_cons. cbn [foldr length].
  assert (String.length (snprintf 9 ("." +:+ pretty val)) ≤ 8)%nat.
  { unfold snprintf.
    assert (∀ l, String.length (String.string_of_list_ascii l) = length l)
      as Hlen
      by (intros l; induction l as [|c l IHl]; [done|]; simpl; by rewrite IHl).
    rewrite Hlen, length_take. change (9 - 1)%nat with 8%nat. lia. }
  lia.
Qed.

Lemma arcs_count (arcs : list Z) :
  Forall (λ val, 0 ≤ val < 2 ^ 31) arcs →
  (length arcs ≤ length (mjoin (Oid_arc <$> arcs)))%nat.
Proof.
  induction 1 as [|val arcs Hval _ IH]; [done|].
  rewrite fmap_cons.
  change (mjoin (Oid_arc val :: (Oid_arc <$> arcs)))
    with (Oid_arc val ++ mjoin (Oid_arc <$> arcs)).
  destruct (Oid_arc_groups val Hval) as (gs & g & -> & _).
  rewrite !length_app. cbn [length]. lia.
Qed.

(** The decoder on the octets of an OID in the short form: what the
    sizing call reports, and what a writing call does with the room it is
    given. *)
Lemma CRYPT_AsnDecodeOid_arcs (first : byte) (arcs : list Z)
    (rest : list byte) (cbEncoded : Z) :
  let content := first :: mjoin (Oid_arc <$> arcs) in
  let enc :=
    BYTE_of ASN_OBJECTIDENTIFIER :: BYTE_of (Z.of_nat (length content))
    :: content ++ rest in
  let text := Oid_text (BYTE_val first) arcs in
  let size :=
    Z.of_nat (String.length (firstTwo_text (BYTE_val first))) + 1
    + foldr Z.add 0
        ((λ val, Z.of_nat (String.length (snprintf 9 ("." +:+ pretty val))))
         <$> arcs) in
  Forall (λ val, 0 ≤ val < 2 ^ 31) arcs →
  (length content ≤ 127)%nat →
  1 < cbEncoded →
  (∀ pcbObjId,
     CRYPT_AsnDecodeOid enc cbEncoded None pcbObjId
     = Done (mkResult TRUE None None size))
  ∧ (∀ mem pcbObjId,
       size ≤ pcbObjId →
       CRYPT_AsnDecodeOid enc cbEncoded (Some mem) pcbObjId
       = if decide (String.length text < length mem)%nat
         then Done (mkResult TRUE
                      (Some (string_bytes text ++ x00
                             :: drop (S (String.length text)) mem))
                      None size)
         else Undefined).
Proof.
  intros content enc text size Harcs Hshort Hcb.
  pose proof (firstTwo_fits first) as [Hsn Hfirst].
  pose proof (arcs_chars_bound arcs) as Hchars.
  pose proof (arcs_count arcs Harcs) as Hcount.
  assert (length content = S (length (mjoin (Oid_arc <$> arcs)))) as Hlen
    by done.
  assert (∀ out pcbObjId,
            CRYPT_AsnDecodeOid enc cbEncoded out pcbObjId
            = match out with
              | None => Done (mkResult TRUE None None size)
              | Some mem =>
                  if pcbObjId <? size
                  then Done (mkResult (FALSE (Some ERROR_MORE_DATA))
                               (Some mem) None size)
                  else
                    let text := firstTwo_text (BYTE_val first) in
                    out ← sprintf (mkCursor mem 0) text;
                    let out := advance out (Z.of_nat (String.length text)) in
                    out ← DecodeOid_print (length (mjoin (Oid_arc <$> arcs)))
                            (mkCursor enc 3) false 0 out;
                    Done (mkResult TRUE (Some (c_mem out)) None size)
              end) as Hrun.
  { intros out pcbObjId. unfold CRYPT_AsnDecodeOid. subst enc.
    rewrite GetLen_short by (rewrite ?BYTE_val_of by lia; lia).
    cbn [mbind Exec_bind].
    change (peek (mkCursor (?a :: _) 0) 0) with (Done a).
    cbn [mbind Exec_bind].
    change (BYTE_val (BYTE_of ASN_OBJECTIDENTIFIER) =? ASN_OBJECTIDENTIFIER)
      with true.
    cbn [negb].
    change (peek (mkCursor (_ :: ?a :: _) 0) 1) with (Done a).
    cbn [mbind Exec_bind].
    rewrite BYTE_val_of by lia.
    unfold GET_LEN_BYTES. rewrite (proj2 (Z.leb_le _ _)) by lia.
    change (1 mod 256) with 1.
    rewrite (proj2 (Z.eqb_neq _ _)) by lia.
    change (peek (mkCursor (_ :: _ :: content ++ rest) 0) (1 + 1))
      with (Done first).
    cbn [mbind Exec_bind]. rewrite Hsn.
    replace (Z.to_nat (Z.of_nat (length content)) - 1)%nat
      with (length (mjoin (Oid_arc <$> arcs))) by lia.
    change (advance (mkCursor ?m 0) (2 + 1)) with (mkCursor m 3).
    rewrite <- (DWORD_wrap_small
                  (Z.of_nat (String.length (firstTwo_text (BYTE_val first)))
                   + 1)) by lia.
    rewrite (DecodeOid_measure_arcs arcs _ _ rest Harcs) by done.
    cbn [mbind Exec_bind is_TRUE].
    rewrite (DWORD_wrap_small (_ + _)) by lia.
    reflexivity. }
  split; [intros pcbObjId; by rewrite Hrun|].
  intros mem pcbObjId Hroom. rewrite Hrun.
  rewrite (proj2 (Z.ltb_ge _ _)) by done. cbv zeta.
  pose proof (sprintf_at [] mem (firstTwo_text (BYTE_val first))) as Hfirst2.
  cbn [app length] in Hfirst2. rewrite Hfirst2. clear Hfirst2.
  subst text. unfold Oid_text.
  set (t0 := firstTwo_text (BYTE_val first)) in *.
  assert (String.length
            (foldl (λ text val, text +:+ "." +:+ pretty val) t0 arcs)
          = (String.length t0
             + length (mjoin ((λ val, string_bytes ("." +:+ pretty val))
                              <$> arcs)))%nat) as Htext.
  { rewrite <- !length_string_bytes, Oid_text_bytes, length_app. done. }
  rewrite Htext, Oid_text_bytes.
  case_decide as Hfits0.
  - cbn [mbind Exec_bind]. unfold advance. cbn [c_mem c_pos Nat.add].
    rewrite Nat2Z.id, <- (length_string_bytes t0).
    rewrite (DecodeOid_print_arcs arcs _ (string_bytes t0) _ rest Harcs)
      by done.
    rewrite length_drop, length_string_bytes.
    case_decide as Hfits.
    + rewrite decide_True by lia. cbn [mbind Exec_bind c_mem].
      rewrite drop_drop, <- !app_assoc. reflexivity.
    + rewrite decide_False by lia. done.
  - rewrite decide_False by lia. done.
Qed.

Lemma arcs_chars_le (arcs : list Z) :
  Forall (λ val, 0 ≤ val < 2 ^ 31) arcs →
  foldr Z.add 0
    ((λ val, Z.of_nat (String.length (snprintf 9 ("." +:+ pretty val))))
     <$> arcs)
  ≤ Z.of_nat
      (length (mjoin ((λ val, string_bytes ("." +:+ pretty val)) <$> arcs))).
Proof.
  induction 1 as [|val arcs Hval _ IH]; [done|].
  rewrite !fmap_cons. cbn [foldr].
  change (mjoin (?t :: ?ts)) with (t ++ mjoin ts).
  rewrite length_app, length_string_bytes, snprintf_9_arc by lia.
  pose proof (pretty_Z_long val) as Hlong.
  change (String.length ("." +:+ pretty val))
    with (S (String.length (pretty val))) in *.
  destruct (Z.ltb_spec val 10000000); [lia|].
  rewrite (proj2 (Z.leb_le 10000000 val)), orb_true_r in Hlong by lia.
  apply Nat.ltb_lt in Hlong. lia.
Qed.

Lemma arcs_chars_short (arcs : list Z) :
  Forall (λ val, 0 ≤ val < 10000000) arcs →
  foldr Z.add 0
    ((λ val, Z.of_nat (String.length (snprintf 9 ("." +:+ pretty val))))
     <$> arcs)
  = Z.of_nat
      (length (mjoin ((λ val, string_bytes ("." +:+ pretty val)) <$> arcs))).
Proof.
  induction 1 as [|val arcs Hval _ IH]; [done|].
  rewrite !fmap_cons. cbn [foldr].
  change (mjoin (?t :: ?ts)) with (t ++ mjoin ts).
  rewrite length_app, length_string_bytes, snprintf_9_arc by lia.
  rewrite (proj2 (Z.ltb_lt _ _)) by lia. lia.
Qed.

Lemma arcs_chars_long (arcs : list Z) :
  Forall (λ val, 0 ≤ val < 2 ^ 31) arcs →
  Exists (λ val, 10000000 ≤ val) arcs →
  foldr Z.add 0
    ((λ val, Z.of_nat (String.length (snprintf 9 ("." +:+ pretty val))))
     <$> arcs)
  < Z.of_nat
      (length (mjoin ((λ val, string_bytes ("." +:+ pretty val)) <$> arcs))).
Proof.
  intros Harcs Hlong.
  induction Hlong as [val arcs Hbig|val arcs Hlong IH];
    inversion Harcs as [|? ? Hval Harcs']; subst;
    rewrite !fmap_cons; cbn [foldr];
    change (mjoin (?t :: ?ts)) with (t ++ mjoin ts);
    rewrite length_app, length_string_bytes, snprintf_9_arc by lia.
  - pose proof (arcs_chars_le arcs Harcs') as Hrest.
    pose proof (pretty_Z_long val) as Hlen.
    change (String.length ("." +:+ pretty val))
      with (S (String.length (pretty val))) in *.
    rewrite (proj2 (Z.ltb_ge _ _)) by lia.
    rewrite (proj2 (Z.leb_le 10000000 val)), orb_true_r in Hlen by lia.
    apply Nat.ltb_lt in Hlen. lia.
  - specialize (IH Harcs').
    pose proof (pretty_Z_long val) as Hlen.
    change (String.length ("." +:+ pretty val))
      with (S (String.length (pretty val))) in *.
    destruct (Z.ltb_spec val 10000000); [lia|].
    rewrite (proj2 (Z.leb_le 10000000 val)), orb_true_r in Hlen by lia.
    apply Nat.ltb_lt in Hlen. lia.
Qed.

Lemma Oid_text_length (first : Z) (arcs : list Z) :
  String.length (Oid_text first arcs)
  = (String.length (firstTwo_text first)
     + length (mjoin ((λ val, string_bytes ("." +:+ pretty val)) <$> arcs)))%nat.
Proof.
  unfold Oid_text.
  by rewrite <- !length_string_bytes, Oid_text_bytes, length_app.
Qed.

(** The decoder prints the octets that the encoder writes for arcs below
    10000000: the first content octet as [first / 40] and the rest of the
    division, then a dot and the number for each arc.  The sizing call
    reports the length of the text and its NUL, and a writing call that is
    given as much leaves the text in the string. *)
Theorem CRYPT_AsnDecodeOid_prints (first : byte) (arcs : list Z)
    (rest mem : list byte) (cbEncoded pcbObjId : Z) :
  let content := first :: mjoin (Oid_arc <$> arcs) in
  let enc :=
    BYTE_of ASN_OBJECTIDENTIFIER :: BYTE_of (Z.of_nat (length content))
    :: content ++ rest in
  let text := Oid_text (BYTE_val first) arcs in
  let size := Z.of_nat (String.length text) + 1 in
  Forall (λ val, 0 ≤ val < 10000000) arcs →
  (length content ≤ 127)%nat →
  1 < cbEncoded →
  size ≤ pcbObjId →
  size ≤ Z.of_nat (length mem) →
  CRYPT_AsnDecodeOid enc cbEncoded None pcbObjId
  = Done (mkResult TRUE None None size)
  ∧ CRYPT_AsnDecodeOid enc cbEncoded (Some mem) pcbObjId
    = Done (mkResult TRUE
              (Some (string_bytes text ++ x00
                     :: drop (S (String.length text)) mem))
              None size).
Proof.
  intros content enc text size Harcs Hshort Hcb Hroom Hmem.
  assert (Forall (λ val, 0 ≤ val < 2 ^ 31) arcs) as Hint
    by (eapply Forall_impl; [exact Harcs|]; intros val; cbv beta; lia).
  destruct (CRYPT_AsnDecodeOid_arcs first arcs rest cbEncoded Hint Hshort Hcb)
    as [Hsizing Hwriting].
  assert (size
          = Z.of_nat (String.length (firstTwo_text (BYTE_val first))) + 1
            + foldr Z.add 0
                ((λ val,
                    Z.of_nat
                      (String.length (snprintf 9 ("." +:+ pretty val))))
                 <$> arcs)) as Hsize.
  { subst size text. rewrite Oid_text_length, arcs_chars_short by done. lia. }
  rewrite <- Hsize in Hsizing, Hwriting.
  split; [apply Hsizing|].
  rewrite Hwriting by done. fold text.
  rewrite decide_True by lia. done.
Qed.

(** An arc of 10000000 or more is counted as the eight characters that
    [str] has room for and printed in full: the sizing call reports less
    than the text and its NUL take, and a writing call on a string of the
    size reported writes past its end. *)
Theorem CRYPT_AsnDecodeOid_long_arc (first : byte) (arcs : list Z)
    (rest : list byte) (cbEncoded : Z) :
  let content := first :: mjoin (Oid_arc <$> arcs) in
  let enc :=
    BYTE_of ASN_OBJECTIDENTIFIER :: BYTE_of (Z.of_nat (length content))
    :: content ++ rest in
  let text := Oid_text (BYTE_val first) arcs in
  Forall (λ val, 0 ≤ val < 2 ^ 31) arcs →
  Exists (λ val, 10000000 ≤ val) arcs →
  (length content ≤ 127)%nat →
  1 < cbEncoded →
  ∃ size,
    size < Z.of_nat (String.length text) + 1
    ∧ (∀ pcbObjId,
         CRYPT_AsnDecodeOid enc cbEncoded None pcbObjId
         = Done (mkResult TRUE None None size))
    ∧ (∀ mem pcbObjId,
         Z.of_nat (length mem) = size →
         size ≤ pcbObjId →
         CRYPT_AsnDecodeOid enc cbEncoded (Some mem) pcbObjId = Undefined).
Proof.
  intros content enc text Harcs Hlong Hshort Hcb.
  destruct (CRYPT_AsnDecodeOid_arcs first arcs rest cbEncoded Harcs Hshort
              Hcb) as [Hsizing Hwriting].
  eexists. split; [|split; [exact Hsizing|]].
  - subst text. rewrite Oid_text_length.
    pose proof (arcs_chars_long arcs Harcs Hlong). lia.
  - intros mem pcbObjId Hmem Hroom. rewrite Hwriting by done. fold text.
    rewrite decide_False; [done|].
    subst text. rewrite Oid_text_length.
    pose proof (arcs_chars_long arcs Harcs Hlong). lia.
Qed.

(** The sizing walk over arcs that are followed by more octets. *)
Lemma DecodeOid_measure_arcs_then (arcs : list Z) :
  ∀ (ptr : Cursor) (n : nat) (acc : Z) (tail : list byte),
    Forall (λ val, 0 ≤ val < 2 ^ 31) arcs →
    drop (c_pos ptr) (c_mem ptr) = mjoin (Oid_arc <$> arcs) ++ tail →
    ∃ ptr',
      drop (c_pos ptr') (c_mem ptr') = tail
      ∧ DecodeOid_measure (length (mjoin (Oid_arc <$> arcs)) + n) ptr false 0
          (DWORD_wrap acc)
        = DecodeOid_measure n ptr' false 0
            (DWORD_wrap
               (acc
                + foldr Z.add 0
                    ((λ val,
                        Z.of_nat
                          (String.length (snprintf 9 ("." +:+ pretty val))))
                     <$> arcs))).
Proof.
  induction arcs as [|val arcs IH]; intros ptr n acc tail Harcs Hhere.
  - exists ptr. split; [done|].
    cbn [fmap list_fmap mjoin list_join length foldr Nat.add].
    by rewrite Z.add_0_r.
  - inversion Harcs as [|? ? Hval Harcs']; subst.
    destruct (Oid_arc_groups val Hval) as (gs & g & Harc & Hgs & Hg & Hvalue).
    rewrite fmap_cons in *.
    change (mjoin (Oid_arc val :: (Oid_arc <$> arcs)))
      with (Oid_arc val ++ mjoin (Oid_arc <$> arcs)) in *.
    rewrite Harc, <- !app_assoc in Hhere. cbn [app] in Hhere.
    rewrite Harc, !length_app, length_fmap. cbn [length].
    rewrite <- !Nat.add_assoc. cbn [Nat.add].
    destruct (DecodeOid_measure_arc gs g 0 false ptr
                (length (mjoin (Oid_arc <$> arcs)) + n) (DWORD_wrap acc) _
                Hgs Hg Hhere) as (ptr' & Hnext & ->).
    rewrite Hvalue, DWORD_wrap_add_l.
    destruct (IH ptr' n (acc + Z.of_nat (String.length
                                            (snprintf 9 ("." +:+ pretty val))))
                tail Harcs' Hnext) as (ptr'' & Hnext' & ->).
    exists ptr''. split; [done|].
    rewrite fmap_cons. cbn [foldr]. do 2 f_equal. lia.
Qed.

(** Octets of an arc that has no last octet. *)
Lemma DecodeOid_measure_continues (n : nat) (ptr : Cursor) (mid : bool)
    (val acc g : Z) (rest : list byte) :
  0 ≤ g < 128 →
  drop (c_pos ptr) (c_mem ptr) = BYTE_of (Z.lor g 0x80) :: rest →
  DecodeOid_measure (S n) ptr mid val acc
  = DecodeOid_measure n (advance ptr 1) true (Oid_shift_in val g) acc
  ∧ drop (c_pos (advance ptr 1)) (c_mem (advance ptr 1)) = rest.
Proof.
  intros Hg Hhere. apply peek_here in Hhere as [Hpeek Hnext].
  split; [|done]. cbn [DecodeOid_measure]. rewrite Hpeek.
  cbn [mbind Exec_bind].
  by destruct (continuation_octet g Hg) as [-> ->].
Qed.

Lemma DecodeOid_measure_unfinished (gs : list Z) :
  ∀ (g : Z) (ptr : Cursor) (mid : bool) (val acc : Z) (tail : list byte),
    Forall (λ g, 0 ≤ g < 128) (g :: gs) →
    drop (c_pos ptr) (c_mem ptr)
    = ((λ g, BYTE_of (Z.lor g 0x80)) <$> g :: gs) ++ tail →
    DecodeOid_measure (length (g :: gs)) ptr mid val acc
    = Done (FALSE (Some CRYPT_E_ASN1_CORRUPT), acc).
Proof.
  induction gs as [|g1 gs IH]; intros g ptr mid val acc tail Hgs Hhere;
    inversion Hgs as [|? ? Hg Hgs']; subst;
    rewrite fmap_cons in Hhere; cbn [app] in Hhere.
  - cbn [length].
    by destruct (DecodeOid_measure_continues 0 ptr mid val acc g _ Hg Hhere)
      as [-> _].
  - change (length (g :: g1 :: gs)) with (S (length (g1 :: gs))).
    destruct (DecodeOid_measure_continues (length (g1 :: gs)) ptr mid val acc
                g _ Hg Hhere) as [-> Hnext].
    by apply (IH g1 _ _ _ _ tail).
Qed.

(** Content that ends inside an arc, after an octet with the high bit
    set, is refused with [CRYPT_E_ASN1_CORRUPT], and the size cell gets
    the size of the text before that arc.  A writing call that has that
    room fails the same way after it has put the first two arcs into the
    string. *)
Theorem CRYPT_AsnDecodeOid_unfinished_arc (first : byte) (arcs gs : list Z)
    (g : Z) (rest mem : list byte) (cbEncoded pcbObjId : Z) :
  let content :=
    first :: mjoin (Oid_arc <$> arcs)
    ++ ((λ g, BYTE_of (Z.lor g 0x80)) <$> g :: gs) in
  let enc :=
    BYTE_of ASN_OBJECTIDENTIFIER :: BYTE_of (Z.of_nat (length content))
    :: content ++ rest in
  let size :=
    Z.of_nat (String.length (Oid_text (BYTE_val first) arcs)) + 1 in
  let firstTwo := firstTwo_text (BYTE_val first) in
  Forall (λ val, 0 ≤ val < 10000000) arcs →
  Forall (λ g, 0 ≤ g < 128) (g :: gs) →
  (length content ≤ 127)%nat →
  1 < cbEncoded →
  size ≤ pcbObjId →
  (String.length firstTwo < length mem)%nat →
  CRYPT_AsnDecodeOid enc cbEncoded None pcbObjId
  = Done (mkResult (FALSE (Some CRYPT_E_ASN1_CORRUPT)) None None size)
  ∧ CRYPT_AsnDecodeOid enc cbEncoded (Some mem) pcbObjId
    = Done (mkResult (FALSE (Some CRYPT_E_ASN1_CORRUPT))
              (Some (string_bytes firstTwo ++ x00
                     :: drop (S (String.length firstTwo)) mem))
              None size).
Proof.
  intros content enc size firstTwo Harcs Hgs Hshort Hcb Hroom Hmem.
  assert (Forall (λ val, 0 ≤ val < 2 ^ 31) arcs) as Hint
    by (eapply Forall_impl; [exact Harcs|]; intros val; cbv beta; lia).
  pose proof (firstTwo_fits first) as [Hsn Hfirst].
  pose proof (arcs_chars_bound arcs) as Hchars.
  pose proof (arcs_count arcs Hint) as Hcount.
  assert (length content
          = S (length (mjoin (Oid_arc <$> arcs)) + length (g :: gs))) as Hlen.
  { subst content. cbn [length]. by rewrite length_app, length_fmap. }
  assert (∀ out,
            CRYPT_AsnDecodeOid enc cbEncoded out pcbObjId
            = match out with
              | None =>
                  Done (mkResult (FALSE (Some CRYPT_E_ASN1_CORRUPT)) None
                          None size)
              | Some mem =>
                  out ← sprintf (mkCursor mem 0) firstTwo;
                  Done (mkResult (FALSE (Some CRYPT_E_ASN1_CORRUPT))
                          (Some (c_mem out)) None size)
              end) as Hrun.
  { intros out. unfold CRYPT_AsnDecodeOid. subst enc.
    rewrite GetLen_short by (rewrite ?BYTE_val_of by lia; lia).
    cbn [mbind Exec_bind].
    change (peek (mkCursor (?a :: _) 0) 0) with (Done a).
    cbn [mbind Exec_bind].
    change (BYTE_val (BYTE_of ASN_OBJECTIDENTIFIER) =? ASN_OBJECTIDENTIFIER)
      with true.
    cbn [negb].
    change (peek (mkCursor (_ :: ?a :: _) 0) 1) with (Done a).
    cbn [mbind Exec_bind].
    rewrite BYTE_val_of by lia.
    unfold GET_LEN_BYTES. rewrite (proj2 (Z.leb_le _ _)) by lia.
    change (1 mod 256) with 1.
    rewrite (proj2 (Z.eqb_neq _ _)) by lia.
    change (peek (mkCursor (_ :: _ :: content ++ rest) 0) (1 + 1))
      with (Done first).
    cbn [mbind Exec_bind]. rewrite Hsn.
    replace (Z.to_nat (Z.of_nat (length content)) - 1)%nat
      with (length (mjoin (Oid_arc <$> arcs)) + length (g :: gs))%nat by lia.
    change (advance (mkCursor ?m 0) (2 + 1)) with (mkCursor m 3).
    rewrite <- (DWORD_wrap_small
                  (Z.of_nat (String.length (firstTwo_text (BYTE_val first)))
                   + 1)) by lia.
    destruct (DecodeOid_measure_arcs_then arcs
                (mkCursor
                   (BYTE_of ASN_OBJECTIDENTIFIER
                    :: BYTE_of (Z.of_nat (length content)) :: content ++ rest)
                   3)
                (length (g :: gs))
                (Z.of_nat (String.length (firstTwo_text (BYTE_val first))) + 1)
                (((λ g, BYTE_of (Z.lor g 0x80)) <$> g :: gs) ++ rest) Hint)
      as (ptr' & Hnext & ->).
    { cbn [c_pos c_mem drop]. subst content. cbn [app drop].
      by rewrite <- app_assoc. }
    rewrite (DecodeOid_measure_unfinished gs g ptr' _ _ _ rest Hgs) by done.
    cbn [mbind Exec_bind is_TRUE].
    rewrite arcs_chars_short by done.
    rewrite DWORD_wrap_small.
    2: { rewrite <- arcs_chars_short by done. lia. }
    assert (Z.of_nat (String.length (firstTwo_text (BYTE_val first))) + 1
            + Z.of_nat
                (length (mjoin ((λ val, string_bytes ("." +:+ pretty val))
                                <$> arcs)))
            = size) as ->.
    { subst size. rewrite Oid_text_length. lia. }
    destruct out as [out|]; [|done].
    rewrite (proj2 (Z.ltb_ge _ _)) by done. fold firstTwo.
    destruct (sprintf _ firstTwo); reflexivity. }
  split; [by rewrite Hrun|].
  rewrite Hrun.
  pose proof (sprintf_at [] mem firstTwo) as Hfirst2.
  cbn [app length] in Hfirst2. rewrite Hfirst2. clear Hfirst2.
  rewrite decide_True by done. reflexivity.
Qed.

(** ** Attribute values, there and back *)

(** A numeric, printable or IA5 string of at most 127 bytes is encoded as
    its tag, its length and its bytes, and the decoder gives the same type,
    count and bytes back, copied to where the caller has set [pbData] (or
    with a NULL [pbData] if the string is empty). *)
Theorem CRYPT_AsnEncodeNameValue_round_trip (dwValueType tag : Z)
    (data buf rest mem : list byte) (cb cbEncoded dwFlags pcbValue : Z) :
  let n := Z.of_nat (length data) in
  let value := mkNameValue dwValueType (mkBlob n data) in
  let encoded := BYTE_of tag :: BYTE_of n :: data in
  (dwValueType, tag)
  ∈ [(CERT_RDN_NUMERIC_STRING, ASN_NUMERICSTRING);
     (CERT_RDN_PRINTABLE_STRING, ASN_PRINTABLESTRING);
     (CERT_RDN_IA5_STRING, ASN_IA5STRING)] →
  n ≤ 0x7f →
  n + 2 ≤ cb →
  (length encoded ≤ length buf)%nat →
  1 < cbEncoded →
  has_flag dwFlags CRYPT_DECODE_NOCOPY_FLAG = false →
  sizeof_CERT_NAME_VALUE + n ≤ pcbValue →
  (length data ≤ length mem)%nat →
  CRYPT_AsnEncodeNameValue value (Some (mkCursor buf 0)) cb
  = Done (TRUE, Some (mkCursor (encoded ++ drop (length encoded) buf) 0),
          n + 2)
  ∧ CRYPT_AsnDecodeNameValue (encoded ++ rest) cbEncoded dwFlags
      (Some (Some mem)) pcbValue
    = Done (TRUE,
            Some (mkDecodedValue dwValueType n
                    (if n =? 0 then NullData
                     else CallerData (data ++ drop (length data) mem))),
            if n =? 0 then sizeof_CERT_NAME_VALUE
            else sizeof_CERT_NAME_VALUE + n).
Proof.
  intros n value encoded Hkind Hn Hcb Hbuf Hcbenc Hnocopy Hroom Hmem.
  assert (BYTE_val (BYTE_of n) = n) as Hlen by (apply BYTE_val_of; lia).
  assert (EncodeLen_bytes n = [BYTE_of n]) as Hshort
    by (apply EncodeLen_bytes_short; lia).
  assert (tag ∈ [ASN_NUMERICSTRING; ASN_PRINTABLESTRING; ASN_IA5STRING])
    as Htag.
  { repeat (apply elem_of_cons in Hkind as [[= -> ->]|Hkind];
              [set_solver|]).
    by apply elem_of_nil in Hkind. }
  split.
  - unfold CRYPT_AsnEncodeNameValue. subst value.
    cbn [nv_dwValueType nv_Value cbData pbData].
    assert ((if dwValueType =? CERT_RDN_NUMERIC_STRING
             then inl ASN_NUMERICSTRING
             else if dwValueType =? CERT_RDN_PRINTABLE_STRING
             then inl ASN_PRINTABLESTRING
             else if dwValueType =? CERT_RDN_IA5_STRING
             then inl ASN_IA5STRING
             else if dwValueType =? CERT_RDN_ANY_TYPE
             then inr (Some HRESULT_FROM_WIN32_ERROR_INVALID_PARAMETER)
             else inr None) = inl tag) as ->.
    { repeat (apply elem_of_cons in Hkind as [[= -> ->]|Hkind]; [done|]).
      by apply elem_of_nil in Hkind. }
    rewrite lenBytes_of_bytes. cbn [mbind Exec_bind].
    assert (Z.of_nat (length (EncodeLen_bytes n)) = 1) as Hone
      by (by rewrite Hshort).
    rewrite DWORD_wrap_small by lia.
    rewrite (proj2 (Z.ltb_ge _ _)) by lia.
    rewrite (encode_header_eq _ _ _ (λ p,
      data0 ← read_bytes data n;
      p ← poke p data0;
      Done (TRUE, Some (rebase (mkCursor buf 0) p),
            1 + Z.of_nat (length (EncodeLen_bytes n)) + n))).
    rewrite Hone. subst n. rewrite read_all. cbn [mbind Exec_bind].
    rewrite (emit_emit_poke_start buf [BYTE_of tag]
               (EncodeLen_bytes (Z.of_nat (length data))) data
               (λ p, Done (TRUE, Some (rebase (mkCursor buf 0) p),
                           1 + 1 + Z.of_nat (length data)))).
    2: { rewrite Hshort. subst encoded. cbn [length] in *. lia. }
    rewrite Hshort. unfold rebase. cbn [c_mem c_pos app].
    subst encoded. do 2 f_equal. lia.
  - unfold CRYPT_AsnDecodeNameValue. subst encoded. cbn [app].
    rewrite GetLen_short by lia. cbn [mbind Exec_bind]. rewrite Hlen.
    change (peek (mkCursor (_ :: ?a :: _) 0) 1) with (Done a).
    cbn [mbind Exec_bind]. rewrite Hlen.
    change (peek (mkCursor (?a :: _) 0) 0) with (Done a).
    cbn [mbind Exec_bind].
    rewrite Hnocopy, andb_true_r. unfold sizeof_CERT_NAME_VALUE in *.
    rewrite DWORD_wrap_small by lia.
    assert (negb ((BYTE_val (BYTE_of tag) =? ASN_NUMERICSTRING)
                  || (BYTE_val (BYTE_of tag) =? ASN_PRINTABLESTRING)
                  || (BYTE_val (BYTE_of tag) =? ASN_IA5STRING)) = false)
      as ->.
    { clear -Htag.
      repeat (apply elem_of_cons in Htag as [->|Htag]; [done|]).
      by apply elem_of_nil in Htag. }
    assert ((if BYTE_val (BYTE_of tag) =? ASN_NUMERICSTRING
             then CERT_RDN_NUMERIC_STRING
             else if BYTE_val (BYTE_of tag) =? ASN_PRINTABLESTRING
             then CERT_RDN_PRINTABLE_STRING
             else CERT_RDN_IA5_STRING) = dwValueType) as ->.
    { clear -Hkind.
      repeat (apply elem_of_cons in Hkind as [[= -> ->]|Hkind]; [done|]).
      by apply elem_of_nil in Hkind. }
    destruct (Z.eqb_spec n 0) as [Hempty|Hsome]; cbn [negb].
    + rewrite (proj2 (Z.ltb_ge _ _)) by lia. by rewrite Hempty.
    + rewrite (proj2 (Z.ltb_ge _ _)) by lia.
      unfold GET_LEN_BYTES. rewrite (proj2 (Z.leb_le _ _)) by lia.
      unfold copy_from. change (Z.to_nat (1 + 1 mod 256)) with 2%nat.
      cbn [drop]. rewrite drop_0. unfold read_bytes.
      rewrite decide_True by (rewrite length_app; lia).
      subst n. rewrite Nat2Z.id, take_app_length. cbn [mbind Exec_bind].
      pose proof (poke_at [] mem data Hmem) as Hpoke.
      cbn [app length] in Hpoke. rewrite Hpoke. reflexivity.
Qed.

(** ** The theorems above at examples *)

(** Decides a closed side condition by evaluating it. *)
Ltac by_evaluation :=
  first
    [ reflexivity
    | lia
    | vm_compute; repeat split;
      first [ reflexivity | lia | intros ?; discriminate ] ].


(** The octets 01 02 03. *)
Lemma CRYPT_AsnEncodeOctets_round_trip_witness :
  CRYPT_AsnEncodeOctets out_of_memory 0 None
    (Some (mkBlob 3 [x01; x02; x03])) None 0
  = Done (mkResult TRUE None None 5)
  ∧ CRYPT_AsnEncodeOctets out_of_memory 0 None
      (Some (mkBlob 3 [x01; x02; x03])) (Some (replicate 5 x00)) 5
    = Done (mkResult TRUE (Some [x04; x03; x01; x02; x03]) None 5)
  ∧ CRYPT_AsnDecodeOctets out_of_memory (Some [x04; x03; x01; x02; x03]) 5 0
      None (Some (replicate 11 xff)) 11
    = Done (mkResult TRUE (Some (replicate 8 xff ++ [x01; x02; x03])) None 11,
            Some (mkDecoded 3 (InStructInfo 8) 0)).
Proof.
  apply (CRYPT_AsnEncodeOctets_round_trip out_of_memory [x01; x02; x03]
           (replicate 5 x00) (replicate 11 xff) 5 11); by_evaluation.
Defined.

(** The length 300 is 82 01 2C. *)
Lemma CRYPT_EncodeLen_long_form_witness :
  ∃ (first : byte) (octets : list byte),
    [x82; x01; x2c]
    = BYTE_of (0x80 + Z.of_nat (length (first :: octets))) :: first :: octets
    ∧ 3 = 1 + Z.of_nat (length (first :: octets))
    ∧ (length (first :: octets) ≤ 4)%nat
    ∧ be_unsigned (first :: octets) = 300
    ∧ first ≠ x00.
Proof.
  apply (CRYPT_EncodeLen_long_form 300 (mkCursor (replicate 3 x00) 0)
           (mkCursor [x82; x01; x2c] 0) 3 3); by_evaluation.
Defined.

(** [octets_128], the octet string of 128 bytes. *)
Lemma CRYPT_GetLen_refuses_EncodeLen_long_form_witness :
  CRYPT_GetLen (mkCursor octets_128 0) 131 = Done (inl CRYPT_E_ASN1_EOD).
Proof.
  apply (CRYPT_GetLen_refuses_EncodeLen_long_form x04 128 (replicate 128 xaa));
    by_evaluation.
Defined.

(** -129 in four bytes, 7F FF FF FF, comes back in two. *)
Lemma CRYPT_AsnEncodeInteger_round_trip_witness :
  CRYPT_AsnEncodeInteger out_of_memory 0 None
    (Some (mkBlob 4 [x7f; xff; xff; xff])) None 0
  = Done (mkResult TRUE None None 4)
  ∧ CRYPT_AsnEncodeInteger out_of_memory 0 None
      (Some (mkBlob 4 [x7f; xff; xff; xff])) (Some (replicate 4 x00)) 4
    = Done (mkResult TRUE (Some [x02; x02; xff; x7f]) None 4)
  ∧ CRYPT_AsnDecodeInteger out_of_memory (Some [x02; x02; xff; x7f]) 4 0 None
      (Some (replicate 10 x00)) 10
    = Done (mkResult TRUE (Some (replicate 8 x00 ++ [x7f; xff])) None 10,
            Some (mkDecoded 2 (InStructInfo 8) 0)).
Proof.
  apply (CRYPT_AsnEncodeInteger_round_trip out_of_memory [] x7f true 3
           (replicate 4 x00) (replicate 10 x00) 4 10); by_evaluation.
Defined.


(** The enumerated value 255 is 0A 02 00 FF. *)
Lemma CRYPT_AsnEncodeEnumerated_round_trip_witness :
  ∃ content : list byte,
    (1 ≤ length content ≤ 5)%nat
    ∧ be_unsigned content = 255
    ∧ let encoded :=
        BYTE_of ASN_ENUMERATED :: BYTE_of (Z.of_nat (length content))
        :: content in
      CRYPT_AsnEncodeEnumerated out_of_memory 0 None
        (Some (INT_bytes 255 ++ [])) None 0
      = Done (mkResult TRUE None None (Z.of_nat (length encoded)))
      ∧ CRYPT_AsnEncodeEnumerated out_of_memory 0 None
          (Some (INT_bytes 255 ++ [])) (Some (replicate 7 x00)) 7
        = Done (mkResult TRUE
                  (Some (encoded ++ drop (length encoded) (replicate 7 x00)))
                  None 7)
      ∧ CRYPT_AsnDecodeEnumerated out_of_memory
          (Some (encoded ++ drop (length encoded) (replicate 7 x00))) 7 0
          None (Some (replicate 4 xff)) sizeof_int
        = Done (mkResult TRUE
                  (Some (INT_bytes 255 ++ drop 4 (replicate 4 xff))) None
                  sizeof_int).
Proof.
  apply (CRYPT_AsnEncodeEnumerated_round_trip out_of_memory 255 []
           (replicate 7 x00) (replicate 4 xff) 7); by_evaluation.
Defined.

(** A positive integer of 253 bytes has an encoding of 256, and is
    announced with 0. *)
Lemma CRYPT_AsnEncodeInteger_size_wraps_witness :
  let blob := mkBlob 253 (replicate 252 x00 ++ [x01]) in
  CRYPT_AsnEncodeInteger zeroed_heap 0 None (Some blob) None 0
  = Done (mkResult TRUE None None 0)
  ∧ 0 < 256 ≤ 256
  ∧ CRYPT_AsnEncodeInteger zeroed_heap 0 None (Some blob) (Some []) 0
    = Undefined
  ∧ CRYPT_AsnEncodeInteger zeroed_heap CRYPT_ENCODE_ALLOC_FLAG None
      (Some blob) (Some []) 0
    = Undefined.
Proof.
  apply (CRYPT_AsnEncodeInteger_size_wraps zeroed_heap (replicate 252 x00)
           x01 [] 0); by_evaluation.
Defined.

(** Three bytes are announced and two are there. *)
Lemma CRYPT_AsnDecodeOctets_trusts_length_witness :
  CRYPT_AsnDecodeOctets out_of_memory (Some [x04; x03; x01; x02]) 4 0 None
    None 0
  = Done (mkResult TRUE None None 11, None)
  ∧ CRYPT_AsnDecodeOctets out_of_memory (Some [x04; x03; x01; x02]) 4
      CRYPT_DECODE_NOCOPY_FLAG None (Some (replicate 11 x00)) 11
    = Done (mkResult TRUE (Some (replicate 11 x00)) None 11,
            Some (mkDecoded 3 (InEncoded 2) 0))
  ∧ CRYPT_AsnDecodeOctets out_of_memory (Some [x04; x03; x01; x02]) 4 0 None
      (Some (replicate 11 x00)) 11
    = Undefined.
Proof.
  apply (CRYPT_AsnDecodeOctets_trusts_length out_of_memory x03 [x01; x02]
           (replicate 11 x00) 11); by_evaluation.
Defined.

(** 03 00 and one byte after it. *)
Lemma CRYPT_AsnDecodeBits_without_content_witness :
  CRYPT_AsnDecodeBits out_of_memory (Some [x03; x00; x01]) 3 0 None None 0
  = Done (mkResult TRUE None None 11, None)
  ∧ CRYPT_AsnDecodeBits out_of_memory (Some [x03; x00; x01]) 3
      CRYPT_DECODE_NOCOPY_FLAG None (Some (replicate 12 x00)) 12
    = Done (mkResult TRUE (Some (replicate 12 x00)) None 12,
            Some (mkDecoded 4294967295 (InEncoded 3) 1))
  ∧ CRYPT_AsnDecodeBits out_of_memory (Some [x03; x00; x01]) 3 0 None
      (Some (replicate 12 x00)) 12
    = Undefined.
Proof.
  apply (CRYPT_AsnDecodeBits_without_content out_of_memory x01 []
           (replicate 12 x00) 3 12); by_evaluation.
Defined.

(** Sixteen bits, none of them unused. *)
Lemma CRYPT_AsnEncodeBits_no_unused_bits_witness :
  CRYPT_AsnEncodeBits out_of_memory 0 None
    (Some (mkBitBlob 2 [xff; xff] 0)) None 0
  = Done (mkResult TRUE None None 6)
  ∧ CRYPT_AsnEncodeBits out_of_memory 0 None
      (Some (mkBitBlob 2 [xff; xff] 0)) (Some (replicate 6 x00)) 6
    = Undefined.
Proof.
  apply (CRYPT_AsnEncodeBits_no_unused_bits out_of_memory [xff; xff]
           (replicate 6 x00) 6); by_evaluation.
Defined.

(** Thirteen bits: FF FF with three unused bits is FF F8. *)
Lemma CRYPT_AsnEncodeBits_round_trip_witness :
  CRYPT_AsnEncodeBits out_of_memory 0 None
    (Some (mkBitBlob 2 [xff; xff] 3)) None 0
  = Done (mkResult TRUE None None 5)
  ∧ CRYPT_AsnEncodeBits out_of_memory 0 None
      (Some (mkBitBlob 2 [xff; xff] 3)) (Some (replicate 5 x00)) 5
    = Done (mkResult TRUE (Some [x03; x03; x03; xff; xf8]) None 5)
  ∧ CRYPT_AsnDecodeBits out_of_memory (Some [x03; x03; x03; xff; xf8]) 5 0
      None (Some (replicate 14 x00)) 14
    = Done (mkResult TRUE (Some (replicate 12 x00 ++ [xff; xf8])) None 14,
            Some (mkDecoded 2 (InStructInfo 12) 3)).
Proof.
  apply (CRYPT_AsnEncodeBits_round_trip out_of_memory [xff] xff 3
           (replicate 5 x00) (replicate 14 x00) 5 14); by_evaluation.
Defined.

(** The fourth of March 2015 comes back as the third of April. *)
Lemma CRYPT_AsnEncodeUtcTime_round_trip_witness :
  ∃ encoded : list byte,
    CRYPT_AsnEncodeUtcTime out_of_memory FileTimeToSystemTime_calendar 0 None
      (Some ft_2015_03_04) (Some (replicate 15 x00)) 15
    = Done (mkResult TRUE (Some encoded) None 15)
    ∧ CRYPT_AsnDecodeUtcTime out_of_memory SystemTimeToFileTime_calendar
        (Some encoded) 15 0 None (Some (replicate 8 x00)) 8
      = Done (mkResult TRUE (Some (FILETIME_bytes ft_2015_04_03)) None 8).
Proof.
  apply (CRYPT_AsnEncodeUtcTime_round_trip out_of_memory
           FileTimeToSystemTime_calendar SystemTimeToFileTime_calendar
           ft_2015_03_04 (mkSystemTime 2015 3 3 4 0 0 0 0)
           (replicate 15 x00) (replicate 8 x00) 0 None 8); by_evaluation.
Defined.

(** So it does in the GeneralizedTime form. *)
Lemma CRYPT_AsnEncodeGeneralizedTime_round_trip_witness :
  ∃ encoded : list byte,
    CRYPT_AsnEncodeGeneralizedTime out_of_memory
      FileTimeToSystemTime_calendar 0 None (Some ft_2015_03_04)
      (Some (replicate 17 x00)) 17
    = Done (mkResult TRUE (Some encoded) None 17)
    ∧ CRYPT_AsnDecodeGeneralizedTime out_of_memory
        SystemTimeToFileTime_calendar (Some encoded) 17 0 None
        (Some (replicate 8 x00)) 8
      = Done (mkResult TRUE (Some (FILETIME_bytes ft_2015_04_03)) None 8).
Proof.
  apply (CRYPT_AsnEncodeGeneralizedTime_round_trip out_of_memory
           FileTimeToSystemTime_calendar SystemTimeToFileTime_calendar
           ft_2015_03_04 (mkSystemTime 2015 3 3 4 0 0 0 0)
           (replicate 17 x00) (replicate 8 x00) 0 None 8); by_evaluation.
Defined.

(** And as a choice of time, which is the UTCTime form for 2015. *)
Lemma CRYPT_AsnEncodeChoiceOfTime_round_trip_witness :
  ∃ (encoded : list byte) (cb : Z),
    CRYPT_AsnEncodeChoiceOfTime out_of_memory FileTimeToSystemTime_calendar 0
      None (Some ft_2015_03_04) None 0
    = Done (mkResult TRUE None None cb)
    ∧ cb = 15
    ∧ CRYPT_AsnEncodeChoiceOfTime out_of_memory FileTimeToSystemTime_calendar
        0 None (Some ft_2015_03_04) (Some (replicate 17 x00)) cb
      = Done (mkResult TRUE (Some encoded) None cb)
    ∧ CRYPT_AsnDecodeChoiceOfTime out_of_memory SystemTimeToFileTime_calendar
        (Some encoded) cb 0 None (Some (replicate 8 x00)) 8
      = Done (mkResult TRUE (Some (FILETIME_bytes ft_2015_04_03)) None 8).
Proof.
  apply (CRYPT_AsnEncodeChoiceOfTime_round_trip out_of_memory
           FileTimeToSystemTime_calendar SystemTimeToFileTime_calendar
           ft_2015_03_04 (mkSystemTime 2015 3 3 4 0 0 0 0)
           (replicate 17 x00) (replicate 8 x00) 0 None 8); by_evaluation.
Defined.

(** The encoding type 0x01000001 prints in eight characters. *)
Lemma CRYPT_GetKeyName_room_witness :
  CRYPT_GetKeyName (stale_heap x00) 16777217 "CryptDllEncodeObject"
    (Str "1.2.3")
  = Undefined.
Proof.
  apply (CRYPT_GetKeyName_room (stale_heap x00) 16777217
           "CryptDllEncodeObject" "1.2.3" (λ _, x00)).
  by_evaluation.
Defined.

(** [attr_CN] and [attr_RSADSI] in their two orders take 28 bytes. *)
Lemma CRYPT_AsnEncodeRdn_size_perm_witness :
  CRYPT_AsnEncodeRdn (stale_heap xff)
    (mkRdn (Z.of_nat (length [attr_RSADSI; attr_CN]))
       (Some [attr_RSADSI; attr_CN])) None 0
  = Done (TRUE, None, 28).
Proof.
  apply (CRYPT_AsnEncodeRdn_size_perm (stale_heap xff)
           [attr_CN; attr_RSADSI] [attr_RSADSI; attr_CN] 0 28).
  - apply perm_swap.
  - by_evaluation.
Defined.

(** A buffer of 27 bytes is refused for the 28 bytes of the two. *)
Lemma CRYPT_AsnEncodeRdn_checks_size_cell_witness :
  CRYPT_AsnEncodeRdn (stale_heap xff) (mkRdn 2 (Some [attr_CN; attr_RSADSI]))
    (Some (mkCursor (replicate 27 x00) 0)) 27
  = Done (FALSE (Some ERROR_MORE_DATA),
          Some (mkCursor (replicate 27 x00) 0), 28).
Proof.
  apply (CRYPT_AsnEncodeRdn_checks_size_cell (stale_heap xff)
           (mkRdn 2 (Some [attr_CN; attr_RSADSI]))
           (mkCursor (replicate 27 x00) 0) 27 28); by_evaluation.
Defined.

(** The name of the RDNs [attr_CN] and [attr_RSADSI] in a buffer of 32
    bytes. *)
Lemma CRYPT_AsnEncodeName_writes_witness :
  let names := [[attr_CN]; [attr_RSADSI]] in
  let r :=
    mkResult TRUE
      (Some [x30; x1e;
             x31; x0d; x30; x0b; x06; x03; x55; x04; x03; x13; x04;
             x54; x65; x73; x74;
             x31; x0d; x30; x0b; x06; x06; x2a; x86; x48; x86; xf7; x0d;
             x13; x01; x78])
      None 32 in
  CRYPT_AsnEncodeName out_of_memory (λ _, stale_heap xff) 0 0 None
    (Some (name_of names)) (Some (replicate 32 xaa)) 32
  = Done r
  ∧ r = mkResult TRUE
          (Some (BYTE_of (Z.lor ASN_CONSTRUCTOR ASN_SEQUENCEOF)
                 :: EncodeLen_bytes (Z.of_nat (length (Name_content names)))
                 ++ Name_content names
                 ++ drop
                      (1 + length (EncodeLen_bytes
                                     (Z.of_nat (length (Name_content names))))
                       + length (Name_content names))
                      (replicate 32 xaa)))
          None 32.
Proof.
  intros names r. split; [by_evaluation|].
  apply (CRYPT_AsnEncodeName_writes out_of_memory (λ _, stale_heap xff) 0 0
           None names [attr_RSADSI] (replicate 32 xaa) 32 r); by_evaluation.
Defined.

(** A name of 268 bytes whose last RDN is empty, in a buffer of 272 bytes
    that holds AA everywhere: the three length octets 82 01 0C are not
    written, the SET OFs begin at the fourth byte instead of the fifth, and
    the last byte of the buffer is left as it was. *)
Lemma CRYPT_AsnEncodeName_length_not_written_witness :
  let names := [[attr_long]; []] in
  let r :=
    mkResult TRUE
      (Some ([x30; xaa; xaa] ++ Name_content names ++ [xaa])) None 272 in
  CRYPT_AsnEncodeName out_of_memory (λ _, stale_heap xff) 0 0 None
    (Some (name_of names)) (Some (replicate 272 xaa)) 272
  = Done r
  ∧ EncodeLen_bytes (Z.of_nat (length (Name_content names)))
    = [x82; x01; x0c]
  ∧ (1 + length (Rdn_bytes []) + length (Name_content names)
     ≤ length (replicate 272 xaa))%nat
  ∧ r = mkResult TRUE
          (Some (BYTE_of (Z.lor ASN_CONSTRUCTOR ASN_SEQUENCEOF)
                 :: take (length (Rdn_bytes [])) (drop 1 (replicate 272 xaa))
                 ++ Name_content names
                 ++ drop
                      (1 + length (Rdn_bytes [])
                       + length (Name_content names))
                      (replicate 272 xaa)))
          None 272.
Proof.
  intros names r. split; [by_evaluation|]. split; [by_evaluation|].
  apply (CRYPT_AsnEncodeName_length_not_written out_of_memory
           (λ _, stale_heap xff) 0 0 None names [] (replicate 272 xaa) 272 r);
    by_evaluation.
Defined.

(** The empty name in a buffer that holds AA AA, with 0 in the local. *)
Lemma CRYPT_AsnEncodeName_empty_witness :
  CRYPT_AsnEncodeName out_of_memory (λ _, stale_heap xff) 0 0 None
    (Some (mkNameInfo 0 None)) (Some [xaa; xaa]) 2
  = Done (mkResult TRUE (Some [x30; xaa]) None 2).
Proof.
  apply (CRYPT_AsnEncodeName_empty out_of_memory (λ _, stale_heap xff) 0 0
           None None [xaa; xaa] 2); by_evaluation.
Defined.

(** 06 06 2A 86 48 86 F7 0D is printed as 1.2.840.113549. *)
Lemma CRYPT_AsnDecodeOid_prints_witness :
  let enc := [x06; x06; x2a; x86; x48; x86; xf7; x0d] in
  CRYPT_AsnDecodeOid enc 8 None 20 = Done (mkResult TRUE None None 15)
  ∧ CRYPT_AsnDecodeOid enc 8 (Some (replicate 20 xaa)) 20
    = Done (mkResult TRUE
              (Some (string_bytes "1.2.840.113549" ++ x00
                     :: replicate 5 xaa))
              None 15).
Proof.
  apply (CRYPT_AsnDecodeOid_prints x2a [840; 113549] [] (replicate 20 xaa) 8
           20).
  - repeat constructor; lia.
  - by_evaluation.
  - by_evaluation.
  - by_evaluation.
  - by_evaluation.
Defined.

(** 06 05 2A 84 E2 AD 00, the encoding of 1.2.10000000: the sizing call
    reports 12 bytes for a text of 12 characters and its NUL. *)
Lemma CRYPT_AsnDecodeOid_long_arc_witness :
  let enc := [x06; x05; x2a; x84; xe2; xad; x00] in
  ∃ size,
    size < Z.of_nat (String.length "1.2.10000000") + 1
    ∧ (∀ pcbObjId,
         CRYPT_AsnDecodeOid enc 7 None pcbObjId
         = Done (mkResult TRUE None None size))
    ∧ (∀ mem pcbObjId,
         Z.of_nat (length mem) = size →
         size ≤ pcbObjId →
         CRYPT_AsnDecodeOid enc 7 (Some mem) pcbObjId = Undefined).
Proof.
  apply (CRYPT_AsnDecodeOid_long_arc x2a [10000000] [] 7).
  - repeat constructor; lia.
  - constructor. lia.
  - by_evaluation.
  - by_evaluation.
Defined.

(** 06 03 2A 03 86: the arc after 1.2.3 has no last octet. *)
Lemma CRYPT_AsnDecodeOid_unfinished_arc_witness :
  let enc := [x06; x03; x2a; x03; x86] in
  CRYPT_AsnDecodeOid enc 5 None 10
  = Done (mkResult (FALSE (Some CRYPT_E_ASN1_CORRUPT)) None None 6)
  ∧ CRYPT_AsnDecodeOid enc 5 (Some (replicate 10 xaa)) 10
    = Done (mkResult (FALSE (Some CRYPT_E_ASN1_CORRUPT))
              (Some (string_bytes "1.2" ++ x00 :: replicate 6 xaa))
              None 6).
Proof.
  apply (CRYPT_AsnDecodeOid_unfinished_arc x2a [3] [] 6 [] (replicate 10 xaa)
           5 10).
  - repeat constructor; lia.
  - repeat constructor; lia.
  - by_evaluation.
  - by_evaluation.
  - by_evaluation.
  - by_evaluation.
Defined.

(** The printable string "Test". *)
Lemma CRYPT_AsnEncodeNameValue_round_trip_witness :
  let value :=
    mkNameValue CERT_RDN_PRINTABLE_STRING (mkBlob 4 (string_bytes "Test")) in
  let encoded := [x13; x04; x54; x65; x73; x74] in
  CRYPT_AsnEncodeNameValue value (Some (mkCursor (replicate 8 x00) 0)) 8
  = Done (TRUE, Some (mkCursor (encoded ++ [x00; x00]) 0), 6)
  ∧ CRYPT_AsnDecodeNameValue (encoded ++ []) 6 0
      (Some (Some (replicate 6 xaa))) 16
    = Done (TRUE,
            Some (mkDecodedValue CERT_RDN_PRINTABLE_STRING 4
                    (CallerData (string_bytes "Test" ++ [xaa; xaa]))),
            16).
Proof.
  apply (CRYPT_AsnEncodeNameValue_round_trip CERT_RDN_PRINTABLE_STRING
           ASN_PRINTABLESTRING (string_bytes "Test") (replicate 8 x00) []
           (replicate 6 xaa) 8 6 0 16).
  - set_solver.
  - by_evaluation.
  - by_evaluation.
  - by_evaluation.
  - by_evaluation.
  - by_evaluation.
  - by_evaluation.
  - by_evaluation.
Defined.
